(* ===== verification/_CoqProject ===== *)
-Q . S2P
Prelude.v
Unicode.v
PyStr.v
PyValue.v
FilenameMeta.v
Classifier.v
Parsers.v
Store.v
Archive.v
FileInfo.v
SberParser.v
SberExtract.v
Pipeline.v
Cleanup.v
Queries.v
ParseReports.v
FixPeriods.v
Backfill.v
Reorganize.v
Sync.v
