(* ===== verification/Prelude.v ===== *)
(** * A verification development of the BrokerCursor report importer

    This library models, in Rocq, the ingestion core of the repository
    [proektor1001/BZ-BrokerCursor]: the batch job that takes broker report
    files from an inbox directory, recognises exact and semantic duplicates,
    parses new reports through a per-broker parser plugin, records them in a
    PostgreSQL store and moves every file into an archive directory.

    ** The program and how its parts interact

    - [src/core/scripts/import/import_reports.py] is the orchestrator.
      [EnhancedReportImporter.process_file_enhanced] carries one file through
      four stages: (1) read, SHA-256 hash and exact-duplicate lookup,
      (2) tiered broker detection ([detect_broker_tiered]) and filename
      metadata ([extract_period_from_filename],
      [extract_account_from_filename]) with a provisional semantic lookup,
      (3) parsing through the registry ([_parse_file_content]) with the
      period reconciliation and the authoritative semantic lookup,
      (4) insertion, per-file audit rows, log events and the move to
      [archive/imported].  [import_reports] runs it over the inbox listing
      and writes an aggregate audit row.
    - [src/core/parsers/__init__.py] is the parser registry (a module-level
      dict from broker name to parser class); [base_parser.py] is the parser
      contract and [sber_html_parser.py] its one plugin, which walks the
      HTML tree of a Sberbank report and assembles a dict of 38 fields.
    - [src/core/database/operations.py] ([BrokerReportOperations]) is the
      store: insert, lookups by hash and by (broker, account, period),
      the parsed-data update and the [import_log] audit rows.  Every method
      catches its own exceptions and returns [None]/[0]/[False].
    - [src/core/utils/file_manager.py] ([FileManager]) reads files with a size
      limit, scans directories and moves files with numbered-suffix
      collision avoidance ([safe_move_file]); [src/core/config.py] holds
      the directory layout.
    - Maintenance scripts work on the same store and archive:
      [scripts/import/cleanup_unsorted_archive.py] ([ArchiveCleanupTool])
      sorts loose files of the archive root into the four category
      directories using the importer's detection and the store's lookups
      without writing to the store; [scripts/parse/parse_reports.py]
      parses raw reports already stored and records the outcome with
      [update_report_status]; [scripts/verify/fix_invalid_periods.py]
      rewrites out-of-range periods from the parsed [period_start];
      [scripts/import/backfill_hashes.py] recomputes the [file_hash] of
      listed reports from the files it finds in the archive roots;
      [scripts/import/reorganize_archive.py] moves the archive root's
      files to [archive/imported]; [scripts/import/sync_external_reports.py]
      copies the supported files of an outside directory into the inbox.

    ** Files of the development (in dependency order)

    - [Prelude.v] (this file): Python exceptions, the state-and-exception
      monad [PyM] with its laws, the judgement [respects R m] (every run
      of [m] relates its start and end states by [R]) used for invariants,
      insertion-ordered dicts as association lists, and the [broker] hint
      databases, and the generic lemmas on string concatenation.
    - [Unicode.v] (Module [Unicode]): the text semantics of CPython 3.11
      the code relies on.  A [str] is represented by its UTF-8 bytes;
      [decode] is the UTF-8 decoder with [surrogateescape] (how
      [os.listdir] and [pathlib] read file names) and [encode] its
      inverse; [str_lower] is [str.lower()] with the full lower-case
      mapping and the final-sigma rule; [is_decimal] is the class [\d] of
      [re].  The tables are those of Unicode 14.0.0.
    - [PyStr.v]: the Python string operations the code uses on [str]:
      [in] (a byte substring test, proved equal to the code-point test),
      [str.lower] (from [Unicode]), slicing by code points,
      [Path.suffix], [strip] with Unicode whitespace, [replace], and the
      leftmost-match [re.search] over code points.
    - [PyValue.v]: the Python values parsers produce ([pyval]), truthiness,
      [dict.get], subscripting, slicing, and [_serialize_parsed_data].
    - [FilenameMeta.v] (Module [FilenameMeta]): [extract_period_from_filename]
      and [extract_account_from_filename].
    - [Classifier.v] (Module [Classifier]): [detect_broker_tiered] and the
      legacy [detect_broker_from_filename].
    - [Parsers.v] (Module [Parsers]): the parser contract as a record of
      operations, the registry and [_parse_file_content].
    - [Store.v] (Module [Store]): the database as explicit state (report
      rows, audit rows, id counter, injected faults) and the methods of
      [BrokerReportOperations] the importer calls.
    - [Archive.v] (Module [Archive]): the filesystem as a [gmap] from
      (directory, name) to file, the configured directories, [Path.rename],
      [read_file_content], [scan_directory] and [safe_move_file].
    - [FileInfo.v] (Module [FileInfo]): [FileManager.get_file_info] and
      the full [scan_directory], of which [Archive.scan_directory] is
      proved to be the projection the importer reads.
    - [SberParser.v] (Module [SberParser]): [SberHtmlParser.parse] over what
      the tree walk extracts: the header regexes with [strptime] and
      [strftime], the aggregates and the computed fields.
    - [SberExtract.v] (Module [SberExtract]): the tree walk itself, every
      [_extract_*] method over a page of paragraphs and tables.
    - [Pipeline.v] (Module [Pipeline]): [process_file_enhanced] and
      [import_reports] in [PyM] over the whole state ([World]: store,
      filesystem, statistics, duplicate log), their invariants, and
      concrete runs ([Module Scenarios]).
    - [Cleanup.v] (Module [Cleanup]): [ArchiveCleanupTool] in [PyM] over
      store, filesystem, the tool's [stats] and the duplicate log; the
      judgement [returns R m] (every run returns normally and relates
      its states by [R]) carries its invariants.
    - [Queries.v] (Module [Queries]): the other methods of
      [BrokerReportOperations] -- [get_report], [list_reports] with
      PostgreSQL's [LIKE]/[ILIKE], [update_report_status],
      [delete_report], [get_statistics] and the counts -- with rows as
      Python dicts.
    - [ParseReports.v] (Module [ParseReports]): [parse_filters],
      [parse_single_report] and [main] of [parse_reports.py] in [PyM] over
      the store.
    - [FixPeriods.v] (Module [FixPeriods]): [fix_invalid_periods.py] with
      the store and the change log as explicit state.
    - [Backfill.v] (Module [Backfill]): [backfill_hashes.py] in [PyM] over
      the store and the filesystem.
    - [Reorganize.v] (Module [Reorganize]): [reorganize_archive.py]
      ([ArchiveReorganizer]) in [PyM] over the store (only read), the
      filesystem, the script's statistics and the lines of its log, with
      [FileManager.get_file_info]; the moves are [Path.rename] of
      [Archive.v].
    - [Sync.v] (Module [Sync]): [sync_external_reports.py] in [PyM] over
      the filesystem, the script's statistics and the lines of its log,
      with [shutil.copy2] and [Path(str)] written out.

    ** What the theorems show

    - Pipeline: a run of [import_reports] keeps the stored content hashes
      distinct when the store answers its queries (proved by [respects]
      over every step); an exact duplicate is skipped with one audit row;
      the parsed period wins over the filename period and the mismatch is
      logged.  For every input, where the code departs from its
      specification: a parser result with [period_start = None] makes
      [process_file_enhanced] fail the file with [TypeError] and leave
      store, files and events as they were; a failed move to
      [imported/] after a successful insert is counted both as success
      and failure with the row kept; an exact duplicate is logged twice.
      Concrete runs ([Module Scenarios]), the real Sberbank parser among
      them, execute the model end to end.
    - SberParser/SberExtract: the period the importer takes from the
      parser is [None] or a valid [dddd-dd]; the date conversion round
      trips; the output passes [_parse_file_content]; the active-instrument
      count is [None] for every page; one unreadable amount empties the
      cash flows.
    - Unicode and PyStr: [encode (decode s) = s] for every byte string,
      [decode (encode l) = l] for every text of scalar values, decoded code
      points are scalar values or byte escapes; the byte-level [in]
      refines Python's [in] on code points.
    - Classifier: filename evidence takes precedence, the first match in
      table order wins, the result is a broker of the table or
      ["unknown"].
    - FilenameMeta: the period is ["unknown"] or four decimal digits, a
      hyphen and two decimal digits; the month may be read from the year
      or be [13], and the digits need not be ASCII.
    - Parsers: registry laws and the results of [_parse_file_content].
    - Store and Archive: the id invariant and hash uniqueness of the
      store; [safe_move_file] creates the destination directory, never
      overwrites, and its loop terminates: the name it picks is the
      requested one when free, else [base_k.ext] for the least free [k]
      from 1, with [k] at most the number of files plus one;
      [Path.rename] does overwrite.
    - Cleanup: the tool never writes to the store and never loses or
      creates a file; with no filesystem fault it empties the archive root,
      putting each file found with its contents at its own previously
      free path of a category directory and changing no other path, and
      logs exactly one event per file; a dry run moves nothing; a
      recognised report whose hash and broker the store does not have is
      categorised [imported] whatever its parser does.
    - Queries: [list_reports] returns at most [limit] filtered summaries
      and its pages concatenate; [%q%] is a substring test for plain [q]
      while user-typed [_] and [%] are wildcards; the statistics add up;
      [delete_report] and [update_report_status] keep the store
      invariants.
    - ParseReports: without [--report-id], [parse_reports] parses nothing,
      because [list_reports] does not select [html_content]; with it, the
      report is parsed.
    - FixPeriods: [fix_record_period] writes one log line and at most the
      period of its record; its main branch writes the corrected period;
      a dry run changes nothing; the ["9999-MM"] value is not unique; a
      record whose [period_start] is a date of a year after 2025 is never
      repaired.
    - Backfill: a run changes nothing but the [file_hash] column; with
      [--update-existing] alone it changes nothing at all, because the rows
      of [list_reports] carry no [file_hash]; with [--all] a record whose
      file is found gets the hash of the first file of its name in the
      search paths, so reports of one file name get one hash.
    - FileInfo: the importer's scan is the projection of the full one.
    - Sync: the method changes no file outside the inbox, without
      [--force] it replaces no file, and its counters add up; every
      external file whose contents and name the inbox lacks is copied,
      even after another file of the same contents, because the inbox
      hashes are read once.  [main] is modelled as the code runs it: it
      passes a keyword the method does not have, so it raises
      [TypeError] before any sync.
    - Reorganize: the script never writes to the store; without
      filesystem faults every file of the archive root not starting with
      a dot ends under [archive/imported] with its contents, the counters
      agree ([files_moved = files_found], verified plus not-in-database
      is [files_found]) and one log line is written per move; files the
      store does not know are moved too, and a file already under
      [imported/] with the same name is replaced.

    ** Fuel and bounds

    The only unbounded loop of the modelled code is the [while
    destination.exists()] loop of [safe_move_file]; it is modelled with fuel
    and proved to finish with fuel [size fs + 1], since at most [size fs]
    names are taken.  [lstrip] runs with the length of its argument as
    fuel, which suffices because each step removes a byte.  Python
    integers are unbounded, so counters are [nat]; floats are exact
    rationals ([Q]), so float rounding is not modelled.

    ** What is not modelled, and why

    - SHA-256 is a parameter (a function from text to hex digest); no
      property depends on collision resistance.
    - BeautifulSoup's parsing of HTML text into a tree, and Python's
      [float] on strings, are parameters of the Sberbank parser.
    - Writes to [import_duplicates.log], [archive_reorganization.log] and
      [external_sync.log] always succeed; database calls, renames and
      copies fail according to injected fault lists; directory creation
      succeeds.
    - Console output, logging, the diagnostics summaries, CLI parsing,
      database connection handling, the CI scripts, the database setup and
      migration scripts, and the remaining maintenance, query and
      verification scripts ([reparse_sber_reports], the [verify_*] and
      [fetch_*] scripts) are outside the model (PROJECT.json lists them).
    - The timestamp columns of [broker_reports] ([created_at],
      [updated_at], [processed_at]) are not modelled; rows are created in
      table order, which is the order [ORDER BY created_at] sees.
    - The database schema is not under [src/]: the store has no unique
      index (on [file_hash] or on broker, account and period) and accepts
      every insert the code issues; no theorem relies on such an index.
    - [execute_raw_query] runs arbitrary SQL; the scripts' queries are
      translated one by one where they are modelled.
    - The regular expressions of the Sberbank parser's header
      ([\d{2}\.\d{2}\.\d{4}] and the like) read ASCII digits: a header
      date written in other decimal digits is not matched, where Python
      matches it and then fails in [strptime], whose classes such as
      [[1-9]] are ASCII.  The filename regexes, [fix_invalid_periods]'s
      date check and every [lower()] use the full Unicode semantics.
    - Strings read from the database are valid UTF-8, so their bytes
      decode without escapes; Python's [<=] on them is the byte order. *)

From stdpp Require Export base list strings.
From Stdlib Require Export ZArith Lia Ascii String.

Declare Scope py_scope.
Delimit Scope py_scope with py.

Create HintDb broker.
Create Rewrite HintDb broker_rw.

(** ** Python exceptions and the effects monad *)

(** The exceptions that can escape from the modelled code. *)
Inductive exn : Type :=
| TypeError (msg : string)
| ValueError (msg : string)
| KeyError (msg : string)
| AttributeError (msg : string)
| OSError (msg : string).

(** [str(e)]. *)
Definition exn_msg (e : exn) : string :=
  match e with TypeError m | ValueError m | KeyError m | AttributeError m | OSError m => m end.

(** A computation over state [S]: it returns a value or raises, and the
    state changes made before a raise persist, as in Python. *)
Definition PyM (S A : Type) : Type := S -> (exn + A) * S.

#[export] Instance PyM_ret {S} : MRet (PyM S) := fun _ a s => (inr a, s).
#[export] Instance PyM_bind {S} : MBind (PyM S) :=
  fun _ _ k m s =>
    match m s with
    | (inl e, s') => (inl e, s')
    | (inr a, s') => k a s'
    end.

Definition raise {S A} (e : exn) : PyM S A := fun s => (inl e, s).
Definition get_st {S} : PyM S S := fun s => (inr s, s).
Definition put_st {S} (s : S) : PyM S unit := fun _ => (inr tt, s).
Definition modify_st {S} (f : S -> S) : PyM S unit := fun s => (inr tt, f s).

(** [try: m except Exception as e: h e] *)
Definition try_except {S A} (m : PyM S A) (h : exn -> PyM S A) : PyM S A :=
  fun s =>
    match m s with
    | (inl e, s') => h e s'
    | r => r
    end.

Section MonadLaws.
Context {S A B C : Type}.

Lemma bind_ret_l (a : A) (k : A -> PyM S B) s :
  (mret a ≫= k) s = k a s.
Proof. reflexivity. Qed.

Lemma bind_ret_r (m : PyM S A) s : (m ≫= mret) s = m s.
Proof. cbv. destruct (m s) as [[e|a] s']; reflexivity. Qed.

Lemma bind_assoc (m : PyM S A) (f : A -> PyM S B) (g : B -> PyM S C) s :
  ((m ≫= f) ≫= g) s = (m ≫= (fun a => f a ≫= g)) s.
Proof. cbv. destruct (m s) as [[e|a] s']; reflexivity. Qed.

Lemma bind_inr (m : PyM S A) (k : A -> PyM S B) s a s' :
  m s = (inr a, s') -> (m ≫= k) s = k a s'.
Proof. intros H. cbv [mbind PyM_bind]. by rewrite H. Qed.

Lemma bind_inl (m : PyM S A) (k : A -> PyM S B) s e s' :
  m s = (inl e, s') -> (m ≫= k) s = (inl e, s').
Proof. intros H. cbv [mbind PyM_bind]. by rewrite H. Qed.
(** A continuation that does not touch the state leaves the state of the
    first step. *)
Lemma bind_pure_snd (m : PyM S A) (k : A -> PyM S B) s :
  (forall a s', (k a s').2 = s') -> ((m ≫= k) s).2 = (m s).2.
Proof. intros Hk. cbv [mbind PyM_bind]. destruct (m s) as [[e|a] s']; [done|apply Hk]. Qed.
End MonadLaws.

#[export] Hint Rewrite @bind_ret_l : broker_rw.

(** ** Shared list and option lemmas *)

(** The first element of a list satisfying a boolean test. *)
Fixpoint find_first {A} (p : A -> bool) (l : list A) : option A :=
  match l with
  | [] => None
  | x :: r => if p x then Some x else find_first p r
  end.

Lemma find_first_Some {A} (p : A -> bool) l x :
  find_first p l = Some x -> In x l /\ p x = true.
Proof.
  induction l as [|y r IH]; simpl; [done|].
  destruct (p y) eqn:E; [intros [= <-]; auto|].
  intros H. destruct (IH H). auto.
Qed.

Lemma find_first_None {A} (p : A -> bool) l :
  find_first p l = None -> forall x, In x l -> p x = false.
Proof.
  induction l as [|y r IH]; simpl; [done|].
  destruct (p y) eqn:E; [done|]. intros H x [<-|Hx]; auto.
Qed.

Lemma find_first_app {A} (p : A -> bool) l1 l2 :
  find_first p (l1 ++ l2) =
  match find_first p l1 with Some x => Some x | None => find_first p l2 end.
Proof. induction l1 as [|y r IH]; simpl; [done|]. by destruct (p y). Qed.

(** A list with no two distinct positions carrying the same key. *)
Definition unique_by {A K} (key : A -> K) (l : list A) : Prop := NoDup (map key l).

Lemma unique_by_snoc {A K} (key : A -> K) (l : list A) x :
  unique_by key l -> (forall y, In y l -> key y <> key x) ->
  unique_by key (l ++ [x]).
Proof.
  unfold unique_by. intros Hu Hn. rewrite map_app. simpl.
  apply NoDup_app. split; [done|]. split; [|apply NoDup_singleton].
  intros k Hk Hk'. apply list_elem_of_singleton in Hk'. subst k.
  apply list_elem_of_In, in_map_iff in Hk as (y & Hy & Hin).
  by apply (Hn y).
Qed.

(** A map that keeps every key keeps the keys unique. *)
Lemma unique_by_map_keep {A K} (key : A -> K) (f : A -> A) (l : list A) :
  (forall x, key (f x) = key x) -> unique_by key (map f l) <-> unique_by key l.
Proof. unfold unique_by. intros Hk. rewrite map_map. by rewrite (map_ext _ _ Hk). Qed.

(** Dropping elements keeps the keys unique. *)
Lemma unique_by_filter {A K} (key : A -> K) (p : A -> bool) (l : list A) :
  unique_by key l -> unique_by key (List.filter p l).
Proof.
  unfold unique_by. induction l as [|x l IH]; simpl; [done|].
  intros [Hx Hl]%NoDup_cons. destruct (p x); simpl; [|auto].
  constructor; [|auto]. intros Hin. apply Hx.
  apply list_elem_of_In, in_map_iff in Hin as (y & Hy & Hin). apply filter_In in Hin as [Hin _].
  apply list_elem_of_In, in_map_iff. eauto.
Qed.

(** [List.filter] keeps a list duplicate-free. *)
Lemma NoDup_List_filter {A} (f : A -> bool) (l : list A) : NoDup l -> NoDup (List.filter f l).
Proof.
  induction 1 as [|x l Hx Hnd IH]; simpl; [constructor|].
  destruct (f x); [|done]. constructor; [|done].
  rewrite list_elem_of_In, filter_In, <- list_elem_of_In. tauto.
Qed.

#[export] Hint Resolve find_first_Some find_first_None unique_by_snoc : broker.

(** ** Insertion-ordered dictionaries with string keys

    A Python [dict] keyed by [str] is its list of items in insertion order:
    [dict_get] is [d.get(k)], [dict_set] is [d[k] = v] (an existing key
    keeps its position), [dict_keys] is [list(d.keys())]. *)

Section PyDict.
Context {A : Type}.

Definition dict_get (d : list (string * A)) (k : string) : option A :=
  match find_first (fun '(k', _) => String.eqb k' k) d with
  | Some (_, v) => Some v
  | None => None
  end.

Fixpoint dict_set (k : string) (v : A) (d : list (string * A)) : list (string * A) :=
  match d with
  | [] => [(k, v)]
  | (k', v') :: r => if String.eqb k' k then (k, v) :: r else (k', v') :: dict_set k v r
  end.

Definition dict_keys (d : list (string * A)) : list string := map fst d.

Lemma dict_get_cons k' v' r k :
  dict_get ((k', v') :: r) k = if String.eqb k' k then Some v' else dict_get r k.
Proof. unfold dict_get. simpl. by destruct (String.eqb k' k). Qed.

Lemma dict_get_set_eq d k v : dict_get (dict_set k v d) k = Some v.
Proof.
  induction d as [|[k' v'] r IH]; simpl.
  - by rewrite dict_get_cons, String.eqb_refl.
  - destruct (String.eqb_spec k' k); rewrite dict_get_cons.
    + by rewrite String.eqb_refl.
    + destruct (String.eqb_spec k' k); [done|]. apply IH.
Qed.

Lemma dict_get_set_ne d k k2 v : k <> k2 -> dict_get (dict_set k v d) k2 = dict_get d k2.
Proof.
  intros Hne. induction d as [|[k' v'] r IH]; simpl.
  - rewrite dict_get_cons. by destruct (String.eqb_spec k k2).
  - destruct (String.eqb_spec k' k) as [->|]; rewrite !dict_get_cons.
    + by destruct (String.eqb_spec k k2).
    + by rewrite IH.
Qed.

Lemma dict_get_Some_in d k v : dict_get d k = Some v -> In (k, v) d.
Proof.
  unfold dict_get. destruct (find_first _ d) as [[k' v']|] eqn:E; [|done].
  intros [= <-]. apply find_first_Some in E as [Hin Hk].
  by apply String.eqb_eq in Hk as ->.
Qed.

Lemma dict_keys_set_old d k v :
  In k (dict_keys d) -> dict_keys (dict_set k v d) = dict_keys d.
Proof.
  induction d as [|[k' v'] r IH]; simpl; [done|].
  destruct (String.eqb_spec k' k) as [->|Hne]; [done|].
  intros [|Hin]; [done|]. simpl. by rewrite IH.
Qed.

Lemma dict_keys_set_new d k v :
  ~ In k (dict_keys d) -> dict_keys (dict_set k v d) = dict_keys d ++ [k].
Proof.
  induction d as [|[k' v'] r IH]; simpl; [done|].
  intros Hn. destruct (String.eqb_spec k' k) as [->|Hne]; [tauto|].
  simpl. rewrite IH; [done|tauto].
Qed.
End PyDict.

#[export] Hint Rewrite @dict_get_set_eq : broker_rw.

(** ** Relational reasoning on [PyM] computations

    [respects R m]: whatever the start state, the state [m] ends in (after
    a normal return or a raise) is related to it by [R].  With a transitive
    [R] this composes through [mbind] and [try_except], so a property of the
    state that every primitive step keeps is kept by a whole handler. *)

Definition respects {S A} (R : S -> S -> Prop) (m : PyM S A) : Prop :=
  forall s, R s (m s).2.

Section Respects.
Context {S : Type} (R : S -> S -> Prop).

Lemma respects_ret `{!Reflexive R} {A} (a : A) : respects R (mret a).
Proof. intros s. cbv. reflexivity. Qed.

Lemma respects_get `{!Reflexive R} : respects R get_st.
Proof. intros s. cbv. reflexivity. Qed.

Lemma respects_raise `{!Reflexive R} {A} e : respects R (raise (A:=A) e).
Proof. intros s. cbv. reflexivity. Qed.

(** A first step related by [R1], then steps related by [R2], compose to
    [R3] when [R1;R2] and [R1] are included in [R3]. *)
Lemma respects_bind_gen (R1 R2 : S -> S -> Prop) {A B} (m : PyM S A) (k : A -> PyM S B) :
  respects R1 m -> (forall a, respects R2 (k a)) ->
  (forall x y z, R1 x y -> R2 y z -> R x z) -> (forall x y, R1 x y -> R x y) ->
  respects R (m ≫= k).
Proof.
  intros Hm Hk Hc Hi s. cbv [mbind PyM_bind]. specialize (Hm s).
  destruct (m s) as [[e|a] s'] eqn:E; simpl in *; [by apply Hi|].
  eapply Hc; [exact Hm|apply Hk].
Qed.

Lemma respects_bind `{!Transitive R} {A B} (m : PyM S A) (k : A -> PyM S B) :
  respects R m -> (forall a, respects R (k a)) -> respects R (m ≫= k).
Proof. intros Hm Hk. eapply respects_bind_gen; [exact Hm|exact Hk|..]; eauto. Qed.

Lemma respects_try `{!Transitive R} {A} (m : PyM S A) (h : exn -> PyM S A) :
  respects R m -> (forall e, respects R (h e)) -> respects R (try_except m h).
Proof.
  intros Hm Hh s. unfold try_except. specialize (Hm s).
  destruct (m s) as [[e|a] s'] eqn:E; simpl in *; [|done].
  etrans; [exact Hm|apply Hh].
Qed.

Lemma respects_weaken (R' : S -> S -> Prop) {A} (m : PyM S A) :
  (forall x y, R' x y -> R x y) -> respects R' m -> respects R m.
Proof. intros Hi Hm s. apply Hi, Hm. Qed.
End Respects.

#[export] Hint Resolve respects_ret respects_get respects_raise : broker.

(** One step of a proof that [R] relates the start and end states of a
    handler: split binds and [try] blocks, close the primitives of the
    monad, and case on the [match] or [if] the handler takes. *)
Ltac respects_step R :=
  first [ apply (respects_bind R); [|intros ?]
        | apply (respects_try R); [|intros ?]
        | apply (respects_raise R) | apply (respects_ret R) | apply (respects_get R)
        | match goal with |- respects _ (match ?x with _ => _ end) => destruct x end ].

(** [returns R m]: from every state [m] returns normally (it raises no
    exception) and ends in a state related to the start by [R]. *)
Definition returns {S A} (R : S -> S -> Prop) (m : PyM S A) : Prop :=
  forall s, exists a, (m s).1 = inr a /\ R s (m s).2.

Section Returns.
Context {S : Type} (R : S -> S -> Prop).

Lemma returns_ret `{!Reflexive R} {A} (a : A) : returns R (mret a).
Proof. intros s. exists a. split; [done|]. cbv. reflexivity. Qed.

Lemma returns_get `{!Reflexive R} : returns R get_st.
Proof. intros s. exists s. split; [done|]. cbv. reflexivity. Qed.

Lemma returns_bind `{!Transitive R} {A B} (m : PyM S A) (k : A -> PyM S B) :
  returns R m -> (forall a, returns R (k a)) -> returns R (m ≫= k).
Proof.
  intros Hm Hk s. destruct (Hm s) as (a & Ha & HR).
  destruct (m s) as [r s'] eqn:E. simpl in *. subst r.
  rewrite (bind_inr m k s a s' E). destruct (Hk a s') as (b & Hb & HR').
  exists b. split; [done|]. etrans; eauto.
Qed.

(** A handler that always returns makes the [try] return, whatever the
    body does. *)
Lemma returns_try `{!Transitive R} {A} (m : PyM S A) (h : exn -> PyM S A) :
  respects R m -> (forall e, returns R (h e)) -> returns R (try_except m h).
Proof.
  intros Hm Hh s. specialize (Hm s). unfold try_except.
  destruct (m s) as [[e|a] s'] eqn:E; simpl in *.
  - destruct (Hh e s') as (b & Hb & HR). exists b. split; [done|]. etrans; eauto.
  - by exists a.
Qed.

Lemma returns_weaken (R' : S -> S -> Prop) {A} (m : PyM S A) :
  (forall x y, R' x y -> R x y) -> returns R' m -> returns R m.
Proof. intros Hi Hm s. destruct (Hm s) as (a & Ha & HR). eauto. Qed.

Lemma returns_respects {A} (m : PyM S A) : returns R m -> respects R m.
Proof. intros Hm s. by destruct (Hm s) as (? & _ & ?). Qed.

(** Running a computation that returns: its value and its end state. *)
Lemma returns_run {A} (m : PyM S A) s :
  returns R m -> exists a s', m s = (inr a, s') /\ R s s'.
Proof. intros Hm. destruct (Hm s) as (a & Ha & HR). destruct (m s); simpl in *; subst; eauto. Qed.
End Returns.

#[export] Hint Resolve returns_ret returns_get : broker.

Module StrApp.
Local Open Scope string_scope.

(** ** Concatenation of strings *)

(** [String.append] is [simpl never]; these unfold it one step. *)
Lemma str_app_cons c (a b : string) : String c a ++ b = String c (a ++ b).
Proof. reflexivity. Qed.

Lemma str_app_nil_l (b : string) : "" ++ b = b.
Proof. reflexivity. Qed.

#[export] Hint Rewrite str_app_cons str_app_nil_l : broker_rw.

Lemma str_app_nil_r (a : string) : a ++ "" = a.
Proof. induction a as [|x a IH]; [done|]. by rewrite str_app_cons, IH. Qed.

Lemma str_app_assoc (a b c : string) : (a ++ b ++ c) = ((a ++ b) ++ c).
Proof. induction a as [|x a IH]; [done|]. by rewrite !str_app_cons, IH. Qed.

Lemma str_length_app (a b : string) : String.length (a ++ b) = String.length a + String.length b.
Proof. induction a as [|c a IH]; simpl; [done|]. by rewrite IH. Qed.

Lemma str_app_inv_l (s a b : string) : s ++ a = s ++ b -> a = b.
Proof. induction s as [|c s IH]; simpl; [done|]. intros [= H]. by apply IH. Qed.

Lemma str_app_inv_r (s a b : string) : a ++ s = b ++ s -> a = b.
Proof.
  revert b. induction a as [|c a IH]; intros [|c' b] H; try done.
  - apply (f_equal String.length) in H. rewrite !str_length_app in H. simpl in H. lia.
  - apply (f_equal String.length) in H. rewrite !str_length_app in H. simpl in H. lia.
  - injection H as -> H. by rewrite (IH b H).
Qed.

End StrApp.
Export StrApp.
