(* ===== verification/Unicode.v ===== *)
(** * Python text: UTF-8, [str.lower()] and the class [\d]

    A Python [str] is a sequence of code points; the development represents
    it by its UTF-8 encoding, a Rocq [string] of bytes.  This file makes the
    correspondence exact:
    - [decode] is Python's UTF-8 decoder with the [surrogateescape] error
      handler, the one [os.listdir] and [pathlib] apply to file names: a
      well-formed sequence (Table 3-7 of the Unicode standard: no overlong
      form, no surrogate, nothing above U+10FFFF) gives its code point, and
      any other byte [b] gives the lone surrogate U+DC00+[b];
    - [encode] is its inverse ([str.encode('utf-8', 'surrogateescape')]);
      [encode (decode s) = s] for every byte string and
      [decode (encode l) = l] for every text of scalar values;
    - [str_lower] is [str.lower()] on code points: the full lower-case
      mapping (U+0130 becomes two code points) and the [Final_Sigma]
      context of U+03A3 as CPython's [handle_capital_sigma] decides it;
    - [is_decimal] is the class [\d] of a [str] pattern of [re] (the
      Unicode decimal digits, category Nd).
    The tables are those of the Unicode Character Database 14.0.0, the
    version of Python 3.11's [unicodedata]: [lower_table] lists the simple
    lower-case mappings as ranges [(lo, hi, delta, step)] (every [step]-th
    code point of [lo..hi] moves by [delta]); [cased_table] the cased code
    points that are not case-ignorable (the only ones the sigma scan tests)
    and [case_ignorable_table] the case-ignorable ones. *)

From S2P Require Import Prelude.

Module Unicode.

Local Open Scope Z_scope.

(** ** Bytes *)

Definition bz (c : ascii) : Z := Z.of_nat (nat_of_ascii c).
Definition zb (z : Z) : ascii := ascii_of_nat (Z.to_nat z).

Definition in_z (lo hi z : Z) : bool := (lo <=? z) && (z <=? hi).

(** A continuation byte [10xxxxxx]. *)
Definition cont (b : Z) : bool := in_z 0x80 0xBF b.

(** The second byte a lead byte admits. *)
Definition second_ok (x b : Z) : bool :=
  if x =? 0xE0 then in_z 0xA0 0xBF b
  else if x =? 0xED then in_z 0x80 0x9F b
  else if x =? 0xF0 then in_z 0x90 0xBF b
  else if x =? 0xF4 then in_z 0x80 0x8F b
  else cont b.

Definition cp2 (x b : Z) : Z := (x - 0xC0) * 64 + (b - 0x80).
Definition cp3 (x b c : Z) : Z := (x - 0xE0) * 4096 + (b - 0x80) * 64 + (c - 0x80).
Definition cp4 (x b c d : Z) : Z :=
  (x - 0xF0) * 262144 + (b - 0x80) * 4096 + (c - 0x80) * 64 + (d - 0x80).

(** The surrogate [surrogateescape] gives an undecodable byte. *)
Definition escape (x : Z) : Z := 0xDC00 + x.

(** ** Decoding and encoding *)

Fixpoint decode (s : string) : list Z :=
  match s with
  | EmptyString => []
  | String a r =>
      let x := bz a in
      if x <? 0x80 then x :: decode r
      else match r with
      | EmptyString => [escape x]
      | String b r2 =>
          if in_z 0xC2 0xDF x && cont (bz b) then cp2 x (bz b) :: decode r2
          else match r2 with
          | EmptyString => escape x :: decode r
          | String c r3 =>
              if in_z 0xE0 0xEF x && second_ok x (bz b) && cont (bz c)
              then cp3 x (bz b) (bz c) :: decode r3
              else match r3 with
              | EmptyString => escape x :: decode r
              | String d r4 =>
                  if in_z 0xF0 0xF4 x && second_ok x (bz b) && cont (bz c) && cont (bz d)
                  then cp4 x (bz b) (bz c) (bz d) :: decode r4
                  else escape x :: decode r
              end
          end
      end
  end.

Definition encode_cp (c : Z) : string :=
  if c <? 0x80 then String (zb c) ""
  else if in_z 0xDC80 0xDCFF c then String (zb (c - 0xDC00)) ""
  else if c <? 0x800 then String (zb (0xC0 + c / 64)) (String (zb (0x80 + c mod 64)) "")
  else if c <? 0x10000 then
    String (zb (0xE0 + c / 4096)) (String (zb (0x80 + (c / 64) mod 64))
      (String (zb (0x80 + c mod 64)) ""))
  else
    String (zb (0xF0 + c / 262144)) (String (zb (0x80 + (c / 4096) mod 64))
      (String (zb (0x80 + (c / 64) mod 64)) (String (zb (0x80 + c mod 64)) ""))).

Fixpoint encode (l : list Z) : string :=
  match l with
  | [] => ""
  | c :: r => (encode_cp c ++ encode r)%string
  end.

(** A Unicode scalar value: a code point that is not a surrogate. *)
Definition scalar (c : Z) : Prop := (0 <= c < 0xD800) \/ (0xE000 <= c < 0x110000).

(** ** Character tables (Unicode 14.0.0) *)

Definition lower_table : list (Z * Z * Z * Z) := [
  (0x41, 0x5A, 0x20, 1); (0xC0, 0xD6, 0x20, 1); (0xD8, 0xDE, 0x20, 1); (0x100, 0x12E, 0x1, 2);
  (0x132, 0x136, 0x1, 2); (0x139, 0x147, 0x1, 2); (0x14A, 0x176, 0x1, 2); (0x178, 0x178, (-0x79), 1);
  (0x179, 0x17D, 0x1, 2); (0x181, 0x181, 0xD2, 1); (0x182, 0x184, 0x1, 2); (0x186, 0x186, 0xCE, 1);
  (0x187, 0x187, 0x1, 1); (0x189, 0x18A, 0xCD, 1); (0x18B, 0x18B, 0x1, 1); (0x18E, 0x18E, 0x4F, 1);
  (0x18F, 0x18F, 0xCA, 1); (0x190, 0x190, 0xCB, 1); (0x191, 0x191, 0x1, 1); (0x193, 0x193, 0xCD, 1);
  (0x194, 0x194, 0xCF, 1); (0x196, 0x196, 0xD3, 1); (0x197, 0x197, 0xD1, 1); (0x198, 0x198, 0x1, 1);
  (0x19C, 0x19C, 0xD3, 1); (0x19D, 0x19D, 0xD5, 1); (0x19F, 0x19F, 0xD6, 1); (0x1A0, 0x1A4, 0x1, 2);
  (0x1A6, 0x1A6, 0xDA, 1); (0x1A7, 0x1A7, 0x1, 1); (0x1A9, 0x1A9, 0xDA, 1); (0x1AC, 0x1AC, 0x1, 1);
  (0x1AE, 0x1AE, 0xDA, 1); (0x1AF, 0x1AF, 0x1, 1); (0x1B1, 0x1B2, 0xD9, 1); (0x1B3, 0x1B5, 0x1, 2);
  (0x1B7, 0x1B7, 0xDB, 1); (0x1B8, 0x1B8, 0x1, 1); (0x1BC, 0x1BC, 0x1, 1); (0x1C4, 0x1C4, 0x2, 1);
  (0x1C5, 0x1C5, 0x1, 1); (0x1C7, 0x1C7, 0x2, 1); (0x1C8, 0x1C8, 0x1, 1); (0x1CA, 0x1CA, 0x2, 1);
  (0x1CB, 0x1DB, 0x1, 2); (0x1DE, 0x1EE, 0x1, 2); (0x1F1, 0x1F1, 0x2, 1); (0x1F2, 0x1F4, 0x1, 2);
  (0x1F6, 0x1F6, (-0x61), 1); (0x1F7, 0x1F7, (-0x38), 1); (0x1F8, 0x21E, 0x1, 2); (0x220, 0x220, (-0x82), 1);
  (0x222, 0x232, 0x1, 2); (0x23A, 0x23A, 0x2A2B, 1); (0x23B, 0x23B, 0x1, 1); (0x23D, 0x23D, (-0xA3), 1);
  (0x23E, 0x23E, 0x2A28, 1); (0x241, 0x241, 0x1, 1); (0x243, 0x243, (-0xC3), 1); (0x244, 0x244, 0x45, 1);
  (0x245, 0x245, 0x47, 1); (0x246, 0x24E, 0x1, 2); (0x370, 0x372, 0x1, 2); (0x376, 0x376, 0x1, 1);
  (0x37F, 0x37F, 0x74, 1); (0x386, 0x386, 0x26, 1); (0x388, 0x38A, 0x25, 1); (0x38C, 0x38C, 0x40, 1);
  (0x38E, 0x38F, 0x3F, 1); (0x391, 0x3A1, 0x20, 1); (0x3A4, 0x3AB, 0x20, 1); (0x3CF, 0x3CF, 0x8, 1);
  (0x3D8, 0x3EE, 0x1, 2); (0x3F4, 0x3F4, (-0x3C), 1); (0x3F7, 0x3F7, 0x1, 1); (0x3F9, 0x3F9, (-0x7), 1);
  (0x3FA, 0x3FA, 0x1, 1); (0x3FD, 0x3FF, (-0x82), 1); (0x400, 0x40F, 0x50, 1); (0x410, 0x42F, 0x20, 1);
  (0x460, 0x480, 0x1, 2); (0x48A, 0x4BE, 0x1, 2); (0x4C0, 0x4C0, 0xF, 1); (0x4C1, 0x4CD, 0x1, 2);
  (0x4D0, 0x52E, 0x1, 2); (0x531, 0x556, 0x30, 1); (0x10A0, 0x10C5, 0x1C60, 1); (0x10C7, 0x10C7, 0x1C60, 1);
  (0x10CD, 0x10CD, 0x1C60, 1); (0x13A0, 0x13EF, 0x97D0, 1); (0x13F0, 0x13F5, 0x8, 1); (0x1C90, 0x1CBA, (-0xBC0), 1);
  (0x1CBD, 0x1CBF, (-0xBC0), 1); (0x1E00, 0x1E94, 0x1, 2); (0x1E9E, 0x1E9E, (-0x1DBF), 1); (0x1EA0, 0x1EFE, 0x1, 2);
  (0x1F08, 0x1F0F, (-0x8), 1); (0x1F18, 0x1F1D, (-0x8), 1); (0x1F28, 0x1F2F, (-0x8), 1); (0x1F38, 0x1F3F, (-0x8), 1);
  (0x1F48, 0x1F4D, (-0x8), 1); (0x1F59, 0x1F5F, (-0x8), 2); (0x1F68, 0x1F6F, (-0x8), 1); (0x1F88, 0x1F8F, (-0x8), 1);
  (0x1F98, 0x1F9F, (-0x8), 1); (0x1FA8, 0x1FAF, (-0x8), 1); (0x1FB8, 0x1FB9, (-0x8), 1); (0x1FBA, 0x1FBB, (-0x4A), 1);
  (0x1FBC, 0x1FBC, (-0x9), 1); (0x1FC8, 0x1FCB, (-0x56), 1); (0x1FCC, 0x1FCC, (-0x9), 1); (0x1FD8, 0x1FD9, (-0x8), 1);
  (0x1FDA, 0x1FDB, (-0x64), 1); (0x1FE8, 0x1FE9, (-0x8), 1); (0x1FEA, 0x1FEB, (-0x70), 1); (0x1FEC, 0x1FEC, (-0x7), 1);
  (0x1FF8, 0x1FF9, (-0x80), 1); (0x1FFA, 0x1FFB, (-0x7E), 1); (0x1FFC, 0x1FFC, (-0x9), 1); (0x2126, 0x2126, (-0x1D5D), 1);
  (0x212A, 0x212A, (-0x20BF), 1); (0x212B, 0x212B, (-0x2046), 1); (0x2132, 0x2132, 0x1C, 1); (0x2160, 0x216F, 0x10, 1);
  (0x2183, 0x2183, 0x1, 1); (0x24B6, 0x24CF, 0x1A, 1); (0x2C00, 0x2C2F, 0x30, 1); (0x2C60, 0x2C60, 0x1, 1);
  (0x2C62, 0x2C62, (-0x29F7), 1); (0x2C63, 0x2C63, (-0xEE6), 1); (0x2C64, 0x2C64, (-0x29E7), 1); (0x2C67, 0x2C6B, 0x1, 2);
  (0x2C6D, 0x2C6D, (-0x2A1C), 1); (0x2C6E, 0x2C6E, (-0x29FD), 1); (0x2C6F, 0x2C6F, (-0x2A1F), 1); (0x2C70, 0x2C70, (-0x2A1E), 1);
  (0x2C72, 0x2C72, 0x1, 1); (0x2C75, 0x2C75, 0x1, 1); (0x2C7E, 0x2C7F, (-0x2A3F), 1); (0x2C80, 0x2CE2, 0x1, 2);
  (0x2CEB, 0x2CED, 0x1, 2); (0x2CF2, 0x2CF2, 0x1, 1); (0xA640, 0xA66C, 0x1, 2); (0xA680, 0xA69A, 0x1, 2);
  (0xA722, 0xA72E, 0x1, 2); (0xA732, 0xA76E, 0x1, 2); (0xA779, 0xA77B, 0x1, 2); (0xA77D, 0xA77D, (-0x8A04), 1);
  (0xA77E, 0xA786, 0x1, 2); (0xA78B, 0xA78B, 0x1, 1); (0xA78D, 0xA78D, (-0xA528), 1); (0xA790, 0xA792, 0x1, 2);
  (0xA796, 0xA7A8, 0x1, 2); (0xA7AA, 0xA7AA, (-0xA544), 1); (0xA7AB, 0xA7AB, (-0xA54F), 1); (0xA7AC, 0xA7AC, (-0xA54B), 1);
  (0xA7AD, 0xA7AD, (-0xA541), 1); (0xA7AE, 0xA7AE, (-0xA544), 1); (0xA7B0, 0xA7B0, (-0xA512), 1); (0xA7B1, 0xA7B1, (-0xA52A), 1);
  (0xA7B2, 0xA7B2, (-0xA515), 1); (0xA7B3, 0xA7B3, 0x3A0, 1); (0xA7B4, 0xA7C2, 0x1, 2); (0xA7C4, 0xA7C4, (-0x30), 1);
  (0xA7C5, 0xA7C5, (-0xA543), 1); (0xA7C6, 0xA7C6, (-0x8A38), 1); (0xA7C7, 0xA7C9, 0x1, 2); (0xA7D0, 0xA7D0, 0x1, 1);
  (0xA7D6, 0xA7D8, 0x1, 2); (0xA7F5, 0xA7F5, 0x1, 1); (0xFF21, 0xFF3A, 0x20, 1); (0x10400, 0x10427, 0x28, 1);
  (0x104B0, 0x104D3, 0x28, 1); (0x10570, 0x1057A, 0x27, 1); (0x1057C, 0x1058A, 0x27, 1); (0x1058C, 0x10592, 0x27, 1);
  (0x10594, 0x10595, 0x27, 1); (0x10C80, 0x10CB2, 0x40, 1); (0x118A0, 0x118BF, 0x20, 1); (0x16E40, 0x16E5F, 0x20, 1);
  (0x1E900, 0x1E921, 0x22, 1)].

Definition decimal_table : list (Z * Z) := [
  (0x30, 0x39); (0x660, 0x669); (0x6F0, 0x6F9); (0x7C0, 0x7C9); (0x966, 0x96F); (0x9E6, 0x9EF);
  (0xA66, 0xA6F); (0xAE6, 0xAEF); (0xB66, 0xB6F); (0xBE6, 0xBEF); (0xC66, 0xC6F); (0xCE6, 0xCEF);
  (0xD66, 0xD6F); (0xDE6, 0xDEF); (0xE50, 0xE59); (0xED0, 0xED9); (0xF20, 0xF29); (0x1040, 0x1049);
  (0x1090, 0x1099); (0x17E0, 0x17E9); (0x1810, 0x1819); (0x1946, 0x194F); (0x19D0, 0x19D9); (0x1A80, 0x1A89);
  (0x1A90, 0x1A99); (0x1B50, 0x1B59); (0x1BB0, 0x1BB9); (0x1C40, 0x1C49); (0x1C50, 0x1C59); (0xA620, 0xA629);
  (0xA8D0, 0xA8D9); (0xA900, 0xA909); (0xA9D0, 0xA9D9); (0xA9F0, 0xA9F9); (0xAA50, 0xAA59); (0xABF0, 0xABF9);
  (0xFF10, 0xFF19); (0x104A0, 0x104A9); (0x10D30, 0x10D39); (0x11066, 0x1106F); (0x110F0, 0x110F9); (0x11136, 0x1113F);
  (0x111D0, 0x111D9); (0x112F0, 0x112F9); (0x11450, 0x11459); (0x114D0, 0x114D9); (0x11650, 0x11659); (0x116C0, 0x116C9);
  (0x11730, 0x11739); (0x118E0, 0x118E9); (0x11950, 0x11959); (0x11C50, 0x11C59); (0x11D50, 0x11D59); (0x11DA0, 0x11DA9);
  (0x16A60, 0x16A69); (0x16AC0, 0x16AC9); (0x16B50, 0x16B59); (0x1D7CE, 0x1D7FF); (0x1E140, 0x1E149); (0x1E2F0, 0x1E2F9);
  (0x1E950, 0x1E959); (0x1FBF0, 0x1FBF9)].

Definition cased_table : list (Z * Z) := [
  (0x41, 0x5A); (0x61, 0x7A); (0xAA, 0xAA); (0xB5, 0xB5); (0xBA, 0xBA); (0xC0, 0xD6);
  (0xD8, 0xF6); (0xF8, 0x1BA); (0x1BC, 0x1BF); (0x1C4, 0x293); (0x295, 0x2AF); (0x370, 0x373);
  (0x376, 0x377); (0x37B, 0x37D); (0x37F, 0x37F); (0x386, 0x386); (0x388, 0x38A); (0x38C, 0x38C);
  (0x38E, 0x3A1); (0x3A3, 0x3F5); (0x3F7, 0x481); (0x48A, 0x52F); (0x531, 0x556); (0x560, 0x588);
  (0x10A0, 0x10C5); (0x10C7, 0x10C7); (0x10CD, 0x10CD); (0x10D0, 0x10FA); (0x10FD, 0x10FF); (0x13A0, 0x13F5);
  (0x13F8, 0x13FD); (0x1C80, 0x1C88); (0x1C90, 0x1CBA); (0x1CBD, 0x1CBF); (0x1D00, 0x1D2B); (0x1D6B, 0x1D77);
  (0x1D79, 0x1D9A); (0x1E00, 0x1F15); (0x1F18, 0x1F1D); (0x1F20, 0x1F45); (0x1F48, 0x1F4D); (0x1F50, 0x1F57);
  (0x1F59, 0x1F59); (0x1F5B, 0x1F5B); (0x1F5D, 0x1F5D); (0x1F5F, 0x1F7D); (0x1F80, 0x1FB4); (0x1FB6, 0x1FBC);
  (0x1FBE, 0x1FBE); (0x1FC2, 0x1FC4); (0x1FC6, 0x1FCC); (0x1FD0, 0x1FD3); (0x1FD6, 0x1FDB); (0x1FE0, 0x1FEC);
  (0x1FF2, 0x1FF4); (0x1FF6, 0x1FFC); (0x2102, 0x2102); (0x2107, 0x2107); (0x210A, 0x2113); (0x2115, 0x2115);
  (0x2119, 0x211D); (0x2124, 0x2124); (0x2126, 0x2126); (0x2128, 0x2128); (0x212A, 0x212D); (0x212F, 0x2134);
  (0x2139, 0x2139); (0x213C, 0x213F); (0x2145, 0x2149); (0x214E, 0x214E); (0x2160, 0x217F); (0x2183, 0x2184);
  (0x24B6, 0x24E9); (0x2C00, 0x2C7B); (0x2C7E, 0x2CE4); (0x2CEB, 0x2CEE); (0x2CF2, 0x2CF3); (0x2D00, 0x2D25);
  (0x2D27, 0x2D27); (0x2D2D, 0x2D2D); (0xA640, 0xA66D); (0xA680, 0xA69B); (0xA722, 0xA76F); (0xA771, 0xA787);
  (0xA78B, 0xA78E); (0xA790, 0xA7CA); (0xA7D0, 0xA7D1); (0xA7D3, 0xA7D3); (0xA7D5, 0xA7D9); (0xA7F5, 0xA7F6);
  (0xA7FA, 0xA7FA); (0xAB30, 0xAB5A); (0xAB60, 0xAB68); (0xAB70, 0xABBF); (0xFB00, 0xFB06); (0xFB13, 0xFB17);
  (0xFF21, 0xFF3A); (0xFF41, 0xFF5A); (0x10400, 0x1044F); (0x104B0, 0x104D3); (0x104D8, 0x104FB); (0x10570, 0x1057A);
  (0x1057C, 0x1058A); (0x1058C, 0x10592); (0x10594, 0x10595); (0x10597, 0x105A1); (0x105A3, 0x105B1); (0x105B3, 0x105B9);
  (0x105BB, 0x105BC); (0x10C80, 0x10CB2); (0x10CC0, 0x10CF2); (0x118A0, 0x118DF); (0x16E40, 0x16E7F); (0x1D400, 0x1D454);
  (0x1D456, 0x1D49C); (0x1D49E, 0x1D49F); (0x1D4A2, 0x1D4A2); (0x1D4A5, 0x1D4A6); (0x1D4A9, 0x1D4AC); (0x1D4AE, 0x1D4B9);
  (0x1D4BB, 0x1D4BB); (0x1D4BD, 0x1D4C3); (0x1D4C5, 0x1D505); (0x1D507, 0x1D50A); (0x1D50D, 0x1D514); (0x1D516, 0x1D51C);
  (0x1D51E, 0x1D539); (0x1D53B, 0x1D53E); (0x1D540, 0x1D544); (0x1D546, 0x1D546); (0x1D54A, 0x1D550); (0x1D552, 0x1D6A5);
  (0x1D6A8, 0x1D6C0); (0x1D6C2, 0x1D6DA); (0x1D6DC, 0x1D6FA); (0x1D6FC, 0x1D714); (0x1D716, 0x1D734); (0x1D736, 0x1D74E);
  (0x1D750, 0x1D76E); (0x1D770, 0x1D788); (0x1D78A, 0x1D7A8); (0x1D7AA, 0x1D7C2); (0x1D7C4, 0x1D7CB); (0x1DF00, 0x1DF09);
  (0x1DF0B, 0x1DF1E); (0x1E900, 0x1E943); (0x1F130, 0x1F149); (0x1F150, 0x1F169); (0x1F170, 0x1F189)].

Definition case_ignorable_table : list (Z * Z) := [
  (0x27, 0x27); (0x2E, 0x2E); (0x3A, 0x3A); (0x5E, 0x5E); (0x60, 0x60); (0xA8, 0xA8);
  (0xAD, 0xAD); (0xAF, 0xAF); (0xB4, 0xB4); (0xB7, 0xB8); (0x2B0, 0x36F); (0x374, 0x375);
  (0x37A, 0x37A); (0x384, 0x385); (0x387, 0x387); (0x483, 0x489); (0x559, 0x559); (0x55F, 0x55F);
  (0x591, 0x5BD); (0x5BF, 0x5BF); (0x5C1, 0x5C2); (0x5C4, 0x5C5); (0x5C7, 0x5C7); (0x5F4, 0x5F4);
  (0x600, 0x605); (0x610, 0x61A); (0x61C, 0x61C); (0x640, 0x640); (0x64B, 0x65F); (0x670, 0x670);
  (0x6D6, 0x6DD); (0x6DF, 0x6E8); (0x6EA, 0x6ED); (0x70F, 0x70F); (0x711, 0x711); (0x730, 0x74A);
  (0x7A6, 0x7B0); (0x7EB, 0x7F5); (0x7FA, 0x7FA); (0x7FD, 0x7FD); (0x816, 0x82D); (0x859, 0x85B);
  (0x888, 0x888); (0x890, 0x891); (0x898, 0x89F); (0x8C9, 0x902); (0x93A, 0x93A); (0x93C, 0x93C);
  (0x941, 0x948); (0x94D, 0x94D); (0x951, 0x957); (0x962, 0x963); (0x971, 0x971); (0x981, 0x981);
  (0x9BC, 0x9BC); (0x9C1, 0x9C4); (0x9CD, 0x9CD); (0x9E2, 0x9E3); (0x9FE, 0x9FE); (0xA01, 0xA02);
  (0xA3C, 0xA3C); (0xA41, 0xA42); (0xA47, 0xA48); (0xA4B, 0xA4D); (0xA51, 0xA51); (0xA70, 0xA71);
  (0xA75, 0xA75); (0xA81, 0xA82); (0xABC, 0xABC); (0xAC1, 0xAC5); (0xAC7, 0xAC8); (0xACD, 0xACD);
  (0xAE2, 0xAE3); (0xAFA, 0xAFF); (0xB01, 0xB01); (0xB3C, 0xB3C); (0xB3F, 0xB3F); (0xB41, 0xB44);
  (0xB4D, 0xB4D); (0xB55, 0xB56); (0xB62, 0xB63); (0xB82, 0xB82); (0xBC0, 0xBC0); (0xBCD, 0xBCD);
  (0xC00, 0xC00); (0xC04, 0xC04); (0xC3C, 0xC3C); (0xC3E, 0xC40); (0xC46, 0xC48); (0xC4A, 0xC4D);
  (0xC55, 0xC56); (0xC62, 0xC63); (0xC81, 0xC81); (0xCBC, 0xCBC); (0xCBF, 0xCBF); (0xCC6, 0xCC6);
  (0xCCC, 0xCCD); (0xCE2, 0xCE3); (0xD00, 0xD01); (0xD3B, 0xD3C); (0xD41, 0xD44); (0xD4D, 0xD4D);
  (0xD62, 0xD63); (0xD81, 0xD81); (0xDCA, 0xDCA); (0xDD2, 0xDD4); (0xDD6, 0xDD6); (0xE31, 0xE31);
  (0xE34, 0xE3A); (0xE46, 0xE4E); (0xEB1, 0xEB1); (0xEB4, 0xEBC); (0xEC6, 0xEC6); (0xEC8, 0xECD);
  (0xF18, 0xF19); (0xF35, 0xF35); (0xF37, 0xF37); (0xF39, 0xF39); (0xF71, 0xF7E); (0xF80, 0xF84);
  (0xF86, 0xF87); (0xF8D, 0xF97); (0xF99, 0xFBC); (0xFC6, 0xFC6); (0x102D, 0x1030); (0x1032, 0x1037);
  (0x1039, 0x103A); (0x103D, 0x103E); (0x1058, 0x1059); (0x105E, 0x1060); (0x1071, 0x1074); (0x1082, 0x1082);
  (0x1085, 0x1086); (0x108D, 0x108D); (0x109D, 0x109D); (0x10FC, 0x10FC); (0x135D, 0x135F); (0x1712, 0x1714);
  (0x1732, 0x1733); (0x1752, 0x1753); (0x1772, 0x1773); (0x17B4, 0x17B5); (0x17B7, 0x17BD); (0x17C6, 0x17C6);
  (0x17C9, 0x17D3); (0x17D7, 0x17D7); (0x17DD, 0x17DD); (0x180B, 0x180F); (0x1843, 0x1843); (0x1885, 0x1886);
  (0x18A9, 0x18A9); (0x1920, 0x1922); (0x1927, 0x1928); (0x1932, 0x1932); (0x1939, 0x193B); (0x1A17, 0x1A18);
  (0x1A1B, 0x1A1B); (0x1A56, 0x1A56); (0x1A58, 0x1A5E); (0x1A60, 0x1A60); (0x1A62, 0x1A62); (0x1A65, 0x1A6C);
  (0x1A73, 0x1A7C); (0x1A7F, 0x1A7F); (0x1AA7, 0x1AA7); (0x1AB0, 0x1ACE); (0x1B00, 0x1B03); (0x1B34, 0x1B34);
  (0x1B36, 0x1B3A); (0x1B3C, 0x1B3C); (0x1B42, 0x1B42); (0x1B6B, 0x1B73); (0x1B80, 0x1B81); (0x1BA2, 0x1BA5);
  (0x1BA8, 0x1BA9); (0x1BAB, 0x1BAD); (0x1BE6, 0x1BE6); (0x1BE8, 0x1BE9); (0x1BED, 0x1BED); (0x1BEF, 0x1BF1);
  (0x1C2C, 0x1C33); (0x1C36, 0x1C37); (0x1C78, 0x1C7D); (0x1CD0, 0x1CD2); (0x1CD4, 0x1CE0); (0x1CE2, 0x1CE8);
  (0x1CED, 0x1CED); (0x1CF4, 0x1CF4); (0x1CF8, 0x1CF9); (0x1D2C, 0x1D6A); (0x1D78, 0x1D78); (0x1D9B, 0x1DFF);
  (0x1FBD, 0x1FBD); (0x1FBF, 0x1FC1); (0x1FCD, 0x1FCF); (0x1FDD, 0x1FDF); (0x1FED, 0x1FEF); (0x1FFD, 0x1FFE);
  (0x200B, 0x200F); (0x2018, 0x2019); (0x2024, 0x2024); (0x2027, 0x2027); (0x202A, 0x202E); (0x2060, 0x2064);
  (0x2066, 0x206F); (0x2071, 0x2071); (0x207F, 0x207F); (0x2090, 0x209C); (0x20D0, 0x20F0); (0x2C7C, 0x2C7D);
  (0x2CEF, 0x2CF1); (0x2D6F, 0x2D6F); (0x2D7F, 0x2D7F); (0x2DE0, 0x2DFF); (0x2E2F, 0x2E2F); (0x3005, 0x3005);
  (0x302A, 0x302D); (0x3031, 0x3035); (0x303B, 0x303B); (0x3099, 0x309E); (0x30FC, 0x30FE); (0xA015, 0xA015);
  (0xA4F8, 0xA4FD); (0xA60C, 0xA60C); (0xA66F, 0xA672); (0xA674, 0xA67D); (0xA67F, 0xA67F); (0xA69C, 0xA69F);
  (0xA6F0, 0xA6F1); (0xA700, 0xA721); (0xA770, 0xA770); (0xA788, 0xA78A); (0xA7F2, 0xA7F4); (0xA7F8, 0xA7F9);
  (0xA802, 0xA802); (0xA806, 0xA806); (0xA80B, 0xA80B); (0xA825, 0xA826); (0xA82C, 0xA82C); (0xA8C4, 0xA8C5);
  (0xA8E0, 0xA8F1); (0xA8FF, 0xA8FF); (0xA926, 0xA92D); (0xA947, 0xA951); (0xA980, 0xA982); (0xA9B3, 0xA9B3);
  (0xA9B6, 0xA9B9); (0xA9BC, 0xA9BD); (0xA9CF, 0xA9CF); (0xA9E5, 0xA9E6); (0xAA29, 0xAA2E); (0xAA31, 0xAA32);
  (0xAA35, 0xAA36); (0xAA43, 0xAA43); (0xAA4C, 0xAA4C); (0xAA70, 0xAA70); (0xAA7C, 0xAA7C); (0xAAB0, 0xAAB0);
  (0xAAB2, 0xAAB4); (0xAAB7, 0xAAB8); (0xAABE, 0xAABF); (0xAAC1, 0xAAC1); (0xAADD, 0xAADD); (0xAAEC, 0xAAED);
  (0xAAF3, 0xAAF4); (0xAAF6, 0xAAF6); (0xAB5B, 0xAB5F); (0xAB69, 0xAB6B); (0xABE5, 0xABE5); (0xABE8, 0xABE8);
  (0xABED, 0xABED); (0xFB1E, 0xFB1E); (0xFBB2, 0xFBC2); (0xFE00, 0xFE0F); (0xFE13, 0xFE13); (0xFE20, 0xFE2F);
  (0xFE52, 0xFE52); (0xFE55, 0xFE55); (0xFEFF, 0xFEFF); (0xFF07, 0xFF07); (0xFF0E, 0xFF0E); (0xFF1A, 0xFF1A);
  (0xFF3E, 0xFF3E); (0xFF40, 0xFF40); (0xFF70, 0xFF70); (0xFF9E, 0xFF9F); (0xFFE3, 0xFFE3); (0xFFF9, 0xFFFB);
  (0x101FD, 0x101FD); (0x102E0, 0x102E0); (0x10376, 0x1037A); (0x10780, 0x10785); (0x10787, 0x107B0); (0x107B2, 0x107BA);
  (0x10A01, 0x10A03); (0x10A05, 0x10A06); (0x10A0C, 0x10A0F); (0x10A38, 0x10A3A); (0x10A3F, 0x10A3F); (0x10AE5, 0x10AE6);
  (0x10D24, 0x10D27); (0x10EAB, 0x10EAC); (0x10F46, 0x10F50); (0x10F82, 0x10F85); (0x11001, 0x11001); (0x11038, 0x11046);
  (0x11070, 0x11070); (0x11073, 0x11074); (0x1107F, 0x11081); (0x110B3, 0x110B6); (0x110B9, 0x110BA); (0x110BD, 0x110BD);
  (0x110C2, 0x110C2); (0x110CD, 0x110CD); (0x11100, 0x11102); (0x11127, 0x1112B); (0x1112D, 0x11134); (0x11173, 0x11173);
  (0x11180, 0x11181); (0x111B6, 0x111BE); (0x111C9, 0x111CC); (0x111CF, 0x111CF); (0x1122F, 0x11231); (0x11234, 0x11234);
  (0x11236, 0x11237); (0x1123E, 0x1123E); (0x112DF, 0x112DF); (0x112E3, 0x112EA); (0x11300, 0x11301); (0x1133B, 0x1133C);
  (0x11340, 0x11340); (0x11366, 0x1136C); (0x11370, 0x11374); (0x11438, 0x1143F); (0x11442, 0x11444); (0x11446, 0x11446);
  (0x1145E, 0x1145E); (0x114B3, 0x114B8); (0x114BA, 0x114BA); (0x114BF, 0x114C0); (0x114C2, 0x114C3); (0x115B2, 0x115B5);
  (0x115BC, 0x115BD); (0x115BF, 0x115C0); (0x115DC, 0x115DD); (0x11633, 0x1163A); (0x1163D, 0x1163D); (0x1163F, 0x11640);
  (0x116AB, 0x116AB); (0x116AD, 0x116AD); (0x116B0, 0x116B5); (0x116B7, 0x116B7); (0x1171D, 0x1171F); (0x11722, 0x11725);
  (0x11727, 0x1172B); (0x1182F, 0x11837); (0x11839, 0x1183A); (0x1193B, 0x1193C); (0x1193E, 0x1193E); (0x11943, 0x11943);
  (0x119D4, 0x119D7); (0x119DA, 0x119DB); (0x119E0, 0x119E0); (0x11A01, 0x11A0A); (0x11A33, 0x11A38); (0x11A3B, 0x11A3E);
  (0x11A47, 0x11A47); (0x11A51, 0x11A56); (0x11A59, 0x11A5B); (0x11A8A, 0x11A96); (0x11A98, 0x11A99); (0x11C30, 0x11C36);
  (0x11C38, 0x11C3D); (0x11C3F, 0x11C3F); (0x11C92, 0x11CA7); (0x11CAA, 0x11CB0); (0x11CB2, 0x11CB3); (0x11CB5, 0x11CB6);
  (0x11D31, 0x11D36); (0x11D3A, 0x11D3A); (0x11D3C, 0x11D3D); (0x11D3F, 0x11D45); (0x11D47, 0x11D47); (0x11D90, 0x11D91);
  (0x11D95, 0x11D95); (0x11D97, 0x11D97); (0x11EF3, 0x11EF4); (0x13430, 0x13438); (0x16AF0, 0x16AF4); (0x16B30, 0x16B36);
  (0x16B40, 0x16B43); (0x16F4F, 0x16F4F); (0x16F8F, 0x16F9F); (0x16FE0, 0x16FE1); (0x16FE3, 0x16FE4); (0x1AFF0, 0x1AFF3);
  (0x1AFF5, 0x1AFFB); (0x1AFFD, 0x1AFFE); (0x1BC9D, 0x1BC9E); (0x1BCA0, 0x1BCA3); (0x1CF00, 0x1CF2D); (0x1CF30, 0x1CF46);
  (0x1D167, 0x1D169); (0x1D173, 0x1D182); (0x1D185, 0x1D18B); (0x1D1AA, 0x1D1AD); (0x1D242, 0x1D244); (0x1DA00, 0x1DA36);
  (0x1DA3B, 0x1DA6C); (0x1DA75, 0x1DA75); (0x1DA84, 0x1DA84); (0x1DA9B, 0x1DA9F); (0x1DAA1, 0x1DAAF); (0x1E000, 0x1E006);
  (0x1E008, 0x1E018); (0x1E01B, 0x1E021); (0x1E023, 0x1E024); (0x1E026, 0x1E02A); (0x1E130, 0x1E13D); (0x1E2AE, 0x1E2AE);
  (0x1E2EC, 0x1E2EF); (0x1E8D0, 0x1E8D6); (0x1E944, 0x1E94B); (0x1F3FB, 0x1F3FF); (0xE0001, 0xE0001); (0xE0020, 0xE007F);
  (0xE0100, 0xE01EF)].

(** ** Character classes and [str.lower()] *)

Definition in_table (t : list (Z * Z)) (c : Z) : bool := existsb (fun '(lo, hi) => in_z lo hi c) t.

(** [\d] in a [str] pattern. *)
Definition is_decimal (c : Z) : bool := in_table decimal_table c.
Definition is_cased (c : Z) : bool := in_table cased_table c.
Definition is_case_ignorable (c : Z) : bool := in_table case_ignorable_table c.

(** The simple lower-case mapping of one code point. *)
Definition lower_simple (c : Z) : Z :=
  match find_first (fun '(lo, hi, _, st) => in_z lo hi c && (((c - lo) mod st) =? 0)) lower_table with
  | Some (_, _, d, _) => c + d
  | None => c
  end.

(** [_PyUnicode_ToLowerFull]: the full mapping, which differs from the
    simple one only at U+0130 (LATIN CAPITAL LETTER I WITH DOT ABOVE). *)
Definition lower_full (c : Z) : list Z := if c =? 0x130 then [0x69; 0x307] else [lower_simple c].

(** The first code point of [l] that is not case-ignorable. *)
Fixpoint skip_ignorable (l : list Z) : option Z :=
  match l with
  | [] => None
  | c :: r => if is_case_ignorable c then skip_ignorable r else Some c
  end.

(** [handle_capital_sigma]: U+03A3 is final when a cased letter precedes
    it and none follows it, case-ignorable code points skipped on both
    sides ([before] is the text before it, nearest first). *)
Definition final_sigma (before after : list Z) : bool :=
  match skip_ignorable before with
  | Some c => is_cased c && match skip_ignorable after with
                            | Some c' => negb (is_cased c')
                            | None => true
                            end
  | None => false
  end.

(** [do_lower]: each code point through [lower_ucs4], which sends U+03A3
    to final or medial small sigma and every other code point through
    [lower_full]; the context is read from the original text. *)
Fixpoint lower_from (before l : list Z) : list Z :=
  match l with
  | [] => []
  | c :: r =>
      (if c =? 0x3A3 then [if final_sigma before r then 0x3C2 else 0x3C3] else lower_full c)
      ++ lower_from (c :: before) r
  end.

Definition str_lower (l : list Z) : list Z := lower_from [] l.

(** [s.lower()] on the UTF-8 representation. *)
Definition py_lower (s : string) : string := encode (str_lower (decode s)).

(** ** Lemmas *)

Lemma bz_bound a : 0 <= bz a < 256.
Proof. unfold bz. pose proof (Ascii.nat_ascii_bounded a). lia. Qed.

Lemma zb_bz a : zb (bz a) = a.
Proof. unfold zb, bz. by rewrite Nat2Z.id, Ascii.ascii_nat_embedding. Qed.

Lemma bz_zb z : 0 <= z < 256 -> bz (zb z) = z.
Proof.
  intros H. unfold zb, bz. rewrite Ascii.nat_ascii_embedding by lia. lia.
Qed.

(** Linear arithmetic with division and remainder by constants. *)
Ltac zlia := Z.div_mod_to_equations; lia.

(** Decide every comparison of [Z] in the goal. *)
Ltac zcase :=
  unfold cont, second_ok in *; unfold in_z in *;
  repeat match goal with
  | |- context [?a <? ?b] => destruct (Z.ltb_spec a b)
  | |- context [?a <=? ?b] => destruct (Z.leb_spec a b)
  | |- context [?a =? ?b] => destruct (Z.eqb_spec a b)
  | H : context [?a <? ?b] |- _ => destruct (Z.ltb_spec a b)
  | H : context [?a <=? ?b] |- _ => destruct (Z.leb_spec a b)
  | H : context [?a =? ?b] |- _ => destruct (Z.eqb_spec a b)
  end; cbn [andb orb negb] in *; try discriminate; try lia; try done.

Lemma encode_app l1 l2 : encode (l1 ++ l2) = (encode l1 ++ encode l2)%string.
Proof. induction l1 as [|c l1 IH]; simpl; [done|]. by rewrite IH, str_app_assoc. Qed.

Lemma in_z_spec lo hi z : in_z lo hi z = true <-> lo <= z <= hi.
Proof. unfold in_z. rewrite andb_true_iff, !Z.leb_le. done. Qed.

Lemma in_z_false lo hi z : in_z lo hi z = false <-> ~ (lo <= z <= hi).
Proof. rewrite <- in_z_spec. destruct (in_z lo hi z); intuition congruence. Qed.

Lemma cont_spec b : cont b = true <-> 0x80 <= b <= 0xBF.
Proof. apply in_z_spec. Qed.

Lemma second_ok_spec x b : second_ok x b = true ->
  (0x80 <= b <= 0xBF) /\ (x = 0xE0 -> 0xA0 <= b) /\ (x = 0xED -> b <= 0x9F) /\
  (x = 0xF0 -> 0x90 <= b) /\ (x = 0xF4 -> b <= 0x8F).
Proof. unfold second_ok. zcase. Qed.

(** The branches of [encode_cp]. *)
Lemma encode_cp1 x : 0 <= x < 0x80 -> encode_cp x = String (zb x) "".
Proof. intros H. unfold encode_cp. zcase. Qed.

Lemma encode_cp_esc c : 0xDC80 <= c <= 0xDCFF -> encode_cp c = String (zb (c - 0xDC00)) "".
Proof. intros H. unfold encode_cp. zcase. Qed.

Lemma encode_cp_2 c : 0x80 <= c < 0x800 ->
  encode_cp c = String (zb (0xC0 + c / 64)) (String (zb (0x80 + c mod 64)) "").
Proof. intros H. unfold encode_cp. zcase. Qed.

Lemma encode_cp_3 c : 0x800 <= c < 0x10000 -> ~ (0xDC80 <= c <= 0xDCFF) ->
  encode_cp c = String (zb (0xE0 + c / 4096)) (String (zb (0x80 + (c / 64) mod 64))
                  (String (zb (0x80 + c mod 64)) "")).
Proof. intros H Hs. unfold encode_cp. zcase. Qed.

Lemma encode_cp_4 c : 0x10000 <= c ->
  encode_cp c = String (zb (0xF0 + c / 262144)) (String (zb (0x80 + (c / 4096) mod 64))
                  (String (zb (0x80 + (c / 64) mod 64)) (String (zb (0x80 + c mod 64)) ""))).
Proof. intros H. unfold encode_cp. zcase. Qed.

Lemma encode_escape x : 0x80 <= x < 256 -> encode_cp (escape x) = String (zb x) "".
Proof. intros H. unfold escape. rewrite encode_cp_esc by lia. do 2 f_equal. lia. Qed.

Lemma encode_cp2 x b : 0xC2 <= x <= 0xDF -> cont b = true ->
  encode_cp (cp2 x b) = String (zb x) (String (zb b) "").
Proof.
  intros H Hb%cont_spec. unfold cp2. rewrite encode_cp_2 by lia. repeat f_equal; zlia.
Qed.

Lemma encode_cp3 x b c : 0xE0 <= x <= 0xEF -> second_ok x b = true -> cont c = true ->
  encode_cp (cp3 x b c) = String (zb x) (String (zb b) (String (zb c) "")).
Proof.
  intros H (Hb & H0 & H1 & _)%second_ok_spec Hc%cont_spec. unfold cp3.
  destruct (Z.eq_dec x 0xE0); destruct (Z.eq_dec x 0xED); subst;
    rewrite encode_cp_3 by lia; repeat f_equal; zlia.
Qed.

Lemma encode_cp4 x b c d : 0xF0 <= x <= 0xF4 -> second_ok x b = true -> cont c = true ->
  cont d = true ->
  encode_cp (cp4 x b c d) = String (zb x) (String (zb b) (String (zb c) (String (zb d) ""))).
Proof.
  intros H (Hb & _ & _ & H0 & H1)%second_ok_spec Hc%cont_spec Hd%cont_spec. unfold cp4.
  destruct (Z.eq_dec x 0xF0); destruct (Z.eq_dec x 0xF4); subst;
    rewrite encode_cp_4 by lia; repeat f_equal; zlia.
Qed.

Lemma encode_cons c l : encode (c :: l) = (encode_cp c ++ encode l)%string.
Proof. reflexivity. Qed.

(** ** Round trips and bounds *)

(** Side conditions: byte tests, bounds and the length measure. *)
Local Ltac side := first [done | lia | unfold ltof; simpl; lia].
Local Ltac esc IH := rewrite encode_cons, encode_escape, zb_bz, IH by side; done.

(** Every byte string is the encoding of its decoding: no byte is lost or
    changed by [surrogateescape] decoding. *)
Theorem encode_decode s : encode (decode s) = s.
Proof.
  induction s as [[|a r] IH] using (induction_ltof1 _ String.length); [done|].
  pose proof (bz_bound a) as Ha. cbn [decode].
  destruct (Z.ltb_spec (bz a) 0x80).
  { by rewrite encode_cons, encode_cp1, zb_bz, IH by side. }
  destruct r as [|b r2]; [cbn [encode]; by rewrite encode_escape, zb_bz by lia|].
  destruct (in_z 0xC2 0xDF (bz a) && cont (bz b)) eqn:E2.
  { apply andb_true_iff in E2 as [E2%in_z_spec Eb].
    by rewrite encode_cons, encode_cp2, !zb_bz, IH by side. }
  destruct r2 as [|c r3]; [esc IH|].
  destruct (in_z 0xE0 0xEF (bz a) && second_ok (bz a) (bz b) && cont (bz c)) eqn:E3.
  { apply andb_true_iff in E3 as [[E3%in_z_spec Eb]%andb_true_iff Ec].
    by rewrite encode_cons, encode_cp3, !zb_bz, IH by side. }
  destruct r3 as [|d r4]; [esc IH|].
  destruct (in_z 0xF0 0xF4 (bz a) && second_ok (bz a) (bz b) && cont (bz c) && cont (bz d)) eqn:E4;
    [|esc IH].
  apply andb_true_iff in E4 as [[[E4%in_z_spec Eb]%andb_true_iff Ec]%andb_true_iff Ed].
  by rewrite encode_cons, encode_cp4, !zb_bz, IH by side.
Qed.

Lemma second_ok_intro x b :
  0x80 <= b <= 0xBF -> (x = 0xE0 -> 0xA0 <= b) -> (x = 0xED -> b <= 0x9F) ->
  (x = 0xF0 -> 0x90 <= b) -> (x = 0xF4 -> b <= 0x8F) -> second_ok x b = true.
Proof. intros. unfold second_ok. zcase. Qed.

(** Evaluate the byte tests of [decode] on the bytes of an encoding. *)
Ltac zeval :=
  repeat match goal with
  | |- context [bz (zb ?e)] => rewrite (bz_zb e) by zlia
  | |- context [in_z ?lo ?hi ?e] =>
      first [ rewrite (proj2 (in_z_spec lo hi e)) by zlia
            | rewrite (proj2 (in_z_false lo hi e)) by zlia ]
  | |- context [?a <? ?b] =>
      first [ rewrite (proj2 (Z.ltb_lt a b)) by zlia | rewrite (proj2 (Z.ltb_ge a b)) by zlia ]
  | |- context [cont ?e] => unfold cont
  | |- context [second_ok ?x ?b] => rewrite (second_ok_intro x b) by zlia
  end; cbn [andb orb].

(** Decoding the encoding of a scalar value followed by more bytes. *)
Lemma decode_encode_cp c s : scalar c -> decode (encode_cp c ++ s)%string = c :: decode s.
Proof.
  unfold scalar. intros Hc.
  destruct (Z.ltb_spec c 0x80).
  { rewrite encode_cp1 by lia. rewrite ?str_app_cons, ?str_app_nil_l. cbn [decode]. zeval. done. }
  destruct (Z.ltb_spec c 0x800).
  { rewrite encode_cp_2 by lia. rewrite ?str_app_cons, ?str_app_nil_l. cbn [decode]. zeval.
    f_equal. unfold cp2. zlia. }
  destruct (Z.ltb_spec c 0x10000).
  { rewrite encode_cp_3 by lia. rewrite ?str_app_cons, ?str_app_nil_l. cbn [decode]. zeval.
    f_equal. unfold cp3. zlia. }
  rewrite encode_cp_4 by lia. rewrite ?str_app_cons, ?str_app_nil_l. cbn [decode]. zeval.
  f_equal. unfold cp4. zlia.
Qed.

Lemma decode_encode_app l s : Forall scalar l -> decode (encode l ++ s)%string = l ++ decode s.
Proof.
  induction 1 as [|c l Hc Hl IH]; [done|].
  by rewrite encode_cons, <- str_app_assoc, decode_encode_cp, IH.
Qed.

(** A text of scalar values is the decoding of its encoding. *)
Theorem decode_encode l : Forall scalar l -> decode (encode l) = l.
Proof. intros H. by rewrite <- (str_app_nil_r (encode l)), decode_encode_app, app_nil_r. Qed.

(** A code point [decode] can yield. *)
Definition decoded (c : Z) : Prop := scalar c \/ 0xDC80 <= c <= 0xDCFF.

Lemma cp2_scalar x b : in_z 0xC2 0xDF x = true -> cont b = true -> scalar (cp2 x b).
Proof. intros Hx%in_z_spec Hb%cont_spec. unfold scalar, cp2. lia. Qed.

Lemma cp3_scalar x b c : in_z 0xE0 0xEF x = true -> second_ok x b = true -> cont c = true ->
  scalar (cp3 x b c).
Proof.
  intros Hx%in_z_spec (Hb & H0 & H1 & _)%second_ok_spec Hc%cont_spec. unfold scalar, cp3.
  destruct (Z.eq_dec x 0xE0); destruct (Z.eq_dec x 0xED); subst; lia.
Qed.

Lemma cp4_scalar x b c d : in_z 0xF0 0xF4 x = true -> second_ok x b = true -> cont c = true ->
  cont d = true -> scalar (cp4 x b c d).
Proof.
  intros Hx%in_z_spec (Hb & _ & _ & H0 & H1)%second_ok_spec Hc%cont_spec Hd%cont_spec.
  unfold scalar, cp4. destruct (Z.eq_dec x 0xF0); destruct (Z.eq_dec x 0xF4); subst; lia.
Qed.

(** Each code point [decode] yields is a scalar value (below U+D800, or
    from U+E000 to U+10FFFF) or the escape U+DC80..U+DCFF of a byte. *)
Theorem decode_bounds s : Forall decoded (decode s).
Proof.
  induction s as [[|a r] IH] using (induction_ltof1 _ String.length); [constructor|].
  pose proof (bz_bound a) as Ha. cbn [decode].
  assert (Hesc : decoded (escape (bz a)) \/ bz a < 0x80) by (unfold decoded, escape; lia).
  destruct (Z.ltb_spec (bz a) 0x80).
  { constructor; [left; unfold scalar; lia | apply IH; side]. }
  destruct Hesc as [Hesc|]; [|lia].
  destruct r as [|b r2]; [by constructor|].
  destruct (in_z 0xC2 0xDF (bz a) && cont (bz b)) eqn:E2.
  { apply andb_true_iff in E2 as [E2 Eb].
    constructor; [left; by apply cp2_scalar | apply IH; side]. }
  destruct r2 as [|c r3]; [constructor; [done | apply IH; side]|].
  destruct (in_z 0xE0 0xEF (bz a) && second_ok (bz a) (bz b) && cont (bz c)) eqn:E3.
  { apply andb_true_iff in E3 as [[E3 Eb]%andb_true_iff Ec].
    constructor; [left; by apply cp3_scalar | apply IH; side]. }
  destruct r3 as [|d r4]; [constructor; [done | apply IH; side]|].
  destruct (in_z 0xF0 0xF4 (bz a) && second_ok (bz a) (bz b) && cont (bz c) && cont (bz d)) eqn:E4;
    [|constructor; [done | apply IH; side]].
  apply andb_true_iff in E4 as [[[E4 Eb]%andb_true_iff Ec]%andb_true_iff Ed].
  constructor; [left; by apply cp4_scalar | apply IH; side].
Qed.

Lemma in_table_spec t c : in_table t c = true <-> exists lo hi, In (lo, hi) t /\ lo <= c <= hi.
Proof.
  unfold in_table. rewrite existsb_exists. split.
  - intros [[lo hi] [Hin Hc%in_z_spec]]. eauto.
  - intros (lo & hi & Hin & Hc). exists (lo, hi). by rewrite in_z_spec.
Qed.

(** Every decimal digit is a scalar value (the digit ranges avoid the
    surrogates). *)
Lemma decimal_scalar c : is_decimal c = true -> scalar c.
Proof.
  unfold is_decimal. intros (lo & hi & Hin & Hc)%in_table_spec.
  assert (Hall : forallb (fun '(lo, hi) => ((0 <=? lo) && (hi <? 0xD800)) ||
                                            ((0xE000 <=? lo) && (hi <? 0x110000)))
                         decimal_table = true) by reflexivity.
  eapply forallb_forall in Hall; [|exact Hin]. cbv beta iota in Hall.
  unfold scalar. zcase.
Qed.

(** Each code point lowers to one code point, except U+0130, which lowers
    to two. *)
Lemma lower_from_length before l :
  List.length (lower_from before l) = (List.length l + List.length (List.filter (fun c => Z.eqb c 0x130) l))%nat.
Proof.
  revert before. induction l as [|c l IH]; intros before; [done|].
  cbn [lower_from List.filter]. rewrite length_app, IH.
  unfold lower_full. destruct (Z.eqb_spec c 0x3A3), (Z.eqb_spec c 0x130); simpl; lia.
Qed.

(** [scalar] decided, for texts given by value. *)
Definition scalarb (c : Z) : bool := (in_z 0 0xD7FF c) || (in_z 0xE000 0x10FFFF c).

Lemma scalarb_sound c : scalarb c = true -> scalar c.
Proof. unfold scalarb, scalar. rewrite orb_true_iff, !in_z_spec. lia. Qed.

Lemma forallb_scalarb l : forallb scalarb l = true -> Forall scalar l.
Proof.
  induction l as [|c l IH]; simpl; [constructor|].
  intros [Hc Hl]%andb_true_iff. constructor; [by apply scalarb_sound | by apply IH].
Qed.

(** ** Decoding one code point at a time *)

(** The code point at the head of [String a r] and the bytes after it. *)
Definition dec_head (a : ascii) (r : string) : Z * string :=
  let x := bz a in
  if x <? 0x80 then (x, r)
  else match r with
  | EmptyString => (escape x, r)
  | String b r2 =>
      if in_z 0xC2 0xDF x && cont (bz b) then (cp2 x (bz b), r2)
      else match r2 with
      | EmptyString => (escape x, r)
      | String c r3 =>
          if in_z 0xE0 0xEF x && second_ok x (bz b) && cont (bz c)
          then (cp3 x (bz b) (bz c), r3)
          else match r3 with
          | EmptyString => (escape x, r)
          | String d r4 =>
              if in_z 0xF0 0xF4 x && second_ok x (bz b) && cont (bz c) && cont (bz d)
              then (cp4 x (bz b) (bz c) (bz d), r4)
              else (escape x, r)
          end
      end
  end.

Lemma decode_cons a r : decode (String a r) = (dec_head a r).1 :: decode (dec_head a r).2.
Proof.
  unfold dec_head. cbn [decode]. cbv zeta.
  destruct (bz a <? 0x80); [done|]. destruct r as [|b r2]; [done|].
  destruct (_ && cont (bz b)); [done|]. destruct r2 as [|c r3]; [done|].
  destruct (_ && _ && cont (bz c)); [done|]. destruct r3 as [|d r4]; [done|].
  by destruct (_ && _ && _ && cont (bz d)).
Qed.

Lemma dec_head_length a r : (String.length (dec_head a r).2 <= String.length r)%nat.
Proof.
  unfold dec_head. cbv zeta. destruct (bz a <? 0x80); [simpl; lia|].
  destruct r as [|b [|c [|d r4]]]; simpl; repeat case_match; simpl; lia.
Qed.

(** A text that does not start inside a multi-byte sequence. *)
Definition starts_free (s : string) : Prop :=
  match s with EmptyString => True | String c _ => cont (bz c) = false end.

Lemma second_ok_not_cont x b : cont b = false -> second_ok x b = false.
Proof. intros H. unfold second_ok. zcase. Qed.

Lemma dec_head_app a r s : starts_free s ->
  dec_head a (r ++ s) = ((dec_head a r).1, ((dec_head a r).2 ++ s)%string).
Proof.
  intros Hs. unfold dec_head. cbv zeta. destruct (bz a <? 0x80); [done|].
  destruct r as [|b [|c [|d r4]]]; rewrite ?str_app_cons, ?str_app_nil_l;
    [destruct s as [|e [|f [|g s']]] | destruct s as [|e [|f s']] | destruct s as [|e s'] | ];
    cbn [starts_free] in Hs; rewrite ?Hs, ?(second_ok_not_cont _ _ Hs), ?andb_false_r, ?andb_false_l;
    try done;
    repeat match goal with |- context [if ?t then _ else _] => destruct t end; done.
Qed.

(** Decoding splits at a byte that does not continue a sequence. *)
Lemma decode_app_free A s : starts_free s -> decode (A ++ s) = decode A ++ decode s.
Proof.
  intros Hs.
  induction A as [[|a r] IH] using (induction_ltof1 _ String.length); [done|].
  rewrite str_app_cons, !decode_cons, dec_head_app by done. cbn [fst snd].
  rewrite IH; [done|]. unfold ltof. pose proof (dec_head_length a r). simpl. lia.
Qed.

(** The encoding of a scalar value starts a sequence. *)
Lemma encode_cp_free c s : scalar c -> starts_free (encode_cp c ++ s).
Proof.
  unfold scalar. intros Hc.
  destruct (Z.ltb_spec c 0x80); [rewrite encode_cp1 by lia|].
  2: destruct (Z.ltb_spec c 0x800); [rewrite encode_cp_2 by lia|].
  3: destruct (Z.ltb_spec c 0x10000); [rewrite encode_cp_3 by lia|rewrite encode_cp_4 by lia].
  all: rewrite str_app_cons; cbn [starts_free]; unfold cont; apply in_z_false;
    rewrite bz_zb by zlia; zlia.
Qed.

(** ** Behaviour on concrete texts *)

Module Examples.

Local Open Scope string_scope.

(** Final and medial sigma, as CPython's [handle_capital_sigma] decides:
    a capital sigma after a letter and before no letter is final. *)
Example lower_sigma :
  py_lower "ΟΔΟΣ ΣΟΦΙΑΣ" = "οδος σοφιας" /\ py_lower "Σ" = "σ" /\ py_lower "AΣ." = "aς.".
Proof. vm_compute. auto. Qed.

(** U+0130 lowers to two code points, so [lower] can lengthen a text. *)
Example lower_dotted_capital_i :
  py_lower "İSTANBUL" = "i̇stanbul" /\ List.length (decode (py_lower "İ")) = 2%nat.
Proof. vm_compute. auto. Qed.

(** The ill-formed bytes [C3 28] decode to an escape and ["("], and encode
    back to the same bytes. *)
Example escape_roundtrip :
  decode (String (zb 0xC3) "(") = [0xDCC3; 0x28]%Z /\
  encode [0xDCC3; 0x28]%Z = String (zb 0xC3) "(".
Proof. vm_compute. auto. Qed.

Lemma decode_encode_witness :
  Forall scalar [0x41; 0x3A3; 0x10FFFF]%Z /\
  decode (encode [0x41; 0x3A3; 0x10FFFF]%Z) = [0x41; 0x3A3; 0x10FFFF]%Z.
Proof.
  assert (H : Forall scalar [0x41; 0x3A3; 0x10FFFF]%Z) by (apply forallb_scalarb; reflexivity).
  split; [exact H | apply decode_encode; exact H].
Defined.

End Examples.

End Unicode.
