(* ===== verification/PyStr.v ===== *)
(** * Python string operations used by the importer

    A Python [str] is represented by its UTF-8 encoding as a Rocq [string]
    (a list of bytes).  This file defines the operations the importer applies
    to file names, patterns and content:
    - [py_in needle hay]: [needle in hay], a byte substring test, proved
      equal to the code-point test for a needle that is text
      ([py_in_code_points]);
    - [py_lower]: [str.lower()], from [Unicode];
    - [py_take n s]: the slice [s[:n]] of the code points;
    - [py_suffix name]: [pathlib.PurePath.suffix];
    - [re_search_cp], [period_at], [year_at]: the leftmost-match search of
      [re.search] over the code points of a [str], with the patterns
      [(\d{4})-(\d{2})] and [(\d{4})], whose [\d] is every Unicode decimal
      digit;
    - [re_search]: the same search over bytes, for patterns that begin
      with an ASCII character (such a match never starts inside a
      multi-byte code point). *)

From S2P Require Import Prelude.
From S2P Require Export Unicode.
Export Unicode.

Open Scope string_scope.

(** ** Substring test *)

(** [needle in hay]: some suffix of [hay] starts with [needle]. *)
Fixpoint py_in (needle hay : string) : bool :=
  String.prefix needle hay ||
  match hay with
  | EmptyString => false
  | String _ r => py_in needle r
  end.

Definition byte (n : nat) : ascii := ascii_of_nat n.

Definition in_range (lo hi n : nat) : bool := Nat.leb lo n && Nat.leb n hi.

(** ** Slicing by code points *)

(** [s[:n]]: the first [n] code points of [s]. *)
Definition py_take (n : nat) (s : string) : string := encode (firstn n (decode s)).

(** ** [PurePath.suffix] *)

(** Index of the last occurrence of byte [c], as [str.rfind]. *)
Fixpoint rfind_from (c : ascii) (s : string) (i : nat) (acc : option nat) : option nat :=
  match s with
  | EmptyString => acc
  | String x r => rfind_from c r (S i) (if Ascii.eqb x c then Some i else acc)
  end.

(** [i = name.rfind('.'); name[i:] if 0 < i < len(name) - 1 else ''] *)
Definition py_suffix (name : string) : string :=
  match rfind_from "." name 0 None with
  | Some i =>
      if Nat.ltb 0 i && Nat.ltb i (String.length name - 1)
      then substring i (String.length name - i) name
      else ""
  | None => ""
  end.

(** ** Regular-expression search *)

Definition is_digit (c : ascii) : bool := in_range 48 57 (nat_of_ascii c).

(** [re.search(p, s)]: the match of [p] at the leftmost position where it
    matches ([m] tries to match at the start of its argument). *)
Fixpoint re_search {A} (m : string -> option A) (s : string) : option A :=
  match m s with
  | Some x => Some x
  | None =>
      match s with
      | EmptyString => None
      | String _ r => re_search m r
      end
  end.

(** The same search over the code points of a [str]. *)
Fixpoint re_search_cp {A} (m : list Z -> option A) (l : list Z) : option A :=
  match m l with
  | Some x => Some x
  | None =>
      match l with
      | [] => None
      | _ :: r => re_search_cp m r
      end
  end.

(** [(\d{4})-(\d{2})] anchored at the start: the two groups. *)
Definition period_at (l : list Z) : option (list Z * list Z) :=
  match l with
  | a :: b :: c :: d :: h :: e :: f :: _ =>
      if forallb is_decimal [a; b; c; d; e; f] && Z.eqb h 0x2D%Z
      then Some ([a; b; c; d], [e; f])
      else None
  | _ => None
  end.

(** [(\d{4})] anchored at the start. *)
Definition year_at (l : list Z) : option (list Z) :=
  match l with
  | a :: b :: c :: d :: _ => if forallb is_decimal [a; b; c; d] then Some [a; b; c; d] else None
  | _ => None
  end.

(** A text that [\d{4}-\d{2}] matches in full. *)
Definition is_period_text (p : string) : bool :=
  match decode p with
  | [a; b; c; d; h; e; f] => forallb is_decimal [a; b; c; d; e; f] && Z.eqb h 0x2D%Z
  | _ => false
  end.

(** The canonical period shape [dddd-dd] in ASCII digits, the shape of the
    periods the code formats with [strftime]. *)
Definition is_period_shape (p : string) : bool :=
  match p with
  | String a (String b (String c (String d (String h (String e (String f EmptyString)))))) =>
      forallb is_digit [a; b; c; d; e; f] && Ascii.eqb h "-"
  | _ => false
  end.

(** ** Whitespace, [strip] and [replace] *)

(** The length in bytes of the whitespace code point at the head of [s]
    ([0] if there is none): the characters of [str.isspace], which are
    also those of [\s] in a [str] pattern and those [str.strip()] removes --
    U+0009..U+000D, U+001C..U+0020, U+0085, U+00A0, U+1680,
    U+2000..U+200A, U+2028, U+2029, U+202F, U+205F and U+3000. *)
Definition space_len (s : string) : nat :=
  match s with
  | String a r =>
      let n := nat_of_ascii a in
      if in_range 9 13 n || in_range 28 32 n then 1
      else match r with
           | String b r2 =>
               let m := nat_of_ascii b in
               if Nat.eqb n 194 then (if Nat.eqb m 133 || Nat.eqb m 160 then 2 else 0)
               else match r2 with
                    | String c _ =>
                        let k := nat_of_ascii c in
                        if Nat.eqb n 225 && Nat.eqb m 154 && Nat.eqb k 128 then 3
                        else if Nat.eqb n 226 && Nat.eqb m 128 &&
                                (in_range 128 138 k || in_range 168 169 k || Nat.eqb k 175) then 3
                        else if Nat.eqb n 226 && Nat.eqb m 129 && Nat.eqb k 159 then 3
                        else if Nat.eqb n 227 && Nat.eqb m 128 && Nat.eqb k 128 then 3
                        else 0
                    | EmptyString => 0
                    end
           | EmptyString => 0
           end
  | EmptyString => 0
  end.

Definition str_drop (k : nat) (s : string) : string := substring k (String.length s - k) s.

(** Drop leading whitespace; each step removes at least one byte, so the
    length of [s] is enough fuel. *)
Fixpoint lstrip_fuel (fuel : nat) (s : string) : string :=
  match fuel with
  | 0 => s
  | S f => match space_len s with 0 => s | k => lstrip_fuel f (str_drop k s) end
  end.

Definition py_lstrip (s : string) : string := lstrip_fuel (String.length s) s.

Definition is_all_space (s : string) : bool := String.eqb (py_lstrip s) "".

(** [s.rstrip()]: cut at the first position from which only whitespace
    follows (whitespace starts with an ASCII or a lead byte, never with a
    continuation byte, so byte positions do not split a code point). *)
Fixpoint py_rstrip (s : string) : string :=
  match s with
  | EmptyString => EmptyString
  | String c r => if is_all_space s then EmptyString else String c (py_rstrip r)
  end.

(** [s.strip()]. *)
Definition py_strip (s : string) : string := py_rstrip (py_lstrip s).

(** [s.replace(c, d)] for one-character [c] and [d] ([d = None] deletes). *)
Fixpoint replace_char (c : ascii) (d : option ascii) (s : string) : string :=
  match s with
  | EmptyString => EmptyString
  | String x r =>
      let r' := replace_char c d r in
      if Ascii.eqb x c then match d with Some y => String y r' | None => r' end
      else String x r'
  end.

(** [p] followed by the rest of [s], if [s] starts with [p]. *)
Definition strip_prefix (p s : string) : option string :=
  if String.prefix p s then Some (str_drop (String.length p) s) else None.

(** [\s+] followed by a token that is not whitespace: the greedy run of at
    least one whitespace code point, and what follows it. *)
Definition spaces1 (s : string) : option string :=
  match space_len s with 0 => None | _ => Some (py_lstrip s) end.

(** [\d{2}\.\d{2}\.\d{4}] at the start of [s]: the match and the rest. *)
Definition dmy_at (s : string) : option (string * string) :=
  match s with
  | String a (String b (String p1 (String c (String d (String p2
      (String e (String f (String g (String h r))))))))) =>
      if forallb is_digit [a; b; c; d; e; f; g; h] && Ascii.eqb p1 "." && Ascii.eqb p2 "."
      then Some (String a (String b (String p1 (String c (String d (String p2
                   (String e (String f (String g (String h EmptyString))))))))), r)
      else None
  | _ => None
  end.

(** ** Lemmas *)

Lemma py_in_empty hay : py_in "" hay = true.
Proof. destruct hay; reflexivity. Qed.

Lemma prefix_app_l (p r : string) : String.prefix p (p ++ r) = true.
Proof.
  induction p as [|c p IH]; simpl; [by destruct r|].
  by destruct (ascii_dec c c).
Qed.

(** [needle in pre ++ needle ++ post]. *)
Lemma py_in_app (needle pre post : string) : py_in needle (pre ++ needle ++ post) = true.
Proof.
  induction pre as [|c pre IH]; simpl.
  - destruct needle; simpl; [apply py_in_empty|].
    destruct (ascii_dec a a); [|done]. by rewrite prefix_app_l.
  - rewrite IH. apply orb_true_r.
Qed.

Lemma prefix_split (n h : string) : String.prefix n h = true -> exists B, h = n ++ B.
Proof.
  revert h. induction n as [|c n IH]; intros h H; [by exists h|].
  destruct h as [|c' h]; [done|]. simpl in H.
  destruct (ascii_dec c c') as [->|]; [|done].
  destruct (IH h H) as [B ->]. by exists B.
Qed.

(** [py_in] is the byte substring test. *)
Lemma py_in_spec (n h : string) : py_in n h = true <-> exists A B, h = A ++ n ++ B.
Proof.
  split; [|intros (A & B & ->); apply py_in_app].
  induction h as [|c h IH]; cbn [py_in].
  - rewrite orb_false_r. destruct n; [intros _; by exists "", ""|done].
  - intros [Hp|Hr]%orb_true_iff.
    + destruct (prefix_split _ _ Hp) as [B ->]. by exists "", B.
    + destruct (IH Hr) as (A & B & ->). by exists (String c A), B.
Qed.

(** [needle in hay] on the UTF-8 representation is Python's [in] on
    code points: for a needle that is text (no escaped byte), the byte test
    holds exactly when the needle's code points occur contiguously in the
    hay's.  A match can neither start nor end inside a multi-byte sequence,
    because the needle starts with a byte that begins a code point. *)
Lemma py_in_code_points (n h : string) :
  Forall scalar (decode n) ->
  py_in n h = true <-> exists pre post, decode h = (pre ++ decode n ++ post)%list.
Proof.
  intros Hn. rewrite py_in_spec. split.
  - intros (A & B & ->). destruct (decode n) as [|c l] eqn:E.
    { exists (decode (A ++ n ++ B)), []. by rewrite app_nil_r. }
    assert (Hn' : n = encode (c :: l)) by (rewrite <- E; symmetry; apply encode_decode).
    exists (decode A), (decode B). rewrite Hn'.
    rewrite decode_app_free, decode_encode_app by
      (done || (rewrite encode_cons, <- str_app_assoc; apply encode_cp_free; by inversion Hn)).
    done.
  - intros (pre & post & Hd). exists (encode pre), (encode post).
    by rewrite <- (encode_decode h), Hd, !encode_app, encode_decode.
Qed.

(** [re_search] returns a match found at some split point of the input. *)
Lemma re_search_Some {A} (m : string -> option A) s x :
  re_search m s = Some x -> exists pre suf, s = pre ++ suf /\ m suf = Some x.
Proof.
  induction s as [|c r IH]; simpl; destruct (m _) eqn:E.
  - intros [= <-]. by exists "", "".
  - done.
  - intros [= <-]. by exists "", (String c r).
  - intros H. destruct (IH H) as (pre & suf & -> & Hm). by exists (String c pre), suf.
Qed.

Lemma re_search_cp_Some {A} (m : list Z -> option A) l x :
  re_search_cp m l = Some x -> exists pre suf, l = (pre ++ suf)%list /\ m suf = Some x.
Proof.
  induction l as [|c r IH]; simpl; destruct (m _) eqn:E.
  - intros [= <-]. by exists [], [].
  - done.
  - intros [= <-]. by exists [], (c :: r).
  - intros H. destruct (IH H) as (pre & suf & -> & Hm). by exists (c :: pre), suf.
Qed.

Lemma forallb_decimal_scalar l : forallb is_decimal l = true -> Forall scalar l.
Proof.
  induction l as [|c l IH]; simpl; [constructor|].
  intros [Hc Hl]%andb_true_iff. constructor; [by apply decimal_scalar | by apply IH].
Qed.

(** A text [encode y ++ "-" ++ rest] decodes to [y], the hyphen and the
    decoding of [rest], when [y] is made of decimal digits. *)
Lemma decode_period y rest :
  forallb is_decimal y = true -> decode (encode y ++ "-" ++ rest) = (y ++ 0x2D%Z :: decode rest)%list.
Proof. intros H. rewrite decode_encode_app by by apply forallb_decimal_scalar. done. Qed.

(** [y ++ "-" ++ m] has the period shape when [y] is four decimal digits
    and [m] decodes to two. *)
Lemma is_period_text_intro y m :
  forallb is_decimal y = true -> List.length y = 4 ->
  forallb is_decimal (decode m) = true -> List.length (decode m) = 2 ->
  is_period_text (encode y ++ "-" ++ m) = true.
Proof.
  intros Hy Hly Hm Hlm. unfold is_period_text. rewrite decode_period by done.
  destruct y as [|a [|b [|c [|d [|]]]]]; try done.
  destruct (decode m) as [|e [|f [|]]]; try done.
  simpl in *. rewrite ?Z.eqb_refl, ?andb_true_r. repeat rewrite andb_true_iff in *. intuition.
Qed.

(** A match of [(\d{4})-(\d{2})] gives a text of the same shape. *)
Lemma period_at_text l y m :
  period_at l = Some (y, m) -> is_period_text (encode y ++ "-" ++ encode m) = true.
Proof.
  unfold period_at. destruct l as [|a [|b [|c [|d [|h [|e [|f r]]]]]]]; try done.
  destruct (forallb _ _ && _) eqn:E; [|done]. intros [= <- <-].
  apply andb_true_iff in E as [Hd _]. simpl in Hd. repeat rewrite andb_true_iff in Hd.
  destruct Hd as (Ha & Hb & Hc & Hd' & He & Hf & _).
  assert (Hef : forallb is_decimal [e; f] = true) by (simpl; by rewrite He, Hf).
  assert (Hs : decode (encode [e; f]) = [e; f]) by (apply decode_encode, forallb_decimal_scalar, Hef).
  apply is_period_text_intro; rewrite ?Hs; [simpl; by rewrite Ha, Hb, Hc, Hd'|done..].
Qed.

(** ** Byte values *)

Lemma nat_of_byte n : n < 256 -> nat_of_ascii (byte n) = n.
Proof. apply Ascii.nat_ascii_embedding. Qed.

Lemma in_range_spec lo hi n : in_range lo hi n = true <-> lo <= n <= hi.
Proof. unfold in_range. rewrite andb_true_iff, !Nat.leb_le. done. Qed.

(** ** Cutting a date text to its period *)

Lemma digit_ascii c : is_digit c = true -> (0 <= bz c < 0x80)%Z.
Proof.
  unfold is_digit, bz. rewrite in_range_spec. pose proof (Ascii.nat_ascii_bounded c). lia.
Qed.

(** An ASCII character is one code point and encodes back to itself. *)
Lemma decode_ascii c r : (bz c < 0x80)%Z -> decode (String c r) = bz c :: decode r.
Proof. intros H. cbn [decode]. destruct (Z.ltb_spec (bz c) 0x80); [done|lia]. Qed.

Lemma encode_ascii c : (bz c < 0x80)%Z -> encode_cp (bz c) = String c "".
Proof. intros H. pose proof (bz_bound c). by rewrite encode_cp1, zb_bz by lia. Qed.

(** The text [dddd-dd-...] is cut to the period [dddd-dd]. *)
Lemma take7_shape a b c d e f r :
  forallb is_digit [a; b; c; d; e; f] = true ->
  is_period_shape (py_take 7 (String a (String b (String c (String d
                     (String "-" (String e (String f (String "-" r))))))))) = true.
Proof.
  intros H. pose proof H as H'. cbn in H'. repeat rewrite andb_true_iff in H'.
  destruct H' as (Ha & Hb & Hc & Hd & He & Hf & _).
  assert (Hm : (bz "-" < 0x80)%Z) by (vm_compute; reflexivity).
  unfold py_take.
  rewrite !decode_ascii by ((apply digit_ascii; assumption) || exact Hm).
  cbn [firstn encode]. rewrite !encode_ascii by ((apply digit_ascii; assumption) || exact Hm).
  rewrite ?str_app_cons, ?str_app_nil_l. cbn [is_period_shape]. by rewrite H.
Qed.

(** [rfind_from] with an accumulator is the search without one, falling
    back to the accumulator. *)
Lemma rfind_from_acc c s i acc :
  rfind_from c s i acc = match rfind_from c s i None with Some k => Some k | None => acc end.
Proof.
  revert i acc. induction s as [|x s IH]; intros i acc; [done|]. cbn [rfind_from].
  rewrite (IH _ (if Ascii.eqb x c then _ else _)), (IH _ (if Ascii.eqb x c then Some i else None)).
  destruct (rfind_from c s (S i) None), (Ascii.eqb x c); done.
Qed.

Lemma rfind_from_none_shift c s i j :
  rfind_from c s i None = None -> rfind_from c s j None = None.
Proof.
  revert i j. induction s as [|x s IH]; intros i j; [done|]. cbn [rfind_from].
  destruct (Ascii.eqb x c).
  - rewrite (rfind_from_acc c s (S i) (Some i)). by destruct (rfind_from c s (S i) None).
  - intros H. by rewrite (IH (S i) (S j) H).
Qed.

Lemma rfind_from_app c s1 s2 i acc :
  rfind_from c (s1 ++ s2) i acc = rfind_from c s2 (i + String.length s1) (rfind_from c s1 i acc).
Proof.
  revert i acc. induction s1 as [|x s1 IH]; intros i acc; simpl; [by rewrite Nat.add_0_r|].
  rewrite IH. by rewrite Nat.add_succ_r.
Qed.

(** The last [c] of [s1 ++ c :: s2], when [s2] has none, is at
    [length s1]. *)
Lemma rfind_from_last c s1 s2 :
  rfind_from c s2 0 None = None ->
  rfind_from c (s1 ++ String c s2) 0 None = Some (String.length s1).
Proof.
  intros H. rewrite rfind_from_app. cbn [rfind_from]. rewrite Ascii.eqb_refl.
  rewrite (rfind_from_acc c s2). by rewrite (rfind_from_none_shift c s2 0 _ H).
Qed.

Lemma substring_full s : substring 0 (String.length s) s = s.
Proof. induction s as [|x s IH]; simpl; [done|]. by rewrite IH. Qed.

Lemma substring_app_l s1 s2 : substring 0 (String.length s1) (s1 ++ s2) = s1.
Proof. induction s1 as [|x s1 IH]; simpl; [by destruct s2|]. by rewrite IH. Qed.

Lemma substring_app_r s1 s2 n m :
  substring (String.length s1 + n) m (s1 ++ s2) = substring n m s2.
Proof. induction s1 as [|x s1 IH]; simpl; [done|]. exact IH. Qed.

