(* ===== verification/PyValue.v ===== *)
(** * Python values produced by parsers

    A parser returns a Python value; the importer inspects it with
    truthiness ([not parsed_data]), [isinstance(_, dict)], key membership,
    [dict.get], subscripting and slicing ([parsed_data['period_start'][:7]]),
    and serialises it with [_serialize_parsed_data]
    ([import_reports.py], lines 243-273).  [pyval] covers the value kinds
    the parsers of this repository produce; a dict is its list of items in
    insertion order.  Numbers are exact rationals: the rounding of float
    arithmetic is not modelled. *)

From Stdlib Require Import QArith_base.
From S2P Require Import Prelude PyStr.

Open Scope string_scope.

Inductive pyval : Type :=
| VNone
| VBool (b : bool)
| VNum (q : Q)                       (** an [int] or a [float], as an exact rational *)
| VStr (s : string)
| VDate (iso : string)               (** a [date]/[datetime]; [iso] is its [isoformat()] *)
| VList (l : list pyval)
| VDict (d : list (string * pyval)).

Definition pydict := list (string * pyval).

(** [bool(v)]. *)
Definition truthy (v : pyval) : bool :=
  match v with
  | VNone => false
  | VBool b => b
  | VNum q => negb (Qeq_bool q 0)
  | VStr s => negb (String.eqb s "")
  | VDate _ => true
  | VList l => negb (Nat.eqb (List.length l) 0)
  | VDict d => negb (Nat.eqb (List.length d) 0)
  end.

(** [isinstance(v, dict)]. *)
Definition isinstance_dict (v : pyval) : bool :=
  match v with VDict _ => true | _ => false end.

(** [k in d]. *)
Definition py_contains (d : pydict) (k : string) : bool :=
  existsb (fun '(k', _) => String.eqb k' k) d.

(** [d.get(k, default)]. *)
Definition py_get (d : pydict) (k : string) (default : pyval) : pyval :=
  match find_first (fun '(k', _) => String.eqb k' k) d with
  | Some (_, v) => v
  | None => default
  end.

(** [d[k]]: a missing key raises [KeyError]; [str(e)] is the quoted key. *)
Definition py_getitem (d : pydict) (k : string) : exn + pyval :=
  match find_first (fun '(k', _) => String.eqb k' k) d with
  | Some (_, v) => inr v
  | None => inl (KeyError ("'" ++ k ++ "'"))
  end.

(** [v[:n]]: strings and lists slice, every other kind raises [TypeError]
    (a dict with the message of Python 3.11 and earlier). *)
Definition py_slice_to (n : nat) (v : pyval) : exn + pyval :=
  match v with
  | VStr s => inr (VStr (py_take n s))
  | VList l => inr (VList (firstn n l))
  | VNone => inl (TypeError "'NoneType' object is not subscriptable")
  | VBool _ => inl (TypeError "'bool' object is not subscriptable")
  | VNum _ => inl (TypeError "'int' object is not subscriptable")
  | VDate _ => inl (TypeError "'datetime.date' object is not subscriptable")
  | VDict _ => inl (TypeError "unhashable type: 'slice'")
  end.

Lemma py_get_dict_get d k def :
  py_get d k def = match dict_get d k with Some v => v | None => def end.
Proof. unfold py_get, dict_get. by destruct (find_first _ d) as [[]|]. Qed.

(** ** [_serialize_parsed_data] *)

(** A list item: only a date is converted; nested containers are kept. *)
Definition serialize_item (v : pyval) : pyval :=
  match v with
  | VDate iso => VStr iso
  | x => x
  end.

(** A value of the dict: dates become ISO strings, dicts are serialised
    recursively, list items are converted one level deep. *)
Fixpoint serialize_value (v : pyval) : pyval :=
  match v with
  | VDate iso => VStr iso
  | VDict d =>
      VDict ((fix go (d : pydict) : pydict :=
                match d with
                | [] => []
                | (k, x) :: r => (k, serialize_value x) :: go r
                end) d)
  | VList l => VList (map serialize_item l)
  | x => x
  end.

Definition _serialize_parsed_data (d : pydict) : pydict :=
  map (fun '(k, v) => (k, serialize_value v)) d.

Lemma serialize_value_dict d :
  serialize_value (VDict d) = VDict (_serialize_parsed_data d).
Proof. simpl. f_equal. induction d as [|[k x] r IH]; simpl; by f_equal. Qed.

(** The values [_serialize_parsed_data] is meant to leave free of dates:
    the dict's values, recursively through dicts, and direct list items. *)
Fixpoint date_free (v : pyval) : Prop :=
  match v with
  | VDate _ => False
  | VDict d => (fix go (d : pydict) : Prop :=
                  match d with
                  | [] => True
                  | (_, x) :: r => date_free x /\ go r
                  end) d
  | VList l => Forall (fun x => match x with VDate _ => False | _ => True end) l
  | _ => True
  end.

Definition dict_date_free (d : pydict) : Prop := Forall (fun '(_, v) => date_free v) d.

Lemma date_free_dict d : date_free (VDict d) <-> dict_date_free d.
Proof.
  unfold dict_date_free. induction d as [|[k x] r IH]; simpl.
  - split; constructor || done.
  - rewrite Forall_cons, <- IH. done.
Qed.

Lemma serialize_value_date_free v : date_free (serialize_value v).
Proof.
  revert v. fix F 1. intros [| | | | |l|d]; simpl; try done.
  - induction l as [|x l IHl]; constructor; [by destruct x|done].
  - induction d as [|[k x] r IHd]; [done|]. split; [apply F|done].
Qed.

Lemma serialize_value_idem v : serialize_value (serialize_value v) = serialize_value v.
Proof.
  revert v. fix F 1. intros [| | | | |l|d]; simpl; try done.
  - f_equal. rewrite map_map. apply map_ext. by intros [].
  - f_equal. induction d as [|[k x] r IHd]; [done|]. simpl. by rewrite F, IHd.
Qed.


(** Serialising twice is serialising once. *)
Theorem serialize_parsed_data_idem d :
  _serialize_parsed_data (_serialize_parsed_data d) = _serialize_parsed_data d.
Proof.
  unfold _serialize_parsed_data. rewrite map_map. apply map_ext. intros [k v].
  by rewrite serialize_value_idem.
Qed.
