(* ===== verification/FilenameMeta.v ===== *)
(** * Filename metadata extraction

    Models [extract_period_from_filename] and [extract_account_from_filename]
    of [src/core/scripts/import/import_reports.py] (lines 110-151; the same
    two functions are repeated verbatim in [cleanup_unsorted_archive.py]).
    The period is the leftmost [(\d{4})-(\d{2})] match, searched over the
    code points of the name with the Unicode digits of [\d]; otherwise the
    first four digits of the name followed by a month guessed from a
    two-digit token or a Russian month name, tested in the code's order. *)

From S2P Require Import Prelude PyStr.

Open Scope string_scope.

Module FilenameMeta.

(** The [elif] chain of month guesses, in source order: the two-digit token
    tested on the raw name, the month name on the lower-cased name, and the
    month the branch returns. *)
Definition month_guesses : list (string * string * string) :=
  [("03", "март", "03"); ("04", "апрель", "04"); ("05", "май", "05");
   ("06", "июнь", "06"); ("07", "июль", "07"); ("08", "август", "08");
   ("10", "октябрь", "10"); ("11", "ноябрь", "11"); ("12", "декабрь", "12")].

Definition month_matches (filename : string) (g : string * string * string) : bool :=
  let '(num, name, _) := g in py_in num filename || py_in name (py_lower filename).

Definition extract_period_from_filename (filename : string) : string :=
  match re_search_cp period_at (decode filename) with
  | Some (y, m) => encode y ++ "-" ++ encode m
  | None =>
      match re_search_cp year_at (decode filename) with
      | Some year =>
          match find_first (month_matches filename) month_guesses with
          | Some (_, _, month) => encode year ++ "-" ++ month
          | None => "unknown"
          end
      | None => "unknown"
      end
  end.

Definition extract_account_from_filename (filename : string) : option string :=
  if py_in "4000T49" filename then Some "4000T49"
  else if py_in "S000T49" filename then Some "S000T49"
  else None.

(** ** Lemmas *)

Lemma year_at_digits l y :
  year_at l = Some y -> exists a b c d, y = [a; b; c; d] /\ forallb is_decimal y = true.
Proof.
  unfold year_at. destruct l as [|a [|b [|c [|d r]]]]; try done.
  destruct (forallb _ _) eqn:E; [|done]. intros [= <-]. exists a, b, c, d. split; [reflexivity | exact E].
Qed.

(** A text of the ASCII period shape decodes to six ASCII digits around a
    hyphen. *)
Lemma is_period_shape_decode s :
  is_period_shape s = true ->
  exists a b c d e f, decode s = [a; b; c; d; 0x2D; e; f]%Z /\
    Forall (fun x => 0x30 <= x <= 0x39)%Z [a; b; c; d; e; f].
Proof.
  destruct s as [|a [|b [|c [|d [|h [|e [|f [|]]]]]]]]; try done. cbn [is_period_shape].
  intros [Hd Hh]%andb_true_iff. apply Ascii.eqb_eq in Hh as ->.
  assert (Hdig : forall x, is_digit x = true -> (0x30 <= bz x <= 0x39)%Z).
  { intros x. unfold is_digit, bz. rewrite in_range_spec. lia. }
  cbn [forallb] in Hd. repeat rewrite andb_true_iff in Hd.
  destruct Hd as (Ha & Hb & Hc & Hd & He & Hf & _).
  assert (Hm : (bz "-" < 0x80)%Z) by (vm_compute; reflexivity).
  rewrite !decode_ascii by (exact Hm || (apply digit_ascii; assumption)).
  exists (bz a), (bz b), (bz c), (bz d), (bz e), (bz f). split; [done|].
  repeat (apply Forall_cons; split; [by apply Hdig|]). by apply Forall_nil.
Qed.

Lemma period_at_head a b c d e f r :
  forallb is_decimal [a; b; c; d; e; f] = true ->
  re_search_cp period_at (a :: b :: c :: d :: 0x2D :: e :: f :: r)%Z = Some ([a; b; c; d], [e; f]).
Proof. intros H. cbn [re_search_cp period_at]. by rewrite H, Z.eqb_refl. Qed.

(** ** Properties *)

(** C31: Every result is either ["unknown"] or a text of the shape
    [\d{4}-\d{2}]: four decimal digits, a hyphen and two decimal digits. *)
Theorem extract_period_shape filename :
  extract_period_from_filename filename = "unknown" \/
  is_period_text (extract_period_from_filename filename) = true.
Proof.
  unfold extract_period_from_filename.
  destruct (re_search_cp period_at _) as [[y m]|] eqn:Ep.
  - right. apply re_search_cp_Some in Ep as (pre & suf & _ & Hm).
    by apply period_at_text in Hm.
  - destruct (re_search_cp year_at _) as [year|] eqn:Ey; [|by left].
    destruct (find_first _ month_guesses) as [[[num name] month]|] eqn:Eg; [|by left].
    right. apply re_search_cp_Some in Ey as (pre & suf & _ & Hy).
    apply year_at_digits in Hy as (a & b & c & d & -> & Hd).
    apply find_first_Some in Eg as [Hin _]. unfold month_guesses in Hin.
    apply is_period_text_intro; [exact Hd|done| |];
      repeat (destruct Hin as [Hin|Hin]; [injection Hin as <- <- <-; vm_compute; reflexivity|]);
      destruct Hin.
Qed.

(** C32: Finding: [\d] matches every Unicode decimal digit, so a name that
    starts with any four decimal digits, a hyphen and two decimal digits,
    in any script and mixed at will, yields that text as its period, and
    when one of the digits is not an ASCII digit the period is not of the
    ASCII [YYYY-MM] shape the specification gives periods. *)
Theorem extract_period_unicode_digits y m r :
  List.length y = 4 -> List.length m = 2 -> forallb is_decimal (y ++ m) = true ->
  extract_period_from_filename ((encode y ++ "-" ++ encode m) ++ r) = encode y ++ "-" ++ encode m /\
  (Exists (fun x => ~ (0x30 <= x <= 0x39)%Z) (y ++ m) ->
   is_period_shape (encode y ++ "-" ++ encode m) = false).
Proof.
  intros Hy Hm Hd. rewrite forallb_app in Hd. apply andb_true_iff in Hd as [Hdy Hdm].
  assert (Hdec : forall r', decode (encode y ++ "-" ++ encode m ++ r') = (y ++ 0x2D%Z :: m ++ decode r')%list).
  { intros r'. rewrite decode_period by done.
    by rewrite decode_encode_app by by apply forallb_decimal_scalar. }
  destruct y as [|a [|b [|c [|d [|]]]]]; try done.
  destruct m as [|e [|f [|]]]; try done.
  split.
  - unfold extract_period_from_filename. rewrite <-!str_app_assoc, Hdec.
    cbn [app]. rewrite period_at_head; [done|]. cbn in Hdy, Hdm |- *.
    repeat rewrite andb_true_iff in *. intuition.
  - intros Hex. destruct (is_period_shape _) eqn:Hs; [exfalso|done].
    apply is_period_shape_decode in Hs as (a' & b' & c' & d' & e' & f' & Hs & Hf).
    pose proof (Hdec "") as H0. rewrite str_app_nil_r in H0. rewrite H0 in Hs.
    cbn in Hs. simplify_eq. cbn [app] in Hex.
    apply Exists_exists in Hex as (x & Hx & Hn). apply Hn.
    rewrite Forall_forall in Hf. by apply Hf.
Qed.

Lemma extract_period_unicode_digits_witness :
  extract_period_from_filename ((encode [0x662; 0x660; 0x662; 0x663]%Z ++ "-" ++ encode [0x660; 0x667]%Z) ++ ".html")
    = encode [0x662; 0x660; 0x662; 0x663]%Z ++ "-" ++ encode [0x660; 0x667]%Z /\
  (Exists (fun x => ~ (0x30 <= x <= 0x39)%Z) [0x662; 0x660; 0x662; 0x663; 0x660; 0x667]%Z ->
   is_period_shape (encode [0x662; 0x660; 0x662; 0x663]%Z ++ "-" ++ encode [0x660; 0x667]%Z) = false).
Proof. apply (extract_period_unicode_digits [0x662; 0x660; 0x662; 0x663]%Z [0x660; 0x667]%Z ".html"); reflexivity. Defined.

(** ** Behaviour on concrete names *)

(** The canonical [YYYY-MM] token wins, wherever it is. *)
Example extract_period_canonical :
  extract_period_from_filename "broker_report_4000T49_2023-07.html" = "2023-07" /\
  extract_account_from_filename "broker_report_4000T49_2023-07.html" = Some "4000T49".
Proof. vm_compute. auto. Qed.

(** Finding: the two-digit month guess is a substring test on the whole
    name, so the digits of the year itself are read as a month. *)
Example month_guess_reads_year :
  extract_period_from_filename "report_2030.html" = "2030-03".
Proof. vm_compute. reflexivity. Qed.

(** Finding: the canonical pattern does not check the month, so a month
    [13] is accepted as a period. *)
Example period_month_unchecked :
  extract_period_from_filename "report_2023-13.html" = "2023-13".
Proof. vm_compute. reflexivity. Qed.

(** Finding: January, February and September have no guess, so a name
    with only a Russian month name and a year gives ["unknown"]. *)
Example month_guess_missing_january :
  extract_period_from_filename "отчет_январь_2024.html" = "unknown".
Proof. vm_compute. reflexivity. Qed.

End FilenameMeta.
