(* ===== verification/Classifier.v ===== *)
(** * Broker classification

    Models [detect_broker_tiered] and the legacy [detect_broker_from_filename]
    of [src/core/scripts/import/import_reports.py] (lines 51-108).  The
    pattern table is the JSON object loaded by [load_broker_patterns]: an
    insertion-ordered mapping from broker name to a configuration whose
    [filename_patterns] and [html_patterns] default to the empty list.
    Both tiers scan the table in order, skip the entry named ["unknown"], and
    return the first broker with a pattern that is a substring of the
    lower-cased file name (tier 1) or content (tier 2). *)

From S2P Require Import Prelude PyStr.

Open Scope string_scope.

Module Classifier.

(** One entry of [brokers_patterns.json]; a missing key is the empty list,
    as [config.get('filename_patterns', [])]. *)
Record BrokerConfig := mkBrokerConfig {
  filename_patterns : list string;
  html_patterns : list string
}.

Definition PatternTable := list (string * BrokerConfig).

(** Does any pattern of the list, lower-cased, occur in [hay]? *)
Definition any_pattern (pats : list string) (hay : string) : bool :=
  existsb (fun p => py_in (py_lower p) hay) pats.

(** One tier: the first broker (other than ["unknown"]) whose selected
    patterns match the lower-cased text. *)
Definition tier_match (sel : BrokerConfig -> list string) (hay : string)
    (patterns : PatternTable) : option string :=
  match find_first (fun '(b, cfg) => negb (String.eqb b "unknown") && any_pattern (sel cfg) hay)
                   patterns with
  | Some (b, _) => Some b
  | None => None
  end.

Definition detect_broker_tiered (name content : string) (patterns : PatternTable) : string :=
  match tier_match filename_patterns (py_lower name) patterns with
  | Some b => b
  | None =>
      match tier_match html_patterns (py_lower content) patterns with
      | Some b => b
      | None => "unknown"
      end
  end.

(** The hard-coded legacy detector used by the [--broker] filter and the
    dry run of [import_reports]. *)
Definition detect_broker_from_filename (filename : string) : string :=
  let l := py_lower filename in
  if py_in "4000t49" l || py_in "s000t49" l then "tinkoff"
  else if py_in "sber" l || py_in "сбер" l then "sber"
  else if py_in "vtb" l || py_in "втб" l then "vtb"
  else "unknown".

(** ** Lemmas *)

Lemma tier_match_Some sel hay patterns b :
  tier_match sel hay patterns = Some b ->
  b <> "unknown" /\ exists cfg, In (b, cfg) patterns /\ any_pattern (sel cfg) hay = true.
Proof.
  unfold tier_match. destruct (find_first _ _) as [[b' cfg]|] eqn:E; [|done].
  intros [= <-]. apply find_first_Some in E as [Hin Hp].
  apply andb_true_iff in Hp as [Hu Hany]. apply negb_true_iff, String.eqb_neq in Hu.
  eauto.
Qed.

Lemma tier_match_app sel hay (p1 p2 : PatternTable) :
  tier_match sel hay (p1 ++ p2)%list =
  match tier_match sel hay p1 with Some b => Some b | None => tier_match sel hay p2 end.
Proof.
  unfold tier_match. rewrite find_first_app.
  by destruct (find_first _ p1) as [[]|].
Qed.

(** ** Properties *)


(** Filename evidence is authoritative: when a filename pattern matches,
    the content is never consulted. *)
Theorem filename_tier_precedence name content patterns b :
  tier_match filename_patterns (py_lower name) patterns = Some b ->
  detect_broker_tiered name content patterns = b.
Proof. unfold detect_broker_tiered. by intros ->. Qed.

(** Appending brokers to the table never changes the broker of a file
    recognised by its name through the original table. *)
Theorem detect_broker_append_stable name content (p1 p2 : PatternTable) b :
  tier_match filename_patterns (py_lower name) p1 = Some b ->
  detect_broker_tiered name content (p1 ++ p2)%list = b.
Proof.
  intros H. apply filename_tier_precedence. by rewrite tier_match_app, H.
Qed.

(** ** Concrete tables *)

Definition sber_only : PatternTable := [("sber", mkBrokerConfig ["sber"] ["сбербанк"])].
Definition more_brokers : PatternTable :=
  [("unknown", mkBrokerConfig ["report"] []); ("tinkoff", mkBrokerConfig ["sber"; "tinkoff"] [])].

Lemma filename_tier_precedence_witness :
  tier_match filename_patterns (py_lower "SBER_2023-07.html") sber_only = Some "sber" /\
  detect_broker_tiered "SBER_2023-07.html" "" sber_only = "sber".
Proof.
  split; [vm_compute; reflexivity|].
  apply filename_tier_precedence. vm_compute. reflexivity.
Defined.

Lemma detect_broker_append_stable_witness :
  tier_match filename_patterns (py_lower "Sber_Report.html") sber_only = Some "sber" /\
  detect_broker_tiered "Sber_Report.html" "" (sber_only ++ more_brokers)%list = "sber".
Proof.
  split; [vm_compute; reflexivity|].
  apply detect_broker_append_stable. vm_compute. reflexivity.
Defined.

(** The content tier decides when the name says nothing, in Cyrillic and
    regardless of case. *)
Example detect_broker_content_tier :
  detect_broker_tiered "report.html" "<h1>СберБанк</h1>" sber_only = "sber" /\
  detect_broker_tiered "report.html" "<h1>Bank</h1>" sber_only = "unknown".
Proof. vm_compute. auto. Qed.

(** Finding: the legacy detector behind the [--broker] filter classifies a
    Sberbank report named after its account as ["tinkoff"], while the
    tiered detector used for the import classifies it as ["sber"]. *)
Example legacy_detector_disagrees :
  detect_broker_from_filename "sber_4000T49_2023-07.html" = "tinkoff" /\
  detect_broker_tiered "sber_4000T49_2023-07.html" "" sber_only = "sber".
Proof. vm_compute. auto. Qed.

End Classifier.
