(* ===== verification/Parsers.v ===== *)
(** * Parser contract and parser registry

    Models [src/core/parsers/base_parser.py] (the part of the contract the
    importer relies on: [parse], [get_parser_version], the supported-broker
    attribute and [validate_output]), the registry of
    [src/core/parsers/__init__.py] ([PARSER_REGISTRY], [get_parser],
    [list_supported_brokers], [is_broker_supported], [register_parser],
    [get_parser_info]) and [EnhancedReportImporter._parse_file_content]
    ([import_reports.py], lines 193-241).

    A parser is a record of operations (the capability of the spec): its
    [parse] maps the report text to the Python value it returns or to the
    exception it raises.  A parser class is what the registry stores;
    instantiating it may raise. *)

From S2P Require Import Prelude PyStr PyValue.

Open Scope string_scope.

Module Parsers.

Inductive ParseOutcome : Type :=
| Returned (v : pyval)
| Raised (e : exn).

Record Parser := mkParser {
  parse : string -> ParseOutcome;
  get_parser_version : string;
  (** the [_supported_broker] attribute, if [set_supported_broker] ran *)
  supported_attr : option string;
  class_name : string
}.

(** [BaseHtmlParser.get_supported_broker]. *)
Definition get_supported_broker (p : Parser) : string :=
  match supported_attr p with Some b => b | None => "unknown" end.

(** A registry value: calling the class builds a parser or raises. *)
Record ParserClass := mkParserClass { instantiate : exn + Parser }.

Definition Registry := list (string * ParserClass).

(** [BaseHtmlParser.get_required_fields]. *)
Definition get_required_fields : list string :=
  ["parser_version"; "balance_ending"; "account_open_date"; "trade_count";
   "instruments"; "financial_result"].

(** [BaseHtmlParser.validate_output]: only a non-dict fails; missing
    required fields and a missing [parser_version] are warnings. *)
Definition validate_output (v : pyval) : bool := isinstance_dict v.

(** [BaseHtmlParser.set_supported_broker]. *)
Definition set_supported_broker (p : Parser) (broker : string) : Parser :=
  {| parse := parse p; get_parser_version := get_parser_version p;
     supported_attr := Some broker; class_name := class_name p |}.

(** [BaseHtmlParser.__str__]. *)
Definition parser_str (p : Parser) : string :=
  class_name p ++ "(broker=" ++ get_supported_broker p ++ ", version=" ++
  get_parser_version p ++ ")".

(** [SberHtmlParser]: its extraction ([sber_parse]) is a parameter of the
    model; its constructor sets the supported broker to ["sber"]. *)
Definition SberHtmlParser (sber_parse : string -> ParseOutcome) : Parser :=
  {| parse := sber_parse; get_parser_version := "2.0";
     supported_attr := Some "sber"; class_name := "SberHtmlParser" |}.

(** The module-level [PARSER_REGISTRY]. *)
Definition PARSER_REGISTRY (sber_parse : string -> ParseOutcome) : Registry :=
  [("sber", mkParserClass (inr (SberHtmlParser sber_parse)))].

Definition get_parser (reg : Registry) (broker : string) : exn + Parser :=
  match dict_get reg broker with
  | Some cls => instantiate cls
  | None => inl (ValueError ("No parser registered for broker: " ++ broker))
  end.

Definition list_supported_brokers (reg : Registry) : list string := dict_keys reg.

Definition is_broker_supported (reg : Registry) (broker : string) : bool :=
  match dict_get reg broker with Some _ => true | None => false end.

Definition register_parser (reg : Registry) (broker : string) (cls : ParserClass) : Registry :=
  dict_set broker cls reg.

Inductive ParserInfo : Type :=
| InfoError (msg : string)
| Info (broker class_name version supported_broker : string).

Definition get_parser_info (reg : Registry) (broker : string) : ParserInfo :=
  if negb (is_broker_supported reg broker)
  then InfoError ("No parser registered for broker: " ++ broker)
  else match get_parser reg broker with
       | inr p => Info broker (class_name p) (get_parser_version p) (get_supported_broker p)
       | inl e => InfoError ("Failed to get parser info: " ++ exn_msg e)
       end.

(** The status string of [_parse_file_content], as a variant. *)
Inductive ParseStatus : Type :=
| PSuccess
| PNoParserFound
| PInstantiationFailed (e : exn)
| PInvalidOutput
| PParseFailed (e : exn).

Definition _parse_file_content (reg : Registry) (broker content : string)
    : option pydict * ParseStatus :=
  if negb (is_broker_supported reg broker) then (None, PNoParserFound)
  else match get_parser reg broker with
       | inl e => (None, PInstantiationFailed e)
       | inr p =>
           match parse p content with
           | Raised e => (None, PParseFailed e)
           | Returned v =>
               if negb (truthy v) || negb (isinstance_dict v) then (None, PInvalidOutput)
               else match v with
                    | VDict d => (Some d, PSuccess)
                    | _ => (None, PInvalidOutput)
                    end
           end
       end.

(** ** Lemmas *)

Lemma is_broker_supported_In reg b :
  is_broker_supported reg b = true <-> In b (list_supported_brokers reg).
Proof.
  unfold is_broker_supported, list_supported_brokers, dict_keys, dict_get.
  induction reg as [|[k c] r IH]; simpl; [done|].
  destruct (String.eqb_spec k b) as [->|Hne]; [naive_solver|].
  rewrite IH. naive_solver.
Qed.

(** ** Properties *)

(** Registering a class makes the broker supported, and [get_parser]
    then instantiates exactly that class; other brokers are unaffected. *)
Theorem register_parser_get reg broker cls b :
  get_parser (register_parser reg broker cls) b =
  if String.eqb broker b then instantiate cls else get_parser reg b.
Proof.
  unfold get_parser, register_parser.
  destruct (String.eqb_spec broker b) as [->|Hne].
  - by rewrite dict_get_set_eq.
  - by rewrite dict_get_set_ne.
Qed.

(** Registration appends a new broker at the end of the listing and keeps
    the position of a broker registered before. *)
Theorem register_parser_listing reg broker cls :
  list_supported_brokers (register_parser reg broker cls) =
  if is_broker_supported reg broker then list_supported_brokers reg
  else (list_supported_brokers reg ++ [broker])%list.
Proof.
  destruct (is_broker_supported reg broker) eqn:E.
  - apply is_broker_supported_In in E. by apply dict_keys_set_old.
  - apply dict_keys_set_new. intros Hin.
    apply is_broker_supported_In in Hin. congruence.
Qed.

(** [get_parser] raises [ValueError] exactly for unsupported brokers. *)
Theorem get_parser_unsupported reg broker :
  is_broker_supported reg broker = false ->
  get_parser reg broker = inl (ValueError ("No parser registered for broker: " ++ broker)).
Proof. unfold is_broker_supported, get_parser. by destruct (dict_get reg broker). Qed.

(** [_parse_file_content] returns data exactly on success, and the data is
    then a non-empty dict; every failure status comes with no data. *)
Theorem parse_file_content_result reg broker content :
  match _parse_file_content reg broker content with
  | (Some d, st) => st = PSuccess /\ d <> []
  | (None, st) => st <> PSuccess
  end.
Proof.
  unfold _parse_file_content.
  destruct (is_broker_supported reg broker); [|done]. simpl.
  destruct (get_parser reg broker) as [e|p]; [done|].
  destruct (parse p content) as [v|e]; [|done].
  destruct v as [| | | | |l|d]; cbn [isinstance_dict negb orb]; rewrite ?orb_true_r; try done.
  by destruct d.
Qed.

(** The shipped registry supports exactly ["sber"], so a file classified
    ["unknown"] never reaches a parser. *)
Theorem default_registry_brokers sber_parse b :
  is_broker_supported (PARSER_REGISTRY sber_parse) b = true <-> b = "sber".
Proof.
  unfold is_broker_supported, PARSER_REGISTRY. rewrite dict_get_cons.
  destruct (String.eqb_spec "sber" b); naive_solver.
Qed.

Lemma get_parser_unsupported_witness :
  is_broker_supported (PARSER_REGISTRY (fun _ => Returned VNone)) "vtb" = false /\
  get_parser (PARSER_REGISTRY (fun _ => Returned VNone)) "vtb" =
    inl (ValueError ("No parser registered for broker: " ++ "vtb")).
Proof.
  split; [reflexivity|]. apply get_parser_unsupported. reflexivity.
Defined.

(** A parser that returns a non-dict, an empty dict or raises gives no
    data, with the status of each case. *)
Example parse_file_content_statuses :
  _parse_file_content (PARSER_REGISTRY (fun _ => Returned (VList [VNone]))) "sber" "x" = (None, PInvalidOutput) /\
  _parse_file_content (PARSER_REGISTRY (fun _ => Returned (VDict []))) "sber" "x" = (None, PInvalidOutput) /\
  _parse_file_content (PARSER_REGISTRY (fun _ => Raised (ValueError "bad"))) "sber" "x" =
    (None, PParseFailed (ValueError "bad")) /\
  _parse_file_content (PARSER_REGISTRY (fun _ => Returned VNone)) "vtb" "x" = (None, PNoParserFound).
Proof. vm_compute. auto. Qed.

End Parsers.
