(* ===== verification/Store.v ===== *)
(** * The report store

    Models the methods of [BrokerReportOperations]
    ([src/core/database/operations.py]) that the importer calls, over an
    explicit database state: the [broker_reports] rows in insertion order,
    the [import_log] rows, the id sequence, and a list of injected faults.
    Each method issues one statement; when the next injected fault is [true]
    the statement raises, and the method's [except Exception] turns this
    into its failure value ([None], [0] or [False]) with the tables
    unchanged, exactly as in the code.

    Parameters reach PostgreSQL through the driver: [None] is [NULL] and a
    [str] is text ([sql_param]).  Any other Python value passed as an
    account or period (a list, a dict, a number) is modelled as making the
    statement fail; the parsers of this repository produce only [str] or
    [None] there. *)

From S2P Require Import Prelude PyStr PyValue.

Open Scope string_scope.

Module Store.

Inductive ProcessingStatus : Type := StRaw | StParsed | StError.

Record Report := mkReport {
  r_id : nat;
  r_broker : string;
  r_account : option string;
  r_period : option string;
  r_file_name : string;
  r_file_path : string;
  r_file_hash : string;
  r_html_content : option string;
  r_raw_content : option string;
  r_file_size : N;
  r_parsed_data : option pyval;     (** the JSONB column *)
  r_status : ProcessingStatus;
  r_error_log : option string;
  r_parser_version : option string
}.

(** The [status] column of a per-file [import_log] row. *)
Inductive LogStatus : Type :=
| LDuplicateDetected | LSkipped | LCollisionMismatch | LFailure | LSuccess.

Inductive LogRow : Type :=
| FileRow (status : LogStatus) (broker : string) (account period : option string)
          (file_name file_hash : string) (error_summary : option string)
| OperationRow (operation_type : string) (broker : option string)
               (files_processed files_success files_failed : nat)
               (error_summary : option string).

Record Store := mkStore {
  reports : list Report;
  import_log : list LogRow;
  next_id : nat;
  db_faults : list bool
}.

(** One statement: consume the next injected fault. *)
Definition db_call (st : Store) : bool * Store :=
  match db_faults st with
  | [] => (false, st)
  | f :: r => (f, mkStore (reports st) (import_log st) (next_id st) r)
  end.

(** A Python value as a text parameter: [Some None] is [NULL]. *)
Definition sql_param (v : pyval) : option (option string) :=
  match v with
  | VNone => Some None
  | VStr s => Some (Some s)
  | _ => None
  end.

Section Operations.
(** [hashlib.sha256(content.encode('utf-8')).hexdigest()] *)
Variable sha256 : string -> string.

Definition insert_report (st : Store) (broker : string) (period : pyval)
    (file_name file_path : string) (html_content raw_content : option string)
    (account : pyval) (file_hash : string) (file_size : N) : option nat * Store :=
  let content := match html_content with
                 | Some h => if String.eqb h "" then default "" raw_content else h
                 | None => default "" raw_content
                 end in
  let h := if String.eqb file_hash "" then sha256 content else file_hash in
  let '(fail, st) := db_call st in
  match fail, sql_param account, sql_param period with
  | false, Some acc, Some per =>
      let row := mkReport (next_id st) broker acc per file_name file_path h
                          html_content raw_content file_size None StRaw None None in
      (Some (next_id st),
       mkStore (reports st ++ [row]) (import_log st) (S (next_id st)) (db_faults st))
  | _, _, _ => (None, st)
  end.
End Operations.

(** [SELECT * FROM broker_reports WHERE file_hash = %s], first row. *)
Definition get_report_by_hash (st : Store) (file_hash : string) : option Report * Store :=
  let '(fail, st) := db_call st in
  if fail then (None, st)
  else (find_first (fun r => String.eqb (r_file_hash r) file_hash) (reports st), st).

(** [account IS NOT DISTINCT FROM %s] treats two [NULL]s as equal. *)
Definition not_distinct (a b : option string) : bool :=
  match a, b with
  | None, None => true
  | Some x, Some y => String.eqb x y
  | _, _ => false
  end.

(** [period = %s] is never true when either side is [NULL]. *)
Definition sql_eq (a b : option string) : bool :=
  match a, b with
  | Some x, Some y => String.eqb x y
  | _, _ => false
  end.

Definition triple_matches (broker : string) (acc per : option string) (r : Report) : bool :=
  String.eqb (r_broker r) broker && not_distinct (r_account r) acc && sql_eq (r_period r) per.

(** [WHERE broker = %s AND account IS NOT DISTINCT FROM %s AND period = %s]. *)
Definition get_report_by_triple (st : Store) (broker : string) (account period : pyval)
    : option Report * Store :=
  let '(fail, st) := db_call st in
  match fail, sql_param account, sql_param period with
  | false, Some acc, Some per => (find_first (triple_matches broker acc per) (reports st), st)
  | _, _, _ => (None, st)
  end.

Definition set_parsed (report_id : nat) (data : pydict) (status : ProcessingStatus) (r : Report) : Report :=
  if Nat.eqb (r_id r) report_id
  then mkReport (r_id r) (r_broker r) (r_account r) (r_period r) (r_file_name r)
                (r_file_path r) (r_file_hash r) (r_html_content r) (r_raw_content r)
                (r_file_size r) (Some (VDict data)) status (r_error_log r) (r_parser_version r)
  else r.

(** [UPDATE ... SET parsed_data, processing_status WHERE id = %s]; the
    result is whether a row was updated. *)
Definition update_report_parsed_data (st : Store) (report_id : nat) (data : pydict)
    (status : ProcessingStatus) : bool * Store :=
  let '(fail, st) := db_call st in
  if fail then (false, st)
  else (existsb (fun r => Nat.eqb (r_id r) report_id) (reports st),
        mkStore (map (set_parsed report_id data status) (reports st))
                (import_log st) (next_id st) (db_faults st)).

(** [log_import_file]: one per-file audit row; the returned id is [0] on
    failure. *)
Definition log_import_file (st : Store) (status : LogStatus) (broker : string)
    (account period : pyval) (file_name file_hash : string) (error_summary : option string)
    : nat * Store :=
  let '(fail, st) := db_call st in
  match fail, sql_param account, sql_param period with
  | false, Some acc, Some per =>
      (S (List.length (import_log st)),
       mkStore (reports st)
               (import_log st ++ [FileRow status broker acc per file_name file_hash error_summary])
               (next_id st) (db_faults st))
  | _, _, _ => (0, st)
  end.

(** [log_import_operation]: the aggregate audit row of a run. *)
Definition log_import_operation (st : Store) (operation_type : string) (broker : option string)
    (files_processed files_success files_failed : nat) (error_summary : option string)
    : nat * Store :=
  let '(fail, st) := db_call st in
  if fail then (0, st)
  else (S (List.length (import_log st)),
        mkStore (reports st)
                (import_log st ++ [OperationRow operation_type broker files_processed
                                                files_success files_failed error_summary])
                (next_id st) (db_faults st)).

(** ** Invariants of the store *)

(** Report ids are distinct and below the next id. *)
Definition ids_ok (st : Store) : Prop :=
  unique_by r_id (reports st) /\ Forall (fun r => r_id r < next_id st) (reports st).

(** P1: no two stored reports share a content hash. *)
Definition hash_unique (st : Store) : Prop := unique_by r_file_hash (reports st).

(** ** Lemmas *)

Lemma db_call_reports st : (db_call st).2.(reports) = reports st.
Proof. unfold db_call. by destruct (db_faults st). Qed.

Lemma db_call_next_id st : (db_call st).2.(next_id) = next_id st.
Proof. unfold db_call. by destruct (db_faults st). Qed.

Lemma db_call_log st : (db_call st).2.(import_log) = import_log st.
Proof. unfold db_call. by destruct (db_faults st). Qed.

Lemma db_call_nofault st : db_faults st = [] -> db_call st = (false, st).
Proof. unfold db_call. by intros ->. Qed.

Lemma set_parsed_id i d s r : r_id (set_parsed i d s r) = r_id r.
Proof. unfold set_parsed. by destruct (Nat.eqb _ _). Qed.

Lemma set_parsed_hash i d s r : r_file_hash (set_parsed i d s r) = r_file_hash r.
Proof. unfold set_parsed. by destruct (Nat.eqb _ _). Qed.

Lemma get_report_by_hash_None st h :
  db_faults st = [] -> (get_report_by_hash st h).1 = None ->
  forall r, In r (reports st) -> r_file_hash r <> h.
Proof.
  intros Hf. unfold get_report_by_hash. rewrite db_call_nofault by done. simpl.
  intros HN r Hin Heq. eapply find_first_None in HN; [|exact Hin].
  rewrite Heq, String.eqb_refl in HN. done.
Qed.


(** [insert_report] either appends one raw row carrying the next id, or
    fails and leaves the tables as they were. *)
Lemma insert_report_cases sha st broker period fname fpath html raw account h size :
  let '(res, st') := insert_report sha st broker period fname fpath html raw account h size in
  import_log st' = import_log st /\
  ((res = None /\ reports st' = reports st /\ next_id st' = next_id st) \/
   (exists row, res = Some (next_id st) /\ r_id row = next_id st /\
      reports st' = (reports st ++ [row])%list /\ next_id st' = S (next_id st) /\
      r_broker row = broker /\ r_file_name row = fname /\ r_parsed_data row = None /\
      r_status row = StRaw /\
      r_file_hash row = (if String.eqb h "" then sha (match html with
                 | Some c => if String.eqb c "" then default "" raw else c
                 | None => default "" raw end) else h) /\
      sql_param account = Some (r_account row) /\ sql_param period = Some (r_period row))).
Proof.
  unfold insert_report. destruct (db_call st) as [fail st1] eqn:E.
  pose proof (f_equal (fun p => reports p.2) E) as Er.
  pose proof (f_equal (fun p => next_id p.2) E) as En.
  pose proof (f_equal (fun p => import_log p.2) E) as El. simpl in Er, En, El.
  rewrite db_call_reports in Er. rewrite db_call_next_id in En. rewrite db_call_log in El.
  destruct fail, (sql_param account) as [acc|] eqn:Ea, (sql_param period) as [per|] eqn:Ep;
    simpl; split; try congruence; try (left; repeat split; congruence).
  right. eexists. rewrite <- Er, <- En. repeat split; done.
Qed.

Lemma update_report_parsed_data_reports st i d s :
  reports (update_report_parsed_data st i d s).2 = reports st \/
  reports (update_report_parsed_data st i d s).2 = map (set_parsed i d s) (reports st).
Proof.
  unfold update_report_parsed_data. destruct (db_call st) as [[] st1] eqn:E; simpl;
    pose proof (f_equal (fun p => reports p.2) E) as Er; simpl in Er;
    rewrite db_call_reports in Er; rewrite Er; auto.
Qed.

Lemma update_report_parsed_data_meta st i d s :
  next_id (update_report_parsed_data st i d s).2 = next_id st /\
  import_log (update_report_parsed_data st i d s).2 = import_log st.
Proof.
  unfold update_report_parsed_data. destruct (db_call st) as [[] st1] eqn:E; simpl;
    pose proof (f_equal (fun p => next_id p.2) E) as En;
    pose proof (f_equal (fun p => import_log p.2) E) as El;
    simpl in En, El; rewrite db_call_next_id in En; rewrite db_call_log in El; auto.
Qed.

Lemma unique_by_map_set_parsed {K} (key : Report -> K) i d s l :
  (forall r, key (set_parsed i d s r) = key r) ->
  unique_by key (map (set_parsed i d s) l) <-> unique_by key l.
Proof. intros Hk. unfold unique_by. rewrite map_map. by rewrite (map_ext _ _ Hk). Qed.

(** ** Properties *)

(** C36: The id invariant holds after [insert_report]. *)
Theorem insert_report_ids_ok sha st broker period fname fpath html raw account h size :
  ids_ok st ->
  ids_ok (insert_report sha st broker period fname fpath html raw account h size).2.
Proof.
  intros [Hu Hlt].
  pose proof (insert_report_cases sha st broker period fname fpath html raw account h size) as Hc.
  destruct (insert_report _ _ _ _ _ _ _ _ _ _ _) as [res st']. unfold ids_ok. cbn [snd].
  destruct Hc as [_ [(_ & -> & ->)|(row & _ & Hid & -> & -> & _)]]; [done|].
  split.
  - apply unique_by_snoc; [done|]. intros y Hy. rewrite Hid.
    eapply Forall_forall in Hlt; [|by apply list_elem_of_In]. lia.
  - apply Forall_app. split; [|constructor; [simpl; lia|constructor]].
    eapply Forall_impl; [exact Hlt|]. simpl. lia.
Qed.

(** [update_report_parsed_data] keeps the ids and the content hashes of
    every row, so both invariants survive it. *)
Theorem update_report_parsed_data_invariants st i d s :
  (ids_ok st -> ids_ok (update_report_parsed_data st i d s).2) /\
  (hash_unique st -> hash_unique (update_report_parsed_data st i d s).2).
Proof.
  unfold ids_ok, hash_unique. destruct (update_report_parsed_data_meta st i d s) as [En _].
  rewrite En. destruct (update_report_parsed_data_reports st i d s) as [-> | ->]; [done|].
  rewrite !unique_by_map_set_parsed; [|apply set_parsed_hash|apply set_parsed_id].
  split; [|done]. intros [Hu Hlt]. split; [done|].
  apply Forall_forall. intros r' Hr'.
  apply list_elem_of_In, in_map_iff in Hr' as (r & <- & Hr).
  rewrite set_parsed_id. eapply Forall_forall in Hlt; [exact Hlt|]. by apply list_elem_of_In.
Qed.

(** ** Hash-neutral operations

    Every operation but [insert_report] keeps the list of stored hashes,
    and none introduces a fault; these facts feed the pipeline's proof of
    hash uniqueness. *)

Definition hashes (st : Store) : list string := map r_file_hash (reports st).

Definition store_neutral (st st' : Store) : Prop :=
  hashes st' = hashes st /\ (db_faults st = [] -> db_faults st' = []).

#[export] Instance store_neutral_refl : Reflexive store_neutral.
Proof. intros st. by split. Qed.

#[export] Instance store_neutral_trans : Transitive store_neutral.
Proof. intros x y z [H1 F1] [H2 F2]. split; [congruence|auto]. Qed.

Lemma db_call_neutral st : store_neutral st (db_call st).2.
Proof.
  unfold db_call, store_neutral, hashes. destruct (db_faults st) as [|f r] eqn:E; simpl; [done|].
  split; [done|congruence].
Qed.

(** The result state of a statement: the state after [db_call], with the
    report rows either kept or rewritten without touching their hashes. *)
Ltac store_neutral_tac :=
  match goal with
  | |- context [db_call ?st] =>
      let E := fresh "Edb" in
      pose proof (db_call_neutral st) as E; destruct (db_call st); simpl in E
  end;
  repeat case_match; simpl; try assumption;
  match goal with H : store_neutral _ _ |- _ => destruct H as [Eh Ef] end;
  split; try assumption; unfold hashes in *; simpl;
  rewrite ?map_app, ?map_map;
  try (match goal with H : map _ _ = map _ _ |- _ => rewrite <- H end;
       apply map_ext; intros; apply set_parsed_hash);
  try done.

Lemma get_report_by_hash_neutral st h : store_neutral st (get_report_by_hash st h).2.
Proof. unfold get_report_by_hash. store_neutral_tac. Qed.

Lemma get_report_by_triple_neutral st b a p : store_neutral st (get_report_by_triple st b a p).2.
Proof. unfold get_report_by_triple. store_neutral_tac. Qed.

Lemma update_report_parsed_data_neutral st i d s :
  store_neutral st (update_report_parsed_data st i d s).2.
Proof. unfold update_report_parsed_data. store_neutral_tac. Qed.

Lemma log_import_file_neutral st s b a p n h e : store_neutral st (log_import_file st s b a p n h e).2.
Proof. unfold log_import_file. store_neutral_tac. Qed.

Lemma log_import_operation_neutral st t b n1 n2 n3 e :
  store_neutral st (log_import_operation st t b n1 n2 n3 e).2.
Proof. unfold log_import_operation. store_neutral_tac. Qed.

(** Queries leave the tables and the id counter as they are. *)
Definition store_readonly (st st' : Store) : Prop :=
  reports st' = reports st /\ import_log st' = import_log st /\ next_id st' = next_id st.

#[export] Instance store_readonly_refl : Reflexive store_readonly.
Proof. intros st. by repeat split. Qed.

#[export] Instance store_readonly_trans : Transitive store_readonly.
Proof. intros x y z (H1 & H2 & H3) (H4 & H5 & H6). repeat split; congruence. Qed.

Lemma db_call_readonly st : store_readonly st (db_call st).2.
Proof. unfold store_readonly. by rewrite db_call_reports, db_call_log, db_call_next_id. Qed.

Lemma get_report_by_hash_readonly st h : store_readonly st (get_report_by_hash st h).2.
Proof.
  unfold get_report_by_hash. pose proof (db_call_readonly st).
  destruct (db_call st) as [[] st1]; done.
Qed.

Lemma get_report_by_triple_readonly st b a p : store_readonly st (get_report_by_triple st b a p).2.
Proof.
  unfold get_report_by_triple. pose proof (db_call_readonly st).
  destruct (db_call st) as [f st1]; by repeat case_match.
Qed.

#[export] Hint Resolve get_report_by_hash_readonly get_report_by_triple_readonly : broker.

(** [insert_report] adds at most the hash it was given (or, for an empty
    one, the hash of the content it stores). *)
Lemma insert_report_hashes sha st broker period fname fpath html raw account h size :
  let st' := (insert_report sha st broker period fname fpath html raw account h size).2 in
  (hashes st' = hashes st \/
   hashes st' = (hashes st ++ [if String.eqb h "" then sha (match html with
                 | Some c => if String.eqb c "" then default "" raw else c
                 | None => default "" raw end) else h])%list) /\
  (db_faults st = [] -> db_faults st' = []).
Proof.
  unfold insert_report.
  match goal with
  | |- context [db_call ?st] =>
      pose proof (db_call_neutral st) as [Eh Ef]; destruct (db_call st) as [fault st1]
  end.
  simpl in *. unfold hashes in *.
  destruct fault, (sql_param account), (sql_param period); simpl; split;
    try (left; exact Eh); try exact Ef.
  right. by rewrite map_app, Eh.
Qed.

#[export] Hint Resolve get_report_by_hash_neutral get_report_by_triple_neutral
  update_report_parsed_data_neutral log_import_file_neutral log_import_operation_neutral : broker.

#[export] Hint Resolve db_call_nofault : broker.
#[export] Hint Rewrite db_call_reports db_call_next_id db_call_log set_parsed_id set_parsed_hash : broker_rw.

(** ** Concrete stores *)

Definition empty_store : Store := mkStore [] [] 1 [].

Lemma insert_report_ids_ok_witness :
  ids_ok empty_store /\
  ids_ok (insert_report (fun s => s) empty_store "sber" (VStr "2023-07") "a.html" "inbox/a.html"
            (Some "<html>") None (VStr "4000T49") "" 6).2.
Proof.
  refine (conj (conj NoDup_nil_2 (Forall_nil_2 _)) _).
  apply insert_report_ids_ok. exact (conj NoDup_nil_2 (Forall_nil_2 _)).
Defined.

(** The triple lookup matches a [NULL] account but never a [NULL]
    period. *)
Example triple_lookup_null :
  let r := mkReport 1 "sber" None None "a" "p" "h" None None 1 None StRaw None None in
  let r' := mkReport 1 "sber" None (Some "2023-07") "a" "p" "h" None None 1 None StRaw None None in
  (get_report_by_triple (mkStore [r] [] 2 []) "sber" VNone (VStr "2023-07")).1 = None /\
  (get_report_by_triple (mkStore [r] [] 2 []) "sber" VNone VNone).1 = None /\
  (get_report_by_triple (mkStore [r'] [] 2 []) "sber" VNone (VStr "2023-07")).1 = Some r'.
Proof. vm_compute. auto. Qed.

End Store.
