(* ===== verification/Archive.v ===== *)
(** * The filesystem: inbox, archive directories and file moves

    The filesystem is a finite map from (directory, file name) to a file,
    plus a list of injected faults for the calls that can raise [OSError].
    This file models
    - the directory layout of [src/core/config.py] ([Config.INBOX_PATH],
      [Config.ARCHIVE_*_PATH], with their default values);
    - [pathlib.Path.rename] as the importer uses it (POSIX [rename]: an
      existing target is replaced);
    - [FileManager.read_file_content], [is_supported_file], the name,
      path and size that [scan_directory] reports (the full scan is in
      [FileInfo.v]) and [safe_move_file] of
      [src/core/utils/file_manager.py].
    A file carries its size in bytes and its text when it decodes as UTF-8
    ([f_data = None] when it does not). *)

From stdpp Require Import gmap pretty.
From S2P Require Import Prelude PyStr PyValue.

Open Scope string_scope.

Module Archive.

Record FileObj := mkFile { f_size : N; f_data : option string }.

Abbreviation Path := (string * string)%type.

Record FS := mkFS {
  files : gmap (string * string) FileObj;
  fs_dirs : list string;          (** the directories that exist *)
  fs_faults : list bool
}.

(** ** Configuration ([config.py], default values) *)

Definition INBOX_PATH : string := "modules/broker-reports/inbox".
Definition ARCHIVE_PATH : string := "modules/broker-reports/archive".
Definition ARCHIVE_IMPORTED_PATH : string := ARCHIVE_PATH ++ "/imported".
Definition ARCHIVE_EXACT_DUPLICATES_PATH : string := ARCHIVE_PATH ++ "/exact_duplicates".
Definition ARCHIVE_LOGICAL_DUPLICATES_PATH : string := ARCHIVE_PATH ++ "/logical_duplicates".
Definition ARCHIVE_UNRECOGNIZED_PATH : string := ARCHIVE_PATH ++ "/unrecognized".

(** ** Primitive calls *)

Definition dir_exists (fs : FS) (d : string) : bool := existsb (String.eqb d) (fs_dirs fs).

(** [Path(d).mkdir(parents=True, exist_ok=True)], assumed to succeed. *)
Definition mkdir (fs : FS) (d : string) : FS :=
  if dir_exists fs d then fs else mkFS (files fs) (fs_dirs fs ++ [d]) (fs_faults fs).

(** [Config.ensure_archive_directories]. *)
Definition ensure_archive_directories (fs : FS) : FS :=
  fold_left mkdir [ARCHIVE_PATH; ARCHIVE_IMPORTED_PATH; ARCHIVE_EXACT_DUPLICATES_PATH;
                   ARCHIVE_LOGICAL_DUPLICATES_PATH; ARCHIVE_UNRECOGNIZED_PATH] fs.

(** [str(path)]. *)
Definition path_str (p : string * string) : string := p.1 ++ "/" ++ p.2.

(** One call that may raise [OSError]: consume the next injected fault. *)
Definition fs_call (fs : FS) : bool * FS :=
  match fs_faults fs with
  | [] => (false, fs)
  | f :: r => (f, mkFS (files fs) (fs_dirs fs) r)
  end.

Definition path_exists (fs : FS) (p : Path) : bool :=
  match files fs !! p with Some _ => true | None => false end.

(** [src.rename(dst)]: fails on an injected fault or a missing source;
    otherwise the file is at [dst], replacing what was there. *)
Definition path_rename (fs : FS) (src dst : Path) : (exn + unit) * FS :=
  let '(fail, fs) := fs_call fs in
  if fail then (inl (OSError "rename failed"), fs)
  else match files fs !! src with
       | None => (inl (OSError "No such file or directory"), fs)
       | Some f => (inr tt, mkFS (<[dst := f]> (delete src (files fs))) (fs_dirs fs) (fs_faults fs))
       end.

(** ** [FileManager.read_file_content] *)

Definition text_suffixes : list string := [".html"; ".txt"; ".md"].
Definition supported_extensions : list string := [".html"; ".txt"; ".pdf"; ".md"].

Definition str_mem (s : string) (l : list string) : bool := existsb (String.eqb s) l.

(** [file_size_mb > max_size_mb] with [max_size_mb = 50]: the float
    quotient [size / 2^20] exceeds 50 exactly when [size > 50 * 2^20]. *)
Definition too_large (size : N) : bool := N.ltb (50 * 1048576) size.

Definition read_file_content (fs : FS) (p : Path) : option string :=
  match files fs !! p with
  | None => None
  | Some f =>
      if too_large (f_size f) then None
      else let suf := py_lower (py_suffix p.2) in
           if str_mem suf text_suffixes then f_data f
           else if String.eqb suf ".pdf" then Some ("[PDF_CONTENT_PLACEHOLDER: " ++ p.2 ++ "]")
           else None
  end.

(** ** Directory scan *)

Record FileInfo := mkFileInfo { fi_name : string; fi_path : Path; fi_size : N }.

Definition is_supported_file (name : string) (f : FileObj) : bool :=
  str_mem (py_lower (py_suffix name)) supported_extensions && N.ltb 0 (f_size f).

(** [scan_directory]: the supported, non-empty files of [dir], in the
    order the directory listing returns them (here the map's order). *)
Definition scan_directory (fs : FS) (dir : string) : list FileInfo :=
  map (fun '(p, f) => mkFileInfo p.2 p (f_size f))
      (List.filter (fun '(p, f) => String.eqb p.1 dir && is_supported_file p.2 f)
                   (map_to_list (files fs))).

(** ** [FileManager.log_import_event] *)

(** The [event_type] argument of [FileManager.log_import_event]. *)
Inductive EventType : Type :=
| EvExactDuplicates | EvLogicalDuplicates        (** from [move_to_duplicate_archive] *)
| EvExactDuplicate | EvSemanticDuplicate | EvNoParserFound | EvPeriodMismatch | EvImported
| EvUnrecognized                            (** from [cleanup_unsorted_archive.py] *).

(** One line of [diagnostics/import_duplicates.log]. *)
Record Event := mkEvent {
  ev_filename : string;
  ev_type : EventType;
  ev_reason : string;
  ev_hash : string;
  ev_broker : pyval;
  ev_account : pyval;
  ev_period : pyval;
  ev_filename_period : pyval;
  ev_parsed_period : pyval
}.

(** ** [FileManager.safe_move_file] *)

Definition py_stem (name : string) : string :=
  substring 0 (String.length name - String.length (py_suffix name)) name.

(** [f"{base_name}_{counter}{extension}"] *)
Definition numbered_name (stem ext : string) (counter : nat) : string :=
  stem ++ "_" ++ pretty (N.of_nat counter) ++ ext.

(** The [while destination.exists()] loop, with fuel: the first numbered
    name from [counter] on that is free in [dir]. *)
Fixpoint next_free (fuel : nat) (fs : FS) (dir stem ext : string) (counter : nat) : option string :=
  match fuel with
  | 0 => None
  | S fuel =>
      let n := numbered_name stem ext counter in
      if path_exists fs (dir, n) then next_free fuel fs dir stem ext (S counter) else Some n
  end.

(** The fuel given to the loop: one more than the number of files. *)
Definition move_fuel (fs : FS) : nat := size (files fs) + 1.

(** The name the file is moved to: the requested one when free, else the
    first free numbered variant. *)
Definition move_target (fs : FS) (dst : Path) : option string :=
  if path_exists fs dst
  then next_free (move_fuel fs) fs dst.1 (py_stem dst.2) (py_suffix dst.2) 1
  else Some dst.2.

(** [destination.parent.mkdir(parents=True, exist_ok=True)], the
    conflict loop, then [shutil.move] (a rename on one filesystem). *)
Definition safe_move_file (fs : FS) (src dst : Path) : bool * FS :=
  let fs := mkdir fs dst.1 in
  match move_target fs dst with
  | None => (false, fs)
  | Some n =>
      let '(fail, fs1) := fs_call fs in
      if fail then (false, fs1)
      else match files fs1 !! src with
           | None => (false, fs1)
           | Some f => (true, mkFS (<[(dst.1, n) := f]> (delete src (files fs1))) (fs_dirs fs1)
                                   (fs_faults fs1))
           end
  end.

(** ** Lemmas *)

Lemma mkdir_files fs d : files (mkdir fs d) = files fs.
Proof. unfold mkdir. by case_match. Qed.

Lemma mkdir_faults fs d : fs_faults (mkdir fs d) = fs_faults fs.
Proof. unfold mkdir. by case_match. Qed.

Lemma mkdir_exists fs d : dir_exists (mkdir fs d) d = true.
Proof.
  unfold mkdir. destruct (dir_exists fs d) eqn:E; [done|].
  unfold dir_exists. simpl. apply existsb_exists. exists d. rewrite in_app_iff. simpl.
  split; [by right; left|apply String.eqb_refl].
Qed.

Lemma mkdir_idem fs d : mkdir (mkdir fs d) d = mkdir fs d.
Proof. unfold mkdir at 1. by rewrite mkdir_exists. Qed.

Lemma mkdir_keeps fs d d' : dir_exists fs d' = true -> dir_exists (mkdir fs d) d' = true.
Proof.
  unfold mkdir. destruct (dir_exists fs d); [done|]. unfold dir_exists. simpl.
  rewrite existsb_app. intros ->. done.
Qed.

(** [ensure_archive_directories] creates directories only. *)
Lemma ensure_files fs : files (ensure_archive_directories fs) = files fs.
Proof. unfold ensure_archive_directories. simpl. by rewrite !mkdir_files. Qed.

Lemma ensure_faults fs : fs_faults (ensure_archive_directories fs) = fs_faults fs.
Proof. unfold ensure_archive_directories. simpl. by rewrite !mkdir_faults. Qed.

Lemma ensure_archive_root fs : dir_exists (ensure_archive_directories fs) ARCHIVE_PATH = true.
Proof. unfold ensure_archive_directories. simpl. do 4 apply mkdir_keeps. apply mkdir_exists. Qed.

Lemma fs_call_files fs : (fs_call fs).2.(files) = files fs.
Proof. unfold fs_call. by destruct (fs_faults fs). Qed.

Lemma numbered_name_inj stem ext k k' :
  numbered_name stem ext k = numbered_name stem ext k' -> k = k'.
Proof.
  unfold numbered_name. intros H.
  apply str_app_inv_l in H. injection H as H.
  assert (Hp : pretty (N.of_nat k) = pretty (N.of_nat k')) by (apply (str_app_inv_r ext); exact H).
  apply (inj pretty) in Hp. lia.
Qed.

Lemma next_free_free fuel fs dir stem ext c n :
  next_free fuel fs dir stem ext c = Some n -> files fs !! (dir, n) = None.
Proof.
  revert c. induction fuel as [|fuel IH]; intros c; simpl; [done|].
  unfold path_exists. destruct (files fs !! (dir, numbered_name stem ext c)) eqn:E;
    [apply IH|by intros [= <-]].
Qed.

(** A name the loop returns is numbered with the first free counter it
    tried. *)
Lemma next_free_least fuel fs dir stem ext c n :
  next_free fuel fs dir stem ext c = Some n ->
  exists k, c <= k < c + fuel /\ n = numbered_name stem ext k /\
    forall j, c <= j < k -> files fs !! (dir, numbered_name stem ext j) <> None.
Proof.
  revert c. induction fuel as [|fuel IH]; intros c; simpl; [done|].
  unfold path_exists. destruct (files fs !! (dir, numbered_name stem ext c)) eqn:E.
  - intros (k & Hk & -> & Hj)%IH. exists k. split_and!; [lia|lia|done|].
    intros j Hjk. destruct (decide (j = c)) as [->|Hne]; [by rewrite E|apply Hj; lia].
  - intros [= <-]. exists c. split_and!; [lia|lia|done|lia].
Qed.

(** When the loop runs out of fuel, every name it tried is taken. *)
Lemma next_free_None_taken fuel fs dir stem ext c :
  next_free fuel fs dir stem ext c = None ->
  forall k, c <= k < c + fuel -> (dir, numbered_name stem ext k) ∈ dom (files fs).
Proof.
  revert c. induction fuel as [|fuel IH]; intros c; simpl; [lia|].
  unfold path_exists. destruct (files fs !! (dir, numbered_name stem ext c)) eqn:E; [|done].
  intros HN k Hk. destruct (decide (k = c)) as [->|Hne].
  - apply elem_of_dom. by rewrite E.
  - apply (IH (S c)); [done|lia].
Qed.

(** With [size fs + 1] iterations the loop finds a free name: at most
    [size fs] names are taken and the names it tries are distinct. *)
Lemma next_free_some fs dir stem ext c :
  exists n, next_free (move_fuel fs) fs dir stem ext c = Some n /\ files fs !! (dir, n) = None.
Proof.
  destruct (next_free (move_fuel fs) fs dir stem ext c) as [n|] eqn:E.
  { exists n. split; [done|]. by eapply next_free_free. }
  exfalso. pose proof (next_free_None_taken _ _ _ _ _ _ E) as Htaken.
  set (l := map (fun k => (dir, numbered_name stem ext k)) (seq c (move_fuel fs))).
  assert (Hnd : NoDup l).
  { apply NoDup_fmap_2; [|apply NoDup_seq].
    intros k k' [= Hk]. by apply numbered_name_inj in Hk. }
  assert (Hsub : list_to_set l ⊆@{gset Path} dom (files fs)).
  { intros p Hp. apply elem_of_list_to_set, list_elem_of_fmap in Hp as (k & -> & Hk).
    apply elem_of_seq in Hk. by apply Htaken. }
  apply subseteq_size in Hsub. rewrite size_list_to_set, size_dom in Hsub by done.
  unfold l, move_fuel in Hsub. rewrite length_map, length_seq in Hsub. lia.
Qed.

Lemma move_target_free fs dst n :
  move_target fs dst = Some n -> files fs !! (dst.1, n) = None.
Proof.
  unfold move_target, path_exists. destruct (files fs !! dst) eqn:Ed.
  - apply next_free_free.
  - intros [= <-]. by destruct dst.
Qed.

Lemma move_target_some fs dst : exists n, move_target fs dst = Some n.
Proof.
  unfold move_target. destruct (path_exists fs dst); [|eauto].
  destruct (next_free_some fs dst.1 (py_stem dst.2) (py_suffix dst.2) 1) as (n & -> & _). eauto.
Qed.

(** The loop and the target only read the files. *)
Lemma next_free_files_ext fuel fs fs' dir stem ext c :
  files fs' = files fs -> next_free fuel fs' dir stem ext c = next_free fuel fs dir stem ext c.
Proof.
  intros E. revert c. induction fuel as [|fuel IH]; intros c; simpl; [done|].
  unfold path_exists. by rewrite E, IH.
Qed.

Lemma move_target_files_ext fs fs' dst :
  files fs' = files fs -> move_target fs' dst = move_target fs dst.
Proof.
  intros E. unfold move_target, move_fuel, path_exists.
  rewrite E, (next_free_files_ext _ fs fs') by exact E. done.
Qed.

(** Without faults, moving an existing file succeeds: it lands at a name
    that was free and leaves the source. *)
Lemma safe_move_file_ok fs src dst f :
  files fs !! src = Some f -> fs_faults fs = [] ->
  exists n, files fs !! (dst.1, n) = None /\
    safe_move_file fs src dst =
      (true, mkFS (<[(dst.1, n) := f]> (delete src (files fs))) (fs_dirs (mkdir fs dst.1)) []).
Proof.
  intros Hsrc Hf. unfold safe_move_file.
  rewrite (move_target_files_ext fs) by apply mkdir_files.
  destruct (move_target_some fs dst) as [n Hn]. rewrite Hn. exists n.
  split; [by apply move_target_free|].
  unfold fs_call. rewrite mkdir_faults, Hf. simpl. by rewrite mkdir_files, Hsrc, mkdir_faults, Hf.
Qed.

(** A move, successful or not, neither loses nor creates a file. *)
Lemma safe_move_file_size fs src dst :
  size (files (safe_move_file fs src dst).2) = size (files fs).
Proof.
  unfold safe_move_file. remember (mkdir fs dst.1) as fs1 eqn:Efs1.
  assert (Ef : files fs1 = files fs) by (subst; apply mkdir_files).
  rewrite <-Ef. clear Ef Efs1 fs. rename fs1 into fs.
  destruct (move_target fs dst) as [n|] eqn:Hn; [|done].
  apply move_target_free in Hn.
  destruct (fs_call fs) as [fail fs1] eqn:Ec.
  assert (E1 : files fs1 = files fs) by (rewrite <- (fs_call_files fs), Ec; done).
  destruct fail; [simpl; by rewrite E1|]. rewrite E1.
  destruct (files fs !! src) as [f|] eqn:Hs; [|simpl; by rewrite E1].
  simpl. assert (src <> (dst.1, n)) by (intros ->; congruence).
  rewrite map_size_insert_None by (rewrite lookup_delete_ne by done; exact Hn).
  rewrite <- (map_size_insert_None src f) by apply lookup_delete_eq.
  by rewrite insert_delete_eq, insert_id.
Qed.

(** ** Properties *)

(** C3: Termination of the renaming loop: with [size fs + 1] iterations a free
    name is always found, since at most [size fs] names are taken. *)
Theorem next_free_terminates fs dir stem ext c :
  exists n, next_free (move_fuel fs) fs dir stem ext c = Some n /\ files fs !! (dir, n) = None.
Proof. apply next_free_some. Qed.

(** C30: The target of a move, in general: the requested name when it is
    free; otherwise the numbered name [stem_k.ext] with the least counter
    [k >= 1] that is free, and that counter is at most [size fs + 1]. *)
Theorem move_target_least fs dst :
  exists n, move_target fs dst = Some n /\ files fs !! (dst.1, n) = None /\
    (path_exists fs dst = false -> n = dst.2) /\
    (path_exists fs dst = true ->
       exists k, 1 <= k <= size (files fs) + 1 /\
         n = numbered_name (py_stem dst.2) (py_suffix dst.2) k /\
         forall j, 1 <= j < k ->
           files fs !! (dst.1, numbered_name (py_stem dst.2) (py_suffix dst.2) j) <> None).
Proof.
  destruct (move_target_some fs dst) as [n Hn]. exists n.
  split_and!; [done|by apply move_target_free in Hn| |].
  - intros He. unfold move_target in Hn. rewrite He in Hn. by injection Hn.
  - intros He. unfold move_target in Hn. rewrite He in Hn.
    apply next_free_least in Hn as (k & Hk & -> & Hj). exists k.
    unfold move_fuel in Hk. split_and!; [lia|lia|done|done].
Qed.

(** C4: [safe_move_file] never overwrites: on success the file is at a name
    that was free, every other file is kept, and the source is gone. *)
Theorem safe_move_file_no_overwrite fs src dst f :
  files fs !! src = Some f -> fs_faults fs = [] ->
  exists n, (safe_move_file fs src dst).1 = true /\
    files fs !! (dst.1, n) = None /\
    files (safe_move_file fs src dst).2 !! (dst.1, n) = Some f /\
    files (safe_move_file fs src dst).2 !! src = None /\
    (forall p, p <> src -> p <> (dst.1, n) ->
       files (safe_move_file fs src dst).2 !! p = files fs !! p).
Proof.
  intros Hsrc Hf. destruct (safe_move_file_ok fs src dst f Hsrc Hf) as (n & Hn & ->).
  exists n. cbn [fst snd files].
  assert (src <> (dst.1, n)) by (intros ->; congruence).
  split; [done|]. split; [done|].
  split; [by rewrite lookup_insert_eq|].
  split; [rewrite lookup_insert_ne by done; apply lookup_delete_eq|].
  intros p Hp1 Hp2. rewrite lookup_insert_ne by done. by apply lookup_delete_ne.
Qed.

(** [Path.rename] does replace: a file already archived under the target
    name is lost when another file is renamed onto it. *)
Theorem path_rename_replaces fs src dst f g :
  src <> dst -> fs_faults fs = [] ->
  files fs !! src = Some f -> files fs !! dst = Some g ->
  (path_rename fs src dst).1 = inr tt /\
  files (path_rename fs src dst).2 !! dst = Some f /\
  files (path_rename fs src dst).2 !! src = None.
Proof.
  intros Hne Hf Hs Hd. unfold path_rename, fs_call. rewrite Hf. simpl. rewrite Hs. simpl.
  split; [done|]. split; [by rewrite lookup_insert_eq|].
  rewrite lookup_insert_ne by done. apply lookup_delete_eq.
Qed.

(** ** Concrete filesystems *)

Definition rep (n : N) : FileObj := mkFile n (Some "<html></html>").
Definition fs_two : FS :=
  mkFS (list_to_map [((INBOX_PATH, "a.html"), rep 1); ((ARCHIVE_IMPORTED_PATH, "a.html"), rep 2);
                     ((ARCHIVE_IMPORTED_PATH, "a_1.html"), rep 3)])
       [INBOX_PATH; ARCHIVE_IMPORTED_PATH] [].

Lemma safe_move_file_no_overwrite_witness :
  files fs_two !! (INBOX_PATH, "a.html") = Some (rep 1) /\ fs_faults fs_two = [] /\
  exists n, (safe_move_file fs_two (INBOX_PATH, "a.html") (ARCHIVE_IMPORTED_PATH, "a.html")).1 = true /\
    files fs_two !! (ARCHIVE_IMPORTED_PATH, n) = None /\
    files (safe_move_file fs_two (INBOX_PATH, "a.html") (ARCHIVE_IMPORTED_PATH, "a.html")).2
      !! (ARCHIVE_IMPORTED_PATH, n) = Some (rep 1) /\
    files (safe_move_file fs_two (INBOX_PATH, "a.html") (ARCHIVE_IMPORTED_PATH, "a.html")).2
      !! (INBOX_PATH, "a.html") = None /\
    (forall p, p <> (INBOX_PATH, "a.html") -> p <> (ARCHIVE_IMPORTED_PATH, n) ->
       files (safe_move_file fs_two (INBOX_PATH, "a.html") (ARCHIVE_IMPORTED_PATH, "a.html")).2 !! p
       = files fs_two !! p).
Proof.
  split; [vm_compute; reflexivity|]. split; [reflexivity|].
  apply safe_move_file_no_overwrite; [vm_compute; reflexivity|reflexivity].
Defined.

(** The numbered variant skips every name already taken: the file lands
    at [a_2.html]. *)
Example safe_move_file_numbering :
  move_target fs_two (ARCHIVE_IMPORTED_PATH, "a.html") = Some "a_2.html".
Proof. vm_compute. reflexivity. Qed.

Lemma path_rename_replaces_witness :
  (INBOX_PATH, "a.html") <> (ARCHIVE_IMPORTED_PATH, "a.html") /\ fs_faults fs_two = [] /\
  files fs_two !! (INBOX_PATH, "a.html") = Some (rep 1) /\
  files fs_two !! (ARCHIVE_IMPORTED_PATH, "a.html") = Some (rep 2) /\
  (path_rename fs_two (INBOX_PATH, "a.html") (ARCHIVE_IMPORTED_PATH, "a.html")).1 = inr tt /\
  files (path_rename fs_two (INBOX_PATH, "a.html") (ARCHIVE_IMPORTED_PATH, "a.html")).2
    !! (ARCHIVE_IMPORTED_PATH, "a.html") = Some (rep 1) /\
  files (path_rename fs_two (INBOX_PATH, "a.html") (ARCHIVE_IMPORTED_PATH, "a.html")).2
    !! (INBOX_PATH, "a.html") = None.
Proof.
  split; [vm_compute; discriminate|]. split; [reflexivity|].
  split; [vm_compute; reflexivity|]. split; [vm_compute; reflexivity|].
  apply (path_rename_replaces _ _ _ _ (rep 2));
    [vm_compute; discriminate|reflexivity|vm_compute; reflexivity|vm_compute; reflexivity].
Defined.

End Archive.
