(* ===== verification/FileInfo.v ===== *)
(** * File information: [FileManager.get_file_info] and [scan_directory]

    Models [get_file_info], [calculate_file_hash] and the full
    [scan_directory] of [src/core/utils/file_manager.py] over the
    filesystem of [Archive.v].  [Archive.scan_directory] keeps only the
    name, path and size of each entry, which is all the importer reads;
    [scan_directory_proj] proves it is the projection of the full scan.
    The SHA-256 digest of a file's bytes and [mimetypes.guess_type] are
    parameters; the [created_at]/[modified_at] timestamps are not
    modelled. *)

From stdpp Require Import gmap.
From S2P Require Import Prelude PyStr PyValue Archive.
Import Archive.

Open Scope string_scope.

Module FileInfo.

(** The fields of the dict [get_file_info] returns, but the timestamps. *)
Record FileInfoDict := mkFileInfoDict {
  fid_file_name : string;
  fid_file_path : string;
  fid_file_size : N;
  fid_file_hash : string;
  fid_file_type : string;
  fid_extension : string
}.

Section FileManager.

(** [calculate_file_hash]: the SHA-256 hex digest of the file's bytes; a
    file of the model can always be read, so its [except] branch
    (answering [""]) is not reached. *)
Variable file_digest : FileObj -> string.
(** [mimetypes.guess_type(str(file_path))[0]]. *)
Variable guess_type : string -> option string.

(** The [file_type] chain: a truthy guessed type, else one by suffix. *)
Definition file_type (p : Path) : string :=
  let by_suffix :=
    let suf := py_lower (py_suffix p.2) in
    if String.eqb suf ".html" then "text/html"
    else if String.eqb suf ".txt" then "text/plain"
    else if String.eqb suf ".pdf" then "application/pdf"
    else if String.eqb suf ".md" then "text/plain"
    else "unknown" in
  match guess_type (path_str p) with
  | Some t => if String.eqb t "" then by_suffix else t
  | None => by_suffix
  end.

(** [get_file_info]: [{}] (here [None]) when [stat] raises, i.e. when the
    file is not there. *)
Definition get_file_info (fs : FS) (p : Path) : option FileInfoDict :=
  match files fs !! p with
  | None => None
  | Some f =>
      Some (mkFileInfoDict p.2 (path_str p) (f_size f) (file_digest f) (file_type p)
                           (py_lower (py_suffix p.2)))
  end.

(** [scan_directory]: [[]] for a missing directory, else the info of
    every supported file of the listing (the map's order) whose info is
    not empty. *)
Definition scan_directory_info (fs : FS) (dir : string) : list FileInfoDict :=
  if negb (dir_exists fs dir) then []
  else omap (fun '(p, f) => if String.eqb p.1 dir && is_supported_file p.2 f
                            then get_file_info fs p else None)
            (map_to_list (files fs)).

(** ** Lemmas *)

Lemma get_file_info_Some fs p f :
  files fs !! p = Some f ->
  get_file_info fs p = Some (mkFileInfoDict p.2 (path_str p) (f_size f) (file_digest f)
                                            (file_type p) (py_lower (py_suffix p.2))).
Proof. unfold get_file_info. by intros ->. Qed.

Lemma get_file_info_None fs p : get_file_info fs p = None <-> files fs !! p = None.
Proof. unfold get_file_info. by destruct (files fs !! p). Qed.

(** What the importer keeps of an entry. *)
Definition info_proj (i : FileInfoDict) : string * string * N :=
  (fid_file_name i, fid_file_path i, fid_file_size i).

(** The entries of the full scan, projected, are those of
    [Archive.scan_directory]: the importer's abstraction loses nothing it
    reads. *)
Lemma scan_directory_proj fs dir :
  dir_exists fs dir = true ->
  map info_proj (scan_directory_info fs dir) =
  map (fun fi => (fi_name fi, path_str (fi_path fi), fi_size fi)) (scan_directory fs dir).
Proof.
  intros Hd. unfold scan_directory_info, scan_directory. rewrite Hd. simpl.
  assert (Hin : forall pf, pf ∈ map_to_list (files fs) -> files fs !! pf.1 = Some pf.2)
    by (intros [p f] Hp; by apply elem_of_map_to_list).
  induction (map_to_list (files fs)) as [|[p f] l IH]; [done|].
  simpl. destruct (String.eqb p.1 dir && is_supported_file p.2 f) eqn:E; simpl.
  - rewrite (get_file_info_Some fs p f) by (apply (Hin (p, f)); set_solver). simpl.
    f_equal. apply IH. intros pf Hpf. apply Hin. set_solver.
  - apply IH. intros pf Hpf. apply Hin. set_solver.
Qed.

(** Every entry of the scan is the info of a supported file of [dir]. *)
Lemma scan_directory_info_spec fs dir i :
  In i (scan_directory_info fs dir) ->
  exists p f, files fs !! p = Some f /\ p.1 = dir /\ is_supported_file p.2 f = true /\
              get_file_info fs p = Some i.
Proof.
  unfold scan_directory_info. destruct (negb (dir_exists fs dir)); [done|].
  intros Hi%list_elem_of_In%list_elem_of_omap.
  destruct Hi as ([p f] & Hpf%elem_of_map_to_list & Hs).
  destruct (String.eqb p.1 dir && is_supported_file p.2 f) eqn:E; [|done].
  apply andb_prop in E as [E1 E2]. apply String.eqb_eq in E1. eauto 7.
Qed.

End FileManager.

End FileInfo.
