(* ===== verification/SberParser.v ===== *)
(** * The Sberbank HTML parser

    Models [SberHtmlParser] of [src/core/parsers/sber_html_parser.py]:
    - the header fields read from the page text by regular expressions
      ([_extract_metadata], [_extract_account_open_date]), with the date
      conversion [strptime('%d.%m.%Y')] / [strftime('%Y-%m-%d')];
    - the aggregates over the extracted tables ([_aggregate_*]) and the
      two computed fields ([_compute_active_instruments_count],
      [_compute_total_income]);
    - [parse], which assembles the result dictionary.
    What BeautifulSoup extracts from the tables is the record [Extraction]
    (one field per [_extract_*] method that walks the HTML tree); the page
    text [soup.get_text()] is one of its fields.

    [\d] is read as an ASCII digit: the other Unicode decimal digits,
    which Python's [\d] also accepts, are not modelled. *)

From Stdlib Require Import QArith_base.
From S2P Require Import Prelude PyStr PyValue Parsers.
Import Parsers.

Open Scope string_scope.

Module SberParser.

(** ** Dates *)

Definition dval (c : ascii) : nat := nat_of_ascii c - 48.

Definition is_leap (y : nat) : bool :=
  (Nat.eqb (y mod 4) 0 && negb (Nat.eqb (y mod 100) 0)) || Nat.eqb (y mod 400) 0.

Definition days_in_month (y m : nat) : nat :=
  match m with
  | 2 => if is_leap y then 29 else 28
  | 4 | 6 | 9 | 11 => 30
  | _ => 31
  end.

(** [datetime.strptime(s, '%d.%m.%Y')] on a string the regex matched
    ([dd.dd.dddd]): the day must be [01..31], the month [01..12], and the
    date must exist ([datetime] rejects year 0 and the 30th of February). *)
Definition strptime_dmY (ds : string) : option (nat * nat * nat) :=
  match ds with
  | String a (String b (String _ (String c (String d (String _
      (String e (String f (String g (String h EmptyString))))))))) =>
      let day := 10 * dval a + dval b in
      let mon := 10 * dval c + dval d in
      let yr := 1000 * dval e + 100 * dval f + 10 * dval g + dval h in
      if Nat.leb 1 yr && in_range 1 12 mon && Nat.leb 1 day && Nat.leb day (days_in_month yr mon)
      then Some (yr, mon, day) else None
  | _ => None
  end.

(** The last decimal digit of [n], as a character. *)
Definition digit (n : nat) : ascii := ascii_of_nat (48 + n mod 10).

(** [%02d] and [%04d]: [%m], [%d], and [%Y] (CPython 3.13 pads the year
    to four digits; the years a [dddd] field can hold are [0..9999]). *)
Definition pad2 (n : nat) : string := String (digit (n / 10)) (String (digit n) EmptyString).
Definition pad4 (n : nat) : string :=
  String (digit (n / 1000)) (String (digit (n / 100)) (String (digit (n / 10)) (String (digit n) EmptyString))).

(** [date.strftime('%Y-%m-%d')]. *)
Definition strftime_Ymd (ymd : nat * nat * nat) : string :=
  let '(y, m, d) := ymd in pad4 y ++ "-" ++ pad2 m ++ "-" ++ pad2 d.

(** ** The header regular expressions, anchored at a position *)

Definition is_AZ09 (c : ascii) : bool :=
  in_range 65 90 (nat_of_ascii c) || is_digit c.

Fixpoint run_AZ09 (s : string) : string :=
  match s with
  | String c r => if is_AZ09 c then String c (run_AZ09 r) else EmptyString
  | EmptyString => EmptyString
  end.

(** [[^\n\r]+], greedy: the rest of the line. *)
Fixpoint line_run (s : string) : string :=
  match s with
  | String c r =>
      if Ascii.eqb c "010" || Ascii.eqb c "013" then EmptyString else String c (line_run r)
  | EmptyString => EmptyString
  end.

(** Offsets of the code-point boundaries inside the leading whitespace of
    [t], from [0] to its end: the places where [\s*] may stop. *)
Fixpoint ws_bounds (fuel : nat) (t : string) (off : nat) : list nat :=
  match fuel with
  | 0 => [off]
  | S f => match space_len t with
           | 0 => [off]
           | k => off :: ws_bounds f (str_drop k t) (off + k)
           end
  end.

(** [\s*([^\n\r]+)] at the start of [t]: [\s*] first takes all the
    whitespace, then gives back one code point at a time until the group
    can match a non-empty rest of line. *)
Definition ws_then_line (t : string) : option string :=
  match find_first (fun k => negb (String.eqb (line_run (str_drop k t)) ""))
                   (rev (ws_bounds (String.length t) t 0)) with
  | Some k => Some (line_run (str_drop k t))
  | None => None
  end.

(** [Инвестор:\s*([^\n\r]+)] *)
Definition investor_at (s : string) : option string :=
  match strip_prefix "Инвестор:" s with Some t => ws_then_line t | None => None end.

(** [.*?([A-Z0-9]+)]: the first [A-Z0-9] run before the end of the line
    ([.] does not match a newline). *)
Fixpoint lazy_AZ09 (t : string) : option string :=
  match t with
  | EmptyString => None
  | String c r =>
      if is_AZ09 c then Some (run_AZ09 t)
      else if Ascii.eqb c "010" then None
      else lazy_AZ09 r
  end.

(** [Договор.*?([A-Z0-9]+)] *)
Definition account_at (s : string) : option string :=
  match strip_prefix "Договор" s with Some t => lazy_AZ09 t | None => None end.

(** [от\s+(\d{2}\.\d{2}\.\d{4})] *)
Definition contract_at (s : string) : option string :=
  match strip_prefix "от" s with
  | Some t => match spaces1 t with
              | Some u => match dmy_at u with Some (ds, _) => Some ds | None => None end
              | None => None
              end
  | None => None
  end.

(** [за период с\s+(\d{2}\.\d{2}\.\d{4})\s+по\s+(\d{2}\.\d{2}\.\d{4})] *)
Definition period_header_at (s : string) : option (string * string) :=
  t ← strip_prefix "за период с" s;
  t ← spaces1 t;
  '(d1, t) ← dmy_at t;
  t ← spaces1 t;
  t ← strip_prefix "по" t;
  t ← spaces1 t;
  '(d2, _) ← dmy_at t;
  Some (d1, d2).

(** [от (\d{2}\.\d{2}\.\d{4})] -- one ASCII space. *)
Definition open_date_at (s : string) : option string :=
  match strip_prefix "от " s with
  | Some t => match dmy_at t with Some (ds, _) => Some ds | None => None end
  | None => None
  end.

(** ** Header fields *)

(** [_extract_metadata]: each field is set only when its expression
    matches (and, for dates, when the leftmost match is a valid date). *)
Definition _extract_metadata (text : string) : pydict :=
  let md := [] in
  let md := match re_search investor_at text with
            | Some g => dict_set "investor_name" (VStr (py_strip g)) md
            | None => md
            end in
  let md := match re_search account_at text with
            | Some a => dict_set "account_number" (VStr a) md
            | None => md
            end in
  let md := match re_search contract_at text ≫= strptime_dmY with
            | Some ymd => dict_set "contract_date" (VStr (strftime_Ymd ymd)) md
            | None => md
            end in
  match re_search period_header_at text with
  | Some (s1, s2) =>
      match strptime_dmY s1, strptime_dmY s2 with
      | Some a, Some b =>
          dict_set "period_end" (VStr (strftime_Ymd b))
                   (dict_set "period_start" (VStr (strftime_Ymd a)) md)
      | _, _ => md
      end
  | None => md
  end.

(** [_extract_account_open_date]: an invalid leftmost date raises inside
    the [try], which returns [None]. *)
Definition _extract_account_open_date (text : string) : option string :=
  match re_search open_date_at text ≫= strptime_dmY with
  | Some ymd => Some (strftime_Ymd ymd)
  | None => None
  end.

(** ** What the HTML tree walk extracts *)

(** One field per [_extract_*] method that walks the tree; each returns
    its value (its own [try] turns a failure into the documented
    default). *)
Record Extraction := mkExtraction {
  x_loaded : bool;                  (** [load_html(html_content)] *)
  x_text : string;                  (** [soup.get_text()] *)
  x_cash_flows : list pydict;       (** [_extract_cash_flows()] *)
  x_portfolio : list pydict;        (** [_extract_securities_portfolio()] *)
  x_trades : pydict;                (** [_extract_trades()] *)
  x_financial_metrics : pydict;     (** [_extract_financial_metrics()] *)
  x_balance_ending : Q;             (** [_extract_balance_ending()] *)
  x_instruments : list pydict;      (** [_extract_instruments()] *)
  x_financial_result : Q            (** [_extract_financial_result()] *)
}.

(** ** Aggregates *)

(** [[item.get(key) for item in rows if keep(item.get(key))]], and [None]
    when that list is empty. *)
Definition aggregate_by (keep : pyval -> bool) (rows : list pydict) (key : string) : pyval :=
  match List.filter keep (map (fun item => py_get item key VNone) rows) with
  | [] => VNone
  | vs => VList vs
  end.

Definition is_not_none (v : pyval) : bool := match v with VNone => false | _ => true end.

(** [if item.get(key)]: truthiness. *)
Definition aggregate := aggregate_by truthy.

(** [_aggregate_currency]: the first truthy currency of the portfolio,
    else of the cash flows. *)
Definition _aggregate_currency (portfolio cash_flows : list pydict) : pyval :=
  match aggregate portfolio "currency" with
  | VList (c :: _) => c
  | _ => match aggregate cash_flows "currency" with
         | VList (c :: _) => c
         | _ => VNone
         end
  end.

Definition _aggregate_isin (portfolio : list pydict) := aggregate portfolio "isin".
Definition _aggregate_instrument_name (portfolio : list pydict) := aggregate portfolio "name".
Definition _aggregate_description (cash_flows : list pydict) := aggregate cash_flows "description".
Definition _aggregate_platform (cash_flows : list pydict) := aggregate cash_flows "platform".
Definition _aggregate_cash_flow_date (cash_flows : list pydict) := aggregate cash_flows "date".
(** [is not None] instead of truthiness: zero amounts are kept. *)
Definition _aggregate_credit (cash_flows : list pydict) := aggregate_by is_not_none cash_flows "credit".
Definition _aggregate_debit (cash_flows : list pydict) := aggregate_by is_not_none cash_flows "debit".
Definition _aggregate_quantity_start (portfolio : list pydict) := aggregate portfolio "quantity_start".
Definition _aggregate_quantity_end (portfolio : list pydict) := aggregate portfolio "quantity_end".
Definition _aggregate_quantity_change (portfolio : list pydict) := aggregate portfolio "quantity_change".
Definition _aggregate_price_start (portfolio : list pydict) := aggregate portfolio "price_start".
Definition _aggregate_price_end (portfolio : list pydict) := aggregate portfolio "price_end".
Definition _aggregate_value_start (portfolio : list pydict) := aggregate portfolio "value_start".
Definition _aggregate_value_end (portfolio : list pydict) := aggregate portfolio "value_end".
Definition _aggregate_value_change (portfolio : list pydict) := aggregate portfolio "value_change".
Definition _aggregate_nominal (portfolio : list pydict) := aggregate portfolio "nominal".
Definition _aggregate_nkd_start (portfolio : list pydict) := aggregate portfolio "nkd_start".
Definition _aggregate_nkd_end (portfolio : list pydict) := aggregate portfolio "nkd_end".

(** ** Computed fields *)

(** [isinstance(v, (int, float))], as a number ([bool] is an [int]). *)
Definition py_number (v : pyval) : option Q :=
  match v with
  | VNum q => Some q
  | VBool b => Some (if b then 1 else 0)%Q
  | _ => None
  end.

(** [_compute_total_income]: credits minus debits over the numeric
    values, [None] when the total is zero. *)
Definition _compute_total_income (cash_flows : list pydict) : pyval :=
  let total := fold_left (fun acc item =>
                 let acc := match py_number (py_get item "credit" (VNum 0)) with
                            | Some c => Qplus acc c | None => acc end in
                 match py_number (py_get item "debit" (VNum 0)) with
                 | Some d => Qminus acc d | None => acc end) cash_flows 0%Q in
  if Qeq_bool total 0 then VNone else VNum total.

Section ActiveCount.
(** [float(s) > 0] for a string: [None] when [float] raises
    [ValueError]. *)
Variable float_pos : string -> option bool.

(** The loop of [_compute_active_instruments_count]: [.replace] on a
    value that is not a [str] raises [AttributeError], which the inner
    [except (ValueError, TypeError)] does not catch. *)
Fixpoint count_active (rows : list pydict) (acc : nat) : exn + nat :=
  match rows with
  | [] => inr acc
  | item :: rest =>
      match py_get item "quantity_end" (VStr "0") with
      | VStr q =>
          let acc := match float_pos (replace_char " " None q) with
                     | Some true => S acc
                     | _ => acc
                     end in
          count_active rest acc
      | _ => inl (AttributeError "object has no attribute 'replace'")
      end
  end.

(** The outer [except Exception] returns [None]; so does a zero count. *)
Definition _compute_active_instruments_count (portfolio : list pydict) : pyval :=
  match count_active portfolio 0 with
  | inr n => if Nat.ltb 0 n then VNum (inject_Z (Z.of_nat n)) else VNone
  | inl _ => VNone
  end.

(** ** [parse] *)

(** The result dictionary, in the order [parse] fills it. *)
Definition sber_result (x : Extraction) (trade_count : pyval) : pydict :=
  let md := _extract_metadata (x_text x) in
  let fm := x_financial_metrics x in
  let pf := x_portfolio x in
  let cf := x_cash_flows x in
  [("parser_version", VStr "2.0");
   ("cash_flows", VList (map VDict cf));
   ("securities_portfolio", VList (map VDict pf));
   ("trades", VDict (x_trades x));
   ("investor_name", py_get md "investor_name" VNone);
   ("account_number", py_get md "account_number" VNone);
   ("contract_date", py_get md "contract_date" VNone);
   ("period_start", py_get md "period_start" VNone);
   ("period_end", py_get md "period_end" VNone);
   ("portfolio_value", py_get fm "portfolio_value" VNone);
   ("cash_balance", py_get fm "cash_balance" VNone);
   ("total_assets", py_get fm "total_assets" VNone);
   ("balance_ending", VNum (x_balance_ending x));
   ("currency", _aggregate_currency pf cf);
   ("isin", _aggregate_isin pf);
   ("instrument_name", _aggregate_instrument_name pf);
   ("description", _aggregate_description cf);
   ("platform", _aggregate_platform cf);
   ("cash_flow_date", _aggregate_cash_flow_date cf);
   ("credit", _aggregate_credit cf);
   ("debit", _aggregate_debit cf);
   ("quantity_start", _aggregate_quantity_start pf);
   ("quantity_end", _aggregate_quantity_end pf);
   ("quantity_change", _aggregate_quantity_change pf);
   ("price_start", _aggregate_price_start pf);
   ("price_end", _aggregate_price_end pf);
   ("value_start", _aggregate_value_start pf);
   ("value_end", _aggregate_value_end pf);
   ("value_change", _aggregate_value_change pf);
   ("nominal", _aggregate_nominal pf);
   ("nkd_start", _aggregate_nkd_start pf);
   ("nkd_end", _aggregate_nkd_end pf);
   ("active_instruments_count", _compute_active_instruments_count pf);
   ("total_income", _compute_total_income cf);
   ("account_open_date", match _extract_account_open_date (x_text x) with
                         | Some d => VStr d | None => VNone end);
   ("trade_count", trade_count);
   ("instruments", VList (map VDict (x_instruments x)));
   ("financial_result", VNum (x_financial_result x))].

(** [SberHtmlParser.parse]: a failed load raises [ValueError];
    [trades["count"]] raises [KeyError] when the key is missing; the
    [except] re-raises. *)
Definition sber_parse (x : Extraction) : ParseOutcome :=
  if negb (x_loaded x) then Raised (ValueError "Failed to load HTML content")
  else match py_getitem (x_trades x) "count" with
       | inl e => Raised e
       | inr tc => Returned (VDict (sber_result x tc))
       end.

(** The shipped registry, with the Sberbank parser reading what [extract]
    finds in the page. *)
Definition sber_registry (extract : string -> Extraction) : Registry :=
  PARSER_REGISTRY (fun html => sber_parse (extract html)).

End ActiveCount.

(** ** Lemmas *)

(** A valid date of a [dddd] year, and the [dd.mm.yyyy] text of a date. *)
Definition date_ok (ymd : nat * nat * nat) : bool :=
  let '(y, m, d) := ymd in
  Nat.leb 1 y && Nat.ltb y (10 * 1000) && in_range 1 12 m && Nat.leb 1 d &&
  Nat.leb d (days_in_month y m).

Definition format_dmY (ymd : nat * nat * nat) : string :=
  let '(y, m, d) := ymd in pad2 d ++ "." ++ pad2 m ++ "." ++ pad4 y.

Lemma dval_digit n : dval (digit n) = n mod 10.
Proof.
  unfold dval, digit. change (ascii_of_nat (48 + n mod 10)) with (byte (48 + n mod 10)).
  pose proof (Nat.mod_upper_bound n 10). rewrite nat_of_byte; lia.
Qed.

Lemma digit_mod n k : n mod 10 = k mod 10 -> digit n = digit k.
Proof. unfold digit. by intros ->. Qed.

Lemma digit_dval c : is_digit c = true -> digit (dval c) = c.
Proof.
  unfold is_digit, dval, digit. rewrite in_range_spec. intros H.
  rewrite Nat.mod_small by lia. replace (48 + (nat_of_ascii c - 48)) with (nat_of_ascii c) by lia.
  apply ascii_nat_embedding.
Qed.

Lemma dval_lt c : is_digit c = true -> dval c < 10.
Proof. unfold is_digit, dval. rewrite in_range_spec. lia. Qed.

Lemma div_mod10 n : n = 10 * (n / 10) + n mod 10.
Proof. apply Nat.div_mod_eq. Qed.

Lemma digits2 n : n < 100 -> 10 * (n / 10 mod 10) + n mod 10 = n.
Proof.
  intros H. rewrite (Nat.mod_small (n / 10)) by (apply Nat.Div0.div_lt_upper_bound; lia).
  symmetry. apply div_mod10.
Qed.

Lemma digits4 n : n < 10 * 1000 ->
  1000 * (n / 1000 mod 10) + 100 * (n / 100 mod 10) + 10 * (n / 10 mod 10) + n mod 10 = n.
Proof.
  intros H.
  assert (E1 : n / 100 = n / 10 / 10) by (rewrite Nat.Div0.div_div; done).
  assert (E2 : n / 1000 = n / 100 / 10) by (rewrite Nat.Div0.div_div; done).
  rewrite (Nat.mod_small (n / 1000)) by (apply Nat.Div0.div_lt_upper_bound; lia).
  pose proof (div_mod10 n). pose proof (div_mod10 (n / 10)). pose proof (div_mod10 (n / 100)).
  rewrite <- E1 in *. rewrite <- E2 in *. lia.
Qed.

Lemma pad2_digits x y : x < 10 -> y < 10 ->
  pad2 (10 * x + y) = String (digit x) (String (digit y) EmptyString).
Proof.
  intros Hx Hy. unfold pad2.
  rewrite <- (Nat.div_unique (10 * x + y) 10 x y) by lia.
  rewrite (digit_mod (10 * x + y) y); [done|].
  rewrite <- (Nat.mod_unique (10 * x + y) 10 x y), Nat.mod_small; lia.
Qed.

Lemma pad4_digits x y z w : x < 10 -> y < 10 -> z < 10 -> w < 10 ->
  pad4 (1000 * x + 100 * y + 10 * z + w) =
  String (digit x) (String (digit y) (String (digit z) (String (digit w) EmptyString))).
Proof.
  intros Hx Hy Hz Hw. unfold pad4. set (n := 1000 * x + 100 * y + 10 * z + w).
  rewrite <- (Nat.div_unique n 1000 x (100 * y + 10 * z + w)) by (unfold n; lia).
  rewrite <- (Nat.div_unique n 100 (10 * x + y) (10 * z + w)) by (unfold n; lia).
  rewrite <- (Nat.div_unique n 10 (100 * x + 10 * y + z) w) by (unfold n; lia).
  rewrite (digit_mod (10 * x + y) y), (digit_mod (100 * x + 10 * y + z) z), (digit_mod n w); [done|..];
    [rewrite <- (Nat.mod_unique n 10 (100 * x + 10 * y + z) w) by (unfold n; lia)|
     rewrite <- (Nat.mod_unique (100 * x + 10 * y + z) 10 (10 * x + y) z) by lia|
     rewrite <- (Nat.mod_unique (10 * x + y) 10 x y) by lia]; rewrite Nat.mod_small; lia.
Qed.

Lemma days_in_month_le y m : days_in_month y m <= 31.
Proof. unfold days_in_month. repeat (destruct m as [|m]; try lia). destruct (is_leap y); lia. Qed.

Lemma digit_is_digit n : is_digit (digit n) = true.
Proof.
  unfold is_digit, digit. change (ascii_of_nat (48 + n mod 10)) with (byte (48 + n mod 10)).
  pose proof (Nat.mod_upper_bound n 10). rewrite nat_of_byte by lia. apply in_range_spec; lia.
Qed.

Lemma period_header_at_dmy s d1 d2 :
  period_header_at s = Some (d1, d2) -> exists t r, dmy_at t = Some (d1, r).
Proof.
  unfold period_header_at. cbv [mbind option_bind].
  destruct (strip_prefix _ s) as [t|]; [|done]. destruct (spaces1 t) as [u|]; [|done].
  destruct (dmy_at u) as [[x r]|] eqn:E; [|done].
  destruct (spaces1 r) as [r1|]; [|done]. destruct (strip_prefix "по" r1) as [r2|]; [|done].
  destruct (spaces1 r2) as [r3|]; [|done].
  destruct (dmy_at r3) as [[y r4]|]; [|done]. intros H. injection H as -> ->. by exists u, r.
Qed.

(** [period_start] comes from the period header alone, and only when both
    of its dates are valid. *)
Lemma extract_metadata_period_start text :
  py_get (_extract_metadata text) "period_start" VNone =
  match re_search period_header_at text with
  | Some (s1, s2) =>
      match strptime_dmY s1, strptime_dmY s2 with
      | Some a, Some _ => VStr (strftime_Ymd a)
      | _, _ => VNone
      end
  | None => VNone
  end.
Proof.
  unfold _extract_metadata, py_get.
  destruct (re_search investor_at text); destruct (re_search account_at text);
    destruct (re_search contract_at text ≫= strptime_dmY);
    destruct (re_search period_header_at text) as [[s1 s2]|]; try reflexivity;
    destruct (strptime_dmY s1); destruct (strptime_dmY s2); reflexivity.
Qed.

(** The ISO text of a date, cut to seven characters, has the shape
    [dddd-dd]. *)
Lemma strftime_period_shape ymd :
  is_period_shape (py_take 7 (strftime_Ymd ymd)) = true.
Proof.
  destruct ymd as [[y m] d]. unfold strftime_Ymd, pad4, pad2. autorewrite with broker_rw.
  apply take7_shape. cbn [forallb]. rewrite !digit_is_digit. done.
Qed.

(** ** Properties *)

(** Reading back the [dd.mm.yyyy] text of a valid date gives the date. *)
Theorem strptime_dmY_format ymd :
  date_ok ymd = true -> strptime_dmY (format_dmY ymd) = Some ymd.
Proof.
  destruct ymd as [[y m] d]. cbn [date_ok]. intros H.
  repeat rewrite andb_true_iff in H. rewrite !Nat.leb_le, Nat.ltb_lt, in_range_spec in H.
  pose proof (days_in_month_le y m).
  unfold format_dmY, pad2, pad4. autorewrite with broker_rw. cbn [strptime_dmY]. rewrite !dval_digit, !digits2, digits4 by lia.
  replace (Nat.leb 1 y && in_range 1 12 m && Nat.leb 1 d && Nat.leb d (days_in_month y m)) with true;
    [done|]. symmetry. repeat rewrite andb_true_iff. rewrite !Nat.leb_le, in_range_spec. lia.
Qed.

(** Conversely, a [dd.dd.dddd] match that [strptime] accepts is the text
    of the date it reads, and that date is valid. *)
Lemma strptime_dmY_inverse t ds rest ymd :
  dmy_at t = Some (ds, rest) -> strptime_dmY ds = Some ymd ->
  format_dmY ymd = ds /\ date_ok ymd = true.
Proof.
  unfold dmy_at.
  destruct t as [|a [|b [|p1 [|c [|d [|p2 [|e [|f [|g [|h r]]]]]]]]]]; try done.
  destruct (forallb _ _ && _ && _) eqn:E; [|done]. intros [= <- <-].
  repeat rewrite andb_true_iff in E. destruct E as [[E Hp1] Hp2]. cbn in E.
  repeat rewrite andb_true_iff in E.
  destruct E as (Ha & Hb & Hc & Hd & He & Hf & Hg & Hh & _).
  apply Ascii.eqb_eq in Hp1 as ->. apply Ascii.eqb_eq in Hp2 as ->.
  pose proof (dval_lt a Ha). pose proof (dval_lt b Hb). pose proof (dval_lt c Hc).
  pose proof (dval_lt d Hd). pose proof (dval_lt e He). pose proof (dval_lt f Hf).
  pose proof (dval_lt g Hg). pose proof (dval_lt h Hh).
  cbn [strptime_dmY]. destruct (_ && _) eqn:V; [|done]. intros Hy%Some_inj. subst ymd. split.
  - cbn [format_dmY]. rewrite !pad2_digits, pad4_digits by lia.
    by rewrite !digit_dval.
  - cbn [date_ok]. repeat rewrite andb_true_iff in V. repeat rewrite andb_true_iff.
    rewrite !Nat.leb_le, in_range_spec in V.
    rewrite !Nat.leb_le, Nat.ltb_lt, in_range_spec. lia.
Qed.

(** C37: The period the importer takes from the parser output
    ([period_start][:7]) is either absent ([None]) or the ISO text of a
    valid date, whose first seven characters have the shape [dddd-dd]
    with a month [01..12]. *)
Theorem sber_parsed_period float_pos x tc :
  match py_get (sber_result float_pos x tc) "period_start" VNone with
  | VNone => True
  | VStr s => exists ymd, date_ok ymd = true /\ s = strftime_Ymd ymd /\
                          is_period_shape (py_take 7 s) = true
  | _ => False
  end.
Proof.
  change (py_get (sber_result float_pos x tc) "period_start" VNone)
    with (py_get (_extract_metadata (x_text x)) "period_start" VNone).
  rewrite extract_metadata_period_start.
  destruct (re_search period_header_at (x_text x)) as [[s1 s2]|] eqn:E; [|done].
  destruct (strptime_dmY s1) as [a|] eqn:E1; [|done]. destruct (strptime_dmY s2); [|done].
  apply re_search_Some in E as (pre & suf & _ & Hm).
  apply period_header_at_dmy in Hm as (t & r & Ht).
  destruct (strptime_dmY_inverse _ _ _ _ Ht E1) as [_ Hok].
  exists a. split; [done|]. split; [done|]. apply strftime_period_shape.
Qed.

(** A page that loads and whose trade table has a count is parsed: the
    importer receives the whole result with status [success], and it
    holds the importer's two expected fields and every required field. *)
Theorem sber_parse_file_content float_pos extract html tc :
  x_loaded (extract html) = true -> py_getitem (x_trades (extract html)) "count" = inr tc ->
  _parse_file_content (sber_registry float_pos extract) "sber" html =
    (Some (sber_result float_pos (extract html) tc), PSuccess) /\
  Forall (fun k => py_contains (sber_result float_pos (extract html) tc) k = true)
         (get_required_fields ++ ["account_number"; "period_start"])%list.
Proof.
  intros Hl Hc. split.
  - unfold _parse_file_content, sber_registry. cbn -[sber_parse sber_result].
    unfold sber_parse. rewrite Hl, Hc. reflexivity.
  - repeat constructor.
Qed.

(** A portfolio whose [quantity_end] values are not strings has no
    active-instrument count: [.replace] raises [AttributeError] on the
    first row, which escapes the inner handler. *)
Lemma active_instruments_count_none float_pos portfolio :
  Forall (fun item => match py_get item "quantity_end" (VStr "0") with
                      | VStr _ => False | _ => True end) portfolio ->
  _compute_active_instruments_count float_pos portfolio = VNone.
Proof.
  unfold _compute_active_instruments_count.
  destruct portfolio as [|item rest]; [done|]. intros Hall%Forall_cons_1. destruct Hall as [Hi _].
  cbn [count_active]. by destruct (py_get item "quantity_end" (VStr "0")).
Qed.

(** ** Concrete pages *)

Definition nl : string := String "010" EmptyString.

Definition header : string :=
  "Отчет брокера" ++ nl ++ "Инвестор:  Иванов Иван Иванович " ++ nl ++
  "Договор на ведение индивидуального инвестиционного счета S000T49 от 13.08.2019" ++ nl ++
  "Отчет за период с 01.07.2023 по 31.07.2023".

(** The header of a report gives all five metadata fields, the dates in
    ISO form. *)
Example extract_metadata_header :
  _extract_metadata header =
    [("investor_name", VStr "Иванов Иван Иванович"); ("account_number", VStr "S000T49");
     ("contract_date", VStr "2019-08-13"); ("period_start", VStr "2023-07-01");
     ("period_end", VStr "2023-07-31")] /\
  _extract_account_open_date header = Some "2019-08-13".
Proof. vm_compute. auto. Qed.

(** Finding: an impossible end date ([31.06]) drops the start date too,
    so [period_start] is [None]. *)
Example period_end_invalid_drops_start :
  py_get (_extract_metadata "за период с 01.06.2023 по 31.06.2023") "period_start" VNone = VNone.
Proof. vm_compute. reflexivity. Qed.

Definition row (isin : string) (q : Q) : pydict :=
  [("name", VStr "bond"); ("isin", VStr isin); ("quantity_end", VNum q)].

Definition page (text : string) : Extraction :=
  mkExtraction true text [] [row "RU0009029540" 0; row "RU000A0JX0J2" 5]
               [("count", VNum 0); ("details", VList [])] [] 0 [] 0.

Lemma sber_parse_file_content_witness :
  x_loaded (page header) = true /\ py_getitem (x_trades (page header)) "count" = inr (VNum 0) /\
  _parse_file_content (sber_registry (fun _ => Some true) page) "sber" header =
    (Some (sber_result (fun _ => Some true) (page header) (VNum 0)), PSuccess) /\
  Forall (fun k => py_contains (sber_result (fun _ => Some true) (page header) (VNum 0)) k = true)
         (get_required_fields ++ ["account_number"; "period_start"])%list.
Proof.
  split; [reflexivity|]. split; [reflexivity|].
  apply (sber_parse_file_content (fun _ => Some true) page header (VNum 0)); reflexivity.
Defined.

(** Finding: the aggregates drop falsy values, so the lists are not
    aligned: a zero quantity disappears from [quantity_end] while its
    ISIN stays in [isin]. *)
Example aggregates_misaligned :
  _aggregate_isin (x_portfolio (page header)) = VList [VStr "RU0009029540"; VStr "RU000A0JX0J2"] /\
  _aggregate_quantity_end (x_portfolio (page header)) = VList [VNum 5].
Proof. vm_compute. auto. Qed.

Lemma strptime_dmY_format_witness :
  date_ok (2023, 7, 1) = true /\ strptime_dmY (format_dmY (2023, 7, 1)) = Some (2023, 7, 1).
Proof. split; [reflexivity|]. apply strptime_dmY_format. reflexivity. Defined.

End SberParser.
