(* ===== verification/SberExtract.v ===== *)
(** * The HTML tree walk of the Sberbank parser

    Models the [_extract_*] methods of [SberHtmlParser]
    ([src/core/parsers/sber_html_parser.py], lines 215-552) that walk the
    BeautifulSoup tree.  The page is its sequence of top-level blocks --
    paragraphs and tables, in document order -- and its text
    ([soup.get_text()]).  A table is its rows; a row has its [class] and
    [bgcolor] attributes and its [td] cells; a cell has its text
    ([get_text()]), its [.string], its [class] and its [colspan].  Tables
    are not nested and paragraphs are not inside tables, as in the
    reports; [get_text(strip=True)] of a cell is the stripped text of the
    cell.  Python's [float] on a string is the section variable
    [py_float] ([None] when it raises [ValueError]). *)

From Stdlib Require Import QArith_base.
From S2P Require Import Prelude PyStr PyValue Parsers SberParser.
Import SberParser.

Open Scope string_scope.

Module SberExtract.

Record Cell := mkCell {
  c_text : string;            (** [cell.get_text()] *)
  c_string : option string;   (** [cell.string] *)
  c_class : list string;      (** [cell['class']] *)
  c_colspan : option string   (** [cell.get('colspan')] *)
}.

Record Row := mkRow {
  tr_class : option (list string);   (** [row.get('class')] *)
  tr_bgcolor : option string;        (** [row.get('bgcolor')] *)
  tr_cells : list Cell               (** [row.find_all('td')] *)
}.

Inductive Block : Type :=
| BPara (text : string)
| BTable (rows : list Row).

Record Page := mkPage {
  p_blocks : list Block;
  p_text : string              (** [soup.get_text()] *)
}.

(** ** Tree queries *)

(** [soup.find_all('table')] *)
Definition tables (pg : Page) : list (list Row) :=
  flat_map (fun b => match b with BTable rows => [rows] | BPara _ => [] end) (p_blocks pg).

Definition cells_of (rows : list Row) : list Cell := flat_map tr_cells rows.

(** [cell.get_text(strip=True)] *)
Definition ctext (c : Cell) : string := py_strip (c_text c).

(** [header_cells = table.find_all('td', class_='c')] is non-empty and
    one of them contains [needle]. *)
Definition header_has (rows : list Row) (needle : string) : bool :=
  existsb (fun c => existsb (String.eqb "c") (c_class c) && py_in needle (c_text c))
          (cells_of rows).

(** [table.find('td', string=lambda x: x and needle in x)] *)
Definition has_string_td (rows : list Row) (needle : string) : bool :=
  existsb (fun c => match c_string c with Some s => py_in needle s | None => false end)
          (cells_of rows).

(** [cells and 'Итого' in cells[0].get_text()] *)
Definition total_row (cells : list Cell) : bool :=
  match cells with c0 :: _ => py_in "Итого" (c_text c0) | [] => false end.

Definition first_some {A B} (f : A -> option B) : list A -> option B :=
  fix go l := match l with [] => None | x :: r => match f x with Some y => Some y | None => go r end end.

(** [s.replace(' ', '').replace(',', '.')] *)
Definition num_text (s : string) : string := replace_char ","%char (Some "."%char) (replace_char " "%char None s).

Definition nth_cell (i : nat) (cells : list Cell) : Cell :=
  nth i cells (mkCell "" None [] None).

Definition last_cell (cells : list Cell) : Cell := List.last cells (mkCell "" None [] None).

Section Extract.
Variable py_float : string -> option Q.

(** [float(text.replace(' ', '').replace(',', '.'))] *)
Definition parse_amount (s : string) : option Q := py_float (num_text s).

(** ** [_extract_balance_ending] *)

(** The last cell of the first total row of the first assets table; a
    failed conversion is caught and gives [0.0]. *)
Definition _extract_balance_ending (pg : Page) : Q :=
  match first_some (fun rows =>
          if header_has rows "Оценка портфеля ЦБ"
          then first_some (fun r => if total_row (tr_cells r)
                                    then Some (ctext (last_cell (tr_cells r))) else None) rows
          else None) (tables pg) with
  | Some txt => match parse_amount txt with Some q => q | None => 0 end
  | None => 0
  end.

(** ** [_extract_trades] *)

Definition trade_of_row (r : Row) : list pydict :=
  let cells := tr_cells r in
  if Nat.leb 13 (List.length cells) then
    let qc := ctext (nth_cell 12 cells) in
    if negb (String.eqb qc "") && negb (String.eqb qc "0")
    then [[("instrument", VStr (ctext (nth_cell 0 cells)));
           ("isin", VStr (ctext (nth_cell 1 cells)));
           ("quantity_change", VStr qc)]]
    else []
  else [].

Definition _extract_trades (pg : Page) : pydict :=
  let details := flat_map (fun rows => if has_string_td rows "Портфель Ценных Бумаг"
                                       then flat_map trade_of_row rows else [])
                          (tables pg) in
  [("count", VNum (inject_Z (Z.of_nat (List.length details))));
   ("details", VList (map VDict details))].

(** ** [_extract_instruments] *)

(** [s.isdigit()] on ASCII, and [int(s)] of such a string. *)
Definition str_isdigit (s : string) : bool :=
  negb (String.eqb s "") && forallb is_digit (list_ascii_of_string s).

Definition int_of_digits (s : string) : Z :=
  fold_left (fun acc c => 10 * acc + Z.of_nat (dval c))%Z (list_ascii_of_string s) 0%Z.

Definition instrument_of_row (r : Row) : list pydict :=
  let cells := tr_cells r in
  let c0 := nth_cell 0 cells in
  if Nat.leb 3 (List.length cells) && negb (String.eqb (ctext c0) "") then
    if py_in "Наименование" (c_text c0) || py_in "Площадка" (c_text c0) || py_in "Итого" (c_text c0)
    then []
    else
      let name := ctext c0 in
      let isin := ctext (nth_cell 1 cells) in
      let quantity := if Nat.ltb 8 (List.length cells) then ctext (nth_cell 8 cells) else "0" in
      let q := replace_char " "%char None quantity in
      if negb (String.eqb name "") && negb (String.prefix "Итого" name)
      then [[("name", VStr name); ("isin", VStr isin);
             ("quantity", VNum (inject_Z (if str_isdigit q then int_of_digits q else 0%Z)))]]
      else []
  else [].

Definition _extract_instruments (pg : Page) : list pydict :=
  flat_map (fun rows => if header_has rows "Наименование" then flat_map instrument_of_row rows else [])
           (tables pg).

(** ** [_extract_financial_result] *)

(** [float(t) if t else 0]: [None] when [float] raises. *)
Definition amount_or_zero (t : string) : option Q :=
  if String.eqb t "" then Some 0%Q else parse_amount t.

(** The first total row with two cells or more of the first cash-flow
    table that has one: credits minus debits; a failed conversion is
    caught and gives [0.0]. *)
Definition _extract_financial_result (pg : Page) : Q :=
  match first_some (fun rows =>
          if header_has rows "Дата"
          then first_some (fun r => let cells := tr_cells r in
                                    if total_row cells && Nat.leb 2 (List.length cells)
                                    then Some cells else None) rows
          else None) (tables pg) with
  | Some cells =>
      let n := List.length cells in
      match amount_or_zero (ctext (nth_cell (n - 2) cells)),
            amount_or_zero (ctext (nth_cell (n - 1) cells)) with
      | Some c, Some d => Qminus c d
      | _, _ => 0
      end
  | None => 0
  end.

(** ** [_extract_cash_flows] *)

(** One row: [None] when a conversion raises, which aborts the whole
    method (its [except] returns [[]]). *)
Definition cash_flow_of_row (r : Row) : option (list pydict) :=
  let cells := tr_cells r in
  let c0 := nth_cell 0 cells in
  if Nat.leb 6 (List.length cells) && negb (String.eqb (ctext c0) "") then
    if py_in "Дата" (c_text c0) || py_in "Итого" (c_text c0) then Some []
    else
      let credit := ctext (nth_cell 4 cells) in
      let debit := ctext (nth_cell 5 cells) in
      match amount_or_zero credit, amount_or_zero debit with
      | Some c, Some d =>
          Some [[("date", VStr (ctext c0)); ("platform", VStr (ctext (nth_cell 1 cells)));
                 ("description", VStr (ctext (nth_cell 2 cells)));
                 ("currency", VStr (ctext (nth_cell 3 cells)));
                 ("credit", VNum c); ("debit", VNum d)]]
      | _, _ => None
      end
  else Some [].

Fixpoint collect {A B} (f : A -> option (list B)) (l : list A) : option (list B) :=
  match l with
  | [] => Some []
  | x :: r => match f x, collect f r with Some a, Some b => Some (a ++ b)%list | _, _ => None end
  end.

Definition _extract_cash_flows (pg : Page) : list pydict :=
  match collect (fun rows => if has_string_td rows "Движение денежных средств за период"
                             then collect cash_flow_of_row rows else Some []) (tables pg) with
  | Some l => l
  | None => []
  end.

(** ** [_extract_securities_portfolio] *)

Fixpoint first_table (bs : list Block) : option (list Row) :=
  match bs with
  | [] => None
  | BTable rows :: _ => Some rows
  | BPara _ :: r => first_table r
  end.

(** The first table after the first paragraph that names the portfolio. *)
Fixpoint portfolio_table (bs : list Block) : option (list Row) :=
  match bs with
  | [] => None
  | BPara t :: r => if py_in "Портфель Ценных Бумаг" t then first_table r else portfolio_table r
  | BTable _ :: r => portfolio_table r
  end.

(** [safe_float(value_str)]: [None] for an empty text or a failed
    conversion. *)
Definition safe_float (s : string) : pyval :=
  if String.eqb s "" then VNone
  else match parse_amount s with Some q => VNum q | None => VNone end.

Definition skip_row (r : Row) : bool :=
  match tr_class r with
  | Some cls => existsb (String.eqb "table-header") cls || existsb (String.eqb "rn") cls
  | None => false
  end || match tr_bgcolor r with Some b => String.eqb b "#C0C0C0" | None => false end.

Definition security_of_row (r : Row) : list pydict :=
  let cells := tr_cells r in
  let c := fun i => ctext (nth_cell i cells) in
  if Nat.ltb (List.length cells) 14 then []
  else if skip_row r then []
  else if match c_colspan (nth_cell 0 cells) with Some s => negb (String.eqb s "") | None => false end
  then []
  else
    let name := c 0 in
    let isin := c 1 in
    if String.eqb name "" || String.eqb isin "" || String.prefix "Итого" name then []
    else [[("name", VStr name); ("isin", VStr isin); ("currency", VStr (c 2));
           ("quantity_start", safe_float (c 3)); ("nominal", safe_float (c 4));
           ("price_start", safe_float (c 5)); ("value_start", safe_float (c 6));
           ("nkd_start", safe_float (c 7)); ("quantity_end", safe_float (c 8));
           ("price_end", safe_float (c 9)); ("value_end", safe_float (c 10));
           ("nkd_end", safe_float (c 11)); ("quantity_change", safe_float (c 12));
           ("value_change", safe_float (c 13))]].

Definition _extract_securities_portfolio (pg : Page) : list pydict :=
  match portfolio_table (p_blocks pg) with
  | Some rows => flat_map security_of_row rows
  | None => []
  end.

(** ** [_extract_financial_metrics] *)

(** The three totals of one total row, in order; the first failed
    conversion stops the assignments ([except: pass]). *)
Definition metrics_of_row (cells : list Cell) (m : pydict) : pydict :=
  match parse_amount (ctext (nth_cell 1 cells)) with
  | None => m
  | Some pv =>
      let m := dict_set "portfolio_value" (VNum pv) m in
      match parse_amount (ctext (nth_cell 2 cells)) with
      | None => m
      | Some cb =>
          let m := dict_set "cash_balance" (VNum cb) m in
          match parse_amount (ctext (nth_cell 3 cells)) with
          | None => m
          | Some ta => dict_set "total_assets" (VNum ta) m
          end
      end
  end.

(** Every assets table contributes its first total row ([break] leaves
    the row loop only). *)
Definition _extract_financial_metrics (pg : Page) : pydict :=
  fold_left (fun m rows =>
               if header_has rows "Оценка портфеля ЦБ" then
                 match first_some (fun r => if total_row (tr_cells r) then Some (tr_cells r) else None) rows with
                 | Some cells => if Nat.leb 4 (List.length cells) then metrics_of_row cells m else m
                 | None => m
                 end
               else m) (tables pg) [].

(** ** The whole walk *)

(** What [parse] obtains from a page; [BeautifulSoup] always builds a
    tree, so [load_html] succeeds. *)
Definition extract (pg : Page) : Extraction :=
  mkExtraction true (p_text pg) (_extract_cash_flows pg) (_extract_securities_portfolio pg)
               (_extract_trades pg) (_extract_financial_metrics pg) (_extract_balance_ending pg)
               (_extract_instruments pg) (_extract_financial_result pg).

End Extract.

(** ** Properties *)

Lemma security_quantity_end py_float r item :
  In item (security_of_row py_float r) ->
  match py_get item "quantity_end" (VStr "0") with VStr _ => False | _ => True end.
Proof.
  unfold security_of_row.
  repeat match goal with |- context [if ?b then _ else _] => destruct b end;
    intros [<-|[]] || (intros []); cbn.
  unfold safe_float. destruct (String.eqb _ ""); [done|]. by destruct (parse_amount _ _).
Qed.

(** C33: Finding: [_extract_securities_portfolio] stores [quantity_end] as a
    float or [None] ([safe_float]), and [.replace] on such a value raises
    [AttributeError], which the inner [except (ValueError, TypeError)]
    does not catch: for every page the parser reports no active
    instruments. *)
Theorem sber_active_instruments_count_none float_pos py_float pg :
  _compute_active_instruments_count float_pos (x_portfolio (extract py_float pg)) = VNone.
Proof.
  apply active_instruments_count_none. apply Forall_forall. intros item Hin%list_elem_of_In.
  cbn [extract x_portfolio] in Hin. unfold _extract_securities_portfolio in Hin.
  destruct (portfolio_table _) as [rows|]; [|done].
  apply in_flat_map in Hin as (r & _ & Hr). by apply (security_quantity_end py_float r).
Qed.

(** ** Concrete pages *)

Fixpoint span_digits (l : list ascii) : list ascii * list ascii :=
  match l with
  | c :: r => if is_digit c then let '(a, b) := span_digits r in (c :: a, b) else ([], l)
  | [] => ([], [])
  end.

Definition digits_Z (l : list ascii) : Z :=
  fold_left (fun acc c => 10 * acc + Z.of_nat (dval c))%Z l 0%Z.

(** A reader of decimal literals [-?\d+(\.\d+)?], standing for [float] in
    the examples. *)
Definition dec_float (s : string) : option Q :=
  let l := list_ascii_of_string s in
  let '(sgn, l) := match l with
                   | c :: r => if Ascii.eqb c "-" then ((-1)%Z, r) else (1%Z, l)
                   | [] => (1%Z, l)
                   end in
  match span_digits l with
  | ((_ :: _) as ip, []) => Some (inject_Z (sgn * digits_Z ip))
  | ((_ :: _) as ip, c :: fr) =>
      if Ascii.eqb c "." then
        match span_digits fr with
        | ((_ :: _) as fp, []) =>
            Some (Qmake (sgn * digits_Z (ip ++ fp)) (Pos.of_nat (10 ^ List.length fp)))
        | _ => None
        end
      else None
  | _ => None
  end.

Definition td (t : string) : Cell := mkCell t (Some t) [] None.
Definition th (t : string) : Cell := mkCell t (Some t) ["c"] None.
Definition tr (cs : list Cell) : Row := mkRow None None cs.

Definition security_row (name isin qend : string) : Row :=
  tr (map td [name; isin; "RUB"; "10"; "1000"; "99,5"; "9 950"; "0"; qend;
              "100,1"; "10 010"; "0"; "0"; "60"]).

Definition cash_row (credit : string) : Row :=
  tr (map td ["03.07.2023"; "Фондовый рынок"; "Зачисление"; "RUB"; credit; ""]).

Definition demo_page (text : string) (cash : list Row) : Page :=
  mkPage [BPara "Портфель Ценных Бумаг";
          BTable [tr [th "Наименование"]; security_row "ОФЗ 26238" "RU000A1038V6" "10"];
          BTable (tr [td "Движение денежных средств за период"] :: cash)] text.

(** A position with ten bonds at the end of the period is read with its
    quantity as a float, and the parser still counts no active
    instrument. *)
Example demo_portfolio :
  py_get (hd [] (_extract_securities_portfolio dec_float (demo_page header []))) "quantity_end" VNone
    = VNum 10 /\
  _compute_active_instruments_count (fun _ => Some true)
    (x_portfolio (extract dec_float (demo_page header []))) = VNone.
Proof. vm_compute. auto. Qed.

(** Finding: one amount that [float] cannot read makes
    [_extract_cash_flows] raise, and its [except] drops every cash flow
    of the page. *)
Example cash_flows_dropped_on_bad_amount :
  List.length (_extract_cash_flows dec_float (demo_page header [cash_row "1 000,50"])) = 1 /\
  _extract_cash_flows dec_float (demo_page header [cash_row "1 000,50"; cash_row "н/д"]) = [].
Proof. vm_compute. auto. Qed.

End SberExtract.
