(* ===== verification/Pipeline.v ===== *)
(** * The import pipeline

    Models [EnhancedReportImporter] of
    [src/core/scripts/import/import_reports.py]: [is_exact_duplicate],
    [is_semantic_duplicate], [move_to_duplicate_archive], [scan_inbox],
    [process_file_enhanced] and [import_reports], in the [PyM] monad over the
    whole state ([World]): the store, the filesystem, the importer's
    [stats] dictionary and the lines appended to [import_duplicates.log].
    [process_file_enhanced] is split into its stages, each a definition,
    composed as the code composes them; its outer [try/except Exception]
    is [try_except].

    The environment of a run is a section context: the SHA-256 function,
    the broker pattern table and the parser registry. *)

From stdpp Require Import gmap.
From S2P Require Import Prelude PyStr PyValue FilenameMeta Classifier Parsers Store Archive.
From S2P Require Import SberParser SberExtract.
Import FilenameMeta Classifier Parsers Store Archive SberParser SberExtract.

Open Scope string_scope.

Module Pipeline.

(** ** State *)

(** [self.stats] *)
Record Stats := mkStats {
  files_processed : nat;
  files_success : nat;
  files_failed : nat;
  files_skipped : nat;
  unknown_broker : nat;
  errors : list string
}.

Definition stats0 : Stats := mkStats 0 0 0 0 0 [].

Record World := mkWorld {
  w_store : Store;
  w_fs : FS;
  w_stats : Stats;
  w_events : list Event
}.

Abbreviation M := (PyM World).

(** ** Lifting the components' operations *)

Definition lift_db {A} (f : Store -> A * Store) : M A :=
  fun w => let '(a, st) := f (w_store w) in
           (inr a, mkWorld st (w_fs w) (w_stats w) (w_events w)).

Definition lift_fs {A} (f : FS -> A * FS) : M A :=
  fun w => let '(a, fs) := f (w_fs w) in
           (inr a, mkWorld (w_store w) fs (w_stats w) (w_events w)).

(** An operation that raises: the exception propagates. *)
Definition lift_exn {A} (r : exn + A) : M A :=
  fun w => (r, w).

Definition bump (f : Stats -> Stats) : M unit :=
  fun w => (inr tt, mkWorld (w_store w) (w_fs w) (f (w_stats w)) (w_events w)).

Definition log_import_event (e : Event) : M unit :=
  fun w => (inr tt, mkWorld (w_store w) (w_fs w) (w_stats w) (w_events w ++ [e])).

Definition ensure_dirs : M unit :=
  lift_fs (fun fs => (tt, ensure_archive_directories fs)).

Definition inc_failed (s : Stats) : Stats :=
  mkStats (files_processed s) (files_success s) (S (files_failed s)) (files_skipped s)
          (unknown_broker s) (errors s).
Definition inc_success (s : Stats) : Stats :=
  mkStats (files_processed s) (S (files_success s)) (files_failed s) (files_skipped s)
          (unknown_broker s) (errors s).
Definition inc_skipped (s : Stats) : Stats :=
  mkStats (files_processed s) (files_success s) (files_failed s) (S (files_skipped s))
          (unknown_broker s) (errors s).
Definition inc_unknown (s : Stats) : Stats :=
  mkStats (files_processed s) (files_success s) (files_failed s) (files_skipped s)
          (S (unknown_broker s)) (errors s).
Definition inc_processed (s : Stats) : Stats :=
  mkStats (S (files_processed s)) (files_success s) (files_failed s) (files_skipped s)
          (unknown_broker s) (errors s).
Definition add_error (msg : string) (s : Stats) : Stats :=
  mkStats (files_processed s) (files_success s) (files_failed s) (files_skipped s)
          (unknown_broker s) (errors s ++ [msg]).

(** ** Python helpers used by the importer *)

(** [Optional[str]] as a Python value. *)
Definition opt_str (o : option string) : pyval :=
  match o with Some s => VStr s | None => VNone end.

(** [period != parsed_period] for a [str] [period]. *)
Definition str_ne (p : string) (v : pyval) : bool :=
  match v with VStr s => negb (String.eqb p s) | _ => true end.

(** [parsed_data['period_start'][:7]] *)
Definition parsed_period_of (d : pydict) : exn + pyval :=
  match py_getitem d "period_start" with
  | inl e => inl e
  | inr v => py_slice_to 7 v
  end.

(** [parsed_data and 'period_start' in parsed_data] *)
Definition has_period_start (parsed : option pydict) : option pydict :=
  match parsed with
  | Some d => if truthy (VDict d) && py_contains d "period_start" then Some d else None
  | None => None
  end.

(** [if report_id:] -- a database id of [0] is falsy. *)
Definition id_truthy (rid : option nat) : bool :=
  match rid with Some n => negb (Nat.eqb n 0) | None => false end.

Inductive DupKind : Type := ExactDuplicates | LogicalDuplicates.

Definition dup_dir (k : DupKind) : string :=
  match k with
  | ExactDuplicates => ARCHIVE_EXACT_DUPLICATES_PATH
  | LogicalDuplicates => ARCHIVE_LOGICAL_DUPLICATES_PATH
  end.

Definition dup_event (k : DupKind) : EventType :=
  match k with ExactDuplicates => EvExactDuplicates | LogicalDuplicates => EvLogicalDuplicates end.

Section Importer.

(** [hashlib.sha256(content.encode('utf-8')).hexdigest()] *)
Variable sha256 : string -> string.
(** [load_broker_patterns()] *)
Variable patterns : PatternTable.
(** [PARSER_REGISTRY] *)
Variable registry : Registry.

(** ** The importer's methods *)

Definition is_exact_duplicate (file_hash : string) : M (bool * option Report) :=
  existing ← lift_db (fun st => get_report_by_hash st file_hash);
  mret (bool_decide (is_Some existing), existing).

Definition is_semantic_duplicate (broker : string) (account period : pyval)
    (parsed_data : option pydict) : M (bool * option Report) :=
  match has_period_start parsed_data with
  | Some d =>
      parsed_period ← lift_exn (parsed_period_of d);
      let parsed_account := py_get d "account_number" account in
      existing ← lift_db (fun st => get_report_by_triple st broker parsed_account parsed_period);
      mret (bool_decide (is_Some existing), existing)
  | None =>
      existing ← lift_db (fun st => get_report_by_triple st broker account period);
      mret (bool_decide (is_Some existing), existing)
  end.

(** The [try] block: rename, then one log event with empty metadata; any
    exception makes it return [False]. *)
Definition move_to_duplicate_archive (fi : FileInfo) (kind : DupKind) (reason : string) : M bool :=
  ensure_dirs;;
  r ← lift_fs (fun fs => path_rename fs (fi_path fi) (dup_dir kind, fi_name fi));
  match r with
  | inl _ => mret false
  | inr _ =>
      log_import_event (mkEvent (fi_name fi) (dup_event kind) reason ""
                                (VStr "") (VStr "") (VStr "") VNone VNone);;
      mret true
  end.

Definition scan_inbox (inbox : string) : M (list FileInfo) :=
  w ← get_st;
  mret (if dir_exists (w_fs w) inbox then scan_directory (w_fs w) inbox else []).

(** *** [process_file_enhanced], stage by stage *)

(** Stage 1, exact duplicate: archive, audit row, log event. *)
Definition exact_duplicate_branch (fi : FileInfo) (file_hash : string) : M bool :=
  _ ← move_to_duplicate_archive fi ExactDuplicates "exact duplicate (hash match)";
  _ ← lift_db (fun st => log_import_file st LDuplicateDetected "unknown" VNone VNone
                            (fi_name fi) file_hash (Some "Exact duplicate detected"));
  log_import_event (mkEvent (fi_name fi) EvExactDuplicate "exact duplicate (hash match)"
                            file_hash VNone VNone VNone VNone VNone);;
  bump inc_skipped;;
  mret true.

(** Stage 3, no parser: archive to [unrecognized/] first, then log. *)
Definition no_parser_branch (fi : FileInfo) (file_hash broker : string) (account : pyval)
    (period : string) : M bool :=
  ensure_dirs;;
  r ← lift_fs (fun fs => path_rename fs (fi_path fi) (ARCHIVE_UNRECOGNIZED_PATH, fi_name fi));
  match r with
  | inl _ => bump inc_failed;; mret false
  | inr _ =>
      _ ← lift_db (fun st => log_import_file st LSkipped broker account (VStr period)
                               (fi_name fi) file_hash (Some "No parser found for broker"));
      log_import_event (mkEvent (fi_name fi) EvNoParserFound "no parser found for broker"
                                file_hash (VStr broker) VNone VNone VNone VNone);;
      bump inc_skipped;;
      mret true
  end.

(** Step 7: when the parsed period differs from the filename period, log
    the mismatch and take the parsed period and account. *)
Definition reconcile_period (fi : FileInfo) (file_hash broker : string) (account : pyval)
    (period : string) (parsed_data : option pydict) : M (pyval * pyval) :=
  match has_period_start parsed_data with
  | Some d =>
      parsed_period ← lift_exn (parsed_period_of d);
      if str_ne period parsed_period then
        log_import_event (mkEvent (fi_name fi) EvPeriodMismatch
                                  "period mismatch between filename and parsed data"
                                  file_hash (VStr broker) account VNone (VStr period) parsed_period);;
        mret (py_get d "account_number" account, parsed_period)
      else mret (account, VStr period)
  | None => mret (account, VStr period)
  end.

(** Step 8, semantic duplicate: archive, audit row, log event. *)
Definition semantic_duplicate_branch (fi : FileInfo) (file_hash broker : string)
    (account period : pyval) : M bool :=
  _ ← move_to_duplicate_archive fi LogicalDuplicates "semantic duplicate (same broker/account/period)";
  _ ← lift_db (fun st => log_import_file st LCollisionMismatch broker account period (fi_name fi)
                           file_hash (Some "semantic duplicate: account + period already imported"));
  log_import_event (mkEvent (fi_name fi) EvSemanticDuplicate
                            "semantic duplicate (same broker/account/period)"
                            file_hash (VStr broker) account period VNone VNone);;
  bump inc_skipped;;
  mret true.

(** Stage 4: insert, attach the parsed data, audit, move to [imported/]. *)
Definition insert_branch (fi : FileInfo) (content file_hash broker : string)
    (account period : pyval) (parsed_data : option pydict) : M bool :=
  let is_html := String.eqb (py_lower (py_suffix (fi_name fi))) ".html" in
  report_id ← lift_db (fun st => insert_report sha256 st broker period (fi_name fi)
                                  (path_str (fi_path fi))
                                  (if is_html then Some content else None)
                                  (if is_html then None else Some content)
                                  account file_hash (fi_size fi));
  (match parsed_data, report_id with
   | Some d, Some rid =>
       if id_truthy report_id
       then _ ← lift_db (fun st => update_report_parsed_data st rid (_serialize_parsed_data d) StParsed);
            mret tt
       else mret tt
   | _, _ => mret tt
   end);;
  if negb (id_truthy report_id) then
    bump inc_failed;;
    _ ← lift_db (fun st => log_import_file st LFailure broker account period (fi_name fi)
                             file_hash (Some "Insert failed"));
    mret false
  else
    bump inc_success;;
    _ ← lift_db (fun st => log_import_file st LSuccess broker account period (fi_name fi)
                             file_hash None);
    log_import_event (mkEvent (fi_name fi) EvImported "imported successfully" file_hash
                              (VStr broker) account period VNone VNone);;
    ensure_dirs;;
    r ← lift_fs (fun fs => path_rename fs (fi_path fi) (ARCHIVE_IMPORTED_PATH, fi_name fi));
    match r with
    | inl _ => bump inc_failed;; mret false
    | inr _ => mret true
    end.

(** Stages 2 to 4, after the exact-duplicate check has passed. *)
Definition classify_and_import (fi : FileInfo) (content file_hash : string) : M bool :=
  let broker := detect_broker_tiered (fi_name fi) content patterns in
  (if String.eqb broker "unknown" then bump inc_unknown else mret tt);;
  let period := extract_period_from_filename (fi_name fi) in
  let account := opt_str (extract_account_from_filename (fi_name fi)) in
  _ ← is_semantic_duplicate broker account (VStr period) None;
  let '(parsed, status) := _parse_file_content registry broker content in
  match status with
  | PNoParserFound => no_parser_branch fi file_hash broker account period
  | _ =>
      let parsed := match status with PParseFailed _ => None | _ => parsed end in
      '(account, period') ← reconcile_period fi file_hash broker account period parsed;
      sem ← is_semantic_duplicate broker account period' parsed;
      match sem with
      | (true, _) => semantic_duplicate_branch fi file_hash broker account period'
      | (false, _) => insert_branch fi content file_hash broker account period' parsed
      end
  end.

(** Stage 1: read and hash the file, check the store for the hash. *)
Definition process_body (fi : FileInfo) : M bool :=
  w ← get_st;
  match read_file_content (w_fs w) (fi_path fi) with
  | None => bump inc_failed;; mret false
  | Some content =>
      if String.eqb content "" then bump inc_failed;; mret false
      else
        let file_hash := sha256 content in
        exact ← is_exact_duplicate file_hash;
        match exact with
        | (true, _) => exact_duplicate_branch fi file_hash
        | (false, _) => classify_and_import fi content file_hash
        end
  end.

Definition process_file_enhanced (fi : FileInfo) : M bool :=
  try_except (process_body fi)
    (fun e => bump inc_failed;;
              bump (add_error (path_str (fi_path fi) ++ ": " ++ exn_msg e));;
              mret false).

(** *** [import_reports] *)

Fixpoint process_all (files_info : list FileInfo) : M unit :=
  match files_info with
  | [] => mret tt
  | fi :: rest =>
      _ ← process_file_enhanced fi;
      bump inc_processed;;
      process_all rest
  end.

Definition join_errors (es : list string) : option string :=
  match es with
  | [] => None
  | e :: r => Some (fold_left (fun acc x => acc ++ "; " ++ x) r e)
  end.

(** [--broker]: the legacy filename detector decides, on readable files. *)
Definition broker_filter (fs : FS) (broker : string) (files_info : list FileInfo) : list FileInfo :=
  List.filter (fun fi => match read_file_content fs (fi_path fi) with
                         | Some c => negb (String.eqb c "") &&
                                     String.eqb (detect_broker_from_filename (fi_name fi)) broker
                         | None => false
                         end) files_info.

Definition import_reports (source : string) (broker : option string) (dry_run : bool) : M bool :=
  let source_path := if String.eqb source "inbox" then INBOX_PATH else source in
  w ← get_st;
  if negb (dir_exists (w_fs w) source_path) then mret false
  else
    lift_fs (fun fs => (tt, mkdir fs ARCHIVE_PATH));;
    files_info ← scan_inbox source_path;
    match files_info with
    | [] => mret true
    | _ =>
        w ← get_st;
        let files_info := match broker with
                          | Some b => if String.eqb b "" then files_info
                                      else broker_filter (w_fs w) b files_info
                          | None => files_info
                          end in
        if dry_run then mret true
        else
          process_all files_info;;
          w ← get_st;
          let s := w_stats w in
          _ ← lift_db (fun st => log_import_operation st "import" broker (files_processed s)
                                   (files_success s) (files_failed s) (join_errors (errors s)));
          mret true
    end.

End Importer.

(** ** Relations between worlds *)

Definition NF (w : World) : Prop := db_faults (w_store w) = [].

(** The step keeps the stored hashes and introduces no fault. *)
Definition Neutral (w w' : World) : Prop := store_neutral (w_store w) (w_store w').

(** The step adds at most the hash [h] and introduces no fault. *)
Definition Ext (h : string) (w w' : World) : Prop :=
  (hashes (w_store w') = hashes (w_store w) \/
   hashes (w_store w') = (hashes (w_store w) ++ [h])%list) /\
  (NF w -> NF w').

#[export] Instance Neutral_refl : Reflexive Neutral.
Proof. intros w. unfold Neutral. reflexivity. Qed.

#[export] Instance Neutral_trans : Transitive Neutral.
Proof. intros x y z. unfold Neutral. apply store_neutral_trans. Qed.

Lemma Neutral_Ext h w w' : Neutral w w' -> Ext h w w'.
Proof. intros [Hh Hf]. split; [by left|exact Hf]. Qed.

Lemma Neutral_Ext_trans h x y z : Neutral x y -> Ext h y z -> Ext h x z.
Proof.
  intros [Hh Hf] [[Hh'|Hh'] Hf']; split; unfold NF in *; auto; [left|right]; congruence.
Qed.

Lemma Ext_Neutral_trans h x y z : Ext h x y -> Neutral y z -> Ext h x z.
Proof.
  intros [[Hh|Hh] Hf] [Hh' Hf']; split; unfold NF in *; auto; [left|right]; congruence.
Qed.

(** ** The primitive steps *)

Lemma lift_db_neutral {A} (f : Store -> A * Store) :
  (forall st, store_neutral st (f st).2) -> respects Neutral (lift_db f).
Proof.
  intros Hf w. unfold lift_db. specialize (Hf (w_store w)).
  destruct (f (w_store w)) as [a st]. exact Hf.
Qed.

Lemma lift_fs_neutral {A} (f : FS -> A * FS) : respects Neutral (lift_fs f).
Proof. intros w. unfold lift_fs, Neutral. destruct (f (w_fs w)). simpl. reflexivity. Qed.

Lemma lift_exn_neutral {A} (r : exn + A) : respects Neutral (lift_exn r).
Proof. intros w. unfold Neutral. simpl. reflexivity. Qed.

Lemma bump_neutral f : respects Neutral (bump f).
Proof. intros w. unfold Neutral. simpl. reflexivity. Qed.

Lemma log_import_event_neutral e : respects Neutral (log_import_event e).
Proof. intros w. unfold Neutral. simpl. reflexivity. Qed.

#[export] Hint Resolve lift_fs_neutral lift_exn_neutral bump_neutral log_import_event_neutral : broker.

Ltac neutral_tac :=
  repeat first
    [ apply (respects_bind Neutral); [|intros]
    | apply lift_db_neutral; intros; eauto with broker
    | progress eauto with broker
    | progress unfold ensure_dirs
    | case_match ].

Section Proofs.
Context (sha256 : string -> string) (patterns : PatternTable) (registry : Registry).

Lemma move_to_duplicate_archive_neutral fi k r : respects Neutral (move_to_duplicate_archive fi k r).
Proof. unfold move_to_duplicate_archive. neutral_tac. Qed.

Lemma is_semantic_duplicate_neutral b a p d : respects Neutral (is_semantic_duplicate b a p d).
Proof. unfold is_semantic_duplicate. neutral_tac. Qed.

#[local] Hint Resolve move_to_duplicate_archive_neutral is_semantic_duplicate_neutral : broker.

Lemma exact_duplicate_branch_neutral fi h : respects Neutral (exact_duplicate_branch fi h).
Proof. unfold exact_duplicate_branch. neutral_tac. Qed.

Lemma no_parser_branch_neutral fi h b a p : respects Neutral (no_parser_branch fi h b a p).
Proof. unfold no_parser_branch. neutral_tac. Qed.

Lemma reconcile_period_neutral fi h b a p d : respects Neutral (reconcile_period fi h b a p d).
Proof. unfold reconcile_period. neutral_tac. Qed.

Lemma semantic_duplicate_branch_neutral fi h b a p :
  respects Neutral (semantic_duplicate_branch fi h b a p).
Proof. unfold semantic_duplicate_branch. neutral_tac. Qed.

End Proofs.

Lemma respects_bind_NE h {A B} (m : M A) (k : A -> M B) :
  respects Neutral m -> (forall a, respects (Ext h) (k a)) -> respects (Ext h) (m ≫= k).
Proof. intros Hm Hk. eapply respects_bind_gen; [exact Hm|exact Hk|apply Neutral_Ext_trans|apply Neutral_Ext]. Qed.

Lemma respects_bind_EN h {A B} (m : M A) (k : A -> M B) :
  respects (Ext h) m -> (forall a, respects Neutral (k a)) -> respects (Ext h) (m ≫= k).
Proof. intros Hm Hk. eapply respects_bind_gen; [exact Hm|exact Hk|apply Ext_Neutral_trans|done]. Qed.

Lemma respects_NE h {A} (m : M A) : respects Neutral m -> respects (Ext h) m.
Proof. apply respects_weaken, Neutral_Ext. Qed.

(** The content [insert_report] hashes is the text the importer read. *)
Lemma stored_content_eq (content : string) (is_html : bool) :
  content <> "" ->
  match (if is_html then Some content else None) with
  | Some c => if String.eqb c "" then default "" (if is_html then None else Some content) else c
  | None => default "" (if is_html then None else Some content)
  end = content.
Proof. intros Hc. destruct is_html; simpl; [|done]. by destruct (String.eqb_spec content ""). Qed.

(** The invariant of a run: fault-free store with unique hashes. *)
Definition Inv (w w' : World) : Prop :=
  NF w -> hash_unique (w_store w) -> NF w' /\ hash_unique (w_store w').

#[export] Instance Inv_refl : Reflexive Inv.
Proof. intros x Hf Hu. by split. Qed.

#[export] Instance Inv_trans : Transitive Inv.
Proof. intros x y z H1 H2 Hf Hu. destruct (H1 Hf Hu). auto. Qed.

Lemma Neutral_Inv w w' : Neutral w w' -> Inv w w'.
Proof.
  intros [Hh Hf] HN Hu. split; [by apply Hf|].
  unfold hash_unique, unique_by. unfold hashes in Hh. by rewrite Hh.
Qed.

Lemma Ext_fresh_Inv h w w' :
  Ext h w w' -> h ∉ hashes (w_store w) -> Inv w w'.
Proof.
  intros [[Hh|Hh] Hf] Hfresh HN Hu; split; auto; unfold hash_unique, unique_by;
    unfold hashes in *; rewrite Hh; [done|].
  apply NoDup_app. split; [done|]. split; [|apply NoDup_singleton].
  intros x Hx Hx'. apply list_elem_of_singleton in Hx' as ->. contradiction.
Qed.

Section Proofs2.
Context (sha256 : string -> string) (patterns : PatternTable) (registry : Registry).

Lemma insert_branch_ext fi content broker acc per parsed :
  content <> "" ->
  respects (Ext (sha256 content)) (insert_branch sha256 fi content (sha256 content) broker acc per parsed).
Proof.
  intros Hc. unfold insert_branch. apply respects_bind_EN; [|intros; neutral_tac].
  intros w. unfold lift_db.
  match goal with |- context [insert_report ?a ?b ?c ?d ?e ?f ?g ?h ?i ?j ?k] =>
    pose proof (insert_report_hashes a b c d e f g h i j k) as [Hh Hf];
    destruct (insert_report a b c d e f g h i j k) as [rid st'] end.
  simpl in *. rewrite stored_content_eq in Hh by done.
  split; [|exact Hf]. by destruct (String.eqb (sha256 content) "").
Qed.

#[local] Hint Resolve exact_duplicate_branch_neutral no_parser_branch_neutral
  reconcile_period_neutral semantic_duplicate_branch_neutral
  move_to_duplicate_archive_neutral is_semantic_duplicate_neutral : broker.

Lemma classify_and_import_ext fi content :
  content <> "" ->
  respects (Ext (sha256 content))
    (classify_and_import sha256 patterns registry fi content (sha256 content)).
Proof.
  intros Hc. unfold classify_and_import.
  repeat first
    [ apply insert_branch_ext; done
    | apply respects_NE; solve [neutral_tac]
    | apply respects_bind_NE; [solve [neutral_tac]|intros]
    | case_match ].
Qed.

Lemma is_exact_duplicate_run h w :
  NF w ->
  is_exact_duplicate h w =
  (inr (bool_decide (is_Some (find_first (fun r => String.eqb (r_file_hash r) h) (reports (w_store w)))),
        find_first (fun r => String.eqb (r_file_hash r) h) (reports (w_store w))), w).
Proof.
  intros HN. destruct w as [st fs stats evs]. unfold NF in HN. simpl in HN.
  unfold is_exact_duplicate, lift_db, get_report_by_hash.
  cbv [mbind PyM_bind]. rewrite db_call_nofault by done. reflexivity.
Qed.

Lemma find_hash_None_fresh h st :
  find_first (fun r => String.eqb (r_file_hash r) h) (reports st) = None -> h ∉ hashes st.
Proof.
  intros HN Hin. unfold hashes in Hin. apply list_elem_of_In, in_map_iff in Hin as (r & <- & Hr).
  eapply find_first_None in HN; [|exact Hr]. by rewrite String.eqb_refl in HN.
Qed.

Lemma process_body_inv fi : respects Inv (process_body sha256 patterns registry fi).
Proof.
  unfold process_body. apply (respects_bind Inv); [intros w; done|intros w0].
  case_match.
  2:{ apply (respects_weaken Inv Neutral); [apply Neutral_Inv|neutral_tac]. }
  case_match.
  { apply (respects_weaken Inv Neutral); [apply Neutral_Inv|neutral_tac]. }
  intros w HN Hu.
  rewrite (bind_inr _ _ _ _ _ (is_exact_duplicate_run _ w HN)).
  destruct (find_first _ (reports (w_store w))) as [r|] eqn:Ef; simpl.
  - exact (Neutral_Inv w _ (exact_duplicate_branch_neutral _ _ w) HN Hu).
  - assert (Hne : s <> "").
    { intros ->. match goal with H : String.eqb "" "" = false |- _ => discriminate H end. }
    refine (Ext_fresh_Inv (sha256 s) w _ (classify_and_import_ext fi s Hne w) _ HN Hu).
    by apply find_hash_None_fresh.
Qed.

Lemma process_file_enhanced_inv fi : respects Inv (process_file_enhanced sha256 patterns registry fi).
Proof.
  unfold process_file_enhanced. apply (respects_try Inv); [apply process_body_inv|].
  intros e. apply (respects_weaken Inv Neutral); [apply Neutral_Inv|neutral_tac].
Qed.

Lemma process_all_inv fis : respects Inv (process_all sha256 patterns registry fis).
Proof.
  induction fis as [|fi fis IH]; simpl.
  - apply (respects_weaken Inv Neutral); [apply Neutral_Inv|neutral_tac].
  - apply (respects_bind Inv); [apply process_file_enhanced_inv|intros _].
    apply (respects_bind Inv); [|intros _; exact IH].
    apply (respects_weaken Inv Neutral); [apply Neutral_Inv|neutral_tac].
Qed.

Lemma import_reports_inv source broker dry_run :
  respects Inv (import_reports sha256 patterns registry source broker dry_run).
Proof.
  unfold import_reports.
  repeat first
    [ apply (respects_bind Inv); [|intros]
    | apply (respects_get Inv)
    | apply process_all_inv
    | apply (respects_weaken Inv Neutral); [apply Neutral_Inv|solve [neutral_tac]]
    | progress unfold scan_inbox
    | case_match ].
Qed.

(** C1: P1 -- hash uniqueness.  When the store answers every statement, a run
    of [import_reports] keeps the content hashes of stored reports
    distinct: a file is inserted only after the hash lookup found no row
    with its hash, and nothing is inserted in between. *)
Theorem import_reports_hash_unique source broker dry_run w :
  db_faults (w_store w) = [] -> hash_unique (w_store w) ->
  hash_unique (w_store (import_reports sha256 patterns registry source broker dry_run w).2).
Proof. intros HN Hu. exact (proj2 (import_reports_inv source broker dry_run w HN Hu)). Qed.

End Proofs2.


Lemma exact_duplicate_branch_run fi h w :
  NF w ->
  let '(res, w') := exact_duplicate_branch fi h w in
  res = inr true /\ reports (w_store w') = reports (w_store w) /\
  import_log (w_store w') = (import_log (w_store w) ++
     [FileRow LDuplicateDetected "unknown" None None (fi_name fi) h (Some "Exact duplicate detected")])%list /\
  files_skipped (w_stats w') = S (files_skipped (w_stats w)) /\
  (exists ev, In ev (w_events w') /\ ev_type ev = EvExactDuplicate /\ ev_hash ev = h).
Proof.
  intros HN. destruct w as [[reps logs nid faults] fs stats evs]. unfold NF in HN; simpl in HN; subst faults.
  unfold exact_duplicate_branch, move_to_duplicate_archive, ensure_dirs, lift_fs, lift_db, bump, log_import_event.
  cbv [mbind PyM_bind mret PyM_ret].
  destruct (path_rename _ _ _) as [[e|u] fs']; simpl.
  all: unfold log_import_file; simpl.
  all: repeat split; try done.
  all: eexists; split; [apply in_or_app; right; left; reflexivity|done].
Qed.

Lemma find_hash_In_Some h st :
  In h (hashes st) -> is_Some (find_first (fun r => String.eqb (r_file_hash r) h) (reports st)).
Proof.
  unfold hashes. intros Hin. apply in_map_iff in Hin as (r & <- & Hr).
  destruct (find_first _ _) eqn:E; [done|].
  eapply find_first_None in E; [|exact Hr]. by rewrite String.eqb_refl in E.
Qed.

(** C2: P4 -- a file whose content hash is already stored is an exact
    duplicate: [process_file_enhanced] returns [True], stores no report,
    writes one [duplicate_detected] audit row and counts the file as
    skipped. *)
Theorem process_file_exact_duplicate sha256 patterns registry fi w c :
  NF w -> read_file_content (w_fs w) (fi_path fi) = Some c -> c <> "" ->
  In (sha256 c) (hashes (w_store w)) ->
  let '(res, w') := process_file_enhanced sha256 patterns registry fi w in
  res = inr true /\ reports (w_store w') = reports (w_store w) /\
  import_log (w_store w') = (import_log (w_store w) ++
     [FileRow LDuplicateDetected "unknown" None None (fi_name fi) (sha256 c)
              (Some "Exact duplicate detected")])%list /\
  files_skipped (w_stats w') = S (files_skipped (w_stats w)).
Proof.
  intros HN Hr Hc Hin.
  unfold process_file_enhanced, try_except, process_body.
  cbv [mbind PyM_bind get_st]. rewrite Hr.
  destruct (String.eqb_spec c "") as [->|_]; [done|].
  rewrite (is_exact_duplicate_run _ w HN).
  destruct (find_hash_In_Some _ _ Hin) as [r Er]. rewrite Er. simpl.
  pose proof (exact_duplicate_branch_run fi (sha256 c) w HN) as Hrun.
  destruct (exact_duplicate_branch fi (sha256 c) w) as [res w'].
  destruct Hrun as (-> & ? & ? & ? & _). done.
Qed.

Lemma py_getitem_contains d k v : py_getitem d k = inr v -> py_contains d k = true.
Proof.
  unfold py_getitem, py_contains. destruct (find_first _ d) as [[k' v']|] eqn:E; [|done].
  intros _. apply find_first_Some in E as [Hin Hk]. apply existsb_exists. by exists (k', v').
Qed.

Lemma has_period_start_Some d v :
  d <> [] -> py_getitem d "period_start" = inr v -> has_period_start (Some d) = Some d.
Proof.
  intros Hd Hv. unfold has_period_start. rewrite (py_getitem_contains _ _ _ Hv).
  destruct d; [done|]. reflexivity.
Qed.

(** C5: P5 -- period precedence.  When the parser's [period_start] is a string
    whose first seven characters differ from the filename period, the
    parsed period and the parsed account ([account_number], or the
    filename account when absent) are the ones carried on, and a
    [period_mismatch] event records both periods. *)
Theorem reconcile_period_mismatch fi h broker acc period d ps w :
  d <> [] -> py_getitem d "period_start" = inr (VStr ps) -> py_take 7 ps <> period ->
  reconcile_period fi h broker acc period (Some d) w =
  (inr (py_get d "account_number" acc, VStr (py_take 7 ps)),
   mkWorld (w_store w) (w_fs w) (w_stats w)
     (w_events w ++ [mkEvent (fi_name fi) EvPeriodMismatch
                       "period mismatch between filename and parsed data" h (VStr broker) acc
                       VNone (VStr period) (VStr (py_take 7 ps))])%list).
Proof.
  intros Hd Hv Hne. unfold reconcile_period. rewrite (has_period_start_Some d _ Hd Hv).
  unfold parsed_period_of. rewrite Hv. cbv [mbind PyM_bind lift_exn py_slice_to].
  unfold str_ne. destruct (String.eqb_spec period (py_take 7 ps)) as [E|_]; [congruence|].
  reflexivity.
Qed.

(** C6: When the two periods agree the account read from the file name is
    kept, even if the parser found a different [account_number]; the
    authoritative semantic check nevertheless queries the parsed account
    (see [is_semantic_duplicate]). *)
Theorem reconcile_period_agree fi h broker acc period d ps w :
  d <> [] -> py_getitem d "period_start" = inr (VStr ps) -> py_take 7 ps = period ->
  reconcile_period fi h broker acc period (Some d) w = (inr (acc, VStr period), w).
Proof.
  intros Hd Hv Heq. unfold reconcile_period. rewrite (has_period_start_Some d _ Hd Hv).
  unfold parsed_period_of. rewrite Hv. cbv [mbind PyM_bind lift_exn py_slice_to].
  unfold str_ne. rewrite Heq, String.eqb_refl. reflexivity.
Qed.

Lemma get_report_by_triple_store st b a per :
  db_faults st = [] -> (get_report_by_triple st b a per).2 = st.
Proof.
  intros Hf. unfold get_report_by_triple. rewrite db_call_nofault by done.
  by destruct (sql_param a), (sql_param per).
Qed.

Lemma find_hash_not_In h st :
  ~ In h (hashes st) -> find_first (fun r => String.eqb (r_file_hash r) h) (reports st) = None.
Proof.
  intros Hn. destruct (find_first _ _) as [r|] eqn:E; [|done]. exfalso. apply Hn.
  apply find_first_Some in E as [Hr Hh]. apply String.eqb_eq in Hh.
  unfold hashes. apply in_map_iff. by exists r.
Qed.

Lemma reconcile_period_none fi h broker acc period d w :
  d <> [] -> py_getitem d "period_start" = inr VNone ->
  reconcile_period fi h broker acc period (Some d) w =
  (inl (TypeError "'NoneType' object is not subscriptable"), w).
Proof.
  intros Hd Hv. unfold reconcile_period. rewrite (has_period_start_Some d _ Hd Hv).
  unfold parsed_period_of. rewrite Hv. reflexivity.
Qed.

(** C7: Finding: when the parser succeeds but its [period_start] is [None]
    (what [SberHtmlParser] returns when the period header is missing),
    [parsed_data['period_start'][:7]] raises [TypeError]: for every new,
    readable file the import stores nothing, moves nothing, writes no
    audit row and no log event, and counts the file as failed with the
    error text; the file stays in the inbox for every later run. *)
Theorem period_start_none_fails sha256 patterns registry fi w c d :
  NF w -> read_file_content (w_fs w) (fi_path fi) = Some c -> c <> "" ->
  ~ In (sha256 c) (hashes (w_store w)) ->
  _parse_file_content registry (detect_broker_tiered (fi_name fi) c patterns) c = (Some d, PSuccess) ->
  d <> [] -> py_getitem d "period_start" = inr VNone ->
  let '(res, w') := process_file_enhanced sha256 patterns registry fi w in
  res = inr false /\ w_store w' = w_store w /\ w_fs w' = w_fs w /\ w_events w' = w_events w /\
  files_failed (w_stats w') = S (files_failed (w_stats w)) /\
  errors (w_stats w') =
    (errors (w_stats w) ++ [(path_str (fi_path fi) ++ ": 'NoneType' object is not subscriptable")%string])%list.
Proof.
  intros HN Hr Hc Hin Hp Hd Hv.
  unfold process_file_enhanced, try_except, process_body.
  cbv [mbind PyM_bind get_st]. rewrite Hr.
  destruct (String.eqb_spec c "") as [->|_]; [done|].
  rewrite (is_exact_duplicate_run _ w HN), find_hash_not_In by done. cbn -[classify_and_import].
  unfold classify_and_import. rewrite Hp.
  destruct w as [st fs stats evs]. unfold NF in HN. cbn in HN.
  cbv [mbind PyM_bind lift_db bump mret PyM_ret is_semantic_duplicate].
  cbn [has_period_start].
  pose proof (get_report_by_triple_store st (detect_broker_tiered (fi_name fi) c patterns)
                (opt_str (extract_account_from_filename (fi_name fi)))
                (VStr (extract_period_from_filename (fi_name fi))) HN) as Hs.
  destruct (String.eqb _ "unknown"); cbn [w_store w_fs w_stats w_events];
    destruct (get_report_by_triple _ _ _ _) as [x st'] eqn:E; cbn in Hs; subst st';
    rewrite reconcile_period_none by done; cbn;
    split_and!; done.
Qed.

Lemma read_file_content_present fs p c :
  read_file_content fs p = Some c -> exists f, files fs !! p = Some f.
Proof. unfold read_file_content. destruct (files fs !! p); [eauto|done]. Qed.

(** Without faults the exact-duplicate branch archives the file and logs
    two events. *)
Lemma exact_duplicate_branch_events fi h w f :
  NF w -> fs_faults (w_fs w) = [] -> files (w_fs w) !! fi_path fi = Some f ->
  exact_duplicate_branch fi h w =
  (inr true,
   mkWorld (log_import_file (w_store w) LDuplicateDetected "unknown" VNone VNone (fi_name fi) h
              (Some "Exact duplicate detected")).2
           (mkFS (<[(ARCHIVE_EXACT_DUPLICATES_PATH, fi_name fi) := f]>
                    (delete (fi_path fi) (files (w_fs w))))
                 (fs_dirs (ensure_archive_directories (w_fs w))) [])
           (inc_skipped (w_stats w))
           (w_events w ++
              [mkEvent (fi_name fi) EvExactDuplicates "exact duplicate (hash match)" ""
                       (VStr "") (VStr "") (VStr "") VNone VNone;
               mkEvent (fi_name fi) EvExactDuplicate "exact duplicate (hash match)" h
                       VNone VNone VNone VNone VNone])%list).
Proof.
  intros HN Hf Hp. destruct w as [st fs stats evs]. cbn in Hf, Hp.
  unfold exact_duplicate_branch, move_to_duplicate_archive, ensure_dirs, lift_fs, lift_db, bump,
    log_import_event, path_rename, fs_call.
  cbv [mbind PyM_bind mret PyM_ret].
  cbn -[ensure_archive_directories log_import_file insert delete].
  rewrite ensure_faults, Hf. cbn -[ensure_archive_directories log_import_file insert delete].
  rewrite ensure_files, Hp. cbn -[ensure_archive_directories log_import_file insert delete].
  destruct (log_import_file st _ _ _ _ _ _ _). rewrite ensure_faults, Hf.
  cbn [w_store w_fs w_stats w_events fst snd]. by rewrite <-app_assoc.
Qed.

(** C9: Finding (spec 4.8: one event per file): for every readable file
    whose hash is stored, with no fault, [process_file_enhanced] writes
    two log events, [exact_duplicates] from the archival and
    [exact_duplicate] from the branch itself. *)
Theorem process_file_exact_duplicate_events sha256 patterns registry fi w c :
  NF w -> fs_faults (w_fs w) = [] -> read_file_content (w_fs w) (fi_path fi) = Some c -> c <> "" ->
  In (sha256 c) (hashes (w_store w)) ->
  w_events (process_file_enhanced sha256 patterns registry fi w).2 =
    (w_events w ++
       [mkEvent (fi_name fi) EvExactDuplicates "exact duplicate (hash match)" ""
                (VStr "") (VStr "") (VStr "") VNone VNone;
        mkEvent (fi_name fi) EvExactDuplicate "exact duplicate (hash match)" (sha256 c)
                VNone VNone VNone VNone VNone])%list.
Proof.
  intros HN Hf Hr Hc Hin. destruct (read_file_content_present _ _ _ Hr) as [f Hp].
  unfold process_file_enhanced, try_except, process_body.
  cbv [mbind PyM_bind get_st]. rewrite Hr.
  destruct (String.eqb_spec c "") as [->|_]; [done|].
  rewrite (is_exact_duplicate_run _ w HN).
  destruct (find_hash_In_Some _ _ Hin) as [r Er]. rewrite Er. simpl.
  by rewrite (exact_duplicate_branch_events fi (sha256 c) w f HN Hf Hp).
Qed.

Lemma store_neutral_length st st' :
  store_neutral st st' -> List.length (reports st') = List.length (reports st).
Proof.
  intros [H _]. unfold hashes in H.
  by rewrite <-(length_map r_file_hash (reports st')), H, length_map.
Qed.

Lemma insert_report_ok sha st broker per fname fpath html raw acc h size a p :
  db_faults st = [] -> sql_param acc = Some a -> sql_param per = Some p ->
  exists row, insert_report sha st broker per fname fpath html raw acc h size =
    (Some (next_id st), mkStore (reports st ++ [row]) (import_log st) (S (next_id st)) [])%list.
Proof.
  intros Hf Ha Hp. unfold insert_report. rewrite db_call_nofault by done.
  rewrite Ha, Hp, <-Hf. by eexists.
Qed.

(** C8: Finding: when the move to [imported/] fails after a successful
    insert, [insert_branch] counts the file both as a success and as a
    failure, keeps the new report row, leaves the file where it was, and
    answers [False]. *)
Theorem insert_branch_archive_failure sha256 fi content h broker acc per pd w rest :
  db_faults (w_store w) = [] -> next_id (w_store w) <> 0 ->
  is_Some (sql_param acc) -> is_Some (sql_param per) ->
  fs_faults (w_fs w) = true :: rest ->
  let '(res, w') := insert_branch sha256 fi content h broker acc per pd w in
  res = inr false /\
  files_success (w_stats w') = S (files_success (w_stats w)) /\
  files_failed (w_stats w') = S (files_failed (w_stats w)) /\
  List.length (reports (w_store w')) = S (List.length (reports (w_store w))) /\
  files (w_fs w') = files (w_fs w).
Proof.
  intros Hdb Hid [a Ha] [p Hp] Hf. destruct w as [st fs stats evs]. cbn in *.
  unfold insert_branch, lift_db, lift_fs, bump, log_import_event, ensure_dirs.
  cbv [mbind PyM_bind mret PyM_ret].
  edestruct insert_report_ok as [row ->]; [exact Hdb|exact Ha|exact Hp|].
  cbn -[update_report_parsed_data log_import_file ensure_archive_directories].
  assert (Hlen : forall st', store_neutral (mkStore (reports st ++ [row]) (import_log st)
                   (S (next_id st)) []) st' ->
                 List.length (reports st') = S (List.length (reports st))).
  { intros st' Hn%store_neutral_length. rewrite Hn. cbn [reports]. rewrite length_app. cbn. lia. }
  apply Nat.eqb_neq in Hid.
  destruct pd as [d|].
  - rewrite ?Hid. cbn -[update_report_parsed_data log_import_file ensure_archive_directories].
    match goal with |- context [update_report_parsed_data ?s ?i ?d ?t] =>
      pose proof (update_report_parsed_data_neutral s i d t) as N1;
      destruct (update_report_parsed_data s i d t) as [b1 st1] end.
    match goal with |- context [log_import_file ?s ?a ?b ?c ?d ?e ?f ?g] =>
      pose proof (log_import_file_neutral s a b c d e f g) as N2;
      destruct (log_import_file s a b c d e f g) as [n2 st2] end.
    unfold path_rename, fs_call. cbn [w_fs w_store w_stats w_events]. rewrite ensure_faults, Hf. cbn.
    split_and!; try done; [apply Hlen; by etrans|by rewrite !mkdir_files].
  - cbn -[log_import_file ensure_archive_directories]. rewrite ?Hid.
    cbn -[log_import_file ensure_archive_directories].
    match goal with |- context [log_import_file ?s ?a ?b ?c ?d ?e ?f ?g] =>
      pose proof (log_import_file_neutral s a b c d e f g) as N2;
      destruct (log_import_file s a b c d e f g) as [n2 st2] end.
    unfold path_rename, fs_call. cbn [w_fs w_store w_stats w_events]. rewrite ensure_faults, Hf. cbn.
    split_and!; try done; [by apply Hlen|by rewrite !mkdir_files].
Qed.

(** ** Concrete runs

    Small worlds on which the model is executed: an identity function
    stands in for SHA-256, the pattern table recognises Sberbank reports,
    and the registry's Sber parser returns a fixed dict. *)

Module Scenarios.

Definition sha_id (s : string) : string := s.
Definition sber_table : PatternTable := [("sber", mkBrokerConfig ["sber"] ["sberbank"])].
Definition reg_of (d : pydict) : Registry := PARSER_REGISTRY (fun _ => Returned (VDict d)).
Definition inbox_file (name content : string) : Path * FileObj :=
  ((INBOX_PATH, name), mkFile (N.of_nat (String.length content)) (Some content)).
Definition world_of (fs : list (Path * FileObj)) (reps : list Report) (fsf : list bool) : World :=
  mkWorld (mkStore reps [] 1 []) (mkFS (list_to_map fs) [INBOX_PATH] fsf) stats0 [].
Definition run (d : pydict) (w : World) : (exn + bool) * World :=
  import_reports sha_id sber_table (reg_of d) "inbox" None false w.
Definition triple (r : Report) : string * option string * option string :=
  (r_broker r, r_account r, r_period r).
Definition locations (w : World) : list Path := map fst (map_to_list (files (w_fs w))).

Definition parsed_july : pydict := [("account_number", VStr "4000T49"); ("period_start", VStr "2023-07-01")].
Definition parsed_S : pydict := [("account_number", VStr "S000T49"); ("period_start", VStr "2023-07-01")].
Definition parsed_aug : pydict := [("account_number", VStr "4000T49"); ("period_start", VStr "2023-08-01")].
Definition parsed_none : pydict := [("account_number", VStr "4000T49"); ("period_start", VNone)].

Definition w_A : World := world_of [inbox_file "report_4000T49_2023-07.html" "sberbank A"] [] [].
Definition stored_A : Report :=
  mkReport 7 "sber" (Some "4000T49") (Some "2023-07") "old.html" "p" "sberbank A" None None 10 None StRaw None None.
Definition fi_copy : FileInfo := mkFileInfo "copy.html" (INBOX_PATH, "copy.html") 10.
Definition w_B : World := world_of [inbox_file "copy.html" "sberbank A"] [stored_A] [].
Definition w_C : World :=
  world_of [inbox_file "a_4000T49_2023-07.html" "sberbank A";
            inbox_file "b_4000T49_2023-07.html" "sberbank B"] [] [].
Definition w_F : World := world_of [inbox_file "report_4000T49_2023-07.html" "sberbank A"] [] [true].
Definition w_G : World := world_of [inbox_file "copy.html" "sberbank A"] [stored_A] [true].

(** Scenario A of the specification: a new report is imported with the
    period of its name and moved to [archive/imported]. *)
Theorem scenario_A_imported :
  let r := run parsed_july w_A in
  r.1 = inr true /\ map triple (reports (w_store r.2)) = [("sber", Some "4000T49", Some "2023-07")] /\
  locations r.2 = [(ARCHIVE_IMPORTED_PATH, "report_4000T49_2023-07.html")].
Proof. vm_compute. auto. Qed.

Lemma import_reports_hash_unique_witness :
  db_faults (w_store w_C) = [] /\ hash_unique (w_store w_C) /\
  hash_unique (w_store (import_reports sha_id sber_table (reg_of parsed_S) "inbox" None false w_C).2).
Proof.
  refine (conj eq_refl (conj NoDup_nil_2 _)).
  apply (import_reports_hash_unique sha_id sber_table (reg_of parsed_S) "inbox" None false w_C);
    [reflexivity|apply NoDup_nil_2].
Defined.

Lemma process_file_exact_duplicate_witness :
  NF w_B /\ read_file_content (w_fs w_B) (fi_path fi_copy) = Some "sberbank A" /\
  "sberbank A" <> "" /\ In (sha_id "sberbank A") (hashes (w_store w_B)) /\
  (let '(res, w') := process_file_enhanced sha_id sber_table (reg_of parsed_july) fi_copy w_B in
   res = inr true /\ reports (w_store w') = reports (w_store w_B) /\
   import_log (w_store w') = (import_log (w_store w_B) ++
     [FileRow LDuplicateDetected "unknown" None None (fi_name fi_copy) (sha_id "sberbank A")
              (Some "Exact duplicate detected")])%list /\
   files_skipped (w_stats w') = S (files_skipped (w_stats w_B))).
Proof.
  split; [reflexivity|]. split; [vm_compute; reflexivity|]. split; [discriminate|].
  split; [vm_compute; left; reflexivity|].
  apply (process_file_exact_duplicate sha_id sber_table (reg_of parsed_july) fi_copy w_B "sberbank A");
    [reflexivity|vm_compute; reflexivity|discriminate|].
  vm_compute. left. reflexivity.
Defined.

(** Scenario E of the specification, run end to end: the parsed period
    ["2023-08"] is stored and a [period_mismatch] event precedes the
    [imported] one. *)
Theorem scenario_E_parsed_period_stored :
  let w' := (run parsed_aug w_A).2 in
  map triple (reports (w_store w')) = [("sber", Some "4000T49", Some "2023-08")] /\
  map ev_type (w_events w') = [EvPeriodMismatch; EvImported].
Proof. vm_compute. auto. Qed.

Lemma reconcile_period_mismatch_witness :
  parsed_aug <> [] /\ py_getitem parsed_aug "period_start" = inr (VStr "2023-08-01") /\
  py_take 7 "2023-08-01" <> "2023-07" /\
  reconcile_period fi_copy "h" "sber" VNone "2023-07" (Some parsed_aug) w_A =
  (inr (py_get parsed_aug "account_number" VNone, VStr (py_take 7 "2023-08-01")),
   mkWorld (w_store w_A) (w_fs w_A) (w_stats w_A)
     (w_events w_A ++ [mkEvent (fi_name fi_copy) EvPeriodMismatch
                       "period mismatch between filename and parsed data" "h" (VStr "sber") VNone
                       VNone (VStr "2023-07") (VStr (py_take 7 "2023-08-01"))])%list).
Proof.
  split; [discriminate|]. split; [reflexivity|]. split; [vm_compute; discriminate|].
  apply (reconcile_period_mismatch _ _ _ _ _ _ "2023-08-01"); [discriminate|reflexivity|vm_compute; discriminate].
Defined.

Lemma reconcile_period_agree_witness :
  parsed_S <> [] /\ py_getitem parsed_S "period_start" = inr (VStr "2023-07-01") /\
  py_take 7 "2023-07-01" = "2023-07" /\
  reconcile_period fi_copy "h" "sber" (VStr "4000T49") "2023-07" (Some parsed_S) w_A =
  (inr (VStr "4000T49", VStr "2023-07"), w_A).
Proof.
  split; [discriminate|]. split; [reflexivity|]. split; [reflexivity|].
  apply (reconcile_period_agree _ _ _ _ _ _ "2023-07-01"); [discriminate|reflexivity|reflexivity].
Defined.

Definition fi_A : FileInfo :=
  mkFileInfo "report_4000T49_2023-07.html" (INBOX_PATH, "report_4000T49_2023-07.html") 10.

Lemma period_start_none_fails_witness :
  let '(res, w') := process_file_enhanced sha_id sber_table (reg_of parsed_none) fi_A w_A in
  res = inr false /\ w_store w' = w_store w_A /\ w_fs w' = w_fs w_A /\ w_events w' = w_events w_A /\
  files_failed (w_stats w') = S (files_failed (w_stats w_A)) /\
  errors (w_stats w') =
    (errors (w_stats w_A) ++ [(path_str (fi_path fi_A) ++ ": 'NoneType' object is not subscriptable")%string])%list.
Proof.
  apply (period_start_none_fails sha_id sber_table (reg_of parsed_none) fi_A w_A "sberbank A" parsed_none);
    [reflexivity|vm_compute; reflexivity|discriminate|intros []|vm_compute; reflexivity
    |discriminate|reflexivity].
Defined.

Lemma insert_branch_archive_failure_witness :
  let '(res, w') := insert_branch sha_id fi_A "sberbank A" "sberbank A" "sber" (VStr "4000T49")
                      (VStr "2023-07") (Some parsed_S) w_F in
  res = inr false /\
  files_success (w_stats w') = S (files_success (w_stats w_F)) /\
  files_failed (w_stats w') = S (files_failed (w_stats w_F)) /\
  List.length (reports (w_store w')) = S (List.length (reports (w_store w_F))) /\
  files (w_fs w') = files (w_fs w_F).
Proof.
  apply (insert_branch_archive_failure sha_id fi_A "sberbank A" "sberbank A" "sber" (VStr "4000T49")
           (VStr "2023-07") (Some parsed_S) w_F []);
    [reflexivity|discriminate|eexists; reflexivity|eexists; reflexivity|reflexivity].
Defined.

Lemma process_file_exact_duplicate_events_witness :
  w_events (process_file_enhanced sha_id sber_table (reg_of parsed_S) fi_copy w_B).2 =
    (w_events w_B ++
       [mkEvent (fi_name fi_copy) EvExactDuplicates "exact duplicate (hash match)" ""
                (VStr "") (VStr "") (VStr "") VNone VNone;
        mkEvent (fi_name fi_copy) EvExactDuplicate "exact duplicate (hash match)" (sha_id "sberbank A")
                VNone VNone VNone VNone VNone])%list.
Proof.
  apply (process_file_exact_duplicate_events sha_id sber_table (reg_of parsed_S) fi_copy w_B "sberbank A");
    [reflexivity|reflexivity|vm_compute; reflexivity|discriminate|vm_compute; left; reflexivity].
Defined.

(** Finding: when moving an exact duplicate fails, the failure is
    swallowed: the file stays in the inbox but is counted as skipped, not
    failed. *)
Theorem exact_duplicate_move_failure_silent :
  let r := run parsed_S w_G in
  files_skipped (w_stats r.2) = 1 /\ files_failed (w_stats r.2) = 0 /\
  locations r.2 = [(INBOX_PATH, "copy.html")].
Proof. vm_compute. auto. Qed.

(** With the Sberbank parser itself: BeautifulSoup turns every file into
    [demo_page text], whose header is [text]. *)
Definition sber_reg (text : string) : Registry :=
  sber_registry (fun _ => Some true) (fun _ => extract dec_float (demo_page text [])).

Definition run_sber (text : string) (w : World) : (exn + bool) * World :=
  import_reports sha_id sber_table (sber_reg text) "inbox" None false w.

(** A Sberbank report whose header has the period of its name is stored
    with status [parsed] and its parsed data; the account stays the one
    of the name ([4000T49]) although the header says [S000T49]. *)
Theorem sber_report_imported :
  let w' := (run_sber header w_A).2 in
  map triple (reports (w_store w')) = [("sber", Some "4000T49", Some "2023-07")] /\
  map r_status (reports (w_store w')) = [StParsed] /\
  map (fun r => option_map (fun v => match v with VDict d => py_get d "account_number" VNone
                                                 | _ => VNone end) (r_parsed_data r))
      (reports (w_store w')) = [Some (VStr "S000T49")].
Proof. vm_compute. auto. Qed.

(** Finding, end to end: a Sberbank report whose header has no period
    line is parsed with [period_start = None], and the import of the file
    aborts with [TypeError]: nothing is stored and the file stays in the
    inbox. *)
Theorem sber_report_without_period_aborts :
  let w' := (run_sber "Договор S000T49" w_A).2 in
  reports (w_store w') = [] /\ files_failed (w_stats w') = 1 /\
  errors (w_stats w') =
    ["modules/broker-reports/inbox/report_4000T49_2023-07.html: 'NoneType' object is not subscriptable"] /\
  locations w' = [(INBOX_PATH, "report_4000T49_2023-07.html")].
Proof. vm_compute. auto. Qed.

End Scenarios.

End Pipeline.
