(* ===== verification/Cleanup.v ===== *)
(** * The archive cleanup tool

    Models [src/core/scripts/import/cleanup_unsorted_archive.py]: the
    [ArchiveCleanupTool] that sorts loose [.html] files of the archive root
    into [exact_duplicates/], [logical_duplicates/], [imported/] and
    [unrecognized/] "without reimporting to database".  The file repeats the
    importer's [load_broker_patterns], [detect_broker_tiered],
    [extract_period_from_filename] and [extract_account_from_filename]
    verbatim (lines 39-133); the model uses the definitions of
    [Classifier] and [FilenameMeta] for them.

    The state is the store (read only), the filesystem, the tool's [stats]
    dictionary and the lines of [import_duplicates.log].  Files move with
    [FileManager.safe_move_file]. *)

From stdpp Require Import gmap.
From S2P Require Import Prelude PyStr PyValue FilenameMeta Classifier Parsers Store Archive.
Import FilenameMeta Classifier Parsers Store Archive.

Open Scope string_scope.

Module Cleanup.

(** [self.stats] *)
Record CStats := mkCStats {
  c_processed : nat;
  c_exact : nat;
  c_logical : nat;
  c_imported : nat;
  c_unrecognized : nat;
  c_errors : list string
}.

Definition cstats0 : CStats := mkCStats 0 0 0 0 0 [].

(** The category strings ['exact_duplicates'], ['logical_duplicates'],
    ['imported'], ['unrecognized']. *)
Inductive Category : Type := CatExact | CatLogical | CatImported | CatUnrecognized.

Definition category_name (c : Category) : string :=
  match c with
  | CatExact => "exact_duplicates"
  | CatLogical => "logical_duplicates"
  | CatImported => "imported"
  | CatUnrecognized => "unrecognized"
  end.

(** The [metadata] dict, as far as [move_file_to_category] reads it
    ([metadata.get(key, '')]); a read failure gives [{'error': ...}], whose
    [get]s all return [''] . *)
Record Meta := mkMeta {
  m_hash : string;
  m_broker : pyval;
  m_account : pyval;
  m_period : pyval
}.

Definition meta_error : Meta := mkMeta "" (VStr "") (VStr "") (VStr "").

Record CWorld := mkCWorld {
  cw_store : Store;
  cw_fs : FS;
  cw_stats : CStats;
  cw_events : list Event
}.

Abbreviation CM := (PyM CWorld).

Definition c_lift_db {A} (f : Store -> A * Store) : CM A :=
  fun w => let '(a, st) := f (cw_store w) in
           (inr a, mkCWorld st (cw_fs w) (cw_stats w) (cw_events w)).

Definition c_lift_fs {A} (f : FS -> A * FS) : CM A :=
  fun w => let '(a, fs) := f (cw_fs w) in
           (inr a, mkCWorld (cw_store w) fs (cw_stats w) (cw_events w)).

Definition c_bump (f : CStats -> CStats) : CM unit :=
  fun w => (inr tt, mkCWorld (cw_store w) (cw_fs w) (f (cw_stats w)) (cw_events w)).

Definition c_log_event (e : Event) : CM unit :=
  fun w => (inr tt, mkCWorld (cw_store w) (cw_fs w) (cw_stats w) (cw_events w ++ [e])).

(** [self.stats['files_processed'] += 1; self.stats[category] += 1] *)
Definition count_category (c : Category) (s : CStats) : CStats :=
  let '(e, l, i, u) := (c_exact s, c_logical s, c_imported s, c_unrecognized s) in
  match c with
  | CatExact => mkCStats (S (c_processed s)) (S e) l i u (c_errors s)
  | CatLogical => mkCStats (S (c_processed s)) e (S l) i u (c_errors s)
  | CatImported => mkCStats (S (c_processed s)) e l (S i) u (c_errors s)
  | CatUnrecognized => mkCStats (S (c_processed s)) e l i (S u) (c_errors s)
  end.

Definition add_cerror (msg : string) (s : CStats) : CStats :=
  mkCStats (c_processed s) (c_exact s) (c_logical s) (c_imported s) (c_unrecognized s)
           (c_errors s ++ [msg]).

(** ** Python helpers *)

(** [k in v] for a parser result [v]: keys of a dict, items of a list,
    substrings of a [str]; [None] is falsy and never tested; other values
    raise [TypeError]. *)
Definition py_in_value (k : string) (v : pyval) : exn + bool :=
  match v with
  | VDict d => inr (py_contains d k)
  | VList l => inr (existsb (fun x => match x with VStr s => String.eqb s k | _ => false end) l)
  | VStr s => inr (py_in k s)
  | _ => inl (TypeError "argument is not iterable")
  end.

(** [v[k]] for a string key: dicts look it up, lists and strings raise
    [TypeError]. *)
Definition py_subscript (v : pyval) (k : string) : exn + pyval :=
  match v with
  | VDict d => py_getitem d k
  | _ => inl (TypeError "indices must be integers")
  end.

(** [v.get(k, default)]: only dicts have [get]. *)
Definition py_dot_get (v : pyval) (k : string) (default : pyval) : exn + pyval :=
  match v with
  | VDict d => inr (py_get d k default)
  | _ => inl (AttributeError "object has no attribute 'get'")
  end.

(** [find_unsorted_files]: the regular files of the archive root whose
    lower-cased suffix is in [{'.html', '.HTML'}], other than [index.json]
    and [README.md]. *)
Definition is_unsorted (p : Path) : bool :=
  String.eqb p.1 ARCHIVE_PATH &&
  str_mem (py_lower (py_suffix p.2)) [".html"; ".HTML"] &&
  negb (str_mem p.2 ["index.json"; "README.md"]).

Definition find_unsorted_files (fs : FS) : list Path :=
  List.filter is_unsorted (map fst (map_to_list (files fs))).

(** The script's own copies of the importer's helpers (lines 51-133): the
    same code as [import_reports.py] lines 60-151, so the same functions. *)
Definition detect_broker_tiered : string -> string -> PatternTable -> string :=
  Classifier.detect_broker_tiered.
Definition extract_period_from_filename : string -> string :=
  FilenameMeta.extract_period_from_filename.
Definition extract_account_from_filename : string -> option string :=
  FilenameMeta.extract_account_from_filename.

Section Tool.

Variable sha256 : string -> string.
Variable patterns : PatternTable.
Variable registry : Registry.

(** The inner [try] of step 2: parse and run the semantic check; [inl]
    is an exception the inner [except] catches. *)
Definition semantic_step (content broker : string) (account : pyval) (m : Meta)
    : CM (exn + option (Category * Meta)) :=
  match get_parser registry broker with
  | inl e => mret (inl e)
  | inr parser =>
      match parse parser content with
      | Raised e => mret (inl e)
      | Returned parsed =>
          if negb (truthy parsed) then mret (inr None)
          else match py_in_value "period_start" parsed with
               | inl e => mret (inl e)
               | inr false => mret (inr None)
               | inr true =>
                   match match py_subscript parsed "period_start" with
                         | inl e => inl e
                         | inr v => py_slice_to 7 v
                         end, py_dot_get parsed "account_number" account with
                   | inl e, _ => mret (inl e)
                   | _, inl e => mret (inl e)
                   | inr parsed_period, inr parsed_account =>
                       existing ← c_lift_db (fun st => get_report_by_triple st broker parsed_account
                                                        parsed_period);
                       match existing with
                       | Some _ => mret (inr (Some (CatLogical, m)))
                       | None => mret (inr (Some (CatImported, mkMeta (m_hash m) (m_broker m)
                                                                     parsed_account parsed_period)))
                       end
                   end
               end
      end
  end.

(** [categorize_file]. *)
Definition categorize_file (p : Path) : CM (Category * Meta) :=
  w ← get_st;
  match read_file_content (cw_fs w) p with
  | None => mret (CatUnrecognized, meta_error)
  | Some content =>
      if String.eqb content "" then mret (CatUnrecognized, meta_error)
      else
        let file_hash := sha256 content in
        let broker := detect_broker_tiered p.2 content patterns in
        let period := extract_period_from_filename p.2 in
        let account := match extract_account_from_filename p.2 with
                       | Some a => VStr a | None => VNone end in
        let m := mkMeta file_hash (VStr broker) account (VStr period) in
        existing_exact ← c_lift_db (fun st => get_report_by_hash st file_hash);
        match existing_exact with
        | Some _ => mret (CatExact, m)
        | None =>
          r ← (if negb (String.eqb broker "unknown") && is_broker_supported registry broker
               then semantic_step content broker account m
               else mret (inr None));
          match r with
          | inr (Some res) => mret res
          | _ => if String.eqb broker "unknown" then mret (CatUnrecognized, m)
                 else mret (CatImported, m)
          end
        end
  end.

Definition category_dir (c : Category) : string :=
  match c with
  | CatExact => ARCHIVE_EXACT_DUPLICATES_PATH
  | CatLogical => ARCHIVE_LOGICAL_DUPLICATES_PATH
  | CatImported => ARCHIVE_IMPORTED_PATH
  | CatUnrecognized => ARCHIVE_UNRECOGNIZED_PATH
  end.

Definition category_event (c : Category) : EventType :=
  match c with
  | CatExact => EvExactDuplicates
  | CatLogical => EvLogicalDuplicates
  | CatImported => EvImported
  | CatUnrecognized => EvUnrecognized
  end.

(** [move_file_to_category]: [target_dir.mkdir], [safe_move_file], then
    one log event. *)
Definition move_file_to_category (p : Path) (c : Category) (m : Meta) : CM bool :=
  c_lift_fs (fun fs => (tt, mkdir fs (category_dir c)));;
  ok ← c_lift_fs (fun fs => safe_move_file fs p (category_dir c, p.2));
  match ok with
  | true =>
      c_log_event (mkEvent p.2 (category_event c) ("archived to " ++ category_name c)
                           (m_hash m) (m_broker m) (m_account m) (m_period m) VNone VNone);;
      mret true
  | false => mret false
  end.

Fixpoint cleanup_files (dry_run : bool) (l : list Path) : CM unit :=
  match l with
  | [] => mret tt
  | p :: rest =>
      cm ← categorize_file p;
      let '(c, m) := cm in
      c_bump (count_category c);;
      (if dry_run then mret tt
       else ok ← move_file_to_category p c m;
            match ok with
            | true => mret tt
            | false => c_bump (add_cerror ("Failed to move " ++ p.2))
            end);;
      cleanup_files dry_run rest
  end.

(** [cleanup_archive]. *)
Definition cleanup_archive (dry_run : bool) : CM bool :=
  w ← get_st;
  if negb (dir_exists (cw_fs w) ARCHIVE_PATH) then mret false
  else match find_unsorted_files (cw_fs w) with
       | [] => mret true
       | unsorted => cleanup_files dry_run unsorted;; mret true
       end.

End Tool.

(** ** Invariants *)

(** The tool only reads the store, and moves files without losing or
    creating any. *)
Definition CInv (w w' : CWorld) : Prop :=
  store_readonly (cw_store w) (cw_store w') /\ size (files (cw_fs w')) = size (files (cw_fs w)).

#[export] Instance CInv_refl : Reflexive CInv.
Proof. intros w. split; reflexivity. Qed.

#[export] Instance CInv_trans : Transitive CInv.
Proof. intros x y z [A1 B1] [A2 B2]. split; [etrans; eauto|congruence]. Qed.

Lemma c_lift_db_inv {A} (f : Store -> A * Store) :
  (forall st, store_readonly st (f st).2) -> returns CInv (c_lift_db f).
Proof.
  intros Hf w. unfold c_lift_db. specialize (Hf (cw_store w)).
  destruct (f (cw_store w)). eexists. split; [reflexivity|]. split; [exact Hf|reflexivity].
Qed.

Lemma c_move_inv p d : returns CInv (c_lift_fs (fun fs => safe_move_file fs p d)).
Proof.
  intros w. unfold c_lift_fs. pose proof (safe_move_file_size (cw_fs w) p d) as H.
  destruct (safe_move_file _ _ _). eexists. split; [reflexivity|]. split; [reflexivity|exact H].
Qed.

Lemma c_mkdir_inv d : returns CInv (c_lift_fs (fun fs => (tt, mkdir fs d))).
Proof. intros w. exists tt. split; [done|]. split; [reflexivity|]. simpl. by rewrite mkdir_files. Qed.

Lemma c_bump_inv f : returns CInv (c_bump f).
Proof. intros w. exists tt. split; [done|]. split; reflexivity. Qed.

Lemma c_log_event_inv e : returns CInv (c_log_event e).
Proof. intros w. exists tt. split; [done|]. split; reflexivity. Qed.

Lemma c_ret_inv {A} (a : A) : returns CInv (mret a).
Proof. apply (returns_ret CInv). Qed.

Lemma c_get_inv : returns CInv get_st.
Proof. apply (returns_get CInv). Qed.

#[export] Hint Resolve c_move_inv c_mkdir_inv c_bump_inv c_log_event_inv c_ret_inv c_get_inv : broker.

Ltac cinv_tac :=
  repeat first
    [ solve [eauto with broker]
    | apply (returns_bind CInv); [|intros]
    | apply c_lift_db_inv; intros; eauto with broker
    | case_match ].

(** The tool's steps all return: every exception of the code they run is
    caught inside them. *)
Section Proofs.
Context (sha256 : string -> string) (patterns : PatternTable) (registry : Registry).

Lemma semantic_step_inv c b a m : returns CInv (semantic_step registry c b a m).
Proof. unfold semantic_step. cinv_tac. Qed.
#[local] Hint Resolve semantic_step_inv : broker.

Lemma categorize_file_inv p : returns CInv (categorize_file sha256 patterns registry p).
Proof. unfold categorize_file. cinv_tac. Qed.
#[local] Hint Resolve categorize_file_inv : broker.

Lemma move_file_to_category_inv p c m : returns CInv (move_file_to_category p c m).
Proof. unfold move_file_to_category. cinv_tac. Qed.
#[local] Hint Resolve move_file_to_category_inv : broker.

Lemma cleanup_files_inv dry l : returns CInv (cleanup_files sha256 patterns registry dry l).
Proof. induction l as [|p l IH]; cbn [cleanup_files]; cinv_tac. Qed.
#[local] Hint Resolve cleanup_files_inv : broker.

Lemma cleanup_archive_inv dry : returns CInv (cleanup_archive sha256 patterns registry dry).
Proof. unfold cleanup_archive. cinv_tac. Qed.

End Proofs.

(** ** Moving every unsorted file *)

(** Categorising writes nothing: the filesystem, the counters and the event
    log are left as they were (the store is only queried). *)
Definition NoWrite (w w' : CWorld) : Prop :=
  cw_fs w' = cw_fs w /\ cw_stats w' = cw_stats w /\ cw_events w' = cw_events w.

(** A dry run counts, but leaves the filesystem as it was. *)
Definition FsSame (w w' : CWorld) : Prop := cw_fs w' = cw_fs w.

#[export] Instance NoWrite_refl : Reflexive NoWrite.
Proof. intros w. by repeat split. Qed.

#[export] Instance NoWrite_trans : Transitive NoWrite.
Proof. intros x y z (A1 & B1 & C1) (A2 & B2 & C2). repeat split; congruence. Qed.

#[export] Instance FsSame_refl : Reflexive FsSame.
Proof. intros w. reflexivity. Qed.

#[export] Instance FsSame_trans : Transitive FsSame.
Proof. intros x y z H1 H2. unfold FsSame in *. congruence. Qed.

Lemma c_lift_db_nowrite {A} (f : Store -> A * Store) : returns NoWrite (c_lift_db f).
Proof. intros w. unfold c_lift_db. destruct (f (cw_store w)). eexists. by repeat split. Qed.

Lemma c_ret_nowrite {A} (a : A) : returns NoWrite (mret a).
Proof. apply (returns_ret NoWrite). Qed.

Lemma c_get_nowrite : returns NoWrite get_st.
Proof. apply (returns_get NoWrite). Qed.

Lemma c_ret_fs {A} (a : A) : returns FsSame (mret a).
Proof. apply (returns_ret FsSame). Qed.

Lemma c_bump_fs f : returns FsSame (c_bump f).
Proof. intros w. exists tt. split; reflexivity. Qed.

#[export] Hint Resolve c_lift_db_nowrite c_ret_nowrite c_get_nowrite c_ret_fs c_bump_fs : broker.

Ltac rel_tac R :=
  repeat first
    [ solve [eauto with broker]
    | apply (returns_bind R); [|intros]
    | case_match ].

Lemma count_category_counts c s :
  c_processed (count_category c s) = S (c_processed s) /\ c_errors (count_category c s) = c_errors s.
Proof. by destruct c. Qed.

(** The category directories are subdirectories, not the archive root. *)
Lemma category_dir_ne c : category_dir c <> ARCHIVE_PATH.
Proof. by destruct c. Qed.

(** The files still to be moved: in the archive root, and present. *)
Definition pending (F : gmap Path FileObj) (l : list Path) : Prop :=
  Forall (fun q => q.1 = ARCHIVE_PATH /\ is_Some (F !! q)) l.

(** A file of the archive root other than the one moved keeps its entry. *)
Lemma root_lookup_after_move (F : gmap Path FileObj) p q c n f :
  q.1 = ARCHIVE_PATH -> q <> p -> <[(category_dir c, n) := f]> (delete p F) !! q = F !! q.
Proof.
  intros Hq Hne. rewrite lookup_insert_ne.
  - by apply lookup_delete_ne.
  - intros <-. by apply (category_dir_ne c).
Qed.

Lemma pending_after_move F p l c n f :
  p ∉ l -> pending F l -> pending (<[(category_dir c, n) := f]> (delete p F)) l.
Proof.
  unfold pending. rewrite !Forall_forall. intros Hp Hl q Hin.
  destruct (Hl q Hin) as [Hq1 Hq2]. split; [done|].
  rewrite root_lookup_after_move; [done|done|]. by intros ->.
Qed.

Lemma is_unsorted_root q : is_unsorted q = true -> q.1 = ARCHIVE_PATH.
Proof. unfold is_unsorted. intros [[H _]%andb_prop _]%andb_prop. by apply String.eqb_eq. Qed.

Lemma find_unsorted_files_spec fs q :
  In q (find_unsorted_files fs) <-> is_Some (files fs !! q) /\ is_unsorted q = true.
Proof.
  unfold find_unsorted_files. rewrite filter_In, <- list_elem_of_In.
  rewrite list_elem_of_fmap. split.
  - intros [([q' x] & -> & Hin) Hu]. apply elem_of_map_to_list in Hin. eauto.
  - intros [[x Hx] Hu]. split; [|done]. exists (q, x). split; [done|].
    by apply elem_of_map_to_list.
Qed.

Lemma find_unsorted_files_NoDup fs : NoDup (find_unsorted_files fs).
Proof. unfold find_unsorted_files. apply NoDup_List_filter, NoDup_fst_map_to_list. Qed.

Lemma find_unsorted_files_pending fs : pending (files fs) (find_unsorted_files fs).
Proof.
  apply Forall_forall. intros q Hin. apply list_elem_of_In, find_unsorted_files_spec in Hin as [Hs Hu].
  split; [|done]. by apply is_unsorted_root.
Qed.

Section Clearing.
Context (sha256 : string -> string) (patterns : PatternTable) (registry : Registry).

Lemma semantic_step_nowrite c b a m : returns NoWrite (semantic_step registry c b a m).
Proof. unfold semantic_step. rel_tac NoWrite. Qed.
#[local] Hint Resolve semantic_step_nowrite : broker.

Lemma categorize_file_nowrite p : returns NoWrite (categorize_file sha256 patterns registry p).
Proof. unfold categorize_file. rel_tac NoWrite. Qed.

Lemma categorize_file_fs p : returns FsSame (categorize_file sha256 patterns registry p).
Proof. eapply returns_weaken, categorize_file_nowrite. by intros x y [? _]. Qed.
#[local] Hint Resolve categorize_file_fs : broker.

Lemma cleanup_files_dry_run l : returns FsSame (cleanup_files sha256 patterns registry true l).
Proof. induction l as [|p l IH]; cbn [cleanup_files]; rel_tac FsSame. Qed.

(** [cleanup_archive] on an existing root runs the loop on the files found,
    and returns [True]. *)
Lemma cleanup_archive_run dry w :
  dir_exists (cw_fs w) ARCHIVE_PATH = true ->
  cleanup_archive sha256 patterns registry dry w
  = (inr true, (cleanup_files sha256 patterns registry dry (find_unsorted_files (cw_fs w)) w).2).
Proof.
  intros Hd. unfold cleanup_archive. cbv [mbind PyM_bind get_st]. rewrite Hd. cbn [negb].
  destruct (find_unsorted_files (cw_fs w)) as [|p l]; [done|].
  destruct (returns_run _ _ w (cleanup_files_inv sha256 patterns registry dry (p :: l)))
    as (u & w' & E & _).
  by rewrite E.
Qed.

(** With no filesystem fault, a present file is moved into its category's
    directory under a free name, one event is logged and the move reports
    success. *)
Lemma move_file_to_category_moves p c m w f :
  files (cw_fs w) !! p = Some f -> fs_faults (cw_fs w) = [] ->
  exists n ev, files (cw_fs w) !! (category_dir c, n) = None /\ move_file_to_category p c m w
    = (inr true, mkCWorld (cw_store w)
                   (mkFS (<[(category_dir c, n) := f]> (delete p (files (cw_fs w))))
                         (fs_dirs (mkdir (cw_fs w) (category_dir c))) [])
                   (cw_stats w) (cw_events w ++ [ev])).
Proof.
  intros Hp Hf. unfold move_file_to_category. cbv [mbind PyM_bind c_lift_fs].
  cbn [cw_fs cw_store cw_stats cw_events].
  rewrite <- (mkdir_files _ (category_dir c)) in Hp |- *.
  rewrite <- (mkdir_faults _ (category_dir c)) in Hf.
  destruct (safe_move_file_ok _ p (category_dir c, p.2) f Hp Hf) as (n & Hn & ->).
  cbn [fst]. rewrite mkdir_idem. do 2 eexists. split; [exact Hn|]. by cbv [c_log_event mret PyM_ret].
Qed.

(** One turn of the loop, with no fault: the file is moved, one event is
    logged and [files_processed] goes up by one. *)
Lemma cleanup_files_step p l w f :
  files (cw_fs w) !! p = Some f -> fs_faults (cw_fs w) = [] ->
  exists c n w3, cleanup_files sha256 patterns registry false (p :: l) w
                 = cleanup_files sha256 patterns registry false l w3 /\
    files (cw_fs w) !! (category_dir c, n) = None /\
    files (cw_fs w3) = <[(category_dir c, n) := f]> (delete p (files (cw_fs w))) /\
    fs_faults (cw_fs w3) = [] /\
    List.length (cw_events w3) = S (List.length (cw_events w)) /\
    c_processed (cw_stats w3) = S (c_processed (cw_stats w)) /\
    c_errors (cw_stats w3) = c_errors (cw_stats w).
Proof.
  intros Hpf Hf. cbn [cleanup_files].
  destruct (returns_run _ _ w (categorize_file_nowrite p)) as ([c m] & w1 & E1 & (Hfs & Hst & Hev)).
  rewrite (bind_inr _ _ _ _ _ E1). cbv [mbind PyM_bind c_bump].
  rewrite <- Hfs in Hpf, Hf.
  destruct (move_file_to_category_moves p c m
              (mkCWorld (cw_store w1) (cw_fs w1) (count_category c (cw_stats w1)) (cw_events w1))
              f Hpf Hf) as (n & ev & Hn & ->).
  cbv [mret PyM_ret]. do 3 eexists. split; [reflexivity|]. cbn. rewrite <-Hfs. split; [exact Hn|].
  rewrite Hfs, Hst, Hev, length_app. simpl. destruct (count_category_counts c (cw_stats w)).
  repeat split; lia || done.
Qed.

Lemma cleanup_files_clears l w :
  NoDup l -> pending (files (cw_fs w)) l -> fs_faults (cw_fs w) = [] ->
  fs_faults (cw_fs (cleanup_files sha256 patterns registry false l w).2) = [] /\
  forall q, q.1 = ARCHIVE_PATH ->
    files (cw_fs (cleanup_files sha256 patterns registry false l w).2) !! q
    = if decide (q ∈ l) then None else files (cw_fs w) !! q.
Proof.
  revert w. induction l as [|p l IH]; intros w Hnd Hl Hf.
  { split; [done|]. intros q _. by rewrite decide_False by apply not_elem_of_nil. }
  apply NoDup_cons in Hnd as [Hp Hnd]. inversion Hl as [|? ? [Hp1 [f Hpf]] Hl']; subst.
  destruct (cleanup_files_step p l w f Hpf Hf) as (c & n & w3 & -> & _ & Hfiles & Hfaults & _).
  destruct (IH w3 Hnd) as [IHf IHq]; [rewrite Hfiles; by apply pending_after_move|done|].
  split; [done|]. intros q Hq. rewrite IHq, Hfiles by done.
  destruct (decide (q = p)) as [->|Hne].
  - rewrite lookup_insert_ne, lookup_delete_eq.
    + repeat case_decide; set_solver.
    + intros Heq. apply (category_dir_ne c). by rewrite <- Hp1, <- Heq.
  - rewrite root_lookup_after_move by done. repeat case_decide; set_solver.
Qed.

Lemma cleanup_files_counts l w :
  NoDup l -> pending (files (cw_fs w)) l -> fs_faults (cw_fs w) = [] ->
  let w' := (cleanup_files sha256 patterns registry false l w).2 in
  List.length (cw_events w') = List.length (cw_events w) + List.length l /\
  c_processed (cw_stats w') = c_processed (cw_stats w) + List.length l /\
  c_errors (cw_stats w') = c_errors (cw_stats w).
Proof.
  revert w. induction l as [|p l IH]; intros w Hnd Hl Hf; cbv zeta.
  { simpl. repeat split; lia. }
  apply NoDup_cons in Hnd as [Hp Hnd]. inversion Hl as [|? ? [Hp1 [f Hpf]] Hl']; subst.
  destruct (cleanup_files_step p l w f Hpf Hf) as (c & n & w3 & -> & _ & Hfiles & Hfaults & He & Hc & Hr).
  destruct (IH w3 Hnd) as (IHe & IHc & IHr); [rewrite Hfiles; by apply pending_after_move|done|].
  cbn [List.length]. repeat split; lia || congruence.
Qed.

Lemma Forall2_in_r {A B} (P : A -> B -> Prop) l k y :
  Forall2 P l k -> y ∈ k -> exists x, x ∈ l /\ P x y.
Proof.
  induction 1 as [|x y' l k Hxy _ IH]; [set_solver|].
  rewrite elem_of_cons. intros [->|Hy]; [exists x; set_solver|].
  destruct (IH Hy) as (x' & ? & ?). exists x'. set_solver.
Qed.

Lemma Forall2_impl_l {A B} (P Q : A -> B -> Prop) (R : A -> Prop) l k :
  Forall R l -> Forall2 P l k -> (forall x y, R x -> P x y -> Q x y) -> Forall2 Q l k.
Proof. intros HR H HPQ. induction H; inversion HR; constructor; auto. Qed.

(** Where the loop puts the files: the [i]-th file of [l] goes to the
    [i]-th path of [dsts], a path of a category directory that was free,
    and no other path changes. *)
Lemma cleanup_files_dests l w :
  NoDup l -> pending (files (cw_fs w)) l -> fs_faults (cw_fs w) = [] ->
  let F' := files (cw_fs (cleanup_files sha256 patterns registry false l w).2) in
  exists dsts, NoDup dsts /\
    Forall2 (fun q d => (exists c, d.1 = category_dir c) /\ files (cw_fs w) !! d = None /\
                        F' !! d = files (cw_fs w) !! q) l dsts /\
    forall p, p ∉ l -> p ∉ dsts -> F' !! p = files (cw_fs w) !! p.
Proof.
  revert w. induction l as [|p l IH]; intros w Hnd Hl Hf; cbv zeta.
  { exists []. split_and!; [constructor|constructor|done]. }
  assert (Hroot : forall q, q ∈ p :: l -> q.1 = ARCHIVE_PATH).
  { intros q Hq. unfold pending in Hl. rewrite Forall_forall in Hl. by destruct (Hl q Hq). }
  apply NoDup_cons in Hnd as [Hp Hnd]. inversion Hl as [|? ? [Hp1 [f Hpf]] Hl']; subst.
  destruct (cleanup_files_step p l w f Hpf Hf) as (c & n & w3 & -> & Hn & Hfiles & Hfaults & _).
  destruct (IH w3 Hnd) as (dsts & Hnd' & H2 & Hrest);
    [rewrite Hfiles; by apply pending_after_move|done|].
  set (F' := files (cw_fs _)) in *.
  assert (Hd : (category_dir c, n) ∉ dsts).
  { intros (q & _ & _ & Hq & _)%(Forall2_in_r _ _ _ _ H2).
    rewrite Hfiles, lookup_insert_eq in Hq. discriminate. }
  assert (Hcl : (category_dir c, n) ∉ l).
  { intros Hin. apply (category_dir_ne c), (Hroot (_, n)). set_solver. }
  assert (HR : Forall (fun q => q.1 = ARCHIVE_PATH /\ q <> p) l).
  { apply Forall_forall. intros q Hq. split; [apply Hroot; set_solver|]. by intros ->. }
  exists ((category_dir c, n) :: dsts). split_and!.
  - by constructor.
  - constructor.
    + split_and!; [by exists c|done|]. rewrite Hrest by done. by rewrite Hfiles, lookup_insert_eq.
    + apply (Forall2_impl_l _ _ _ _ _ HR H2). intros q d [Hq1 Hqp] ([c' Hc'] & Hfree & Hq).
      assert (Hdp : d <> p) by (intros ->; apply (category_dir_ne c'); by rewrite <-Hc').
      split_and!; [by exists c'| |].
      * rewrite Hfiles in Hfree. destruct (decide (d = (category_dir c, n))) as [->|Hne];
          [by rewrite lookup_insert_eq in Hfree|].
        by rewrite lookup_insert_ne, lookup_delete_ne in Hfree.
      * rewrite Hq, Hfiles. by apply root_lookup_after_move.
  - intros q Hq1 Hq2. rewrite Hrest, Hfiles by set_solver.
    rewrite lookup_insert_ne, lookup_delete_ne by set_solver. done.
Qed.

End Clearing.

(** ** Properties *)

(** C12: The cleanup writes nothing to the database, and it never loses or
    creates a file: every move is a [safe_move_file]. *)
Theorem cleanup_readonly_conserving sha256 patterns registry dry_run w :
  let w' := (cleanup_archive sha256 patterns registry dry_run w).2 in
  reports (cw_store w') = reports (cw_store w) /\
  import_log (cw_store w') = import_log (cw_store w) /\
  size (files (cw_fs w')) = size (files (cw_fs w)).
Proof.
  destruct (cleanup_archive_inv sha256 patterns registry dry_run w) as (_ & _ & (Hr & Hl & _) & Hs).
  auto.
Qed.

(** C10: A run on an existing archive root with no filesystem fault returns
    [True], leaves no unsorted file in the root, and files every one it
    found: the [i]-th file found is now, with the same contents, at the
    [i]-th of distinct paths of the category directories that were free
    before, and no other path of the filesystem changes. *)
Theorem cleanup_archive_sorts_all sha256 patterns registry w :
  dir_exists (cw_fs w) ARCHIVE_PATH = true -> fs_faults (cw_fs w) = [] ->
  let r := cleanup_archive sha256 patterns registry false w in
  r.1 = inr true /\ find_unsorted_files (cw_fs r.2) = [] /\
  exists dsts, NoDup dsts /\
    Forall2 (fun q d => (exists c, d.1 = category_dir c) /\ files (cw_fs w) !! d = None /\
                        files (cw_fs r.2) !! d = files (cw_fs w) !! q)
            (find_unsorted_files (cw_fs w)) dsts /\
    forall p, p ∉ find_unsorted_files (cw_fs w) -> p ∉ dsts ->
      files (cw_fs r.2) !! p = files (cw_fs w) !! p.
Proof.
  intros Hd Hf. cbv zeta. rewrite cleanup_archive_run by done. split; [done|]. cbn [snd].
  pose proof (find_unsorted_files_NoDup (cw_fs w)) as Hnd.
  pose proof (find_unsorted_files_pending (cw_fs w)) as Hpen.
  split; [|by apply cleanup_files_dests].
  destruct (cleanup_files_clears sha256 patterns registry _ w Hnd Hpen Hf) as [_ Hq].
  set (w' := (cleanup_files _ _ _ _ _ w).2) in *.
  destruct (find_unsorted_files (cw_fs w')) as [|q l'] eqn:U'; [done|exfalso].
  assert (Hin : In q (find_unsorted_files (cw_fs w'))) by (rewrite U'; by left).
  apply find_unsorted_files_spec in Hin as [Hs Hu].
  rewrite Hq in Hs by (by apply is_unsorted_root). case_decide as Hm; [by destruct Hs|].
  by apply Hm, list_elem_of_In, find_unsorted_files_spec.
Qed.

(** C11: With no filesystem fault, every file found gets exactly one event in
    [import_duplicates.log] and one count in [files_processed], and no
    error is recorded. *)
Theorem cleanup_archive_one_event_per_file sha256 patterns registry w :
  dir_exists (cw_fs w) ARCHIVE_PATH = true -> fs_faults (cw_fs w) = [] ->
  let w' := (cleanup_archive sha256 patterns registry false w).2 in
  List.length (cw_events w') = List.length (cw_events w) + List.length (find_unsorted_files (cw_fs w)) /\
  c_processed (cw_stats w') = c_processed (cw_stats w) + List.length (find_unsorted_files (cw_fs w)) /\
  c_errors (cw_stats w') = c_errors (cw_stats w).
Proof.
  intros Hd Hf. rewrite cleanup_archive_run by done.
  apply cleanup_files_counts; [apply find_unsorted_files_NoDup|apply find_unsorted_files_pending|done].
Qed.

(** C14: A dry run moves nothing: the filesystem is left as it was. *)
Theorem cleanup_dry_run_moves_nothing sha256 patterns registry w :
  cw_fs (cleanup_archive sha256 patterns registry true w).2 = cw_fs w.
Proof.
  unfold cleanup_archive. cbv [mbind PyM_bind get_st].
  destruct (negb _); [done|]. case_match; [done|].
  destruct (cleanup_files_dry_run sha256 patterns registry (p :: l) w) as (_ & _ & Hfs).
  destruct (cleanup_files _ _ _ _ _ w) as [[] w'] eqn:E; simpl in *; exact Hfs.
Qed.

(** ** What [categorize_file] decides without a record *)

Lemma find_first_all_false {A} (f : A -> bool) l :
  (forall x, In x l -> f x = false) -> find_first f l = None.
Proof. induction l as [|y r IH]; intros H; simpl; [done|]. rewrite H by (left; done). auto with datatypes. Qed.

Lemma get_report_by_triple_no_broker st broker acc per :
  db_faults st = [] -> (forall r, In r (reports st) -> r_broker r <> broker) ->
  get_report_by_triple st broker acc per = (None, st).
Proof.
  intros Hdb Hb. unfold get_report_by_triple. rewrite db_call_nofault by done.
  destruct (sql_param acc), (sql_param per); try done. f_equal.
  apply find_first_all_false. intros r Hr. unfold triple_matches.
  by destruct (String.eqb_spec (r_broker r) broker) as [E|]; [destruct (Hb r Hr E)|].
Qed.

(** Without a row of the broker in the store, the semantic step never
    answers [logical_duplicates], and changes nothing. *)
Lemma semantic_step_no_broker registry c broker a m w :
  db_faults (cw_store w) = [] -> (forall r, In r (reports (cw_store w)) -> r_broker r <> broker) ->
  exists res, semantic_step registry c broker a m w = (inr res, w) /\
    forall cm, res = inr (Some cm) -> cm.1 = CatImported.
Proof.
  intros Hdb Hb. destruct w as [st fs s ev]. cbn [cw_store] in *.
  unfold semantic_step. cbv [mbind PyM_bind c_lift_db mret PyM_ret].
  repeat case_match; simplify_eq; try by eexists.
  all: match goal with H : get_report_by_triple _ _ _ _ = _ |- _ => rewrite get_report_by_triple_no_broker in H by done end; simplify_eq; cbn; (eexists; split; [reflexivity|]); by intros cm [= <-].
Qed.

(** C13: Finding (the tool claims to sort "without reimporting to
    database", and the spec files under [imported/] what the database
    holds): a readable file of a recognised broker whose hash is not stored
    and of whose broker the store holds no row is always categorised
    [imported], whatever its parser answers, and the store is left as it
    was: [imported/] receives reports of which no record exists. *)
Theorem categorize_file_imported_without_record sha256 patterns registry p w c :
  db_faults (cw_store w) = [] -> read_file_content (cw_fs w) p = Some c -> c <> "" ->
  ~ In (sha256 c) (hashes (cw_store w)) ->
  detect_broker_tiered p.2 c patterns <> "unknown" ->
  (forall r, In r (reports (cw_store w)) -> r_broker r <> detect_broker_tiered p.2 c patterns) ->
  exists m, categorize_file sha256 patterns registry p w = (inr (CatImported, m), w).
Proof.
  intros Hdb Hr Hc Hh Hu Hb.
  unfold categorize_file. cbv [mbind PyM_bind get_st]. rewrite Hr.
  destruct (String.eqb_spec c "") as [->|_]; [done|].
  destruct w as [st fs s ev]. cbn [cw_store cw_fs] in *. cbv [c_lift_db].
  unfold get_report_by_hash. rewrite db_call_nofault by done.
  rewrite find_first_all_false
    by (intros r Hr' ; apply String.eqb_neq; intros E; apply Hh; unfold hashes; rewrite <-E; by apply in_map).
  cbn -[semantic_step detect_broker_tiered extract_period_from_filename
        extract_account_from_filename].
  apply String.eqb_neq in Hu. rewrite Hu. cbn [negb andb].
  destruct (is_broker_supported registry _).
  - edestruct semantic_step_no_broker as (res & -> & Hres); [done|exact Hb|].
    destruct res as [e|[[cat m']|]]; cbn; rewrite ?Hu; try by eexists.
    specialize (Hres _ eq_refl). cbn in Hres. subst cat. by eexists.
  - cbv [mret PyM_ret]. cbn. rewrite ?Hu. by eexists.
Qed.

(** ** Scenarios *)

Module Scenarios.

Definition sha_id (s : string) : string := s.
Definition c_table : PatternTable := [("sber", mkBrokerConfig ["sber"] ["sberbank"])].
Definition c_reg (d : pydict) : Registry := PARSER_REGISTRY (fun _ => Returned (VDict d)).
Definition root_file (name content : string) : Path * FileObj :=
  ((ARCHIVE_PATH, name), mkFile (N.of_nat (String.length content)) (Some content)).
Definition cworld (fs : list (Path * FileObj)) (reps : list Report) : CWorld :=
  mkCWorld (mkStore reps [] 1 []) (mkFS (list_to_map fs) [ARCHIVE_PATH] []) cstats0 [].
Definition parsed_july : pydict :=
  [("account_number", VStr "4000T49"); ("period_start", VStr "2023-07-01")].
Definition parsed_none : pydict :=
  [("account_number", VStr "4000T49"); ("period_start", VNone)].
Definition cw_1 : CWorld :=
  cworld [root_file "report_4000T49_2023-07.html" "sberbank A"; root_file "notes.html" "hello"] [].
Definition run_c (d : pydict) (w : CWorld) : (exn + bool) * CWorld :=
  cleanup_archive sha_id c_table (c_reg d) false w.

Lemma categorize_file_imported_without_record_witness :
  exists m, categorize_file sha_id c_table (c_reg parsed_july) (ARCHIVE_PATH, "report_4000T49_2023-07.html")
              cw_1 = (inr (CatImported, m), cw_1).
Proof.
  apply (categorize_file_imported_without_record sha_id c_table (c_reg parsed_july)
           (ARCHIVE_PATH, "report_4000T49_2023-07.html") cw_1 "sberbank A");
    [reflexivity|vm_compute; reflexivity|discriminate|intros []|vm_compute; discriminate|intros r []].
Defined.

(** A parser result whose [period_start] is [None] makes [[:7]] raise
    [TypeError]; the inner [except] swallows it and the file is still
    filed as [imported], with the period of its name. *)
Example cleanup_period_none_imported :
  let w' := (run_c parsed_none cw_1).2 in
  is_Some (files (cw_fs w') !! (ARCHIVE_IMPORTED_PATH, "report_4000T49_2023-07.html")) /\
  map ev_period (cw_events w') = [VStr "unknown"; VStr "2023-07"] /\
  c_imported (cw_stats w') = 1.
Proof. vm_compute. split; [eauto|auto]. Qed.

Lemma cleanup_archive_sorts_all_witness :
  let r := run_c parsed_july cw_1 in
  r.1 = inr true /\ find_unsorted_files (cw_fs r.2) = [] /\
  exists dsts, NoDup dsts /\
    Forall2 (fun q d => (exists c, d.1 = category_dir c) /\ files (cw_fs cw_1) !! d = None /\
                        files (cw_fs r.2) !! d = files (cw_fs cw_1) !! q)
            (find_unsorted_files (cw_fs cw_1)) dsts /\
    forall p, p ∉ find_unsorted_files (cw_fs cw_1) -> p ∉ dsts ->
      files (cw_fs r.2) !! p = files (cw_fs cw_1) !! p.
Proof. apply (cleanup_archive_sorts_all sha_id c_table (c_reg parsed_july) cw_1); reflexivity. Defined.

Lemma cleanup_archive_one_event_per_file_witness :
  dir_exists (cw_fs cw_1) ARCHIVE_PATH = true /\ fs_faults (cw_fs cw_1) = [] /\
  let w' := (run_c parsed_july cw_1).2 in
  List.length (cw_events w') = List.length (cw_events cw_1) + List.length (find_unsorted_files (cw_fs cw_1)) /\
  c_processed (cw_stats w') = c_processed (cw_stats cw_1) + List.length (find_unsorted_files (cw_fs cw_1)) /\
  c_errors (cw_stats w') = c_errors (cw_stats cw_1).
Proof.
  split; [reflexivity|]. split; [reflexivity|].
  apply (cleanup_archive_one_event_per_file sha_id c_table (c_reg parsed_july) cw_1); reflexivity.
Defined.

End Scenarios.

End Cleanup.
