(* ===== verification/Queries.v ===== *)
(** * The other methods of [BrokerReportOperations]

    Models the methods of [src/core/database/operations.py] that the
    importer does not call, and that the maintenance scripts use:
    [get_report], [get_report_by_filename], [list_reports] (with
    PostgreSQL's [ILIKE]), [update_report_status], [delete_report] (the
    second definition of the class body, which replaces the first),
    [get_statistics] and the [count_*] methods.  A row comes back as a
    Python dict, [dict(row)], holding the columns the query selects.  Every
    method catches its exceptions and returns a default ([None], [[]],
    [False], [0], [{}]); a statement that raises is an injected fault of
    [db_call]. *)

From stdpp Require Import gmap.
From Stdlib Require Import QArith_base.
From S2P Require Import Prelude PyStr PyValue Store.
Import Store.

Open Scope string_scope.

Module Queries.

(** ** Rows as dicts *)

Definition status_name (s : ProcessingStatus) : string :=
  match s with StRaw => "raw" | StParsed => "parsed" | StError => "error" end.

Definition opt_str (o : option string) : pyval :=
  match o with Some s => VStr s | None => VNone end.

Definition nat_val (n : nat) : pyval := VNum (inject_Z (Z.of_nat n)).

(** [dict(row)] of [SELECT *]: a [JSONB] column comes back as the Python
    value it holds, [NULL] as [None]. *)
Definition report_row (r : Report) : pydict :=
  [("id", nat_val (r_id r)); ("broker", VStr (r_broker r)); ("account", opt_str (r_account r));
   ("period", opt_str (r_period r)); ("file_name", VStr (r_file_name r));
   ("file_path", VStr (r_file_path r)); ("file_hash", VStr (r_file_hash r));
   ("html_content", opt_str (r_html_content r)); ("raw_content", opt_str (r_raw_content r));
   ("file_size", VNum (inject_Z (Z.of_N (r_file_size r))));
   ("parsed_data", default VNone (r_parsed_data r));
   ("processing_status", VStr (status_name (r_status r)));
   ("error_log", opt_str (r_error_log r)); ("parser_version", opt_str (r_parser_version r))].

(** [dict(row)] of the columns [list_reports] selects ([report_date],
    [client_name] and the timestamps are not modelled). *)
Definition summary_row (r : Report) : pydict :=
  [("id", nat_val (r_id r)); ("broker", VStr (r_broker r)); ("account", opt_str (r_account r));
   ("period", opt_str (r_period r)); ("file_name", VStr (r_file_name r));
   ("processing_status", VStr (status_name (r_status r)))].

(** [SELECT * FROM broker_reports WHERE id = %s]; [dict(result[0])]. *)
Definition get_report (st : Store) (report_id : nat) : option pydict * Store :=
  let '(fail, st) := db_call st in
  if fail then (None, st)
  else (option_map report_row (find_first (fun r => Nat.eqb (r_id r) report_id) (reports st)), st).

(** [SELECT * FROM broker_reports WHERE file_name = %s]. *)
Definition get_report_by_filename (st : Store) (filename : string) : option pydict * Store :=
  let '(fail, st) := db_call st in
  if fail then (None, st)
  else (option_map report_row (find_first (fun r => String.eqb (r_file_name r) filename) (reports st)), st).

(** ** [LIKE] and [ILIKE] *)

(** PostgreSQL's [LIKE]: [%] matches any run of characters, [_] one
    character, [\] makes the next pattern character literal.  Characters
    are bytes here (PostgreSQL's [_] matches one character, the same on
    ASCII).  A pattern ending in a lone [\] is an error in PostgreSQL;
    [list_reports] never builds one, since its patterns end in [%]. *)
Fixpoint like_match (p s : string) : bool :=
  match p with
  | EmptyString => String.eqb s ""
  | String c p' =>
      if Ascii.eqb c "%" then
        (fix go (s : string) : bool :=
           like_match p' s || match s with EmptyString => false | String _ s' => go s' end) s
      else if Ascii.eqb c "_" then
        match s with EmptyString => false | String _ s' => like_match p' s' end
      else if Ascii.eqb c "\" then
        match p' with
        | EmptyString => false
        | String e p'' => match s with
                          | String d s' => Ascii.eqb e d && like_match p'' s'
                          | EmptyString => false
                          end
        end
      else match s with
           | String d s' => Ascii.eqb c d && like_match p' s'
           | EmptyString => false
           end
  end.

(** [s ILIKE p]: [LIKE] after lower-casing both sides. *)
Definition ilike (s p : string) : bool := like_match (py_lower p) (py_lower s).

(** ** [list_reports] *)

(** [if broker:] on an optional [str]: [None] and [''] add no condition. *)
Definition opt_truthy (o : option string) : option string :=
  match o with Some s => if String.eqb s "" then None else Some s | None => None end.

(** The [WHERE] clause [list_reports] builds: each given filter adds one
    condition; [=] and [ILIKE] are never true on a [NULL] column. *)
Definition row_filter (broker period status account search_account : option string)
    (r : Report) : bool :=
  match opt_truthy broker with Some b => String.eqb (r_broker r) b | None => true end &&
  match opt_truthy period with Some p => sql_eq (r_period r) (Some p) | None => true end &&
  match opt_truthy status with Some s => String.eqb (status_name (r_status r)) s | None => true end &&
  match opt_truthy account with Some a => sql_eq (r_account r) (Some a) | None => true end &&
  match opt_truthy search_account with
  | Some q => match r_account r with Some a => ilike a ("%" ++ q ++ "%") | None => false end
  | None => true
  end.

(** [ORDER BY created_at DESC LIMIT %s OFFSET %s]: rows are created in
    the order of the table, so the newest come first. *)
Definition list_reports (st : Store) (broker period status account search_account : option string)
    (limit offset : nat) : list pydict * Store :=
  let '(fail, st) := db_call st in
  if fail then ([], st)
  else (map summary_row
          (firstn limit (skipn offset
             (rev (List.filter (row_filter broker period status account search_account) (reports st))))),
        st).

(** ** Updates and deletion *)

(** [json.dumps(v)] without [default]: a date anywhere raises
    [TypeError]. *)
Fixpoint json_serializable (v : pyval) : bool :=
  match v with
  | VDate _ => false
  | VList l => forallb json_serializable l
  | VDict d => (fix go (d : pydict) : bool :=
                  match d with [] => true | (_, x) :: r => json_serializable x && go r end) d
  | _ => true
  end.

(** [if x:] on an optional [str]. *)
Definition str_truthy (o : option string) : bool :=
  match o with Some s => negb (String.eqb s "") | None => false end.

(** The row [UPDATE ... WHERE id = %s] writes: the status always, each
    optional column only when its argument is truthy. *)
Definition set_status (report_id : nat) (status : ProcessingStatus) (parsed_data : pyval)
    (error_log parser_version : option string) (r : Report) : Report :=
  if Nat.eqb (r_id r) report_id
  then mkReport (r_id r) (r_broker r) (r_account r) (r_period r) (r_file_name r)
                (r_file_path r) (r_file_hash r) (r_html_content r) (r_raw_content r)
                (r_file_size r)
                (if truthy parsed_data then Some parsed_data else r_parsed_data r) status
                (if str_truthy error_log then error_log else r_error_log r)
                (if str_truthy parser_version then parser_version else r_parser_version r)
  else r.

(** An [int] id of a row dict. *)
Definition pyval_nat (v : pyval) : option nat :=
  match v with
  | VNum q => if Pos.eqb (Qden q) 1 && Z.leb 0 (Qnum q) then Some (Z.to_nat (Qnum q)) else None
  | _ => None
  end.

(** [update_report_status]: the query is built first, and [json.dumps]
    of truthy [parsed_data] raises before any statement runs; the result
    is [affected > 0].  An id that is not an [int] makes the statement
    fail. *)
Definition update_report_status (st : Store) (report_id : pyval) (status : ProcessingStatus)
    (parsed_data : pyval) (error_log parser_version : option string) : bool * Store :=
  if truthy parsed_data && negb (json_serializable parsed_data) then (false, st)
  else
    let '(fail, st) := db_call st in
    match fail, pyval_nat report_id with
    | false, Some i =>
        (existsb (fun r => Nat.eqb (r_id r) i) (reports st),
         mkStore (map (set_status i status parsed_data error_log parser_version) (reports st))
                 (import_log st) (next_id st) (db_faults st))
    | _, _ => (false, st)
    end.

(** [delete_report], the second definition: [DELETE ... WHERE id = %s];
    the result is [cursor.rowcount > 0]. *)
Definition delete_report (st : Store) (report_id : nat) : bool * Store :=
  let '(fail, st) := db_call st in
  if fail then (false, st)
  else (existsb (fun r => Nat.eqb (r_id r) report_id) (reports st),
        mkStore (List.filter (fun r => negb (Nat.eqb (r_id r) report_id)) (reports st))
                (import_log st) (next_id st) (db_faults st)).

(** ** Counts and statistics *)

Definition count_query (st : Store) (n : Store -> nat) : nat * Store :=
  let '(fail, st) := db_call st in
  if fail then (0, st) else (n st, st).

Definition count_reports (st : Store) : nat * Store :=
  count_query st (fun st => List.length (reports st)).

Definition count_reports_by_status (st : Store) (status : string) : nat * Store :=
  count_query st (fun st => List.length (List.filter
                    (fun r => String.eqb (status_name (r_status r)) status) (reports st))).

Definition count_reports_with_parsed_data (st : Store) : nat * Store :=
  count_query st (fun st => List.length (List.filter
                    (fun r => match r_parsed_data r with Some _ => true | None => false end)
                    (reports st))).

Definition count_import_log_entries (st : Store) : nat * Store :=
  count_query st (fun st => List.length (import_log st)).

(** [GROUP BY key] with [COUNT( * )], as a dict from key to count. *)
Definition group_count (key : Report -> string) (rs : list Report) : gmap string nat :=
  foldr (fun r m => <[key r := S (default 0 (m !! key r))]> m) ∅ rs.

(** The dict [get_statistics] returns; [recent_imports_24h] needs the
    [created_at] column, which is not modelled. *)
Record Statistics := mkStatistics {
  total_reports : nat;
  by_broker : gmap string nat;
  by_status : gmap string nat
}.

(** [get_statistics]: four queries; any failure returns [{}] ([None]). *)
Definition get_statistics (st : Store) : option Statistics * Store :=
  let '(f1, st) := db_call st in if f1 then (None, st) else
  let '(f2, st) := db_call st in if f2 then (None, st) else
  let '(f3, st) := db_call st in if f3 then (None, st) else
  let '(f4, st) := db_call st in if f4 then (None, st) else
  (Some (mkStatistics (List.length (reports st)) (group_count r_broker (reports st))
                      (group_count (fun r => status_name (r_status r)) (reports st))), st).

(** ** Lemmas *)

(** A search term with no [%], [_] or [\]. *)
Fixpoint plain (q : string) : bool :=
  match q with
  | EmptyString => true
  | String c r => negb (Ascii.eqb c "%" || Ascii.eqb c "_" || Ascii.eqb c "\") && plain r
  end.

Lemma like_match_pct s : like_match "%" s = true.
Proof. induction s as [|c s IH]; [done|]. exact IH. Qed.

(** A plain prefix followed by [%] is a prefix test. *)
Lemma like_match_plain_pct q s : plain q = true -> like_match (q ++ "%") s = String.prefix q s.
Proof.
  revert s. induction q as [|c q IH]; intros s Hq.
  { change (like_match "%" s = String.prefix "" s). rewrite like_match_pct. by destruct s. }
  simpl in Hq. apply andb_prop in Hq as [Hc Hq].
  destruct (Ascii.eqb c "%") eqn:E1, (Ascii.eqb c "_") eqn:E2, (Ascii.eqb c "\") eqn:E3;
    try discriminate Hc.
  change (String c q ++ "%") with (String c (q ++ "%")). cbn [like_match]. rewrite E1, E2, E3.
  destruct s as [|d s]; [done|]. rewrite IH by done.
  cbn [String.prefix]. destruct (ascii_dec c d) as [<-|Hne]; [by rewrite Ascii.eqb_refl|].
  by apply Ascii.eqb_neq in Hne as ->.
Qed.

(** [%q%] with a plain [q] is Python's [q in s]. *)
Lemma like_match_contains q s :
  plain q = true -> like_match ("%" ++ q ++ "%") s = py_in q s.
Proof.
  intros Hq. induction s as [|c s IH].
  - change (like_match (q ++ "%") "" || false = String.prefix q "" || false).
    by rewrite like_match_plain_pct.
  - change (like_match (q ++ "%") (String c s) || like_match ("%" ++ q ++ "%") s
            = String.prefix q (String c s) || py_in q s).
    by rewrite IH, like_match_plain_pct.
Qed.

Lemma firstn_skipn_pages {A} (l : list A) o a b :
  (firstn a (skipn o l) ++ firstn b (skipn (o + a) l))%list = firstn (a + b) (skipn o l).
Proof.
  rewrite (Nat.add_comm o a), <- skipn_skipn. generalize (skipn o l) as l'.
  induction a as [|a IH]; intros l'; [done|]. destruct l' as [|x l']; simpl.
  - by destruct b.
  - by rewrite IH.
Qed.

(** The sum of the counts of a [GROUP BY] dict. *)
Definition msum (m : gmap string nat) : nat := map_fold (fun _ v acc => v + acc) 0 m.

Lemma msum_insert m k v : msum (<[k:=v]> m) = v + msum (delete k m).
Proof.
  unfold msum. rewrite <- insert_delete_eq, map_fold_insert_L; [done| |by apply lookup_delete_eq].
  intros. lia.
Qed.

Lemma group_count_sum key rs : msum (group_count key rs) = List.length rs.
Proof.
  induction rs as [|r rs IH]; [done|]. cbn [group_count foldr List.length].
  rewrite msum_insert. fold (group_count key rs).
  destruct (group_count key rs !! key r) as [n|] eqn:E; simpl.
  - rewrite <- IH, <- (insert_delete_id (group_count key rs) (key r) n E), msum_insert.
    rewrite delete_insert_eq. lia.
  - rewrite delete_id by done. lia.
Qed.

Lemma row_of_filter broker period status account search l r :
  In r (List.filter (row_filter broker period status account search) l) ->
  row_filter broker period status account search r = true.
Proof. by intros [_ ?]%filter_In. Qed.

Lemma In_firstn_l {A} (x : A) n l : In x (firstn n l) -> In x l.
Proof. intros H. rewrite <- (firstn_skipn n l). apply in_or_app. by left. Qed.

Lemma In_skipn_l {A} (x : A) n l : In x (skipn n l) -> In x l.
Proof. intros H. rewrite <- (firstn_skipn n l). apply in_or_app. by right. Qed.

Lemma set_status_id i s pd e v r : r_id (set_status i s pd e v r) = r_id r.
Proof. unfold set_status. by destruct (Nat.eqb _ _). Qed.

Lemma set_status_hash i s pd e v r : r_file_hash (set_status i s pd e v r) = r_file_hash r.
Proof. unfold set_status. by destruct (Nat.eqb _ _). Qed.

(** A map or a filter of the rows that keeps ids and hashes keeps both
    invariants of the store. *)
Lemma ids_ok_map st st' f :
  reports st' = map f (reports st) -> next_id st' = next_id st ->
  (forall r, r_id (f r) = r_id r) -> ids_ok st -> ids_ok st'.
Proof.
  intros Hr Hn Hf [Hu Hlt]. unfold ids_ok. rewrite Hr, Hn, unique_by_map_keep by done.
  split; [done|]. apply Forall_forall. intros r' (r & <- & Hin)%list_elem_of_In%in_map_iff.
  rewrite Hf. eapply Forall_forall in Hlt; [exact Hlt|]. by apply list_elem_of_In.
Qed.

Lemma ids_ok_filter st st' p :
  reports st' = List.filter p (reports st) -> next_id st' = next_id st -> ids_ok st -> ids_ok st'.
Proof.
  intros Hr Hn [Hu Hlt]. unfold ids_ok. rewrite Hr, Hn. split; [by apply unique_by_filter|].
  apply Forall_forall. intros r Hin%list_elem_of_In. apply filter_In in Hin as [Hin _].
  eapply Forall_forall in Hlt; [exact Hlt|]. by apply list_elem_of_In.
Qed.

(** The rows of [list_reports] are the summaries of at most [limit]
    stored reports that pass the filters; the store is only read. *)
Lemma list_reports_shape st broker period status account search limit offset :
  exists rs, (list_reports st broker period status account search limit offset).1 = map summary_row rs /\
    List.length rs <= limit /\
    Forall (fun r => In r (reports st) /\ row_filter broker period status account search r = true) rs.
Proof.
  unfold list_reports. pose proof (db_call_reports st) as Hr.
  destruct (db_call st) as [[] st1]; simpl in *; [exists []; split; [done|]; split; [simpl; lia|constructor]|].
  eexists. split; [reflexivity|]. split; [apply firstn_le_length|].
  apply Forall_forall. intros r Hin%list_elem_of_In.
  apply In_firstn_l, In_skipn_l in Hin. rewrite <- in_rev, filter_In, Hr in Hin. done.
Qed.

Lemma get_report_by_filename_readonly st n : store_readonly st (get_report_by_filename st n).2.
Proof. unfold get_report_by_filename. pose proof (db_call_readonly st). by destruct (db_call st) as [[] ?]. Qed.

Lemma list_reports_readonly st broker period status account search limit offset :
  store_readonly st (list_reports st broker period status account search limit offset).2.
Proof. unfold list_reports. pose proof (db_call_readonly st). by destruct (db_call st) as [[] ?]. Qed.

(** ** Properties *)


(** Paging: with no fault, the page at [offset] of [a] rows followed by
    the page at [offset + a] of [b] rows is the page at [offset] of
    [a + b] rows. *)
Theorem list_reports_pages st broker period status account search a b offset :
  db_faults st = [] ->
  ((list_reports st broker period status account search a offset).1 ++
   (list_reports st broker period status account search b (offset + a)).1)%list
  = (list_reports st broker period status account search (a + b) offset).1.
Proof.
  intros Hf. unfold list_reports. rewrite db_call_nofault by done. simpl.
  by rewrite <- map_app, firstn_skipn_pages.
Qed.

(** A plain search term is a case-insensitive substring test: the
    [ILIKE '%q%'] of [list_reports] is [q in a] on the lower-cased
    pattern and account. *)
Theorem like_search_is_substring q a :
  plain q = true -> like_match ("%" ++ q ++ "%") a = py_in q a.
Proof. apply like_match_contains. Qed.


(** C35: [delete_report] removes exactly the rows with the id, reports whether
    there was one, and keeps both invariants of the store. *)
Theorem delete_report_spec st i :
  let '(ok, st') := delete_report st i in
  (ids_ok st -> ids_ok st') /\ (hash_unique st -> hash_unique st') /\
  (db_faults st = [] ->
     (ok = true <-> exists r, In r (reports st) /\ r_id r = i) /\
     forall r, In r (reports st') <-> In r (reports st) /\ r_id r <> i).
Proof.
  unfold delete_report. pose proof (db_call_reports st) as Hr. pose proof (db_call_next_id st) as Hn.
  destruct (db_call st) as [[] st1] eqn:E; cbn [fst snd] in *.
  { unfold ids_ok, hash_unique. rewrite Hr, Hn. split; [done|]. split; [done|].
    intros Hf. by rewrite db_call_nofault in E. }
  split; [apply ids_ok_filter with (p := fun r => negb (r_id r =? i)%nat); simpl; congruence|].
  split; [unfold hash_unique; simpl; rewrite Hr; apply unique_by_filter|].
  intros _. rewrite <- Hr. split.
  - rewrite existsb_exists. split; intros (r & Hin & Hid); exists r; split; try done;
      by apply Nat.eqb_eq.
  - intros r. simpl. rewrite filter_In, negb_true_iff, Nat.eqb_neq. done.
Qed.

(** [update_report_status] keeps every row's id and hash, so both
    invariants of the store. *)
Theorem update_report_status_invariants st i s pd e v :
  (ids_ok st -> ids_ok (update_report_status st i s pd e v).2) /\
  (hash_unique st -> hash_unique (update_report_status st i s pd e v).2).
Proof.
  unfold update_report_status. destruct (_ && _); [done|].
  pose proof (db_call_reports st) as Hr. pose proof (db_call_next_id st) as Hn.
  destruct (db_call st) as [f st1]. cbn [fst snd] in *.
  destruct f, (pyval_nat i); cbn [fst snd];
    try (unfold ids_ok, hash_unique; rewrite Hr, Hn; done).
  split; [intros H; apply (ids_ok_map st _ (set_status n s pd e v)); [simpl; by rewrite Hr|simpl; by rewrite Hn|apply set_status_id|done]|].
  unfold hash_unique. simpl. rewrite unique_by_map_keep, Hr; [done|apply set_status_hash].
Qed.

(** Parsed data holding a date makes [update_report_status] fail before
    any statement runs: [json.dumps] has no [default], unlike the
    [default=str] of [update_report_parsed_data]. *)
Theorem update_report_status_rejects_dates st i s pd e v :
  truthy pd = true -> json_serializable pd = false ->
  update_report_status st i s pd e v = (false, st).
Proof. intros Ht Hj. unfold update_report_status. by rewrite Ht, Hj. Qed.

(** ** Examples *)

Module Examples.

Definition r1 : Report :=
  mkReport 1 "sber" (Some "4000T49") (Some "2023-07") "a.html" "p/a.html" "h1" (Some "<html>") None 6
           None StRaw None None.
Definition r2 : Report :=
  mkReport 2 "tinkoff" (Some "S000T49") (Some "2023-08") "b.html" "p/b.html" "h2" None None 3
           None StParsed None None.
Definition st2 : Store := mkStore [r1; r2] [] 3 [].
Definition stats2 : Statistics :=
  mkStatistics 2 (group_count r_broker [r1; r2]) (group_count (fun r => status_name (r_status r)) [r1; r2]).
Definition dated : pyval := VDict [("period_start", VDate "2023-07-01")].

(** [_] and [%] typed into the account search are wildcards: ["4000_49"]
    finds [4000T49], ["%"] finds every report with an account, and the
    search ignores case; the newest row comes first. *)
Example list_reports_search_wildcards :
  map (fun row => py_get row "id" VNone) (list_reports st2 None None None None (Some "4000_49") 100 0).1
    = [nat_val 1] /\
  List.length (list_reports st2 None None None None (Some "%") 100 0).1 = 2 /\
  map (fun row => py_get row "id" VNone) (list_reports st2 None None None None (Some "t49") 100 0).1
    = [nat_val 2; nat_val 1].
Proof. vm_compute. auto. Qed.

Lemma list_reports_pages_witness :
  db_faults st2 = [] /\
  ((list_reports st2 None None None None None 1 0).1 ++
   (list_reports st2 None None None None None 1 (0 + 1)).1)%list
  = (list_reports st2 None None None None None (1 + 1) 0).1.
Proof. split; [reflexivity|]. apply (list_reports_pages st2); reflexivity. Defined.

Lemma like_search_is_substring_witness :
  plain "T49" = true /\ like_match ("%" ++ "T49" ++ "%") "4000T49" = py_in "T49" "4000T49".
Proof. split; [reflexivity|]. apply like_search_is_substring; reflexivity. Defined.


Lemma update_report_status_rejects_dates_witness :
  truthy dated = true /\ json_serializable dated = false /\
  update_report_status st2 (nat_val 1) StParsed dated None None = (false, st2).
Proof.
  split; [reflexivity|]. split; [reflexivity|].
  apply update_report_status_rejects_dates; reflexivity.
Defined.

End Examples.

End Queries.
