(* ===== verification/ParseReports.v ===== *)
(** * The report parsing script

    Models [src/core/scripts/parse/parse_reports.py]: [parse_filters]
    (the [--filter] and [--search] arguments), [parse_single_report] (one
    report row: parse its HTML with the registered parser and record the
    outcome with [update_report_status]) and [main] (select the raw
    reports, or the one given by [--report-id], and parse each).  The
    state is the store; the console output and the [mkdir] of the data
    directories are not modelled. *)

From stdpp Require Import gmap.
From S2P Require Import Prelude PyStr PyValue Parsers Store Queries.
Import Parsers Store Queries.

Open Scope string_scope.

Module ParseReports.

(** ** [parse_filters] *)

(** [item.split('=', 1)] when ['='] is in [item]. *)
Fixpoint split_eq (s : string) : option (string * string) :=
  match s with
  | EmptyString => None
  | String c r =>
      if Ascii.eqb c "=" then Some ("", r)
      else option_map (fun '(k, v) => (String c k, v)) (split_eq r)
  end.

Definition filter_keys : list string := ["broker"; "period"; "status"; "account"].

(** [parse_filters]: later items override earlier ones with the same
    key. *)
Definition parse_filters (filter_args : list string) : list (string * string) :=
  fold_left (fun filters item =>
               match split_eq item with
               | None => filters
               | Some (k, v) =>
                   let key := py_lower (py_strip k) in
                   if existsb (String.eqb key) filter_keys
                   then dict_set key (py_strip v) filters else filters
               end) filter_args [].

(** ** [parse_single_report] *)

Abbreviation SM := (PyM Store).

Definition lift_db {A} (f : Store -> A * Store) : SM A :=
  fun st => let '(a, st') := f st in (inr a, st').

Definition lift_exn {A} (x : exn + A) : SM A := fun st => (x, st).

(** The [try] body.  A row's [broker] column is text, so a [str]; any
    other value would make the dict lookup of [is_broker_supported]
    raise. *)
Definition parse_body (reg : Registry) (report : pydict) : SM bool :=
  report_id ← lift_exn (py_getitem report "id");
  broker ← lift_exn (py_getitem report "broker");
  let html_content := py_get report "html_content" VNone in
  match broker with
  | VStr b =>
      if String.eqb b "unknown" then
        lift_db (fun st => update_report_status st report_id StError VNone
                             (Some "Unknown broker - no parser available") None);;
        mret false
      else if negb (is_broker_supported reg b) then
        lift_db (fun st => update_report_status st report_id StError VNone
                             (Some ("Unsupported broker: " ++ b)) None);;
        mret false
      else if negb (truthy html_content) then mret false
      else
        parser ← lift_exn (get_parser reg b);
        match html_content with
        | VStr h =>
            match parse parser h with
            | Raised e => raise e
            | Returned parsed_data =>
                lift_db (fun st => update_report_status st report_id StParsed parsed_data None None)
            end
        | _ => raise (TypeError "expected string")
        end
  | _ => raise (TypeError "unhashable type")
  end.

(** [parse_single_report]: on an exception, mark the report as an error
    with [str(e)] if its id can be read ([except: pass] otherwise), and
    return [False]. *)
Definition parse_single_report (reg : Registry) (report : pydict) : SM bool :=
  try_except (parse_body reg report)
    (fun e =>
       match py_getitem report "id" with
       | inr rid => lift_db (fun st => update_report_status st rid StError VNone (Some (exn_msg e)) None)
       | inl _ => mret false
       end;;
       mret false).

(** ** [main] *)

Record Args := mkArgs {
  a_filters : list string;
  a_search : list string;
  a_report_id : option nat;
  a_dry_run : bool;
  a_limit : nat
}.

(** The [for report in reports] loop: the success and error counts. *)
Fixpoint parse_loop (reg : Registry) (rows : list pydict) (ok err : nat) : SM (nat * nat) :=
  match rows with
  | [] => mret (ok, err)
  | row :: rest =>
      b ← parse_single_report reg row;
      match b with
      | true => parse_loop reg rest (S ok) err
      | false => parse_loop reg rest ok (S err)
      end
  end.

(** The reports [main] selects: the one of [--report-id] (a truthy id),
    or the raw reports that pass the filters. *)
Definition select_reports (args : Args) : SM (option (list pydict)) :=
  let filters := parse_filters (a_filters args) in
  let search_map := parse_filters (a_search args) in
  match a_report_id args with
  | Some i =>
      if Nat.eqb i 0 then
        rows ← lift_db (fun st => list_reports st (dict_get filters "broker") (dict_get filters "period")
                                   (Some "raw") (dict_get filters "account")
                                   (dict_get search_map "account") (a_limit args) 0);
        mret (Some rows)
      else
        report ← lift_db (fun st => get_report st i);
        match report with
        | Some r => mret (Some [r])
        | None => mret None
        end
  | None =>
      rows ← lift_db (fun st => list_reports st (dict_get filters "broker") (dict_get filters "period")
                                 (Some "raw") (dict_get filters "account")
                                 (dict_get search_map "account") (a_limit args) 0);
      mret (Some rows)
  end.

(** [main]: its exit status. *)
Definition main (reg : Registry) (args : Args) : SM nat :=
  sel ← select_reports args;
  match sel with
  | None => mret 1
  | Some [] => mret 0
  | Some reports =>
      if a_dry_run args then mret 0
      else cnt ← parse_loop reg reports 0 0;
           let '(_, error_count) := cnt in
           mret (if Nat.eqb error_count 0 then 0 else 1)
  end.

(** ** Lemmas *)

(** What [parse_single_report] does with a row of [list_reports]: the row
    has no [html_content] key, so a supported broker is never parsed. *)
Lemma parse_single_report_summary reg r st :
  parse_single_report reg (summary_row r) st =
    if String.eqb (r_broker r) "unknown" then
      (inr false, (update_report_status st (nat_val (r_id r)) StError VNone
                     (Some "Unknown broker - no parser available") None).2)
    else if negb (is_broker_supported reg (r_broker r)) then
      (inr false, (update_report_status st (nat_val (r_id r)) StError VNone
                     (Some ("Unsupported broker: " ++ r_broker r)) None).2)
    else (inr false, st).
Proof.
  assert (Hid : py_getitem (summary_row r) "id" = inr (nat_val (r_id r))) by reflexivity.
  assert (Hb : py_getitem (summary_row r) "broker" = inr (VStr (r_broker r))) by reflexivity.
  assert (Hh : py_get (summary_row r) "html_content" VNone = VNone) by reflexivity.
  unfold parse_single_report, try_except, parse_body. rewrite Hid, Hb, Hh.
  cbv [mbind PyM_bind lift_exn lift_db mret PyM_ret].
  destruct (String.eqb (r_broker r) "unknown"); cbv beta iota delta [negb];
    [destruct (update_report_status st _ _ _ _ _); reflexivity|].
  destruct (is_broker_supported reg (r_broker r)); cbv beta iota delta [negb]; [reflexivity|].
  destruct (update_report_status st _ _ _ _ _); reflexivity.
Qed.

(** Every report keeps its id and its parsed data, and none becomes
    [parsed]. *)
Definition unparsed_kept (r r' : Report) : Prop :=
  r_id r' = r_id r /\ r_parsed_data r' = r_parsed_data r /\
  (r_status r' = StParsed -> r_status r = StParsed).

Definition keeps_unparsed (st st' : Store) : Prop :=
  Forall2 unparsed_kept (reports st) (reports st').

#[export] Instance keeps_unparsed_refl : Reflexive keeps_unparsed.
Proof. intros st. apply Forall_Forall2_diag, Forall_forall. by intros r _. Qed.

#[export] Instance keeps_unparsed_trans : Transitive keeps_unparsed.
Proof.
  intros x y z H1 H2. eapply (Forall2_trans unparsed_kept); [|exact H1|exact H2].
  intros a b c (I1 & P1 & S1) (I2 & P2 & S2). repeat split; [congruence|congruence|auto].
Qed.

Lemma keeps_unparsed_map st st' f :
  reports st' = map f (reports st) -> (forall r, unparsed_kept r (f r)) -> keeps_unparsed st st'.
Proof.
  unfold keeps_unparsed. intros -> Hf. induction (reports st); constructor; auto.
Qed.

Lemma keeps_unparsed_same st st' : reports st' = reports st -> keeps_unparsed st st'.
Proof. intros H. unfold keeps_unparsed. rewrite H. apply (keeps_unparsed_refl st). Qed.

(** Marking a report as an error neither parses it nor touches its
    parsed data. *)
Lemma update_error_keeps st i msg :
  keeps_unparsed st (update_report_status st i StError VNone msg None).2.
Proof.
  unfold update_report_status. cbn [truthy andb].
  pose proof (db_call_reports st) as Hr. destruct (db_call st) as [[] st1]; cbn [fst snd] in *.
  { by apply keeps_unparsed_same. }
  destruct (pyval_nat i) as [n|]; [|by apply keeps_unparsed_same].
  apply keeps_unparsed_map with (f := set_status n StError VNone msg None); [simpl; by rewrite Hr|].
  intros r. unfold set_status, unparsed_kept. by destruct (Nat.eqb _ _).
Qed.

Lemma parse_single_report_summary_keeps reg r :
  respects keeps_unparsed (parse_single_report reg (summary_row r)).
Proof.
  intros st. rewrite parse_single_report_summary.
  repeat case_match; simpl; auto using update_error_keeps; reflexivity.
Qed.

Lemma parse_loop_summary_keeps reg rs ok err :
  respects keeps_unparsed (parse_loop reg (map summary_row rs) ok err).
Proof.
  revert ok err. induction rs as [|r rs IH]; intros ok err; simpl; [apply (respects_ret keeps_unparsed)|].
  apply (respects_bind keeps_unparsed); [apply parse_single_report_summary_keeps|].
  intros []; apply IH.
Qed.

Lemma lift_list_reports st b p s a q lim off :
  lift_db (fun st => list_reports st b p s a q lim off) st
  = (inr (list_reports st b p s a q lim off).1, (list_reports st b p s a q lim off).2).
Proof. unfold lift_db. by destruct (list_reports _ _ _ _ _ _ _ _). Qed.

Lemma list_reports_run st b p s a q lim off :
  exists rs st1, lift_db (fun st => list_reports st b p s a q lim off) st = (inr (map summary_row rs), st1) /\
                 keeps_unparsed st st1.
Proof.
  unfold lift_db. destruct (list_reports_shape st b p s a q lim off) as (rs & Hrs & _).
  destruct (list_reports_readonly st b p s a q lim off) as [Hr _].
  destruct (list_reports st b p s a q lim off) as [rows st1]. simpl in *. subst rows.
  exists rs, st1. split; [done|]. by apply keeps_unparsed_same.
Qed.

(** Without a truthy [--report-id], [main] selects rows of
    [list_reports]. *)
Lemma select_reports_listing args st :
  (a_report_id args = None \/ a_report_id args = Some 0) ->
  exists rs st1, select_reports args st = (inr (Some (map summary_row rs)), st1) /\ keeps_unparsed st st1.
Proof.
  intros Hid. unfold select_reports.
  destruct Hid as [-> | ->]; cbn [Nat.eqb];
    edestruct list_reports_run as (rs & st1 & E & K);
    rewrite (bind_inr _ _ _ _ _ E); eauto.
Qed.

(** The keys of a filter dict: allowed, each once. *)
Definition filters_ok (d : list (string * string)) : Prop :=
  Forall (fun k => In k filter_keys) (dict_keys d) /\ NoDup (dict_keys d).

Lemma filters_ok_set d k v : In k filter_keys -> filters_ok d -> filters_ok (dict_set k v d).
Proof.
  intros Hk [Hf Hn]. unfold filters_ok.
  destruct (in_dec String.string_dec k (dict_keys d)) as [Hin|Hin].
  - by rewrite dict_keys_set_old.
  - rewrite dict_keys_set_new by done. split.
    + apply Forall_app. split; [done|]. by constructor.
    + apply NoDup_app. split; [done|]. split; [|apply NoDup_singleton].
      intros x Hx ->%list_elem_of_singleton. by apply Hin, list_elem_of_In.
Qed.

(** ** Properties *)

(** [parse_filters] keeps only the keys [broker], [period], [status] and
    [account], each at most once. *)
Theorem parse_filters_keys args :
  Forall (fun k => In k filter_keys) (dict_keys (parse_filters args)) /\
  NoDup (dict_keys (parse_filters args)).
Proof.
  change (filters_ok (parse_filters args)). unfold parse_filters.
  assert (H0 : filters_ok []) by (split; [constructor|apply NoDup_nil_2]).
  revert H0. generalize (@nil (string * string)).
  induction args as [|item args IH]; intros d Hd; cbn [fold_left]; [done|]. apply IH.
  destruct (split_eq item) as [[k v]|]; [|done]. cbv zeta.
  destruct (existsb (String.eqb (py_lower (py_strip k))) filter_keys) eqn:E; [|exact Hd].
  apply existsb_exists in E as (key & Hin & E). apply String.eqb_eq in E. rewrite E.
  by apply filters_ok_set.
Qed.

(** C15: The raw-report listing of [main] parses nothing: the rows of
    [list_reports] carry no [html_content], so [parse_single_report]
    returns [False] on every report of a supported broker; reports of an
    unknown or unsupported broker are only marked [error].  No report
    becomes [parsed] and no parsed data changes. *)
Theorem parse_reports_listing_parses_nothing reg args st :
  (a_report_id args = None \/ a_report_id args = Some 0) ->
  keeps_unparsed st (main reg args st).2.
Proof.
  intros Hid. destruct (select_reports_listing args st Hid) as (rs & st1 & E & K).
  unfold main. rewrite (bind_inr _ _ _ _ _ E).
  destruct rs as [|r rs]; cbn [map]; [done|]. destruct (a_dry_run args); [done|].
  rewrite bind_pure_snd by (intros [] ?; reflexivity).
  etrans; [exact K|]. apply (parse_loop_summary_keeps reg (r :: rs)).
Qed.

(** ** Examples *)

Module Examples.

Definition reg : Registry :=
  PARSER_REGISTRY (fun _ => Returned (VDict [("account_number", VStr "4000T49")])).
Definition r1 : Report :=
  mkReport 1 "sber" (Some "4000T49") (Some "2023-07") "a.html" "p/a.html" "h1" (Some "<html>") None 6
           None StRaw None None.
Definition r3 : Report :=
  mkReport 3 "unknown" None None "c.html" "p/c.html" "h3" (Some "<p>") None 3 None StRaw None None.
Definition st0 : Store := mkStore [r1; r3] [] 4 [].
Definition args_list : Args := mkArgs [] [] None false 100.
Definition args_id : Args := mkArgs [] [] (Some 1) false 100.

(** With [--report-id 1] the report is read with [SELECT *] and parsed;
    listing the raw reports instead parses nothing, marks the
    unknown-broker report [error], and exits with status 1. *)
Example parse_reports_report_id_parses :
  (main reg args_id st0).1 = inr 0 /\
  map r_status (reports (main reg args_id st0).2) = [StParsed; StRaw] /\
  (main reg args_list st0).1 = inr 1 /\
  map r_status (reports (main reg args_list st0).2) = [StRaw; StError] /\
  map r_parsed_data (reports (main reg args_list st0).2) = [None; None].
Proof. vm_compute. auto 6. Qed.

Lemma parse_reports_listing_parses_nothing_witness :
  (a_report_id args_list = None \/ a_report_id args_list = Some 0) /\
  keeps_unparsed st0 (main reg args_list st0).2.
Proof.
  split; [left; reflexivity|].
  apply parse_reports_listing_parses_nothing. left. reflexivity.
Defined.

(** Later [--filter] items override earlier ones; keys are stripped and
    lower-cased, unknown keys and items without [=] are dropped. *)
Example parse_filters_override :
  parse_filters [" Broker = sber"; "broker=tinkoff"; "foo=1"; "period"; "PERIOD=2023-07"]
  = [("broker", "tinkoff"); ("period", "2023-07")].
Proof. vm_compute. reflexivity. Qed.

End Examples.

End ParseReports.
