(* ===== verification/FixPeriods.v ===== *)
(** * The period repair script

    Models [src/core/scripts/verify/fix_invalid_periods.py]: the records
    whose [period] lies outside ['2000-01'] .. ['2025-12'] get the period
    cut from their parsed [period_start]; a period another record of the
    same broker and account already has is replaced by ["9999-MM"].  The
    state is the store and the lines of the change log
    ([diagnostics/fixed_invalid_periods.log]; its timestamps are not
    modelled).  The SQL of [execute_raw_query] is translated query by
    query; each query or update is one [db_call], whose injected fault
    stands for a database error. *)

From stdpp Require Import gmap.
From S2P Require Import Prelude PyStr PyValue Store Queries.
Import Store Queries.

Open Scope string_scope.

Module FixPeriods.

(** ** Date and period checks *)

(** [re.match(r'^\d{4}-\d{2}-\d{2}$', s)] on the code points of [s]:
    [\d] is any Unicode decimal digit and [$] also matches before a final
    newline. *)
Definition date_re (s : string) : bool :=
  match decode s with
  | a :: b :: c :: d :: h1 :: e :: f :: h2 :: g :: i :: rest =>
      forallb is_decimal [a; b; c; d; e; f; g; i] && Z.eqb h1 0x2D && Z.eqb h2 0x2D &&
      match rest with [] => true | [nl] => Z.eqb nl 0x0A | _ => false end
  | _ => false
  end.

(** [validate_date_format]: [None] and [''] are not dates. *)
Definition validate_date_format (date_str : option string) : bool :=
  match date_str with
  | Some s => negb (String.eqb s "") && date_re s
  | None => false
  end.

(** [extract_period_from_date]: [date_str[:7]]. *)
Definition extract_period_from_date (date_str : option string) : option string :=
  if validate_date_format date_str then option_map (py_take 7) date_str else None.

(** Python's [<=] on [str]: code-point order, which is the byte order of
    UTF-8. *)
Definition str_le (a b : string) : bool :=
  match String.compare a b with Gt => false | _ => true end.

(** [is_valid_period]: ['2000-01' <= period <= '2025-12']. *)
Definition is_valid_period (period : string) : bool :=
  negb (String.eqb period "") && str_le "2000-01" period && str_le period "2025-12".

(** ** State *)

(** One line of the change log: [ID], [OLD], [NEW], [REASON], [FILE]. *)
Record Change := mkChange {
  ch_id : nat;
  ch_old : option string;
  ch_new : string;
  ch_reason : string;
  ch_file : string
}.

Record FWorld := mkFWorld { fw_store : Store; fw_log : list Change }.

Definition log_change (w : FWorld) (report_id : nat) (old_period : option string)
    (new_period reason filename : string) : FWorld :=
  mkFWorld (fw_store w) (fw_log w ++ [mkChange report_id old_period new_period reason filename]).

(** [f"{x}"] of an optional [str]. *)
Definition fmt_opt (o : option string) : string := match o with Some s => s | None => "None" end.

(** The text of the injected database error ([str(e)] of psycopg2 is not
    modelled). *)
Definition db_error_text : string := "database error".

(** ** Queries *)

(** A row of [find_invalid_records]. *)
Record IRow := mkIRow {
  ir_id : nat;
  ir_broker : string;
  ir_account : option string;
  ir_period : option string;
  ir_file_name : string;
  ir_period_start : option string;
  ir_period_end : option string;
  ir_parser_version : option string
}.

(** [parsed_data ->> key]: the text of a JSON string, [NULL] for JSON
    [null], a missing key or a value that is not an object.  The text of
    a number, a boolean or a container is its JSON form, which never has
    the shape of a date; it is written ["<json>"] here.  A date was stored
    as its ISO text ([json.dumps(..., default=str)]). *)
Definition jsonb_text (v : option pyval) (key : string) : option string :=
  match v with
  | Some (VDict d) =>
      match dict_get d key with
      | Some (VStr s) | Some (VDate s) => Some s
      | Some VNone | None => None
      | Some _ => Some "<json>"
      end
  | _ => None
  end.

(** The [WHERE] clause of [find_invalid_records]. *)
Definition is_invalid_record (r : Report) : bool :=
  match r_period r with
  | Some p => negb (str_le "2000-01" p) || negb (str_le p "2025-12")
  | None => false
  end &&
  match r_parser_version r with Some _ => true | None => false end &&
  match r_parsed_data r with Some _ => true | None => false end &&
  match jsonb_text (r_parsed_data r) "period_start" with Some _ => true | None => false end.

Definition irow_of (r : Report) : IRow :=
  mkIRow (r_id r) (r_broker r) (r_account r) (r_period r) (r_file_name r)
         (jsonb_text (r_parsed_data r) "period_start") (jsonb_text (r_parsed_data r) "period_end")
         (r_parser_version r).

(** Insertion into a list sorted by id. *)
Fixpoint insert_by_id (r : Report) (l : list Report) : list Report :=
  match l with
  | [] => [r]
  | x :: xs => if Nat.leb (r_id r) (r_id x) then r :: l else x :: insert_by_id r xs
  end.

Definition sort_by_id (l : list Report) : list Report := fold_right insert_by_id [] l.

(** [find_invalid_records]: [ORDER BY id]; [execute_raw_query] returns
    [[]] on an error. *)
Definition find_invalid_records (st : Store) : list IRow * Store :=
  let '(fail, st) := db_call st in
  if fail then ([], st)
  else (map irow_of (sort_by_id (List.filter is_invalid_record (reports st))), st).

(** [check_duplicate_period]: [account = %s] is never true on [NULL];
    an error reads as [False]. *)
Definition check_duplicate_period (st : Store) (broker : string) (account : option string)
    (period : string) (exclude_id : nat) : bool * Store :=
  let '(fail, st) := db_call st in
  if fail then (false, st)
  else (existsb (fun r => String.eqb (r_broker r) broker && sql_eq (r_account r) account &&
                          sql_eq (r_period r) (Some period) && negb (Nat.eqb (r_id r) exclude_id))
                (reports st), st).

Definition set_period (report_id : nat) (period : string) (r : Report) : Report :=
  if Nat.eqb (r_id r) report_id
  then mkReport (r_id r) (r_broker r) (r_account r) (Some period) (r_file_name r) (r_file_path r)
                (r_file_hash r) (r_html_content r) (r_raw_content r) (r_file_size r)
                (r_parsed_data r) (r_status r) (r_error_log r) (r_parser_version r)
  else r.

(** [UPDATE broker_reports SET period = %s WHERE id = %s] through
    [get_cursor]: an error raises ([None]); otherwise whether a row was
    updated. *)
Definition update_period (st : Store) (report_id : nat) (period : string) : option bool * Store :=
  let '(fail, st) := db_call st in
  if fail then (None, st)
  else (Some (existsb (fun r => Nat.eqb (r_id r) report_id) (reports st)),
        mkStore (map (set_period report_id period) (reports st)) (import_log st) (next_id st)
                (db_faults st)).

(** ["9999-" + new_period.split('-')[1]]: the month of a [YYYY-MM] text. *)
Definition unique_invalid_period (new_period : string) : string :=
  "9999-" ++ substring 5 2 new_period.

(** The [try] around one [UPDATE]: its log line and result. *)
Definition apply_update (w : FWorld) (record : IRow) (period ok_reason err_prefix fail_reason : string)
    : bool * FWorld :=
  let '(res, st) := update_period (fw_store w) (ir_id record) period in
  let w := mkFWorld st (fw_log w) in
  match res with
  | Some true => (true, log_change w (ir_id record) (ir_period record) period ok_reason (ir_file_name record))
  | Some false => (false, log_change w (ir_id record) (ir_period record) "FAILED" fail_reason (ir_file_name record))
  | None => (false, log_change w (ir_id record) (ir_period record) "ERROR" (err_prefix ++ db_error_text)
                                 (ir_file_name record))
  end.

(** [==] on [str] or [None]. *)
Definition opt_eqb (a b : option string) : bool :=
  match a, b with
  | Some x, Some y => String.eqb x y
  | None, None => true
  | _, _ => false
  end.

(** [fix_record_period]. *)
Definition fix_record_period (w : FWorld) (record : IRow) : bool * FWorld :=
  let report_id := ir_id record in
  let old_period := ir_period record in
  let filename := ir_file_name record in
  match extract_period_from_date (ir_period_start record) with
  | None => (false, log_change w report_id old_period "FAILED" "Invalid period_start format" filename)
  | Some new_period =>
      if negb (is_valid_period new_period) then
        (false, log_change w report_id old_period "FAILED"
                  ("Extracted period " ++ new_period ++ " outside valid range") filename)
      else if opt_eqb (Some new_period) old_period then
        (true, log_change w report_id old_period "SKIPPED" "Period already correct" filename)
      else
        let '(dup, st) := check_duplicate_period (fw_store w) (ir_broker record) (ir_account record)
                                                 new_period report_id in
        let w := mkFWorld st (fw_log w) in
        if dup then
          let u := unique_invalid_period new_period in
          apply_update w record u
            ("Period " ++ new_period ++ " already exists for " ++ ir_broker record ++ "/" ++
             fmt_opt (ir_account record) ++ ", set to " ++ u)
            "Database error when setting to unique invalid period: "
            "No rows updated when setting to unique invalid period"
        else
          apply_update w record new_period "Period corrected from period_start"
            "Database error: " "No rows updated"
  end.

(** [verify_fixes]: [(remaining_invalid, total_parsed, fixed_count)]; a
    failed query counts [0]. *)
Definition is_remaining_invalid (r : Report) : bool :=
  match r_period r with
  | Some p => (negb (str_le "2000-01" p) || negb (str_le p "2025-12")) && negb (like_match "9999-%" p)
  | None => false
  end && match r_parser_version r with Some _ => true | None => false end.

Definition verify_fixes (st : Store) : (nat * nat * nat) * Store :=
  let '(f1, st) := db_call st in
  let remaining := if f1 then 0 else List.length (List.filter is_remaining_invalid (reports st)) in
  let '(f2, st) := db_call st in
  let total := if f2 then 0
               else List.length (List.filter (fun r => match r_parser_version r with
                                                       | Some _ => true | None => false end)
                                             (reports st)) in
  ((remaining, total, total - remaining), st).

(** The loop of [main]: the fixed and failed counts. *)
Fixpoint fix_all (w : FWorld) (records : list IRow) (fixed failed : nat) : (nat * nat) * FWorld :=
  match records with
  | [] => ((fixed, failed), w)
  | record :: rest =>
      let '(ok, w) := fix_record_period w record in
      if ok then fix_all w rest (S fixed) failed else fix_all w rest fixed (S failed)
  end.

(** [main]: its exit status.  A real run first clears the log file. *)
Definition main (dry_run : bool) (w : FWorld) : nat * FWorld :=
  let w := if dry_run then w else mkFWorld (fw_store w) [] in
  let '(invalid_records, st) := find_invalid_records (fw_store w) in
  let w := mkFWorld st (fw_log w) in
  match invalid_records with
  | [] => (0, w)
  | _ =>
      if dry_run then (0, w)
      else
        let '(_, w) := fix_all w invalid_records 0 0 in
        let '(verification, st) := verify_fixes (fw_store w) in
        let '(remaining, _, _) := verification in
        (if Nat.ltb 0 remaining then 1 else 0, mkFWorld st (fw_log w))
  end.

(** ** Lemmas *)

Lemma date_re_shape s :
  date_re s = true ->
  exists a b c d e f r, decode s = (a :: b :: c :: d :: 0x2D :: e :: f :: r)%Z /\
                        forallb is_decimal [a; b; c; d; e; f] = true.
Proof.
  unfold date_re. destruct (decode s) as [|a [|b [|c [|d [|h1 [|e [|f [|h2 [|g [|i r]]]]]]]]]];
    try discriminate.
  intros H. apply andb_prop in H as [H _]. apply andb_prop in H as [H _].
  apply andb_prop in H as [Hd E1]. apply Z.eqb_eq in E1 as ->.
  do 7 eexists. split; [reflexivity|]. cbn [forallb] in Hd |- *.
  repeat rewrite andb_true_iff in Hd |- *. tauto.
Qed.

(** A period cut from a date text has the shape [\d{4}-\d{2}]. *)
Lemma extract_period_from_date_shape d p :
  extract_period_from_date d = Some p -> is_period_text p = true.
Proof.
  unfold extract_period_from_date, validate_date_format. destruct d as [s|]; [|done].
  destruct (negb _ && date_re s) eqn:E; [|done]. intros [= <-].
  apply andb_prop in E as [_ (a & b & c & d & e & f & r & Hs & Hd)%date_re_shape].
  unfold py_take. rewrite Hs. cbn [firstn]. change (take 0 r) with (@nil Z).
  change (a :: b :: c :: d :: 0x2D :: e :: f :: [])%Z with ([a; b; c; d] ++ 0x2D%Z :: [e; f])%list.
  rewrite encode_app, (encode_cons 0x2D), (encode_cp1 0x2D) by lia.
  change (String (zb 0x2D) "") with "-". rewrite str_app_cons, str_app_nil_l.
  simpl in Hd. repeat rewrite andb_true_iff in Hd. destruct Hd as (Ha & Hb & Hc & Hd & He & Hf & _).
  assert (Hef : forallb is_decimal [e; f] = true) by (simpl; by rewrite He, Hf).
  assert (Hs' : decode (encode [e; f]) = [e; f]) by (apply decode_encode, forallb_decimal_scalar, Hef).
  apply is_period_text_intro; rewrite ?Hs'; [simpl; by rewrite Ha, Hb, Hc, Hd|done..].
Qed.

Lemma set_period_frame i p r :
  r_id (set_period i p r) = r_id r /\ r_file_hash (set_period i p r) = r_file_hash r.
Proof. unfold set_period. by destruct (Nat.eqb _ _). Qed.

Lemma check_duplicate_period_store st b a p i :
  reports (check_duplicate_period st b a p i).2 = reports st /\
  next_id (check_duplicate_period st b a p i).2 = next_id st.
Proof.
  unfold check_duplicate_period. pose proof (db_call_reports st). pose proof (db_call_next_id st).
  by destruct (db_call st) as [[] ?].
Qed.

(** A step of the script on the store: nothing changes but, possibly,
    the period of the rows with the id. *)
Definition period_step (i : nat) (p : string) (st st' : Store) : Prop :=
  next_id st' = next_id st /\
  (reports st' = reports st \/ reports st' = map (set_period i p) (reports st)).

Lemma period_step_same_l i p st st1 st2 :
  reports st1 = reports st -> next_id st1 = next_id st -> period_step i p st1 st2 -> period_step i p st st2.
Proof. intros Hr Hn [Hn' H]. split; [congruence|]. by rewrite <- Hr. Qed.

Lemma update_period_step st i p : period_step i p st (update_period st i p).2.
Proof.
  unfold update_period, period_step. pose proof (db_call_reports st) as Hr.
  pose proof (db_call_next_id st) as Hn.
  destruct (db_call st) as [[] st1]; simpl in *; (split; [done|]); [by left|right; by rewrite Hr].
Qed.

Lemma apply_update_shape w record p a b c :
  period_step (ir_id record) p (fw_store w) (fw_store (apply_update w record p a b c).2) /\
  exists ch, fw_log (apply_update w record p a b c).2 = (fw_log w ++ [ch])%list /\ ch_id ch = ir_id record.
Proof.
  unfold apply_update. pose proof (update_period_step (fw_store w) (ir_id record) p) as Hs.
  destruct (update_period _ _ _) as [[[]|] st]; simpl in *; (split; [done|eexists; split; reflexivity]).
Qed.

Lemma period_step_invariants i p st st' :
  period_step i p st st' -> (ids_ok st -> ids_ok st') /\ (hash_unique st -> hash_unique st').
Proof.
  intros [Hn [H|H]]; unfold ids_ok, hash_unique; rewrite H, Hn; [done|].
  rewrite !unique_by_map_keep by (intros r; apply set_period_frame). split; [|done].
  intros [Hu Hlt]. split; [done|]. apply Forall_forall.
  intros r' (r & <- & Hin)%list_elem_of_In%in_map_iff.
  rewrite (proj1 (set_period_frame _ _ _)). eapply Forall_forall in Hlt; [exact Hlt|]. by apply list_elem_of_In.
Qed.

Lemma log_change_shape w i o n r f :
  fw_store (log_change w i o n r f) = fw_store w /\
  fw_log (log_change w i o n r f) = (fw_log w ++ [mkChange i o n r f])%list.
Proof. done. Qed.

(** ** Properties *)

(** C34: [fix_record_period] writes exactly one line to the change log, for
    the record's id, and changes at most the period of the rows with that
    id; the id and hash invariants of the store survive it. *)
Theorem fix_record_period_frame w record :
  let w' := (fix_record_period w record).2 in
  (exists p, period_step (ir_id record) p (fw_store w) (fw_store w')) /\
  (exists ch, fw_log w' = (fw_log w ++ [ch])%list /\ ch_id ch = ir_id record) /\
  (ids_ok (fw_store w) -> ids_ok (fw_store w')) /\
  (hash_unique (fw_store w) -> hash_unique (fw_store w')).
Proof.
  enough (H : exists p, period_step (ir_id record) p (fw_store w) (fw_store (fix_record_period w record).2) /\
             exists ch, fw_log (fix_record_period w record).2 = (fw_log w ++ [ch])%list /\
                        ch_id ch = ir_id record).
  { destruct H as (p & Hs & Hl). pose proof (period_step_invariants _ _ _ _ Hs). cbv zeta. naive_solver. }
  unfold fix_record_period.
  destruct (extract_period_from_date _) as [np|];
    [|exists ""; split; [split; [done|by left]|eexists; split; reflexivity]].
  destruct (negb (is_valid_period np));
    [exists ""; split; [split; [done|by left]|eexists; split; reflexivity]|].
  destruct (opt_eqb _ _);
    [exists ""; split; [split; [done|by left]|eexists; split; reflexivity]|].
  destruct (check_duplicate_period_store (fw_store w) (ir_broker record) (ir_account record) np (ir_id record))
    as [Hr Hn].
  destruct (check_duplicate_period _ _ _ _ _) as [[] st]; simpl in Hr, Hn;
    [exists (unique_invalid_period np)|exists np];
    (match goal with |- context [apply_update ?w1 ?r ?p ?a ?b ?c] =>
       destruct (apply_update_shape w1 r p a b c) as [Hs Hl] end;
     split; [eapply period_step_same_l; [exact Hr|exact Hn|exact Hs]|exact Hl]).
Qed.

(** C17: The main branch of [fix_record_period]: with no fault, a valid
    period cut from [period_start] that differs from the stored one and
    that no other record of the broker and account has is written to the
    record's row, with one ["Period corrected"] line in the log. *)
Theorem fix_record_period_corrects w record p :
  db_faults (fw_store w) = [] ->
  extract_period_from_date (ir_period_start record) = Some p ->
  is_valid_period p = true -> opt_eqb (Some p) (ir_period record) = false ->
  (check_duplicate_period (fw_store w) (ir_broker record) (ir_account record) p (ir_id record)).1 = false ->
  existsb (fun r => Nat.eqb (r_id r) (ir_id record)) (reports (fw_store w)) = true ->
  fix_record_period w record =
    (true, mkFWorld (mkStore (map (set_period (ir_id record) p) (reports (fw_store w)))
                             (import_log (fw_store w)) (next_id (fw_store w)) [])
                    (fw_log w ++ [mkChange (ir_id record) (ir_period record) p
                                   "Period corrected from period_start" (ir_file_name record)])%list).
Proof.
  intros Hf He Hv Hq Hd Hx. unfold fix_record_period. rewrite He, Hv, Hq. cbn [negb].
  unfold check_duplicate_period in Hd |- *. rewrite db_call_nofault in Hd |- * by done.
  cbn [fst] in Hd. rewrite Hd. unfold apply_update, update_period. cbn [fw_store].
  rewrite db_call_nofault by done. rewrite Hx. destruct w as [[] ?]; simpl in *. by subst.
Qed.

(** C19: A dry run changes neither the store nor the log. *)
Theorem fix_periods_dry_run_readonly w :
  reports (fw_store (main true w).2) = reports (fw_store w) /\ fw_log (main true w).2 = fw_log w.
Proof.
  unfold main, find_invalid_records. cbn zeta. pose proof (db_call_reports (fw_store w)) as Hr.
  destruct (db_call (fw_store w)) as [[] st]; simpl in *; [done|].
  by destruct (map irow_of _).
Qed.

(** ** Dates after 2025 *)

Definition ascii_digits : list ascii := ["0"; "1"; "2"; "3"; "4"; "5"; "6"; "7"; "8"; "9"]%char.

(** The value of an ASCII digit. *)
Definition digit_value (c : ascii) : nat := nat_of_ascii c - 48.

Lemma is_digit_In c : is_digit c = true -> In c ascii_digits.
Proof. destruct c as [[] [] [] [] [] [] [] []]; vm_compute; intros H; try discriminate H; intuition. Qed.

Lemma is_decimal_digit c : is_digit c = true -> is_decimal (bz c) = true.
Proof.
  unfold is_digit, bz. rewrite in_range_spec. intros H.
  unfold is_decimal, in_table, decimal_table. cbn [existsb].
  replace (in_z 0x30 0x39 _) with true; [done|]. symmetry. apply in_z_spec. lia.
Qed.

(** Two texts compare as their first parts when these have the same
    length and differ. *)
Lemma compare_app_ne s1 s2 r1 r2 :
  String.length s1 = String.length s2 -> String.compare s1 s2 <> Eq ->
  String.compare (s1 ++ r1) (s2 ++ r2) = String.compare s1 s2.
Proof.
  revert s2. induction s1 as [|a s1 IH]; intros [|b s2] Hl Hc; try (simpl in *; congruence).
  rewrite !str_app_cons. cbn in Hl, Hc |- *. destruct (Ascii.compare a b); [apply IH; [lia|done]|done|done].
Qed.

(** Four ASCII digits whose number is above [2025] sort after ["2025"]. *)
Lemma year_text_after_2025 a b c d :
  forallb is_digit [a; b; c; d] = true ->
  2026 <= 1000 * digit_value a + 100 * digit_value b + 10 * digit_value c + digit_value d ->
  String.compare (String a (String b (String c (String d "")))) "2025" = Gt.
Proof.
  assert (Hall : forallb (fun a => forallb (fun b => forallb (fun c => forallb (fun d =>
            negb (2026 <=? 1000 * digit_value a + 100 * digit_value b + 10 * digit_value c + digit_value d)%nat
            || match String.compare (String a (String b (String c (String d "")))) "2025" with
               | Gt => true | _ => false end) ascii_digits) ascii_digits) ascii_digits) ascii_digits = true)
    by (vm_compute; reflexivity).
  cbn [forallb]. rewrite !andb_true_iff. intros (Ha & Hb & Hc & Hd & _) Hv.
  apply is_digit_In in Ha, Hb, Hc, Hd. rewrite forallb_forall in Hall.
  specialize (Hall a Ha). rewrite forallb_forall in Hall. specialize (Hall b Hb).
  rewrite forallb_forall in Hall. specialize (Hall c Hc). rewrite forallb_forall in Hall.
  specialize (Hall d Hd). apply Nat.leb_le in Hv. rewrite Hv in Hall. cbn [negb orb] in Hall.
  by destruct (String.compare _ _).
Qed.

(** [period_start] of ASCII digits is cut to its first seven characters. *)
Lemma extract_period_from_date_ascii a b c d e f g h :
  forallb is_digit [a; b; c; d; e; f; g; h] = true ->
  extract_period_from_date (Some (String a (String b (String c (String d (String "-"
    (String e (String f (String "-" (String g (String h "")))))))))))
  = Some (String a (String b (String c (String d (String "-" (String e (String f ""))))))).
Proof.
  intros H. pose proof H as H'. cbn [forallb] in H'. rewrite !andb_true_iff in H'.
  destruct H' as (Ha & Hb & Hc & Hd & He & Hf & Hg & Hh & _).
  assert (Hm : (bz "-" < 0x80)%Z) by (vm_compute; reflexivity).
  unfold extract_period_from_date, validate_date_format, date_re.
  rewrite !decode_ascii by (exact Hm || (apply digit_ascii; assumption)).
  cbn [forallb]. rewrite !is_decimal_digit by assumption. change (bz "-") with 45%Z.
  cbn [andb negb String.eqb Z.eqb option_map Pos.eqb].
  unfold py_take. rewrite !decode_ascii by (exact Hm || (apply digit_ascii; assumption)).
  cbn [firstn encode]. rewrite !encode_ascii by (exact Hm || (apply digit_ascii; assumption)).
  done.
Qed.

(** C18: Finding: the valid range ends at ['2025-12'] in the code, so no
    record whose [period_start] is a date of a year after 2025 can be
    repaired: [fix_record_period] fails with "outside valid range",
    leaves the store as it was and only adds that line to the log. *)
Theorem fix_record_period_after_2025 w record a b c d e f g h :
  forallb is_digit [a; b; c; d; e; f; g; h] = true ->
  2026 <= 1000 * digit_value a + 100 * digit_value b + 10 * digit_value c + digit_value d ->
  ir_period_start record = Some (String a (String b (String c (String d (String "-"
    (String e (String f (String "-" (String g (String h "")))))))))) ->
  fix_record_period w record =
    (false, log_change w (ir_id record) (ir_period record) "FAILED"
              ("Extracted period " ++ String a (String b (String c (String d (String "-"
                 (String e (String f ""))))))  ++ " outside valid range") (ir_file_name record)).
Proof.
  intros Hd Hv Hs. unfold fix_record_period. rewrite Hs, extract_period_from_date_ascii by done.
  assert (Hy : forallb is_digit [a; b; c; d] = true)
    by (cbn [forallb] in Hd |- *; rewrite !andb_true_iff in Hd |- *; tauto).
  unfold is_valid_period, str_le.
  pose proof (compare_app_ne (String a (String b (String c (String d "")))) "2025"
                (String "-" (String e (String f ""))) "-12") as Hc.
  rewrite year_text_after_2025 in Hc by done.
  change ("2025" ++ "-12") with "2025-12" in Hc.
  change (String a (String b (String c (String d ""))) ++ String "-" (String e (String f "")))
    with (String a (String b (String c (String d (String "-" (String e (String f ""))))))) in Hc.
  rewrite Hc by (done || by rewrite year_text_after_2025). by rewrite andb_false_r.
Qed.

(** ** Examples *)

Module Examples.

Definition rep (i : nat) (h period start : string) : Report :=
  mkReport i "sber" (Some "A") (Some period) "f.html" "p" h None None 1
           (Some (VDict [("period_start", VStr start)])) StParsed None (Some "2.0").
Definition w_dup : FWorld :=
  mkFWorld (mkStore [rep 1 "h1" "2023-07" "2023-07-01"; rep 2 "h2" "2099-07" "2023-07-01";
                     rep 3 "h3" "1999-07" "2023-07-01"] [] 4 []) [].
(** The "unique invalid" period is not unique: two records whose
    corrected period another record of the same broker and account
    already has both get ["9999-07"], and the run reports success. *)
Example fix_periods_9999_not_unique :
  (main false w_dup).1 = 0 /\
  map r_period (reports (fw_store (main false w_dup).2)) = [Some "2023-07"; Some "9999-07"; Some "9999-07"].
Proof. vm_compute. auto. Qed.

Definition w_empty : FWorld := mkFWorld (mkStore [] [] 1 []) [].
Definition row_2026 : IRow := irow_of (rep 4 "h4" "2026-03" "2026-03-01").

Lemma fix_record_period_after_2025_witness :
  fix_record_period w_empty row_2026 =
    (false, log_change w_empty (ir_id row_2026) (ir_period row_2026) "FAILED"
              ("Extracted period " ++ "2026-03" ++ " outside valid range") (ir_file_name row_2026)).
Proof.
  apply (fix_record_period_after_2025 w_empty row_2026 "2" "0" "2" "6" "0" "3" "0" "1");
    [reflexivity|vm_compute; lia|reflexivity].
Defined.

Definition w_one : FWorld := mkFWorld (mkStore [rep 2 "h2" "2099-07" "2023-07-01"] [] 3 []) [].
Definition row_one : IRow := irow_of (rep 2 "h2" "2099-07" "2023-07-01").

Lemma fix_record_period_corrects_witness :
  db_faults (fw_store w_one) = [] /\
  extract_period_from_date (ir_period_start row_one) = Some "2023-07" /\
  is_valid_period "2023-07" = true /\ opt_eqb (Some "2023-07") (ir_period row_one) = false /\
  (check_duplicate_period (fw_store w_one) (ir_broker row_one) (ir_account row_one) "2023-07"
     (ir_id row_one)).1 = false /\
  existsb (fun r => Nat.eqb (r_id r) (ir_id row_one)) (reports (fw_store w_one)) = true /\
  fix_record_period w_one row_one =
    (true, mkFWorld (mkStore (map (set_period (ir_id row_one) "2023-07") (reports (fw_store w_one)))
                             (import_log (fw_store w_one)) (next_id (fw_store w_one)) [])
                    (fw_log w_one ++ [mkChange (ir_id row_one) (ir_period row_one) "2023-07"
                                       "Period corrected from period_start" (ir_file_name row_one)])%list).
Proof.
  do 6 (split; [vm_compute; reflexivity|]).
  apply fix_record_period_corrects; vm_compute; reflexivity.
Defined.

Lemma extract_period_from_date_shape_witness :
  extract_period_from_date (Some ("2023-07-01" ++ String "010"%char "")) = Some "2023-07" /\
  is_period_text "2023-07" = true.
Proof.
  split; [reflexivity|].
  apply (extract_period_from_date_shape (Some ("2023-07-01" ++ String "010"%char ""))). reflexivity.
Defined.

End Examples.

End FixPeriods.
