(* ===== verification/Backfill.v ===== *)
(** * The hash backfill script

    Models [src/core/scripts/import/backfill_hashes.py]:
    [find_file_in_paths] (the first of four archive roots holding a file of
    the record's name), [update_hashes_for_records] (for each listed row:
    find the file, read it with [errors='ignore'], hash it and, depending
    on the mode and on the row's [file_hash], write the hash with a raw
    [UPDATE]) and [main] (mode selection, [list_reports], dry run, exit
    status).  The state is the store and the filesystem; printing and the
    [updated_at = NOW()] column are not modelled.  SHA-256, the text of a
    file that is not UTF-8 read with [errors='ignore'] (the model keeps a
    file's text only when it is UTF-8) and the working directory that
    [Path.resolve()] prefixes are parameters. *)

From stdpp Require Import gmap.
From S2P Require Import Prelude PyStr PyValue Store Archive Queries.
Import Store Archive Queries.

Open Scope string_scope.

Module Backfill.

Record BWorld := mkBWorld { b_store : Store; b_fs : FS }.

Abbreviation BM := (PyM BWorld).

Definition lift_st {A} (f : Store -> A * Store) : BM A :=
  fun w => let '(a, st') := f (b_store w) in (inr a, mkBWorld st' (b_fs w)).

Definition lift_st_exn {A} (f : Store -> (exn + A) * Store) : BM A :=
  fun w => let '(r, st') := f (b_store w) in (r, mkBWorld st' (b_fs w)).

Definition lift_fs {A} (f : FS -> A * FS) : BM A :=
  fun w => let '(a, fs') := f (b_fs w) in (inr a, mkBWorld (b_store w) fs').

Definition lift_exn {A} (x : exn + A) : BM A := fun w => (x, w).

(** [report['file_hash'] = h] for the rows with the id. *)
Definition set_hash (i : nat) (h : string) (r : Report) : Report :=
  if Nat.eqb (r_id r) i then
    mkReport (r_id r) (r_broker r) (r_account r) (r_period r) (r_file_name r) (r_file_path r) h
             (r_html_content r) (r_raw_content r) (r_file_size r) (r_parsed_data r) (r_status r)
             (r_error_log r) (r_parser_version r)
  else r.

(** [UPDATE broker_reports SET file_hash = %s ... WHERE id = %s] through
    [get_cursor], then [commit]: a failing statement is rolled back and
    re-raised ([psycopg2.Error], here an [OSError]); an id that is not an
    integer is an SQL error too. *)
Definition update_hash (st : Store) (report_id : pyval) (file_hash : string) : (exn + unit) * Store :=
  let '(fail, st) := db_call st in
  match fail, pyval_nat report_id with
  | false, Some i =>
      (inr tt, mkStore (map (set_hash i file_hash) (reports st)) (import_log st) (next_id st)
                       (db_faults st))
  | _, _ => (inl (OSError "Database operation failed"), st)
  end.

Section Tool.

(** [hashlib.sha256(content.encode('utf-8')).hexdigest()]. *)
Variable sha256 : string -> string.
(** The text [open(p, 'r', encoding='utf-8', errors='ignore').read()]
    gives for a file that is not UTF-8. *)
Variable read_ignore : FileObj -> string.
(** The working directory [Path.resolve()] makes a relative path absolute
    against. *)
Variable cwd : string.

(** The four search paths of [main], in order. *)
Definition search_paths : list string :=
  ["L:/modules/broker-reports/archive"; "modules/broker-reports/archive";
   "L:/BZ-BrokerCursor/modules/broker-reports/archive"; cwd ++ "/modules/broker-reports/archive"].

(** [find_file_in_paths]: the first [base_path / filename] that exists. *)
Definition find_file_in_paths (fs : FS) (filename : string) (paths : list string) : option Path :=
  option_map (fun b => (b, filename)) (find_first (fun b => path_exists fs (b, filename)) paths).

(** The text [f.read()] returns. *)
Definition read_text (f : FileObj) : string :=
  match f_data f with Some s => s | None => read_ignore f end.

(** [with open(file_path, ...) as f: content = f.read()]: the call raises
    on an injected fault or a file that is gone. *)
Definition read_for_hash (p : Path) : BM string :=
  failed ← lift_fs fs_call;
  if (failed : bool) then raise (OSError "open failed")
  else w ← get_st;
       match files (b_fs w) !! p with
       | Some f => mret (read_text f)
       | None => raise (OSError "No such file or directory")
       end.

(** The [if update_existing and report.get('file_hash') ... elif
    backfill_missing and not report.get('file_hash')] test. *)
Definition should_update (update_existing backfill_missing : bool) (report : pydict) : bool :=
  let has := truthy (py_get report "file_hash" VNone) in
  (update_existing && has) || (backfill_missing && negb has).

(** One iteration of the loop of [update_hashes_for_records], with the
    counters [(updated, not_found)].  The subscripts and the path join
    are outside the [try]; reading, hashing and the update are inside,
    and any exception there counts the record as not found. *)
Definition process_report (update_existing backfill_missing : bool) (report : pydict)
    (cnt : nat * nat) : BM (nat * nat) :=
  let '(updated, not_found) := cnt in
  report_id ← lift_exn (py_getitem report "id");
  file_name ← lift_exn (py_getitem report "file_name");
  match file_name with
  | VStr name =>
      w ← get_st;
      match find_file_in_paths (b_fs w) name search_paths with
      | Some p =>
          try_except
            (content ← read_for_hash p;
             let file_hash := sha256 content in
             if should_update update_existing backfill_missing report then
               lift_st_exn (fun st => update_hash st report_id file_hash);;
               mret (S updated, not_found)
             else mret (updated, not_found))
            (fun _ => mret (updated, S not_found))
      | None => mret (updated, S not_found)
      end
  | _ => raise (TypeError "unsupported operand type(s) for /")
  end.

Fixpoint update_loop (update_existing backfill_missing : bool) (reports : list pydict)
    (cnt : nat * nat) : BM (nat * nat) :=
  match reports with
  | [] => mret cnt
  | report :: rest =>
      cnt' ← process_report update_existing backfill_missing report cnt;
      update_loop update_existing backfill_missing rest cnt'
  end.

(** [update_hashes_for_records]: the counters [(updated, not_found)]. *)
Definition update_hashes_for_records (reports : list pydict)
    (update_existing backfill_missing : bool) : BM (nat * nat) :=
  update_loop update_existing backfill_missing reports (0, 0).

(** The command line: [--update-existing], [--backfill-missing], [--all],
    [--limit] (default 1000) and [--dry-run]. *)
Record BArgs := mkBArgs {
  a_update_existing : bool;
  a_backfill_missing : bool;
  a_all : bool;
  a_limit : nat;
  a_dry_run : bool
}.

(** The dry run prints [report['id']] and [report['file_name']] of the
    first five rows. *)
Fixpoint show_rows (rows : list pydict) : BM unit :=
  match rows with
  | [] => mret tt
  | r :: rest =>
      lift_exn (py_getitem r "id");; lift_exn (py_getitem r "file_name");; show_rows rest
  end.

(** [main]: the exit status. *)
Definition main (args : BArgs) : BM nat :=
  let '(update_existing, backfill_missing) :=
    if a_all args then (true, true) else (a_update_existing args, a_backfill_missing args) in
  if negb update_existing && negb backfill_missing then mret 1
  else
    reports ← lift_st (fun st => list_reports st None None None None None (a_limit args) 0);
    if a_dry_run args then show_rows (firstn 5 reports);; mret 0
    else
      cnt ← update_hashes_for_records reports update_existing backfill_missing;
      mret (if Nat.eqb cnt.2 0 then 0 else 1).

(** ** What a run may change *)

(** A row with its hash blanked. *)
Definition erase_hash (r : Report) : Report := set_hash (r_id r) "" r.

(** Two worlds that differ at most in the hashes of the rows and in the
    pending faults. *)
Definition hashes_only (w w' : BWorld) : Prop :=
  map erase_hash (reports (b_store w')) = map erase_hash (reports (b_store w)) /\
  import_log (b_store w') = import_log (b_store w) /\ next_id (b_store w') = next_id (b_store w) /\
  files (b_fs w') = files (b_fs w) /\ fs_dirs (b_fs w') = fs_dirs (b_fs w).

#[local] Instance hashes_only_refl : Reflexive hashes_only.
Proof. intros w. by repeat split. Qed.

#[local] Instance hashes_only_trans : Transitive hashes_only.
Proof. intros w1 w2 w3 (H1 & H2 & H3 & H4 & H5) (G1 & G2 & G3 & G4 & G5). repeat split; congruence. Qed.

Lemma erase_set_hash i h r : erase_hash (set_hash i h r) = erase_hash r.
Proof. unfold erase_hash, set_hash. destruct (Nat.eqb (r_id r) i); cbn [r_id]; by rewrite !Nat.eqb_refl. Qed.

(** Two worlds with the same rows and files: only faults were consumed. *)
Definition no_write (w w' : BWorld) : Prop :=
  reports (b_store w') = reports (b_store w) /\
  import_log (b_store w') = import_log (b_store w) /\ next_id (b_store w') = next_id (b_store w) /\
  files (b_fs w') = files (b_fs w) /\ fs_dirs (b_fs w') = fs_dirs (b_fs w).

#[local] Instance no_write_refl : Reflexive no_write.
Proof. intros w. by repeat split. Qed.

#[local] Instance no_write_trans : Transitive no_write.
Proof. intros w1 w2 w3 (H1 & H2 & H3 & H4 & H5) (G1 & G2 & G3 & G4 & G5). repeat split; congruence. Qed.

Lemma no_write_hashes_only {A} (m : BM A) : respects no_write m -> respects hashes_only m.
Proof.
  apply respects_weaken. intros w w' (H1 & H2 & H3 & H4 & H5). repeat split; congruence.
Qed.

Lemma lift_exn_nw {A} (x : exn + A) : respects no_write (lift_exn x).
Proof. intros w. unfold lift_exn. reflexivity. Qed.

Lemma lift_st_nw {A} (f : Store -> A * Store) :
  (forall st, store_readonly st (f st).2) -> respects no_write (lift_st f).
Proof.
  intros Hf w. unfold lift_st. destruct (Hf (b_store w)) as (H1 & H2 & H3).
  destruct (f (b_store w)) as [a st']. simpl in *. repeat split; cbn; congruence.
Qed.

Lemma fs_call_nw : respects no_write (lift_fs fs_call).
Proof. intros w. unfold lift_fs, fs_call. by destruct (fs_faults (b_fs w)). Qed.

Lemma read_for_hash_nw p : respects no_write (read_for_hash p).
Proof. unfold read_for_hash. repeat first [respects_step no_write | apply lift_exn_nw | apply fs_call_nw]. Qed.

Lemma show_rows_nw rows : respects no_write (show_rows rows).
Proof. induction rows; simpl; repeat first [respects_step no_write | apply lift_exn_nw | done]. Qed.

Lemma update_hash_respects report_id h :
  respects hashes_only (lift_st_exn (fun st => update_hash st report_id h)).
Proof.
  intros w. unfold lift_st_exn, update_hash.
  pose proof (db_call_readonly (b_store w)) as (H1 & H2 & H3).
  destruct (db_call (b_store w)) as [f st1]. simpl in *.
  destruct f, (pyval_nat report_id) as [i|]; repeat split; cbn; try congruence.
  rewrite List.map_map, <- H1. apply List.map_ext. intros r. apply erase_set_hash.
Qed.

(** The primitive steps of a [hashes_only] proof. *)
Local Ltac hstep :=
  first [ respects_step hashes_only | apply update_hash_respects
        | apply no_write_hashes_only;
          first [apply lift_exn_nw | apply fs_call_nw | apply read_for_hash_nw | apply show_rows_nw
                | apply lift_st_nw; intros; apply list_reports_readonly] ].

Lemma process_report_respects ue bm report cnt :
  respects hashes_only (process_report ue bm report cnt).
Proof. destruct cnt as [u n]. unfold process_report. repeat hstep. Qed.

Lemma update_loop_respects ue bm rows cnt : respects hashes_only (update_loop ue bm rows cnt).
Proof.
  revert cnt. induction rows as [|r rows IH]; intros cnt; simpl; repeat hstep.
  - apply process_report_respects.
  - apply IH.
Qed.

(** When the mode and the row say there is nothing to update, a record
    leaves the rows as they were. *)
Lemma process_report_no_update ue bm report cnt :
  should_update ue bm report = false -> respects no_write (process_report ue bm report cnt).
Proof.
  intros Hs. destruct cnt as [u n]. unfold process_report. rewrite Hs.
  repeat first [apply read_for_hash_nw | apply lift_exn_nw | respects_step no_write].
Qed.

(** A row of [list_reports] has no [file_hash] key. *)
Lemma summary_row_no_hash r : py_get (summary_row r) "file_hash" VNone = VNone.
Proof. reflexivity. Qed.

Lemma update_loop_summaries_nw rs cnt :
  respects no_write (update_loop true false (map summary_row rs) cnt).
Proof.
  revert cnt. induction rs as [|r rs IH]; intros cnt; simpl; repeat respects_step no_write.
  - apply process_report_no_update. unfold should_update. by rewrite summary_row_no_hash.
  - apply IH.
Qed.

(** ** Properties *)

(** C20: The script changes only the [file_hash] column: whatever the mode
    and whatever faults occur, every run of [main] leaves the rows (but
    for their hashes) in place and in order, the audit log, the id counter
    and the files unchanged. *)
Theorem backfill_changes_only_hashes args : respects hashes_only (main args).
Proof.
  unfold main. destruct (if a_all args then _ else _) as [ue bm].
  destruct (negb ue && negb bm); [hstep|].
  hstep; [hstep|]. destruct (a_dry_run args); repeat hstep. apply update_loop_respects.
Qed.

(** C21: With [--update-existing] alone the script updates no hash at all: the
    rows [list_reports] returns carry no [file_hash], so the test
    [report.get('file_hash')] always fails. *)
Theorem update_existing_only_writes_nothing args w :
  a_all args = false -> a_update_existing args = true -> a_backfill_missing args = false ->
  reports (b_store (main args w).2) = reports (b_store w).
Proof.
  intros Ha Hu Hb. unfold main. rewrite Ha, Hu, Hb. cbn -[list_reports update_loop show_rows].
  destruct (list_reports_shape (b_store w) None None None None None (a_limit args) 0) as (rs & Hrs & _).
  pose proof (list_reports_readonly (b_store w) None None None None None (a_limit args) 0) as Hro.
  unfold mbind, PyM_bind at 1, lift_st.
  destruct (list_reports (b_store w) _ _ _ _ _ _ _) as [rows st'] eqn:E.
  simpl in Hrs, Hro. subst rows. destruct Hro as [Hr _].
  enough (H : respects no_write
                (if a_dry_run args then show_rows (firstn 5 (map summary_row rs));; mret 0
                 else cnt ← update_hashes_for_records (map summary_row rs) true false;
                      mret (if Nat.eqb cnt.2 0 then 0 else 1))).
  { cbv beta iota. destruct (H (mkBWorld st' (b_fs w))) as [H1 _]. rewrite <- Hr. exact H1. }
  destruct (a_dry_run args); repeat first [apply show_rows_nw | apply update_loop_summaries_nw | respects_step no_write].
Qed.

(** C22: Finding: with [--all] (both modes on), a record whose file is found
    gets the hash of the first file of its [file_name] in the search
    paths, read in full, whatever its own content was: two records with
    the same file name get the same hash, and the one counter [updated]
    goes up. *)
Theorem backfill_all_hash_by_name report cnt w id i name p f :
  fs_faults (b_fs w) = [] -> db_faults (b_store w) = [] ->
  py_getitem report "id" = inr id -> pyval_nat id = Some i ->
  py_getitem report "file_name" = inr (VStr name) ->
  find_file_in_paths (b_fs w) name search_paths = Some p -> files (b_fs w) !! p = Some f ->
  process_report true true report cnt w =
    (inr (S cnt.1, cnt.2),
     mkBWorld (mkStore (map (set_hash i (sha256 (read_text f))) (reports (b_store w)))
                       (import_log (b_store w)) (next_id (b_store w)) [])
              (b_fs w)).
Proof.
  intros Hfs Hdb Hid Hi Hname Hfind Hf. destruct cnt as [u n], w as [st fs]. cbn in *.
  unfold process_report, lift_exn. cbv [mbind PyM_bind get_st]. rewrite Hid, Hname. cbn.
  rewrite Hfind. unfold try_except, read_for_hash, lift_fs, fs_call.
  cbv [mbind PyM_bind get_st mret PyM_ret]. cbn [b_fs b_store]. rewrite Hfs. cbn [b_fs b_store]. rewrite Hf. cbn.
  assert (Hs : should_update true true report = true)
    by (unfold should_update; by destruct (truthy _)).
  rewrite Hs. unfold lift_st_exn, update_hash. cbn. rewrite db_call_nofault by done.
  rewrite Hi. cbn. by rewrite Hdb.
Qed.

End Tool.

(** ** Runs on a concrete archive *)

Module Examples.

Definition sha (s : string) : string := "sha256:" ++ s.
Definition cwd0 : string := "/srv/BZ-BrokerCursor".

Definition row (i : nat) (name h : string) : Report :=
  mkReport i "sber" (Some "4000T49") (Some "2023-07") name ("inbox/" ++ name) h None None 10
           None StRaw None None.

(** Two rows that share a file name (the second import of a name replaces
    the archived file), and a row whose file the importer archived under
    [archive/imported]. *)
Definition w0 : BWorld :=
  mkBWorld (mkStore [row 1 "r.html" "h1"; row 2 "r.html" "h2"; row 3 "s.html" "h3"] [] 4 [])
           (mkFS (list_to_map [(("modules/broker-reports/archive", "r.html"), mkFile 6 (Some "<html>"));
                               ((ARCHIVE_IMPORTED_PATH, "s.html"), mkFile 7 (Some "<html/>"))])
                 ["modules/broker-reports/archive"; ARCHIVE_IMPORTED_PATH] []).

Definition all_args : BArgs := mkBArgs false false true 1000 false.
Definition existing_args : BArgs := mkBArgs true false false 1000 false.

Lemma backfill_all_hash_by_name_witness :
  process_report sha (fun _ => "") cwd0 true true (summary_row (row 2 "r.html" "h2")) (0, 0) w0 =
    (inr (1, 0),
     mkBWorld (mkStore (map (set_hash 2 (sha (read_text (fun _ => "") (mkFile 6 (Some "<html>")))))
                          (reports (b_store w0)))
                       (import_log (b_store w0)) (next_id (b_store w0)) [])
              (b_fs w0)).
Proof.
  apply (backfill_all_hash_by_name sha (fun _ => "") cwd0 (summary_row (row 2 "r.html" "h2")) (0, 0) w0
           (nat_val 2) 2 "r.html" ("modules/broker-reports/archive", "r.html"));
    vm_compute; reflexivity.
Defined.

Lemma update_existing_only_writes_nothing_witness :
  a_all existing_args = false /\ a_update_existing existing_args = true /\
  a_backfill_missing existing_args = false /\
  reports (b_store (main sha (fun _ => "") cwd0 existing_args w0).2) = reports (b_store w0).
Proof.
  do 3 (split; [reflexivity|]).
  apply update_existing_only_writes_nothing; reflexivity.
Defined.

End Examples.

End Backfill.
