(* ===== verification/Reorganize.v ===== *)
(** * The archive reorganisation script

    Models [src/core/scripts/import/reorganize_archive.py]
    ([ArchiveReorganizer]), with the [FileManager.get_file_info] of
    [FileInfo.v]:
    the files directly in the archive root (not starting with ['.']) are
    looked up in the store by name and then by content hash, counted as
    verified or not, and every one of them is moved to [archive/imported]
    with [shutil.move], which on one filesystem is a [rename] and replaces
    a file of the same name.  The state is the store (only read), the
    filesystem, the script's [reorganization_stats] and the lines of
    [archive_reorganization.log]; the timestamps, the console output, the
    Markdown report are not modelled.  The SHA-256 digest of a file's
    bytes and [mimetypes.guess_type] are parameters. *)

From stdpp Require Import gmap.
From S2P Require Import Prelude PyStr PyValue Store Archive FileInfo Queries.
Import Store Archive FileInfo Queries.

Open Scope string_scope.

Module Reorganize.

(** [Config.PARSED_PATH], default value. *)
Definition PARSED_PATH : string := "modules/broker-reports/parsed".

(** [self.reorganization_stats]. *)
Record RStats := mkRStats {
  files_found : nat;
  files_moved : nat;
  files_verified : nat;
  files_not_in_db : nat;
  errors : list string
}.

Definition stats0 : RStats := mkRStats 0 0 0 0 [].

(** One line of [archive_reorganization.log]: file name, action and
    [in_database]. *)
Definition LogLine := (string * string * bool)%type.

Record RWorld := mkRWorld {
  rw_store : Store;
  rw_fs : FS;
  rw_stats : RStats;
  rw_log : list LogLine
}.

Abbreviation RM := (PyM RWorld).

Definition r_lift_db {A} (f : Store -> A * Store) : RM A :=
  fun w => let '(a, st) := f (rw_store w) in (inr a, mkRWorld st (rw_fs w) (rw_stats w) (rw_log w)).

Definition r_lift_fs {A} (f : FS -> A * FS) : RM A :=
  fun w => let '(a, fs) := f (rw_fs w) in (inr a, mkRWorld (rw_store w) fs (rw_stats w) (rw_log w)).

Definition r_lift_exn {A} (x : exn + A) : RM A := fun w => (x, w).

Definition r_stats (f : RStats -> RStats) : RM unit :=
  fun w => (inr tt, mkRWorld (rw_store w) (rw_fs w) (f (rw_stats w)) (rw_log w)).

Definition set_found (n : nat) (s : RStats) : RStats :=
  mkRStats n (files_moved s) (files_verified s) (files_not_in_db s) (errors s).
Definition inc_moved (s : RStats) : RStats :=
  mkRStats (files_found s) (S (files_moved s)) (files_verified s) (files_not_in_db s) (errors s).
Definition inc_verified (s : RStats) : RStats :=
  mkRStats (files_found s) (files_moved s) (S (files_verified s)) (files_not_in_db s) (errors s).
Definition inc_not_in_db (s : RStats) : RStats :=
  mkRStats (files_found s) (files_moved s) (files_verified s) (S (files_not_in_db s)) (errors s).
Definition add_error (e : string) (s : RStats) : RStats :=
  mkRStats (files_found s) (files_moved s) (files_verified s) (files_not_in_db s) (errors s ++ [e]).

Section Tool.

(** [calculate_file_hash]: the SHA-256 hex digest of the file's bytes. *)
Variable file_digest : FileObj -> string.
(** [mimetypes.guess_type(str(file_path))[0]]. *)
Variable guess_type : string -> option string.

(** ** [ArchiveReorganizer] *)

(** [item.is_file() and not item.name.startswith('.')] for an item of the
    archive root. *)
Definition is_root_file (p : Path) : bool :=
  String.eqb p.1 ARCHIVE_PATH && negb (String.prefix "." p.2).

(** [scan_existing_archive]: the files of the root in listing order (the
    map's order), counted in [files_found]. *)
Definition root_files (fs : FS) : list Path :=
  List.filter is_root_file (map fst (map_to_list (files fs))).

Definition scan_existing_archive : RM (list Path) :=
  w ← get_st;
  if negb (dir_exists (rw_fs w) ARCHIVE_PATH) then mret []
  else
    let found := root_files (rw_fs w) in
    r_stats (set_found (List.length found));;
    mret found.

(** [verify_file_in_database]: a row with the file's name, else a row with
    the file's hash; the [report['id']] of the log message is read, and
    any exception answers [False]. *)
Definition verify_file_in_database (p : Path) : RM bool :=
  try_except
    (report ← r_lift_db (fun st => get_report_by_filename st p.2);
     match report with
     | Some d =>
         if truthy (VDict d) then
           r_lift_exn (py_getitem d "id");; mret true
         else mret false
     | None =>
         w ← get_st;
         match get_file_info file_digest guess_type (rw_fs w) p with
         | Some info =>
             if negb (String.eqb (fid_file_hash info) "") then
               r ← r_lift_db (fun st => get_report_by_hash st (fid_file_hash info));
               match r with Some _ => mret true | None => mret false end
             else mret false
         | None => mret false
         end
     end)
    (fun _ => mret false).

(** [move_file_to_imported]: [ensure_archive_directories] and
    [shutil.move] to [imported/<name>]; a failure is recorded in
    [errors]. *)
Definition move_file_to_imported (p : Path) : RM bool :=
  r_lift_fs (fun fs => (tt, ensure_archive_directories fs));;
  r ← r_lift_fs (fun fs => path_rename fs p (ARCHIVE_IMPORTED_PATH, p.2));
  match r with
  | inr _ => mret true
  | inl e => r_stats (add_error ("Failed to move " ++ p.2 ++ ": " ++ exn_msg e));; mret false
  end.

(** [log_reorganization_event]: the write is assumed to succeed. *)
Definition log_reorganization_event (filename action : string) (in_database : bool) : RM unit :=
  fun w => (inr tt, mkRWorld (rw_store w) (rw_fs w) (rw_stats w)
                             (rw_log w ++ [(filename, action, in_database)])).

(** The body of the loop of [reorganize_archive] for one file. *)
Definition process_file (p : Path) : RM unit :=
  in_database ← verify_file_in_database p;
  r_stats (if in_database then inc_verified else inc_not_in_db);;
  moved ← move_file_to_imported p;
  if (moved : bool) then
    r_stats inc_moved;;
    log_reorganization_event p.2 "moved_to_imported" in_database
  else mret tt.

Fixpoint process_files (ps : list Path) : RM unit :=
  match ps with
  | [] => mret tt
  | p :: rest => process_file p;; process_files rest
  end.

(** [reorganize_archive]; the report file and the summary table are
    output only. *)
Definition reorganize_archive : RM bool :=
  r_lift_fs (fun fs => (tt, ensure_archive_directories fs));;
  archive_files ← scan_existing_archive;
  match archive_files with
  | [] => mret true
  | _ => process_files archive_files;; mret true
  end.

(** [main]: the directories, then a reorganiser with fresh statistics. *)
Definition main : RM bool :=
  r_lift_fs (fun fs => (tt, ensure_archive_directories
                              (mkdir (mkdir (mkdir fs INBOX_PATH) ARCHIVE_PATH) PARSED_PATH)));;
  r_stats (fun _ => stats0);;
  reorganize_archive.

(** ** Runs without filesystem faults *)

(** What moving [p] to [imported/] does to the files. *)
Definition move_one (m : gmap Path FileObj) (p : Path) : gmap Path FileObj :=
  match m !! p with
  | Some f => <[(ARCHIVE_IMPORTED_PATH, p.2) := f]> (delete p m)
  | None => m
  end.

(** The lookups leave everything but the store's pending faults as it
    was. *)
Definition lookups_only (w w' : RWorld) : Prop :=
  rw_fs w' = rw_fs w /\ rw_stats w' = rw_stats w /\ rw_log w' = rw_log w /\
  store_readonly (rw_store w) (rw_store w').

#[local] Instance lookups_only_refl : Reflexive lookups_only.
Proof. intros w. repeat split. Qed.

#[local] Instance lookups_only_trans : Transitive lookups_only.
Proof.
  intros w1 w2 w3 (H1 & H2 & H3 & H4) (G1 & G2 & G3 & G4). split_and!; [congruence..|].
  by etrans.
Qed.

Lemma r_lift_db_lookup {A} (f : Store -> A * Store) :
  (forall st, store_readonly st (f st).2) -> respects lookups_only (r_lift_db f).
Proof.
  intros Hf w. unfold r_lift_db. specialize (Hf (rw_store w)).
  destruct (f (rw_store w)) as [a st']. simpl in Hf. by split_and!.
Qed.

Lemma r_lift_exn_lookup {A} (x : exn + A) : respects lookups_only (r_lift_exn x).
Proof. intros w. reflexivity. Qed.

Lemma verify_returns p : returns lookups_only (verify_file_in_database p).
Proof.
  unfold verify_file_in_database. apply (returns_try lookups_only); [|intros; apply (returns_ret lookups_only)].
  repeat first [ respects_step lookups_only | apply r_lift_exn_lookup
               | apply r_lift_db_lookup; intros;
                 first [apply get_report_by_filename_readonly | apply get_report_by_hash_readonly] ].
Qed.

(** One file: the result is normal and the files change by [move_one]. *)
Lemma process_file_run p w :
  fs_faults (rw_fs w) = [] ->
  (process_file p w).1 = inr tt /\
  files (rw_fs (process_file p w).2) = move_one (files (rw_fs w)) p /\
  fs_faults (rw_fs (process_file p w).2) = [].
Proof.
  intros Hf. destruct (verify_returns p w) as (b & Hb & Hfs & _).
  unfold process_file. destruct (verify_file_in_database p w) as [r w1] eqn:E.
  simpl in Hb, Hfs. subst r. rewrite (bind_inr _ _ _ _ _ E).
  cbv [mbind PyM_bind r_stats move_file_to_imported r_lift_fs path_rename fs_call].
  cbn -[ensure_archive_directories]. rewrite ensure_faults, Hfs, Hf.
  cbn -[ensure_archive_directories]. rewrite ?ensure_files, ?Hfs.
  unfold move_one. destruct (files (rw_fs w) !! p); cbn -[ensure_archive_directories];
    by rewrite ?ensure_faults, ?ensure_files, ?Hfs.
Qed.

Lemma process_files_run ps w :
  fs_faults (rw_fs w) = [] ->
  (process_files ps w).1 = inr tt /\
  files (rw_fs (process_files ps w).2) = fold_left move_one ps (files (rw_fs w)) /\
  fs_faults (rw_fs (process_files ps w).2) = [].
Proof.
  revert w. induction ps as [|p ps IH]; intros w Hf; [done|].
  destruct (process_file_run p w Hf) as (Hr & Hfl & Hf').
  cbn [process_files]. destruct (process_file p w) as [r w1] eqn:E. simpl in Hr, Hfl, Hf'. subst r.
  rewrite (bind_inr _ _ _ _ _ E). destruct (IH w1 Hf') as (H1 & H2 & H3).
  split; [done|]. split; [|done]. by rewrite H2, Hfl.
Qed.

Lemma imported_ne_root : ARCHIVE_IMPORTED_PATH <> ARCHIVE_PATH.
Proof. by vm_compute. Qed.

(** A key no move touches keeps its value. *)
Lemma fold_move_other ps m x :
  x ∉ ps -> (forall q, In q ps -> x <> (ARCHIVE_IMPORTED_PATH, q.2)) ->
  fold_left move_one ps m !! x = m !! x.
Proof.
  revert m. induction ps as [|q ps IH]; intros m Hx Hq; [done|]. simpl.
  rewrite IH by (set_solver || (intros; apply Hq; by right)).
  unfold move_one. destruct (m !! q); [|done].
  rewrite lookup_insert_ne by (apply not_eq_sym, Hq; by left).
  apply lookup_delete_ne. set_solver.
Qed.

(** A file of the root that is moved ends under [imported/] with its name
    and is gone from the root. *)
Lemma fold_move_in ps m p f :
  NoDup ps -> In p ps -> Forall (fun q => q.1 = ARCHIVE_PATH) ps -> m !! p = Some f ->
  fold_left move_one ps m !! (ARCHIVE_IMPORTED_PATH, p.2) = Some f /\
  fold_left move_one ps m !! p = None.
Proof.
  pose proof imported_ne_root as Hne.
  revert m. induction ps as [|q ps IH]; intros m Hnd Hin Hall Hp; [done|].
  apply NoDup_cons in Hnd as [Hq Hnd]. apply Forall_cons in Hall as [Hq1 Hall].
  rewrite Forall_forall in Hall. simpl.
  destruct (decide (q = p)) as [->|Hqp].
  - assert (E1 : move_one m p = <[(ARCHIVE_IMPORTED_PATH, p.2) := f]> (delete p m))
      by (unfold move_one; by rewrite Hp).
    assert (Hr : forall x, x ∉ ps -> (forall q, In q ps -> x <> (ARCHIVE_IMPORTED_PATH, q.2)) ->
                 fold_left move_one ps (move_one m p) !! x = move_one m p !! x)
      by (intros; by apply fold_move_other).
    split.
    + rewrite Hr, E1, lookup_insert_eq; [done|..].
      * intros Hi. apply Hall in Hi. simpl in Hi. congruence.
      * intros [q1 q2] Hi [= Hq2]. apply list_elem_of_In in Hi.
        apply Hq. destruct p as [p1 p2]. simpl in *.
        pose proof (Hall _ Hi). simpl in *. by subst.
    + destruct p as [p1 p2]. simpl in *. subst p1.
      rewrite Hr, E1, lookup_insert_ne, lookup_delete_eq; [done|..]; done.
  - apply IH; [done|by destruct Hin|by apply Forall_forall|].
    unfold move_one. destruct (m !! q); [|done].
    rewrite lookup_insert_ne, lookup_delete_ne; [done|done|].
    assert (p.1 = ARCHIVE_PATH) by (apply Hall, list_elem_of_In; by destruct Hin).
    destruct p; intros [= Hd _]; simpl in *; congruence.
Qed.

(** [move_one] leaves every other file of the root as it was. *)
Lemma move_one_root_other m p q :
  q <> p -> q.1 = ARCHIVE_PATH -> move_one m p !! q = m !! q.
Proof.
  intros Hqp Hq. unfold move_one. destruct (m !! p); [|done].
  rewrite lookup_insert_ne, lookup_delete_ne; [done..|].
  intros <-. by apply imported_ne_root.
Qed.

(** What a run of the loop on [n] files that are all moved does to the
    rest of the state: the store is only read, the counters advance by
    [n] and the log grows by [n] lines. *)
Definition advanced (n : nat) (w w' : RWorld) : Prop :=
  store_readonly (rw_store w) (rw_store w') /\ fs_faults (rw_fs w') = [] /\
  files_found (rw_stats w') = files_found (rw_stats w) /\
  files_moved (rw_stats w') = files_moved (rw_stats w) + n /\
  files_verified (rw_stats w') + files_not_in_db (rw_stats w') =
    files_verified (rw_stats w) + files_not_in_db (rw_stats w) + n /\
  errors (rw_stats w') = errors (rw_stats w) /\
  List.length (rw_log w') = List.length (rw_log w) + n.

Lemma advanced_0 w : fs_faults (rw_fs w) = [] -> advanced 0 w w.
Proof. intros Hf. split_and!; first [reflexivity|done|lia]. Qed.

Lemma advanced_trans n k w1 w2 w3 :
  advanced n w1 w2 -> advanced k w2 w3 -> advanced (n + k) w1 w3.
Proof.
  intros (A1 & A2 & A3 & A4 & A5 & A6 & A7) (B1 & B2 & B3 & B4 & B5 & B6 & B7).
  split_and!; [by etrans|done|lia..|congruence|lia].
Qed.

(** A file that is there is moved and counted. *)
Lemma process_file_advanced p w f :
  fs_faults (rw_fs w) = [] -> files (rw_fs w) !! p = Some f ->
  advanced 1 w (process_file p w).2.
Proof.
  intros Hf Hp. destruct (verify_returns p w) as (b & Hb & Hfs & Hst & Hlog & Hro).
  unfold process_file. destruct (verify_file_in_database p w) as [r w1] eqn:E.
  simpl in *. subst r. rewrite (bind_inr _ _ _ _ _ E).
  cbv [mbind PyM_bind r_stats move_file_to_imported r_lift_fs path_rename fs_call
       log_reorganization_event].
  cbn -[ensure_archive_directories]. rewrite ensure_faults, Hfs, Hf.
  cbn -[ensure_archive_directories]. rewrite ?ensure_files, ?Hfs, ?Hp.
  cbn -[ensure_archive_directories].
  split_and!; cbn -[ensure_archive_directories];
    rewrite ?ensure_faults, ?Hfs, ?Hf, ?Hst, ?Hlog, ?length_app; try done;
    destruct b; cbn; first [done|lia].
Qed.

(** The loop over distinct files of the root that are all there moves
    and counts every one of them. *)
Lemma process_files_advanced ps w :
  fs_faults (rw_fs w) = [] -> NoDup ps -> Forall (fun q => q.1 = ARCHIVE_PATH) ps ->
  Forall (fun q => is_Some (files (rw_fs w) !! q)) ps ->
  advanced (List.length ps) w (process_files ps w).2.
Proof.
  revert w. induction ps as [|p ps IH]; intros w Hf Hnd Hroot Hin; [by apply advanced_0|].
  apply NoDup_cons in Hnd as [Hp Hnd]. apply Forall_cons in Hroot as [Hp1 Hroot].
  apply Forall_cons in Hin as [[f Hpf] Hin].
  destruct (process_file_run p w Hf) as (Hr & Hfl & Hf').
  pose proof (process_file_advanced p w f Hf Hpf) as Hadv.
  cbn [process_files]. destruct (process_file p w) as [r w1] eqn:E. simpl in *. subst r.
  rewrite (bind_inr _ _ _ _ _ E). apply (advanced_trans 1 (List.length ps) _ w1); [done|].
  apply IH; [done..|]. rewrite Forall_forall in Hin, Hroot |- *. intros q Hq.
  rewrite Hfl, move_one_root_other; [by apply Hin|set_solver|by apply Hroot].
Qed.

Lemma root_files_spec fs p :
  In p (root_files fs) <-> is_Some (files fs !! p) /\ is_root_file p = true.
Proof.
  unfold root_files. rewrite List.filter_In, List.in_map_iff. split.
  - intros [([q f] & <- & Hq%list_elem_of_In%elem_of_map_to_list) Hr]. simpl. eauto.
  - intros [[f Hf] Hr]. split; [|done]. exists (p, f). split; [done|].
    by apply list_elem_of_In, elem_of_map_to_list.
Qed.

Lemma root_files_nodup fs : NoDup (root_files fs).
Proof.
  apply NoDup_ListNoDup, List.NoDup_filter, NoDup_ListNoDup.
  change (NoDup (map_to_list (files fs)).*1). apply NoDup_fst_map_to_list.
Qed.

Lemma root_files_root fs : Forall (fun q => q.1 = ARCHIVE_PATH) (root_files fs).
Proof.
  apply Forall_forall. intros q Hq%list_elem_of_In%root_files_spec.
  destruct Hq as [_ Hr]. unfold is_root_file in Hr.
  apply andb_prop in Hr as [Hr _]. by apply String.eqb_eq.
Qed.

Lemma root_files_present fs : Forall (fun q => is_Some (files fs !! q)) (root_files fs).
Proof. apply Forall_forall. intros q Hq%list_elem_of_In%root_files_spec. by destruct Hq. Qed.

(** [reorganize_archive] without filesystem faults: the directories, the
    count of the root's files, then the loop over them; the result is
    [True]. *)
Lemma reorganize_run w :
  fs_faults (rw_fs w) = [] ->
  reorganize_archive w =
    (inr true, (process_files (root_files (rw_fs w))
                  (mkRWorld (rw_store w) (ensure_archive_directories (rw_fs w))
                     (set_found (List.length (root_files (rw_fs w))) (rw_stats w)) (rw_log w))).2).
Proof.
  intros Hf. unfold reorganize_archive, scan_existing_archive.
  cbv [mbind PyM_bind mret PyM_ret r_lift_fs get_st r_stats].
  cbn -[ensure_archive_directories process_files root_files].
  rewrite ensure_archive_root. cbn -[ensure_archive_directories process_files root_files].
  unfold root_files at 1 2 3. rewrite ensure_files. fold (root_files (rw_fs w)).
  set (w0 := mkRWorld _ _ _ _).
  destruct (root_files (rw_fs w)) as [|p ps]; [done|].
  assert (Hf0 : fs_faults (rw_fs w0) = []) by (simpl; by rewrite ensure_faults).
  destruct (process_files_run (p :: ps) w0 Hf0) as (Hr & _ & _).
  destruct (process_files (p :: ps) w0); simpl in *; by subst.
Qed.

(** [main]: the directories, fresh statistics, then [reorganize_archive]. *)
Lemma main_run w :
  main w = reorganize_archive
             (mkRWorld (rw_store w)
                (ensure_archive_directories
                   (mkdir (mkdir (mkdir (rw_fs w) INBOX_PATH) ARCHIVE_PATH) PARSED_PATH))
                stats0 (rw_log w)).
Proof. reflexivity. Qed.

Lemma root_files_ext fs fs' : files fs' = files fs -> root_files fs' = root_files fs.
Proof. unfold root_files. by intros ->. Qed.

Ltac fs_simpl := rewrite ?ensure_faults, ?ensure_files, ?mkdir_faults, ?mkdir_files.

(** A run of [main] without filesystem faults, in terms of the world the
    loop starts from. *)
Lemma main_state w :
  fs_faults (rw_fs w) = [] ->
  exists w1, main w = (inr true, (process_files (root_files (rw_fs w)) w1).2) /\
    rw_store w1 = rw_store w /\ files (rw_fs w1) = files (rw_fs w) /\
    fs_faults (rw_fs w1) = [] /\
    rw_stats w1 = set_found (List.length (root_files (rw_fs w))) stats0 /\ rw_log w1 = rw_log w.
Proof.
  intros Hf. rewrite main_run, reorganize_run by (cbn [rw_fs]; by fs_simpl).
  cbn [rw_fs rw_store rw_stats rw_log].
  rewrite (root_files_ext (rw_fs w)) by by fs_simpl.
  eexists. split; [reflexivity|]. cbn [rw_fs rw_store rw_stats rw_log]. by fs_simpl.
Qed.

(** C23: Every file directly in the archive root whose name does not start
    with a dot ends under [archive/imported] with the same name and
    contents, whether or not the store knows it, and is gone from the
    root; the script answers [True]. *)
Theorem main_moves_every_root_file w p f :
  fs_faults (rw_fs w) = [] -> is_root_file p = true -> files (rw_fs w) !! p = Some f ->
  (main w).1 = inr true /\
  files (rw_fs (main w).2) !! (ARCHIVE_IMPORTED_PATH, p.2) = Some f /\
  files (rw_fs (main w).2) !! p = None.
Proof.
  intros Hf Hr Hp. destruct (main_state w Hf) as (w1 & -> & _ & Hfl & Hf1 & _). cbn [fst snd].
  destruct (process_files_run (root_files (rw_fs w)) w1 Hf1) as (_ & -> & _).
  rewrite Hfl. split; [done|].
  apply fold_move_in; [apply root_files_nodup| |apply root_files_root|done].
  apply root_files_spec. eauto.
Qed.

(** C25: After a run without filesystem faults the counters agree with the
    root's files: every file found is moved and counted once as verified
    or as not in the store, no error is recorded, one log line is written
    per move, and the store is only read. *)
Theorem main_counts w :
  fs_faults (rw_fs w) = [] ->
  files_found (rw_stats (main w).2) = List.length (root_files (rw_fs w)) /\
  files_moved (rw_stats (main w).2) = files_found (rw_stats (main w).2) /\
  files_verified (rw_stats (main w).2) + files_not_in_db (rw_stats (main w).2) =
    files_found (rw_stats (main w).2) /\
  errors (rw_stats (main w).2) = [] /\
  List.length (rw_log (main w).2) = List.length (rw_log w) + files_moved (rw_stats (main w).2) /\
  store_readonly (rw_store w) (rw_store (main w).2).
Proof.
  intros Hf. destruct (main_state w Hf) as (w1 & -> & Hs & Hfl & Hf1 & Hst & Hlog).
  destruct (process_files_advanced (root_files (rw_fs w)) w1)
    as (A1 & _ & A3 & A4 & A5 & A6 & A7);
    [done|apply root_files_nodup|apply root_files_root|rewrite Hfl; apply root_files_present|].
  cbn [snd]. rewrite Hst, Hlog, Hs in *. cbn in A3, A4, A5, A6.
  split_and!; [lia..|done|lia|done].
Qed.

(** The store is only read, whatever the filesystem does. *)
Definition db_untouched (w w' : RWorld) : Prop := store_readonly (rw_store w) (rw_store w').

#[local] Instance db_untouched_refl : Reflexive db_untouched.
Proof. intros w. unfold db_untouched. reflexivity. Qed.

#[local] Instance db_untouched_trans : Transitive db_untouched.
Proof. intros w1 w2 w3. unfold db_untouched. apply store_readonly_trans. Qed.

Lemma r_lift_fs_untouched {A} (f : FS -> A * FS) : respects db_untouched (r_lift_fs f).
Proof. intros w. unfold r_lift_fs, db_untouched. destruct (f (rw_fs w)). simpl. reflexivity. Qed.

Lemma r_stats_untouched f : respects db_untouched (r_stats f).
Proof. intros w. unfold db_untouched. simpl. reflexivity. Qed.

Lemma log_untouched n a b : respects db_untouched (log_reorganization_event n a b).
Proof. intros w. unfold db_untouched. simpl. reflexivity. Qed.

Lemma verify_untouched p : respects db_untouched (verify_file_in_database p).
Proof.
  intros w. by destruct (verify_returns p w) as (_ & _ & _ & _ & _ & H).
Qed.

Ltac untouched_step :=
  first [ apply r_lift_fs_untouched | apply r_stats_untouched | apply log_untouched
        | apply verify_untouched | respects_step db_untouched
        | match goal with |- respects _ (if ?b then _ else _) => destruct b end ].

Lemma process_files_untouched ps : respects db_untouched (process_files ps).
Proof.
  induction ps as [|p ps IH]; cbn [process_files]; [apply (respects_ret db_untouched)|].
  apply (respects_bind db_untouched); [|intros; apply IH].
  unfold process_file, move_file_to_imported. repeat untouched_step.
Qed.

(** C24: [reorganize_archive.py] never writes to the store: on every run,
    whatever fails on the filesystem, the reports, the import log and the
    next id are those it started with. *)
Theorem main_store_readonly : respects db_untouched main.
Proof.
  unfold main, reorganize_archive, scan_existing_archive.
  repeat first [ apply process_files_untouched | untouched_step
               | match goal with |- respects _ (match ?l with [] => _ | _ :: _ => _ end) =>
                   destruct l end ].
Qed.

End Tool.

Module Examples.

Definition digest (f : FileObj) : string :=
  match f_data f with Some s => "sha256:" ++ s | None => "" end.
Definition no_type (_ : string) : option string := None.

Definition row (i : nat) (name h : string) : Report :=
  mkReport i "sber" (Some "4000T49") (Some "2023-07") name ("inbox/" ++ name) h None None 10
           None StRaw None None.

Definition fA : FileObj := mkFile 6 (Some "<html>").
Definition fB : FileObj := mkFile 7 (Some "<html/>").
Definition fC : FileObj := mkFile 3 (Some "abc").
Definition fOld : FileObj := mkFile 9 (Some "<p>old</p>").
Definition fH : FileObj := mkFile 1 (Some "x").

(** The root holds [a.html] (stored under its name), [c.html] (stored
    under another name with its hash), [b.html] (not stored) and the
    hidden [.keep]; [imported/] already holds an [a.html] of other
    contents. *)
Definition w0 : RWorld :=
  mkRWorld (mkStore [row 1 "a.html" "h1"; row 2 "x.html" "sha256:abc"] [] 3 [])
           (mkFS (list_to_map [((ARCHIVE_PATH, "a.html"), fA); ((ARCHIVE_PATH, "b.html"), fB);
                               ((ARCHIVE_PATH, "c.html"), fC); ((ARCHIVE_PATH, ".keep"), fH);
                               ((ARCHIVE_IMPORTED_PATH, "a.html"), fOld)])
                 [ARCHIVE_PATH; ARCHIVE_IMPORTED_PATH] [])
           (mkRStats 5 5 5 5 ["stale"]) [].

Lemma main_moves_every_root_file_witness :
  fs_faults (rw_fs w0) = [] /\ is_root_file (ARCHIVE_PATH, "c.html") = true /\
  files (rw_fs w0) !! (ARCHIVE_PATH, "c.html") = Some fC /\
  files (rw_fs (main digest no_type w0).2) !! (ARCHIVE_IMPORTED_PATH, "c.html") = Some fC.
Proof.
  split_and!; [reflexivity|vm_compute; reflexivity|vm_compute; reflexivity|].
  refine (proj1 (proj2 (main_moves_every_root_file digest no_type w0 (ARCHIVE_PATH, "c.html") fC _ _ _)));
    [reflexivity|vm_compute; reflexivity|vm_compute; reflexivity].
Defined.

Lemma main_counts_witness :
  fs_faults (rw_fs w0) = [] /\
  files_moved (rw_stats (main digest no_type w0).2) =
    files_found (rw_stats (main digest no_type w0).2).
Proof.
  split; [reflexivity|]. exact (proj1 (proj2 (main_counts digest no_type w0 eq_refl))).
Defined.

End Examples.

End Reorganize.
