(* ===== verification/Sync.v ===== *)
(** * The external sync script

    Models [src/core/scripts/import/sync_external_reports.py]
    ([ExternalSyncManager] and [main]): the supported files of an external
    directory are copied into the inbox with [shutil.copy2], unless their
    hash is among those of the inbox files or, without [--force], their
    name is.  The state is the filesystem of [Archive.v], the script's
    [sync_stats] and the lines of [diagnostics/external_sync.log]; the
    scan is [FileInfo.scan_directory_info].  The progress bar, the console
    output, the Markdown summary and the timestamps of the log are output
    only and not modelled; the write of a log line is assumed to succeed.
    [Path(s)] is the text before and after the last ['/'] of [s], which is
    what [pathlib] gives for the normalised paths [str(path)] produces. *)

From stdpp Require Import gmap.
From S2P Require Import Prelude PyStr PyValue Archive FileInfo.
Import Archive FileInfo.

Open Scope string_scope.

Module Sync.

(** [self.sync_stats]. *)
Record SStats := mkSStats {
  files_scanned : nat;
  files_copied : nat;
  files_skipped : nat;
  files_failed : nat;
  errors : list string
}.

Definition stats0 : SStats := mkSStats 0 0 0 0 [].

Definition inc_scanned (s : SStats) : SStats :=
  mkSStats (S (files_scanned s)) (files_copied s) (files_skipped s) (files_failed s) (errors s).
Definition inc_copied (s : SStats) : SStats :=
  mkSStats (files_scanned s) (S (files_copied s)) (files_skipped s) (files_failed s) (errors s).
Definition inc_skipped (s : SStats) : SStats :=
  mkSStats (files_scanned s) (files_copied s) (S (files_skipped s)) (files_failed s) (errors s).
(** The two statements of the [except] branch of [copy_file_to_inbox]. *)
Definition record_failure (e : string) (s : SStats) : SStats :=
  mkSStats (files_scanned s) (files_copied s) (files_skipped s) (S (files_failed s))
           (errors s ++ [e]).

(** One line of [external_sync.log]: file name, action, source, target,
    [file_hash[:16]] and size. *)
Record SyncLine := mkSyncLine {
  sl_filename : string;
  sl_action : string;
  sl_source : string;
  sl_target : string;
  sl_hash16 : string;
  sl_size : N
}.

Record SWorld := mkSWorld {
  sw_fs : FS;
  sw_stats : SStats;
  sw_log : list SyncLine
}.

Abbreviation SM := (PyM SWorld).

Definition s_fs {A} (f : FS -> A * FS) : SM A :=
  fun w => let '(a, fs) := f (sw_fs w) in (inr a, mkSWorld fs (sw_stats w) (sw_log w)).

Definition s_stats (f : SStats -> SStats) : SM unit :=
  fun w => (inr tt, mkSWorld (sw_fs w) (f (sw_stats w)) (sw_log w)).

(** ** Paths and copies *)

(** [Path(s)] for the text of a path: the parent before the last ['/'],
    the name after it. *)
Definition path_of_str (s : string) : Path :=
  match rfind_from "/" s 0 None with
  | Some i => (substring 0 i s, substring (S i) (String.length s - S i) s)
  | None => (".", s)
  end.

(** [shutil.copy2(src, dst)]: [SameFileError] (an [OSError]) when both
    name one file, an [OSError] on an injected fault or a missing source;
    otherwise [dst] holds a copy of [src], replacing what was there. *)
Definition path_copy (fs : FS) (src dst : Path) : (exn + unit) * FS :=
  let '(fail, fs) := fs_call fs in
  if fail then (inl (OSError "copy failed"), fs)
  else if decide (src = dst) then
    (inl (OSError ("'" ++ path_str src ++ "' and '" ++ path_str dst ++ "' are the same file")), fs)
  else match files fs !! src with
       | None => (inl (OSError "No such file or directory"), fs)
       | Some f => (inr tt, mkFS (<[dst := f]> (files fs)) (fs_dirs fs) (fs_faults fs))
       end.

(** [argparse]'s result. *)
Record SArgs := mkSArgs { a_source : string; a_force : bool; a_dry_run : bool }.

(** What [main]'s call of [sync_external_directory] raises. *)
Definition source_kwarg_error : exn :=
  TypeError "ExternalSyncManager.sync_external_directory() got an unexpected keyword argument 'source'".

Section Tool.

(** [calculate_file_hash] and [mimetypes.guess_type], as in [FileInfo.v]. *)
Variable file_digest : FileObj -> string.
Variable guess_type : string -> option string.

Definition scan (fs : FS) (dir : string) : list FileInfoDict :=
  scan_directory_info file_digest guess_type fs dir.

(** [scan_external_directory]. *)
Definition scan_external_directory (ext : string) : SM (list FileInfoDict) :=
  w ← get_st;
  if negb (dir_exists (sw_fs w) ext) then mret []
  else mret (scan (sw_fs w) ext).

(** [get_inbox_hashes]: the truthy hashes of the inbox's files. *)
Definition get_inbox_hashes : SM (gset string) :=
  w ← get_st;
  mret (list_to_set (List.filter (fun h => negb (String.eqb h ""))
                                 (map fid_file_hash (scan (sw_fs w) INBOX_PATH)))).

(** [get_inbox_filenames]. *)
Definition get_inbox_filenames : SM (gset string) :=
  w ← get_st;
  mret (list_to_set (map fid_file_name (scan (sw_fs w) INBOX_PATH))).

(** [log_sync_event]: the write is assumed to succeed. *)
Definition log_sync_event (filename action source target file_hash : string) (size : N) : SM unit :=
  fun w => (inr tt, mkSWorld (sw_fs w) (sw_stats w)
                             (sw_log w ++ [mkSyncLine filename action source target
                                                      (py_take 16 file_hash) size])).

(** [copy_file_to_inbox]. *)
Definition copy_file_to_inbox (fi : FileInfoDict) (force : bool) : SM bool :=
  let source := path_of_str (fid_file_path fi) in
  let target := (INBOX_PATH, fid_file_name fi) in
  w ← get_st;
  if path_exists (sw_fs w) target && negb force then
    s_stats inc_skipped;; mret true
  else
    r ← s_fs (fun fs => path_copy fs source target);
    match r with
    | inl e => s_stats (record_failure (fid_file_name fi ++ ": " ++ exn_msg e));; mret false
    | inr _ =>
        log_sync_event (fid_file_name fi) "copied" (path_str source) (path_str target)
                       (fid_file_hash fi) (fid_file_size fi);;
        s_stats inc_copied;;
        mret true
    end.

(** The body of the copying loop of [sync_external_directory]. *)
Definition sync_one (hashes names : gset string) (force : bool) (fi : FileInfoDict) : SM unit :=
  (if bool_decide (fid_file_hash fi ∈ hashes) then s_stats inc_skipped
   else if bool_decide (fid_file_name fi ∈ names) && negb force then s_stats inc_skipped
   else copy_file_to_inbox fi force;; mret tt);;
  s_stats inc_scanned.

Fixpoint sync_loop (hashes names : gset string) (force : bool) (fis : list FileInfoDict) : SM unit :=
  match fis with
  | [] => mret tt
  | fi :: rest => sync_one hashes names force fi;; sync_loop hashes names force rest
  end.

(** [sync_external_directory]; the dry run only logs. *)
Definition sync_external_directory (ext : string) (force dry_run : bool) : SM bool :=
  w ← get_st;
  if negb (dir_exists (sw_fs w) ext) then mret false
  else
    s_fs (fun fs => (tt, mkdir fs INBOX_PATH));;
    external_files ← scan_external_directory ext;
    match external_files with
    | [] => mret true
    | _ =>
        inbox_hashes ← get_inbox_hashes;
        inbox_filenames ← get_inbox_filenames;
        if dry_run then mret true
        else sync_loop inbox_hashes inbox_filenames force external_files;; mret true
    end.

(** [main]: it passes [source=], a keyword [sync_external_directory] does
    not have. *)
Definition main (args : SArgs) : SM bool :=
  w ← get_st;
  if negb (dir_exists (sw_fs w) (a_source args)) then mret false
  else
    s_fs (fun fs => (tt, mkdir fs INBOX_PATH));;
    s_stats (fun _ => stats0);;
    raise source_kwarg_error.

(** ** Frame lemmas *)

(** A relation of filesystems, read on the worlds. *)
Definition on_fs (R : FS -> FS -> Prop) (w w' : SWorld) : Prop := R (sw_fs w) (sw_fs w').

#[local] Instance on_fs_refl R `{!Reflexive R} : Reflexive (on_fs R).
Proof. intros w. unfold on_fs. reflexivity. Qed.

#[local] Instance on_fs_trans R `{!Transitive R} : Transitive (on_fs R).
Proof. intros w1 w2 w3. unfold on_fs. apply transitivity. Qed.

(** Nothing outside the inbox changes. *)
Definition inbox_only (fs fs' : FS) : Prop :=
  forall p, p.1 <> INBOX_PATH -> files fs' !! p = files fs !! p.

(** No file disappears or changes: files are only added. *)
Definition grows (fs fs' : FS) : Prop := files fs ⊆ files fs'.

#[local] Instance inbox_only_refl : Reflexive inbox_only.
Proof. by intros fs p _. Qed.
#[local] Instance inbox_only_trans : Transitive inbox_only.
Proof. intros f1 f2 f3 H1 H2 p Hp. by rewrite H2, H1. Qed.
#[local] Instance grows_refl : Reflexive grows.
Proof. intros fs. unfold grows. reflexivity. Qed.
#[local] Instance grows_trans : Transitive grows.
Proof. intros f1 f2 f3. unfold grows. apply transitivity. Qed.

Lemma mkdir_inbox_only fs d : inbox_only fs (mkdir fs d).
Proof. intros p _. by rewrite mkdir_files. Qed.
Lemma mkdir_grows fs d : grows fs (mkdir fs d).
Proof. unfold grows. by rewrite mkdir_files. Qed.

(** [path_copy] writes its target only. *)
Lemma path_copy_files fs src dst :
  files (path_copy fs src dst).2 = files fs \/
  exists f, files fs !! src = Some f /\ files (path_copy fs src dst).2 = <[dst := f]> (files fs).
Proof.
  unfold path_copy. destruct (fs_call fs) as [[] fs1] eqn:E;
    pose proof (fs_call_files fs) as Hc; rewrite E in Hc; simpl in Hc; [by left|].
  case_decide; [by left|]. rewrite Hc.
  destruct (files fs !! src) eqn:Hs; [right; eauto|by left].
Qed.

Lemma path_copy_inbox_only fs src n : inbox_only fs (path_copy fs src (INBOX_PATH, n)).2.
Proof.
  intros p Hp. destruct (path_copy_files fs src (INBOX_PATH, n)) as [->|(f & _ & ->)]; [done|].
  rewrite lookup_insert_ne; [done|]. intros <-. by apply Hp.
Qed.

Lemma path_copy_grows fs src dst : files fs !! dst = None -> grows fs (path_copy fs src dst).2.
Proof.
  intros Hd. unfold grows. destruct (path_copy_files fs src dst) as [->|(f & _ & ->)]; [done|].
  by apply insert_subseteq.
Qed.

Lemma s_fs_respects R {A} (f : FS -> A * FS) :
  (forall fs, R fs (f fs).2) -> respects (on_fs R) (s_fs f).
Proof. intros Hf w. unfold s_fs, on_fs. specialize (Hf (sw_fs w)). by destruct (f (sw_fs w)). Qed.

Lemma s_stats_respects R `{!Reflexive R} g : respects (on_fs R) (s_stats g).
Proof. intros w. unfold on_fs. simpl. reflexivity. Qed.

Lemma log_respects R `{!Reflexive R} a b c d e n : respects (on_fs R) (log_sync_event a b c d e n).
Proof. intros w. unfold on_fs. simpl. reflexivity. Qed.

Ltac frame_step R :=
  first [ apply s_stats_respects | apply log_respects | respects_step (on_fs R)
        | apply s_fs_respects; intros ].


(** ** Paths *)

(** [Path(str(p))] is [p] when the name has no ['/']. *)
Lemma path_of_str_path_str (p : Path) :
  rfind_from "/" p.2 0 None = None -> path_of_str (path_str p) = p.
Proof.
  destruct p as [d n]. simpl. intros Hn. unfold path_of_str, path_str. simpl.
  change ("/" ++ n) with (String "/" n). rewrite rfind_from_last by exact Hn.
  rewrite substring_app_l. f_equal.
  rewrite str_length_app. simpl. replace (S (String.length d)) with (String.length d + 1) by lia.
  rewrite substring_app_r. simpl. replace (String.length d + S (String.length n) - (String.length d + 1))
    with (String.length n) by lia.
  apply substring_full.
Qed.

(** ** The script's entry point *)

Ltac run_simpl :=
  cbv [mbind PyM_bind mret PyM_ret get_st s_fs s_stats raise log_sync_event].



(** ** What a sync may change *)

Ltac frame R leaf :=
  repeat first [ leaf | frame_step R | match goal with |- Reflexive _ => exact _ end ].

Lemma copy_inbox_only fi force : respects (on_fs inbox_only) (copy_file_to_inbox fi force).
Proof. unfold copy_file_to_inbox. frame inbox_only ltac:(apply path_copy_inbox_only). Qed.

Lemma sync_loop_inbox_only hs ns force fis :
  respects (on_fs inbox_only) (sync_loop hs ns force fis).
Proof.
  induction fis as [|fi fis IH]; cbn [sync_loop]; [apply (respects_ret (on_fs inbox_only))|].
  apply (respects_bind (on_fs inbox_only)); [|intros; apply IH].
  unfold sync_one. frame inbox_only ltac:(apply copy_inbox_only).
Qed.

(** C27: Whatever the flags and the faults, [sync_external_directory] changes
    no file outside the inbox: the external directory and the archive are
    left as they were. *)
Theorem sync_touches_only_inbox ext force dry_run :
  respects (on_fs inbox_only) (sync_external_directory ext force dry_run).
Proof.
  unfold sync_external_directory, scan_external_directory, get_inbox_hashes, get_inbox_filenames.
  frame inbox_only ltac:(first [apply sync_loop_inbox_only | apply mkdir_inbox_only]).
Qed.

(** Without [--force] a copy only goes to a name the inbox does not
    hold. *)
Lemma copy_grows fi : respects (on_fs grows) (copy_file_to_inbox fi false).
Proof.
  intros w. unfold copy_file_to_inbox. run_simpl. rewrite andb_true_r.
  destruct (path_exists (sw_fs w) (INBOX_PATH, fid_file_name fi)) eqn:E; simpl;
    [unfold on_fs; reflexivity|].
  pose proof (path_copy_grows (sw_fs w) (path_of_str (fid_file_path fi))
                              (INBOX_PATH, fid_file_name fi)) as G.
  unfold path_exists in E. destruct (files (sw_fs w) !! _); [done|].
  destruct (path_copy _ _ _) as [[e|[]] fs']; simpl in *; unfold on_fs; simpl; by apply G.
Qed.

Lemma sync_loop_grows hs ns fis : respects (on_fs grows) (sync_loop hs ns false fis).
Proof.
  induction fis as [|fi fis IH]; cbn [sync_loop]; [apply (respects_ret (on_fs grows))|].
  apply (respects_bind (on_fs grows)); [|intros; apply IH].
  unfold sync_one. frame grows ltac:(apply copy_grows).
Qed.

(** C26: Without [--force] no file is removed or replaced: every file of the
    filesystem keeps its contents and the run only adds inbox files. *)
Theorem sync_no_overwrite ext dry_run :
  respects (on_fs grows) (sync_external_directory ext false dry_run).
Proof.
  unfold sync_external_directory, scan_external_directory, get_inbox_hashes, get_inbox_filenames.
  frame grows ltac:(first [apply sync_loop_grows | apply mkdir_grows]).
Qed.


(** ** The counters *)

(** [n] loop rounds: [files_scanned] grows by [n], each round adds one to
    exactly one of copied, skipped and failed, every failure adds one
    error and every copy one log line. *)
Definition counted (n : nat) (w w' : SWorld) : Prop :=
  files_scanned (sw_stats w') = files_scanned (sw_stats w) + n /\
  files_copied (sw_stats w') + files_skipped (sw_stats w') + files_failed (sw_stats w') =
    files_copied (sw_stats w) + files_skipped (sw_stats w) + files_failed (sw_stats w) + n /\
  List.length (errors (sw_stats w')) + files_failed (sw_stats w) =
    List.length (errors (sw_stats w)) + files_failed (sw_stats w') /\
  List.length (sw_log w') + files_copied (sw_stats w) =
    List.length (sw_log w) + files_copied (sw_stats w').

Lemma counted_0 w : counted 0 w w.
Proof. unfold counted. lia. Qed.

Lemma counted_trans n k w1 w2 w3 : counted n w1 w2 -> counted k w2 w3 -> counted (n + k) w1 w3.
Proof. unfold counted. lia. Qed.

(** One round returns normally and is counted once. *)
Lemma sync_one_run hs ns force fi w :
  (sync_one hs ns force fi w).1 = inr tt /\ counted 1 w (sync_one hs ns force fi w).2.
Proof.
  unfold sync_one, copy_file_to_inbox. run_simpl.
  repeat case_match; simplify_eq/=; (split; [done|]); unfold counted; cbn;
    rewrite ?length_app; cbn; lia.
Qed.

Lemma sync_loop_run hs ns force fis w :
  (sync_loop hs ns force fis w).1 = inr tt /\
  counted (List.length fis) w (sync_loop hs ns force fis w).2.
Proof.
  revert w. induction fis as [|fi fis IH]; intros w; [split; [done|apply counted_0]|].
  cbn [sync_loop]. destruct (sync_one_run hs ns force fi w) as [H1 H2].
  destruct (sync_one hs ns force fi w) as [r w1] eqn:E. simpl in H1, H2. subst r.
  rewrite (bind_inr _ _ _ _ _ E). destruct (IH w1) as [H3 H4]. split; [done|].
  apply (counted_trans 1 _ _ w1); done.
Qed.

(** C28: Starting from fresh statistics, a sync ends with
    [copied + skipped + failed = scanned], one error text per failure and
    one log line per copy, whatever the flags and the faults. *)
Theorem sync_counts ext force dry_run w :
  sw_stats w = stats0 ->
  files_copied (sw_stats (sync_external_directory ext force dry_run w).2) +
  files_skipped (sw_stats (sync_external_directory ext force dry_run w).2) +
  files_failed (sw_stats (sync_external_directory ext force dry_run w).2) =
    files_scanned (sw_stats (sync_external_directory ext force dry_run w).2) /\
  List.length (errors (sw_stats (sync_external_directory ext force dry_run w).2)) =
    files_failed (sw_stats (sync_external_directory ext force dry_run w).2) /\
  List.length (sw_log (sync_external_directory ext force dry_run w).2) =
    List.length (sw_log w) + files_copied (sw_stats (sync_external_directory ext force dry_run w).2).
Proof.
  intros Hs.
  unfold sync_external_directory, scan_external_directory, get_inbox_hashes, get_inbox_filenames.
  run_simpl. destruct (negb (dir_exists (sw_fs w) ext)); cbn; [rewrite Hs; cbn; lia|].
  destruct (negb _); cbn; [rewrite Hs; cbn; lia|].
  destruct (scan _ ext) as [|fi fis]; cbn -[sync_loop]; [rewrite Hs; cbn; lia|].
  destruct dry_run; cbn -[sync_loop]; [rewrite Hs; cbn; lia|].
  match goal with |- context [sync_loop ?h ?n force (fi :: fis) ?w1] =>
    destruct (sync_loop_run h n force (fi :: fis) w1) as [_ Hc];
    destruct (sync_loop h n force (fi :: fis) w1) as [[e|u] w2] end;
  unfold counted in Hc; cbn in *; rewrite Hs in Hc; cbn in Hc; lia.
Qed.

(** ** Which files a sync copies *)

Lemma path_copy_faults fs src dst :
  fs_faults fs = [] -> fs_faults (path_copy fs src dst).2 = [].
Proof. intros Hf. unfold path_copy, fs_call. rewrite Hf. cbn. by repeat case_match. Qed.

(** One round with no fault writes at most its own inbox target, and
    there either nothing or the contents of its source. *)
Lemma sync_one_frame hs ns hd w :
  fs_faults (sw_fs w) = [] ->
  let fs1 := sw_fs (sync_one hs ns false hd w).2 in
  fs_faults fs1 = [] /\
  (forall q, q <> (INBOX_PATH, fid_file_name hd) -> files fs1 !! q = files (sw_fs w) !! q) /\
  (files fs1 !! (INBOX_PATH, fid_file_name hd) = files (sw_fs w) !! (INBOX_PATH, fid_file_name hd) \/
   files fs1 !! (INBOX_PATH, fid_file_name hd) = files (sw_fs w) !! path_of_str (fid_file_path hd)).
Proof.
  intros Hf. unfold sync_one, copy_file_to_inbox. run_simpl.
  case_bool_decide; cbn; [split_and!; auto|].
  case_bool_decide; cbn; [split_and!; auto|].
  destruct (path_exists (sw_fs w) (INBOX_PATH, fid_file_name hd)); cbn; [split_and!; auto|].
  pose proof (path_copy_files (sw_fs w) (path_of_str (fid_file_path hd)) (INBOX_PATH, fid_file_name hd))
    as Hc.
  pose proof (path_copy_faults (sw_fs w) (path_of_str (fid_file_path hd)) (INBOX_PATH, fid_file_name hd) Hf)
    as Hf'.
  destruct (path_copy _ _ _) as [[e|u] fs']; cbn in *;
    (destruct Hc as [->|(g & Hs & ->)]; [split_and!; auto|]);
    (split_and!; [done|intros q Hq; by rewrite lookup_insert_ne|right; by rewrite lookup_insert_eq]).
Qed.

(** A file whose hash and name the inbox did not have, with its target
    free, is copied by its round. *)
Lemma sync_one_copies hs ns fi w f :
  fs_faults (sw_fs w) = [] -> fid_file_hash fi ∉ hs -> fid_file_name fi ∉ ns ->
  (path_of_str (fid_file_path fi)).1 <> INBOX_PATH ->
  files (sw_fs w) !! (INBOX_PATH, fid_file_name fi) = None ->
  files (sw_fs w) !! path_of_str (fid_file_path fi) = Some f ->
  files (sw_fs (sync_one hs ns false fi w).2) !! (INBOX_PATH, fid_file_name fi) = Some f.
Proof.
  intros Hf Hh Hn Hsrc Ht Hs. unfold sync_one, copy_file_to_inbox. run_simpl.
  rewrite !bool_decide_false by done. cbn [andb negb].
  unfold path_exists. rewrite Ht. cbn [andb negb].
  unfold path_copy, fs_call. rewrite Hf. cbn [negb].
  rewrite decide_False by (intros E; apply Hsrc; by rewrite E). rewrite Hs. cbn.
  by rewrite lookup_insert_eq.
Qed.

(** The loop copies every such file, whatever the files before it with
    the same contents: the inbox hashes are those read before the loop. *)
Lemma sync_loop_copies hs ns fis fi f w :
  fs_faults (sw_fs w) = [] -> fi ∈ fis ->
  fid_file_hash fi ∉ hs -> fid_file_name fi ∉ ns ->
  (path_of_str (fid_file_path fi)).1 <> INBOX_PATH ->
  (forall fi', fi' ∈ fis -> fid_file_name fi' = fid_file_name fi ->
               path_of_str (fid_file_path fi') = path_of_str (fid_file_path fi)) ->
  files (sw_fs w) !! path_of_str (fid_file_path fi) = Some f ->
  files (sw_fs w) !! (INBOX_PATH, fid_file_name fi) = None \/
  files (sw_fs w) !! (INBOX_PATH, fid_file_name fi) = Some f ->
  files (sw_fs (sync_loop hs ns false fis w).2) !! (INBOX_PATH, fid_file_name fi) = Some f.
Proof.
  revert w. induction fis as [|hd tl IH]; intros w Hf Hin Hh Hn Hsrc Hsame Hs Ht; [set_solver|].
  cbn [sync_loop]. destruct (sync_one_run hs ns false hd w) as [Hr _].
  pose proof (sync_one_frame hs ns hd w Hf) as (Hf1 & Hq & Ht1).
  pose proof (sync_one_copies hs ns fi w f Hf Hh Hn Hsrc) as Hcp.
  destruct (sync_one hs ns false hd w) as [r w1] eqn:E. cbn in Hr, Hf1, Hq, Ht1. subst r.
  rewrite (bind_inr _ _ _ _ _ E).
  assert (Hs1 : files (sw_fs w1) !! path_of_str (fid_file_path fi) = Some f).
  { rewrite Hq; [done|]. intros Heq. apply Hsrc. by rewrite Heq. }
  assert (Ht1' : files (sw_fs w1) !! (INBOX_PATH, fid_file_name fi) = None \/
                 files (sw_fs w1) !! (INBOX_PATH, fid_file_name fi) = Some f).
  { destruct (decide (fid_file_name hd = fid_file_name fi)) as [Hnm|Hnm].
    - rewrite Hnm, (Hsame hd) in Ht1 by set_solver. rewrite <-Hs. destruct Ht1 as [->| ->]; [|by right].
      destruct Ht as [->| ->]; [by left|by right].
    - rewrite Hq; [done|]. intros [=]. congruence. }
  apply elem_of_cons in Hin as [<-|Htl].
  - rewrite E in Hcp. cbn in Hcp.
    assert (H1 : files (sw_fs w1) !! (INBOX_PATH, fid_file_name fi) = Some f).
    { destruct Ht as [Ht|Ht]; [by apply Hcp|]. rewrite <-Hs.
      destruct Ht1 as [-> | ->]; [by rewrite Ht, Hs|done]. }
    pose proof (sync_loop_grows hs ns tl w1) as G. unfold on_fs, grows in G.
    by eapply lookup_weaken.
  - apply IH; auto. intros fi' Hfi'. apply Hsame. set_solver.
Qed.

(** An entry of a scan is a file of the directory, by its name. *)
Lemma scan_entry fs dir i :
  i ∈ scan fs dir ->
  exists f, files fs !! (dir, fid_file_name i) = Some f /\
    fid_file_path i = path_str (dir, fid_file_name i) /\ fid_file_hash i = file_digest f.
Proof.
  intros Hi%list_elem_of_In%scan_directory_info_spec.
  destruct Hi as ([d n] & f & Hp & Hd & _ & Hi). cbn in Hd. subst d.
  rewrite (get_file_info_Some _ _ _ _ _ Hp) in Hi. injection Hi as <-. eauto.
Qed.

Lemma scan_mkdir fs d dir : dir_exists fs dir = true -> scan (mkdir fs d) dir = scan fs dir.
Proof.
  intros Hd. unfold scan, scan_directory_info, get_file_info.
  by rewrite (mkdir_keeps _ _ _ Hd), Hd, mkdir_files.
Qed.

(** C29: Finding: without [--force] and with no fault, every file of the
    external directory whose contents no inbox file has and whose name
    the inbox does not hold is copied into the inbox, even when another
    external file with the same contents is copied before it: the inbox
    hashes are read once, before the loop, so the inbox can end up with
    several copies of one report. *)
Theorem sync_copies_every_new_file ext w fi :
  dir_exists (sw_fs w) ext = true -> ext <> INBOX_PATH -> fs_faults (sw_fs w) = [] ->
  fi ∈ scan (sw_fs w) ext -> rfind_from "/" (fid_file_name fi) 0 None = None ->
  (forall q g, q.1 = INBOX_PATH -> files (sw_fs w) !! q = Some g -> file_digest g <> fid_file_hash fi) ->
  files (sw_fs w) !! (INBOX_PATH, fid_file_name fi) = None ->
  files (sw_fs (sync_external_directory ext false false w).2) !! (INBOX_PATH, fid_file_name fi)
    = files (sw_fs w) !! (ext, fid_file_name fi).
Proof.
  intros Hd Hne Hf Hin Hsl Hdig Ht.
  destruct (scan_entry _ _ _ Hin) as (f & Hp & Hpath & _).
  assert (Hsrc : path_of_str (fid_file_path fi) = (ext, fid_file_name fi))
    by (rewrite Hpath; by apply path_of_str_path_str).
  unfold sync_external_directory, scan_external_directory, get_inbox_hashes, get_inbox_filenames.
  run_simpl. rewrite Hd. cbn [negb sw_fs sw_stats sw_log fst snd].
  rewrite (mkdir_keeps _ _ _ Hd), (scan_mkdir _ _ _ Hd). cbn [negb].
  set (fs1 := mkdir (sw_fs w) INBOX_PATH).
  assert (Hf1 : files fs1 = files (sw_fs w)) by apply mkdir_files.
  destruct (scan (sw_fs w) ext) as [|x xs] eqn:Es; [set_solver|]. cbn -[sync_loop].
  match goal with |- context [sync_loop ?h ?n false (x :: xs) ?w1] =>
    destruct (sync_loop_run h n false (x :: xs) w1) as [Hr _];
    pose proof (sync_loop_copies h n (x :: xs) fi f w1) as Hc;
    destruct (sync_loop h n false (x :: xs) w1) as [r w2] end.
  cbn in Hr |- *. subst r. cbn. rewrite Hp. apply Hc; cbn [sw_fs]; clear Hc.
  - unfold fs1. by rewrite mkdir_faults.
  - done.
  - rewrite elem_of_list_to_set, list_elem_of_In, filter_In, in_map_iff.
    intros ((i & Hh & Hi%list_elem_of_In) & _). destruct (scan_entry _ _ _ Hi) as (g & Hg & _ & Hgh).
    rewrite Hf1 in Hg. apply (Hdig (INBOX_PATH, fid_file_name i) g eq_refl Hg). congruence.
  - rewrite elem_of_list_to_set, list_elem_of_In, in_map_iff. intros (i & Hn & Hi%list_elem_of_In).
    destruct (scan_entry _ _ _ Hi) as (g & Hg & _). rewrite Hf1, Hn, Ht in Hg. discriminate.
  - by rewrite Hsrc.
  - intros fi' Hfi' Hn. rewrite <-Es in Hfi'. destruct (scan_entry _ _ _ Hfi') as (g & _ & Hpath' & _).
    rewrite Hsrc, Hpath', Hn. by apply path_of_str_path_str.
  - by rewrite Hf1, Hsrc.
  - left. by rewrite Hf1.
Qed.

End Tool.

Module Examples.

Definition digest (f : FileObj) : string :=
  match f_data f with Some s => "sha256:" ++ s | None => "" end.
Definition no_type (_ : string) : option string := None.

Definition EXT : string := "/mnt/reports".
Definition fA : FileObj := mkFile 6 (Some "<html>").
Definition fB : FileObj := mkFile 7 (Some "<html/>").

(** The inbox holds [x.html]; the external directory holds [a.html] with
    the same contents, and [b.html] and [c.html] with equal contents. *)
Definition w0 : SWorld :=
  mkSWorld (mkFS (list_to_map [((INBOX_PATH, "x.html"), fA); ((EXT, "a.html"), fA);
                               ((EXT, "b.html"), fB); ((EXT, "c.html"), fB)])
                 [INBOX_PATH; EXT] [])
           stats0 [].

Definition entry (n : string) (f : FileObj) : FileInfoDict :=
  mkFileInfoDict n (path_str (EXT, n)) (f_size f) (digest f) "text/html" ".html".

(** [b.html] and [c.html] have the same contents, and both are copied. *)
Lemma sync_copies_every_new_file_witness :
  files (sw_fs (sync_external_directory digest no_type EXT false false w0).2) !! (INBOX_PATH, "b.html")
    = files (sw_fs w0) !! (EXT, "b.html") /\
  files (sw_fs (sync_external_directory digest no_type EXT false false w0).2) !! (INBOX_PATH, "c.html")
    = files (sw_fs w0) !! (EXT, "c.html").
Proof.
  split; [apply (sync_copies_every_new_file digest no_type EXT w0 (entry "b.html" fB))
         |apply (sync_copies_every_new_file digest no_type EXT w0 (entry "c.html" fB))];
    try reflexivity; try discriminate;
    try (apply list_elem_of_In; vm_compute; repeat first [left; reflexivity | right]);
    intros [d n] g Hq Hg; cbn in Hq; subst d; apply elem_of_list_to_map_2 in Hg;
    repeat (apply elem_of_cons in Hg as [Hg|Hg];
            [first [discriminate Hg | injection Hg as -> ->; vm_compute; discriminate]|]);
    by apply elem_of_nil in Hg.
Defined.

Lemma sync_counts_witness :
  sw_stats w0 = stats0 /\
  files_copied (sw_stats (sync_external_directory digest no_type EXT false false w0).2) +
  files_skipped (sw_stats (sync_external_directory digest no_type EXT false false w0).2) +
  files_failed (sw_stats (sync_external_directory digest no_type EXT false false w0).2) =
    files_scanned (sw_stats (sync_external_directory digest no_type EXT false false w0).2).
Proof.
  split; [reflexivity|].
  exact (proj1 (sync_counts digest no_type EXT false false w0 eq_refl)).
Defined.


End Examples.

End Sync.
